(** * AeroSyn-Sim core: a shallow embedding and its verified properties

    The simulation core of the drone-swarm simulator (fire grid, RF path
    loss, battery and payload, DETM transmission gate, distributed observer,
    drone agents and the tick loop) is embedded as Rocq functions, one module
    per Python source file.

    Conventions of the embedding:
    - a Python [float] is an exact real number ([R]); a Python [int] that
      counts ticks, microseconds or grid coordinates is a [Z];
    - an object mutated in place becomes a record passed in and returned;
    - a [dict] keyed by drone id is a [gmap Z _]; a [dict] whose iteration
      order is observable is an association list in insertion order;
    - an operation that can raise returns a [result]; [None] is [option];
    - a seeded [numpy.random.RandomState] is a seed and a draw counter over a
      fixed generator function; constructing one raises [ValueError] for a
      seed outside [0, 2**32 - 1], and so does a normal draw with a negative
      scale; the process-global [random] module, which nobody seeds, is a
      separate stream that no seed determines. *)

From Stdlib Require Import Reals Lra Lia ZArith List Ascii.
From stdpp Require Import gmap strings.
Import ListNotations.
Open Scope R_scope.

(* ===================================================================== *)
(** * Part I: the embedding                                               *)
(* ===================================================================== *)

(** ** Python prelude *)

#[global] Instance Rlt_decision (x y : R) : Decision (x < y) := Rlt_dec x y.
#[global] Instance Rle_decision (x y : R) : Decision (x <= y) := Rle_dec x y.
#[global] Instance Req_decision : EqDecision R := Req_dec_T.

(** Exceptions the modelled code can raise. *)
Inductive PyErr := ZeroDivisionError | ValueError | KeyError | AttributeError.

Inductive result (A : Type) : Type :=
| Ok (a : A)
| Raise (e : PyErr).
Arguments Ok {A} a.
Arguments Raise {A} e.

#[global] Instance result_ret : MRet result := fun A a => Ok a.
#[global] Instance result_bind : MBind result := fun A B k c =>
  match c with
  | Ok a => k a
  | Raise e => Raise e
  end.

(** [x / y] on floats: raises [ZeroDivisionError] when [y] is zero. *)
Definition fdiv (x y : R) : result R :=
  if decide (y = 0) then Raise ZeroDivisionError else Ok (x / y).

(** [math.log10]: raises [ValueError] outside the positive reals. *)
Definition math_log10 (x : R) : result R :=
  if decide (0 < x) then Ok (ln x / ln 10) else Raise ValueError.

(** [int(x)] on a float truncates toward zero. *)
Definition py_int (x : R) : Z :=
  if decide (0 <= x) then Int_part x else (- Int_part (- x))%Z.

(** [x % m] on floats for a positive modulus [m]: the result lies in [0, m). *)
Definition fmod (x m : R) : R := x - IZR (Int_part (x / m)) * m.

(** A float that may be [float('inf')]. *)
Inductive xfloat := Finite (r : R) | PosInf.

(** ** constants.py *)

Module constants.

Definition SIM_TICK_RATE_HZ : R := 100.
Definition SIM_TICK_PERIOD_S : R := 1.0 / SIM_TICK_RATE_HZ.
Definition SIM_TICK_PERIOD_US : Z := py_int (SIM_TICK_PERIOD_S * 1e6).

Definition BATTERY_CAPACITY_MAH : R := 5000.
Definition BATTERY_VOLTAGE_V : R := 14.8.
Definition MAX_HOVER_TIME_S : R := 1200.
Definition ENERGY_DRAIN_PER_METER : R := 0.08.
Definition ENERGY_DRAIN_HOVER_PER_SEC : R := 0.0001.
Definition BATTERY_MIN_PERCENT : R := 20.0.
Definition MAX_PAYLOAD_UNITS : R := 40.
Definition PAYLOAD_DRAIN_PER_SUPPRESSION : R := 1.0.

Definition DETM_ETA0 : R := 0.5.
Definition DETM_LAMBDA : R := 0.1.
Definition DETM_MIN_ETA : R := 0.01.

Definition BASE_PACKET_LOSS_PROBABILITY : R := 0.05.
Definition RSSI_PACKET_LOSS_THRESHOLD_DBM : R := -100.
Definition REFERENCE_DISTANCE_M : R := 1.0.
Definition PATH_LOSS_EXPONENT : R := 3.0.
Definition REFERENCE_RSSI_DBM : R := -40.
Definition RICE_K_FACTOR : R := 8.0.
Definition FADING_STD_DB : R := 2.0.
Definition SENSITIVITY_DBM : R := -110.
Definition MAX_RSSI_DBM : R := 0.
Definition BASE_LATENCY_MS : R := 5.
Definition LATENCY_RSSI_SCALE : R := 50.

Definition FIRE_GRID_WIDTH : Z := 100.
Definition FIRE_GRID_HEIGHT : Z := 100.
Definition FIRE_CELL_SIZE_M : R := 10.
Definition FIRE_SPREAD_RATE_BASE_MPM : R := 500.0.
Definition FIRE_SPREAD_RATE_WIND_SCALE : R := 2.0.
Definition WIND_SPEED_MS : R := 5.0.
Definition WIND_DIRECTION_DEG : R := 45.
Definition FUEL_DENSITY_FACTOR : R := 1.0.
Definition SUPPRESSION_EFFECTIVENESS : R := 0.9.
Definition INTENSITY_DECAY_FACTOR : R := 0.95.
Definition FIRE_INTENSITY_THRESHOLD_DETECTABLE : R := 0.1.
Definition FIRE_INTENSITY_IGNITION : R := 0.5.

Inductive DroneState :=
| IDLE | SEARCH | SUPPRESS | RETURN_TO_LAUNCH | RETURN_TO_DOCK | FORMATION.

Inductive DroneType := LEADER | FOLLOWER.

(** [max(min_val, min(max_val, value))] *)
Definition clamp (value min_val max_val : R) : R :=
  Rmax min_val (Rmin max_val value).

End constants.

(** ** energy_model.py *)

Module energy_model.
Import constants.

Record BatteryState := {
  battery_percent : R;
  battery_mah_remaining : R;
  battery_energy_wh : R;
  voltage_v : R;
  time_to_empty_s : xfloat;
  critical : bool;
  depleted : bool
}.

Record PayloadState := {
  ps_payload_units : R;
  ps_max_payload_units : R;
  payload_percent : R;
  empty : bool
}.

Record BatteryModel := {
  capacity_mah : R;
  nominal_voltage_v : R;
  total_energy_wh : R;
  remaining_energy_wh : R;
  nominal_drain_rate : R
}.

Definition set_remaining (b : BatteryModel) (e : R) : BatteryModel :=
  {| capacity_mah := capacity_mah b;
     nominal_voltage_v := nominal_voltage_v b;
     total_energy_wh := total_energy_wh b;
     remaining_energy_wh := e;
     nominal_drain_rate := nominal_drain_rate b |}.

Module BatteryModel.

(** [BatteryModel.__init__] *)
Definition init (capacity_mah voltage_v : R) : BatteryModel :=
  {| capacity_mah := capacity_mah;
     nominal_voltage_v := voltage_v;
     total_energy_wh := (capacity_mah / 1000.0) * voltage_v;
     remaining_energy_wh := (capacity_mah / 1000.0) * voltage_v;
     nominal_drain_rate := 1.0 / (MAX_HOVER_TIME_S * 3600) |}.

(** [BatteryModel.get_state]; the three divisions are by fields of the
    battery and raise when the field is zero. *)
Definition get_state (self : BatteryModel) : result BatteryState :=
  ratio ← fdiv (remaining_energy_wh self) (total_energy_wh self);
  let battery_percent := clamp (ratio * 100.0) 0.0 100.0 in
  time_to_empty ←
    (if decide (0 < nominal_drain_rate self)
     then t ← fdiv (remaining_energy_wh self)
                    (total_energy_wh self * nominal_drain_rate self);
          Ok (Finite t)
     else Ok PosInf);
  mah ← fdiv (remaining_energy_wh self) (nominal_voltage_v self);
  Ok {| battery_percent := battery_percent;
        battery_mah_remaining := mah * 1000.0;
        battery_energy_wh := remaining_energy_wh self;
        voltage_v := nominal_voltage_v self;
        time_to_empty_s := time_to_empty;
        critical := bool_decide (battery_percent < BATTERY_MIN_PERCENT);
        depleted := bool_decide (battery_percent <= 0.0) |}.

(** [drain_flight]: returns the energy consumed. *)
Definition drain_flight (self : BatteryModel) (distance_m aggressiveness : R)
  : BatteryModel * R :=
  let energy_consumed := distance_m * ENERGY_DRAIN_PER_METER * aggressiveness in
  (set_remaining self (Rmax 0.0 (remaining_energy_wh self - energy_consumed)),
   energy_consumed).

Definition drain_hover (self : BatteryModel) (time_s : R) : BatteryModel * R :=
  let energy_consumed := time_s * ENERGY_DRAIN_HOVER_PER_SEC in
  (set_remaining self (Rmax 0.0 (remaining_energy_wh self - energy_consumed)),
   energy_consumed).

Definition drain_custom (self : BatteryModel) (energy_wh : R) : BatteryModel * R :=
  let energy_drained := Rmin energy_wh (remaining_energy_wh self) in
  (set_remaining self (remaining_energy_wh self - energy_drained), energy_drained).

Definition charge (self : BatteryModel) (energy_wh : R) : BatteryModel * R :=
  let energy_added :=
    Rmin energy_wh (total_energy_wh self - remaining_energy_wh self) in
  (set_remaining self (remaining_energy_wh self + energy_added), energy_added).

Definition charge_percent (self : BatteryModel) (percent : R) : BatteryModel :=
  set_remaining self
    (clamp ((percent / 100.0) * total_energy_wh self) 0.0 (total_energy_wh self)).

Definition is_critical (self : BatteryModel) : result bool :=
  st ← get_state self; Ok (critical st).

Definition is_depleted (self : BatteryModel) : result bool :=
  st ← get_state self; Ok (depleted st).

End BatteryModel.

Record PayloadModel := {
  max_payload_units : R;
  payload_units : R
}.

Module PayloadModel.

Definition init (max_payload_units : R) : PayloadModel :=
  {| max_payload_units := max_payload_units; payload_units := max_payload_units |}.

Definition get_state (self : PayloadModel) : result PayloadState :=
  ratio ← fdiv (payload_units self) (max_payload_units self);
  Ok {| ps_payload_units := payload_units self;
        ps_max_payload_units := max_payload_units self;
        payload_percent := clamp (ratio * 100.0) 0.0 100.0;
        empty := bool_decide (payload_units self <= 0) |}.

Definition consume (self : PayloadModel) (units : R) : PayloadModel * R :=
  let consumed := Rmin units (payload_units self) in
  ({| max_payload_units := max_payload_units self;
      payload_units := Rmax 0 (payload_units self - units) |}, consumed).

Definition replenish (self : PayloadModel) (units : R) : PayloadModel * R :=
  let added := Rmin units (max_payload_units self - payload_units self) in
  ({| max_payload_units := max_payload_units self;
      payload_units := Rmin (max_payload_units self) (payload_units self + units) |},
   added).

Definition refill (self : PayloadModel) : PayloadModel :=
  {| max_payload_units := max_payload_units self;
     payload_units := max_payload_units self |}.

Definition is_empty (self : PayloadModel) : bool :=
  bool_decide (payload_units self <= 0).

End PayloadModel.

Record EnergyManager := {
  battery : BatteryModel;
  payload : PayloadModel
}.

Module EnergyManager.

Definition init (battery_capacity_mah battery_voltage_v max_payload_units : R)
  : EnergyManager :=
  {| battery := BatteryModel.init battery_capacity_mah battery_voltage_v;
     payload := PayloadModel.init max_payload_units |}.

(** The manager every drone gets from [PhysicsEngine]: [EnergyManager()]. *)
Definition default : EnergyManager :=
  init BATTERY_CAPACITY_MAH BATTERY_VOLTAGE_V MAX_PAYLOAD_UNITS.

(** [should_rtl_override]: the battery check comes first. *)
Definition should_rtl_override (self : EnergyManager) : result (bool * string) :=
  crit ← BatteryModel.is_critical (battery self);
  if (crit : bool) then Ok (true, "battery_critical"%string)
  else if PayloadModel.is_empty (payload self) then Ok (true, "payload_empty"%string)
  else Ok (false, "none"%string).

Definition update_flight (self : EnergyManager)
    (distance_m hover_time_s aggressiveness : R) : EnergyManager * R :=
  let '(b1, e1) := BatteryModel.drain_flight (battery self) distance_m aggressiveness in
  let '(b2, e2) := BatteryModel.drain_hover b1 hover_time_s in
  ({| battery := b2; payload := payload self |}, e1 + e2).

Definition update_suppression (self : EnergyManager) (strength : R)
  : EnergyManager * (R * R) :=
  let '(p, payload_consumed) :=
    PayloadModel.consume (payload self) (PAYLOAD_DRAIN_PER_SUPPRESSION * strength) in
  ({| battery := battery self; payload := p |}, (payload_consumed, 0.0)).

Definition dock (self : EnergyManager) : EnergyManager :=
  {| battery := BatteryModel.charge_percent (battery self) 100.0;
     payload := PayloadModel.refill (payload self) |}.

Definition get_energy_state (self : EnergyManager)
  : result (BatteryState * PayloadState) :=
  b ← BatteryModel.get_state (battery self);
  p ← PayloadModel.get_state (payload self);
  Ok (b, p).

(** The dictionary returned by [export_telemetry]. *)
Record EnergyTelemetry := {
  et_battery_percent : R;
  fuel_distance_m : Z;
  et_payload_remaining : R
}.

Definition export_telemetry (self : EnergyManager) : result EnergyTelemetry :=
  battery_state ← BatteryModel.get_state (battery self);
  payload_state ← PayloadModel.get_state (payload self);
  Ok {| et_battery_percent := battery_percent battery_state;
        fuel_distance_m := py_int (battery_percent battery_state * 100);
        et_payload_remaining := ps_payload_units payload_state |}.

End EnergyManager.

(** A sequence of calls on one drone's energy manager. *)
Inductive energy_op :=
| DrainFlight (distance_m aggressiveness : R)
| DrainHover (time_s : R)
| DrainCustom (energy_wh : R)
| Charge (energy_wh : R)
| ChargePercent (percent : R)
| UpdateFlight (distance_m hover_time_s aggressiveness : R)
| UpdateSuppression (strength : R)
| Dock.

Definition on_battery (f : BatteryModel -> BatteryModel) (m : EnergyManager)
  : EnergyManager :=
  {| battery := f (battery m); payload := payload m |}.

Definition apply_op (m : EnergyManager) (o : energy_op) : EnergyManager :=
  match o with
  | DrainFlight d a => on_battery (fun b => fst (BatteryModel.drain_flight b d a)) m
  | DrainHover t => on_battery (fun b => fst (BatteryModel.drain_hover b t)) m
  | DrainCustom e => on_battery (fun b => fst (BatteryModel.drain_custom b e)) m
  | Charge e => on_battery (fun b => fst (BatteryModel.charge b e)) m
  | ChargePercent p => on_battery (fun b => BatteryModel.charge_percent b p) m
  | UpdateFlight d t a => fst (EnergyManager.update_flight m d t a)
  | UpdateSuppression s => fst (EnergyManager.update_suppression m s)
  | Dock => EnergyManager.dock m
  end.

Definition run_ops (m : EnergyManager) (ops : list energy_op) : EnergyManager :=
  fold_left apply_op ops m.

(** Amounts handed to the battery are distances, durations and energies:
    never negative. *)
Definition op_nonneg (o : energy_op) : Prop :=
  match o with
  | DrainFlight d a => 0 <= d /\ 0 <= a
  | DrainHover t => 0 <= t
  | DrainCustom e => 0 <= e
  | Charge e => 0 <= e
  | ChargePercent _ => True
  | UpdateFlight d t a => 0 <= d /\ 0 <= t /\ 0 <= a
  | UpdateSuppression _ => True
  | Dock => True
  end.

(** A battery is well formed when its capacity is positive and the
    remaining energy lies between zero and the capacity. *)
Definition battery_wf (b : BatteryModel) : Prop :=
  0 < total_energy_wh b /\ 0 <= remaining_energy_wh b <= total_energy_wh b.

(** A suppression strength is a fraction of the nozzle: never negative. *)
Definition strength_nonneg (o : energy_op) : Prop :=
  match o with
  | UpdateSuppression s => 0 <= s
  | _ => True
  end.

End energy_model.

(** ** numpy.random.RandomState and the global random module *)

(** What NumPy's Mersenne Twister yields for a seed: the [k]-th value of
    [RandomState(seed).rand()] and the [k]-th standard normal variate behind
    [RandomState(seed).normal(loc, scale)]. *)
Class NumpyGenerator := {
  np_rand : Z -> nat -> R;
  np_standard_normal : Z -> nat -> R
}.

Record RandomState := {
  rs_seed : Z;
  rs_drawn : nat
}.

Module RandomState.

(** [RandomState(seed)]: NumPy accepts an integer seed between 0 and
    [2**32 - 1] and raises [ValueError] for any other. *)
Definition init (seed : Z) : result RandomState :=
  if decide (0 <= seed < 2 ^ 32)%Z
  then Ok {| rs_seed := seed; rs_drawn := 0 |}
  else Raise ValueError.

Definition rand `{NumpyGenerator} (self : RandomState) : RandomState * R :=
  ({| rs_seed := rs_seed self; rs_drawn := S (rs_drawn self) |},
   np_rand (rs_seed self) (rs_drawn self)).

(** [normal(loc, scale)]: a negative [scale] raises [ValueError] before
    anything is drawn. *)
Definition normal `{NumpyGenerator} (self : RandomState) (loc scale : R)
  : result (RandomState * R) :=
  if decide (scale < 0) then Raise ValueError
  else
    Ok ({| rs_seed := rs_seed self; rs_drawn := S (rs_drawn self) |},
        loc + scale * np_standard_normal (rs_seed self) (rs_drawn self)).

End RandomState.

(** The process-global generator behind [import random]: no code of the
    repository seeds it, so its outputs come from operating-system entropy. *)
Record GlobalRandom := {
  gr_outputs : nat -> R;
  gr_drawn : nat
}.

Module random.

(** [random.random()] *)
Definition random (g : GlobalRandom) : GlobalRandom * R :=
  ({| gr_outputs := gr_outputs g; gr_drawn := S (gr_drawn g) |},
   gr_outputs g (gr_drawn g)).

(** [random.uniform(a, b)] is [a + (b - a) * random()]. *)
Definition uniform (g : GlobalRandom) (a b : R) : GlobalRandom * R :=
  let '(g', u) := random g in (g', a + (b - a) * u).

End random.

(** ** channel_model.py *)

Module channel_model.
Import constants.

Record RiceFadingChannel := {
  k_factor : R;
  fading_std_db : R;
  rng : RandomState
}.

Module RiceFadingChannel.

Definition init (k_factor fading_std_db : R) (seed : Z) : result RiceFadingChannel :=
  rng ← RandomState.init seed;
  Ok {| k_factor := k_factor; fading_std_db := fading_std_db; rng := rng |}.

Definition generate_fading `{NumpyGenerator} (self : RiceFadingChannel)
  : result (RiceFadingChannel * R) :=
  '(rng', fading_db) ← RandomState.normal (rng self) 0.0 (fading_std_db self);
  Ok ({| k_factor := k_factor self; fading_std_db := fading_std_db self; rng := rng' |},
      fading_db).

Definition get_k_factor (self : RiceFadingChannel) : R := k_factor self.

Definition set_k_factor (self : RiceFadingChannel) (k : R) : RiceFadingChannel :=
  {| k_factor := Rmax 0.1 k; fading_std_db := fading_std_db self; rng := rng self |}.

End RiceFadingChannel.

Record PathLossModel := {
  reference_distance_m : R;
  path_loss_exponent : R;
  reference_rssi_dbm : R
}.

Module PathLossModel.

Definition init (reference_distance_m path_loss_exponent reference_rssi_dbm : R)
  : PathLossModel :=
  {| reference_distance_m := reference_distance_m;
     path_loss_exponent := path_loss_exponent;
     reference_rssi_dbm := reference_rssi_dbm |}.

Definition default : PathLossModel :=
  init REFERENCE_DISTANCE_M PATH_LOSS_EXPONENT REFERENCE_RSSI_DBM.

(** [calculate_path_loss]: zero at or below distance zero, otherwise
    [10 n log10(d / d0)]. *)
Definition calculate_path_loss (self : PathLossModel) (distance_m : R) : result R :=
  if decide (distance_m <= 0) then Ok 0.0
  else
    q ← fdiv distance_m (reference_distance_m self);
    l ← math_log10 q;
    Ok (10.0 * path_loss_exponent self * l).

Definition calculate_rssi (self : PathLossModel) (distance_m : R) : result R :=
  path_loss ← calculate_path_loss self distance_m;
  Ok (clamp (reference_rssi_dbm self - path_loss) (-200.0) MAX_RSSI_DBM).

End PathLossModel.

Record ChannelState := {
  distance_m : R;
  path_loss_db : R;
  fading_db : R;
  total_loss_db : R;
  rssi_dbm : R;
  link_quality : R;
  packet_loss_probability : R;
  estimated_latency_ms : R
}.

(** An [RFLink]; the path-loss model and the fading channel it refers to
    are the manager's, shared by every link. *)
Record RFLink := {
  sender_id : Z;
  receiver_id : Z;
  state : ChannelState
}.

Module RFLink.

Definition init (sender_id receiver_id : Z) : RFLink :=
  {| sender_id := sender_id; receiver_id := receiver_id;
     state := {| distance_m := 0; path_loss_db := 0; fading_db := 0;
                 total_loss_db := 0; rssi_dbm := REFERENCE_RSSI_DBM;
                 link_quality := 1.0; packet_loss_probability := 0;
                 estimated_latency_ms := 0 |} |}.

Definition update `{NumpyGenerator} (plm : PathLossModel) (fc : RiceFadingChannel)
    (self : RFLink) (d : R) : result (RiceFadingChannel * RFLink * ChannelState) :=
  path_loss ← PathLossModel.calculate_path_loss plm d;
  '(fc', fading) ← RiceFadingChannel.generate_fading fc;
  let total_loss := path_loss + fading in
  let rssi := clamp (reference_rssi_dbm plm - total_loss) (-200.0) MAX_RSSI_DBM in
  let rssi_range := REFERENCE_RSSI_DBM - SENSITIVITY_DBM in
  let current_range := rssi - SENSITIVITY_DBM in
  let quality := clamp (current_range / rssi_range) 0.0 1.0 in
  let loss :=
    if decide (rssi < RSSI_PACKET_LOSS_THRESHOLD_DBM)
    then clamp (BASE_PACKET_LOSS_PROBABILITY
                + 0.1 * ((RSSI_PACKET_LOSS_THRESHOLD_DBM - rssi) / 10.0)) 0.0 1.0
    else BASE_PACKET_LOSS_PROBABILITY in
  let latency :=
    if decide (rssi < reference_rssi_dbm plm)
    then BASE_LATENCY_MS
         + (reference_rssi_dbm plm - rssi) * (LATENCY_RSSI_SCALE / 10.0)
    else BASE_LATENCY_MS in
  let st := {| distance_m := d; path_loss_db := path_loss; fading_db := fading;
               total_loss_db := total_loss; rssi_dbm := rssi;
               link_quality := quality; packet_loss_probability := loss;
               estimated_latency_ms := latency |} in
  Ok (fc', {| sender_id := sender_id self; receiver_id := receiver_id self;
              state := st |}, st).

Definition get_state (self : RFLink) : ChannelState := state self.

Definition is_connected (self : RFLink) : bool :=
  bool_decide (SENSITIVITY_DBM <= rssi_dbm (state self)).

End RFLink.

Record ChannelManager := {
  seed : Z;
  path_loss_model : PathLossModel;
  fading_channel : RiceFadingChannel;
  links : gmap (Z * Z) RFLink
}.

Module ChannelManager.

Definition init (seed : Z) : result ChannelManager :=
  fading_channel ← RiceFadingChannel.init RICE_K_FACTOR FADING_STD_DB seed;
  Ok {| seed := seed;
        path_loss_model := PathLossModel.default;
        fading_channel := fading_channel;
        links := ∅ |}.

Definition ensure_link (self : ChannelManager) (sender_id receiver_id : Z)
  : ChannelManager * RFLink :=
  match links self !! (sender_id, receiver_id) with
  | Some l => (self, l)
  | None =>
      let l := RFLink.init sender_id receiver_id in
      ({| seed := seed self; path_loss_model := path_loss_model self;
          fading_channel := fading_channel self;
          links := <[(sender_id, receiver_id) := l]> (links self) |}, l)
  end.

Definition update_link `{NumpyGenerator} (self : ChannelManager)
    (sender_id receiver_id : Z) (d : R) : result (ChannelManager * ChannelState) :=
  let '(self1, link) := ensure_link self sender_id receiver_id in
  '(fc', link', st) ←
    RFLink.update (path_loss_model self1) (fading_channel self1) link d;
  Ok ({| seed := seed self1; path_loss_model := path_loss_model self1;
         fading_channel := fc';
         links := <[(sender_id, receiver_id) := link']> (links self1) |}, st).

Definition get_channel_state (self : ChannelManager) (sender_id receiver_id : Z)
  : ChannelManager * ChannelState :=
  let '(self1, link) := ensure_link self sender_id receiver_id in
  (self1, RFLink.get_state link).

Definition is_link_connected (self : ChannelManager) (sender_id receiver_id : Z)
  : ChannelManager * bool :=
  let '(self1, link) := ensure_link self sender_id receiver_id in
  (self1, RFLink.is_connected link).

Definition get_all_link_states (self : ChannelManager) : gmap (Z * Z) ChannelState :=
  RFLink.get_state <$> links self.

End ChannelManager.

End channel_model.

(** ** detm_controller.py *)

Module detm_controller.
Import constants.

(** [str.lower()] on ASCII text. *)
Definition ascii_lower (c : ascii) : ascii :=
  let n := nat_of_ascii c in
  if (Nat.leb 65 n && Nat.leb n 90)%bool then ascii_of_nat (n + 32) else c.

Fixpoint str_lower (s : string) : string :=
  match s with
  | EmptyString => EmptyString
  | String c r => String (ascii_lower c) (str_lower r)
  end.

(** The transmitted state: the tuple [(x, y, z, vx, vy, vz)]. *)
Definition state6 : Type := R * R * R * R * R * R.

Definition tuple_items (t : state6) : list R :=
  let '(x, y, z, vx, vy, vz) := t in [x; y; z; vx; vy; vz].

Record DetmState := {
  drone_id : Z;
  eta0 : R;
  lambda_decay : R;
  norm_type : string;
  last_transmitted_state : state6;
  last_transmitted_time_us : Z;
  current_eta : R;
  eta_age_ticks : Z;
  transmissions_total : Z;
  triggers_fired : Z;
  triggers_suppressed : Z
}.

Record DETMController := {
  states : gmap Z DetmState
}.

(** [zip] of two tuples, as Python's: stops at the shorter one. *)
Fixpoint zip (a b : list R) : list (R * R) :=
  match a, b with
  | x :: a', y :: b' => (x, y) :: zip a' b'
  | _, _ => []
  end.

(** The built-in [sum] of a sequence of floats. *)
Definition py_sum (l : list R) : R := fold_left Rplus l 0.

(** The built-in [max] of a sequence: [ValueError] when it is empty. *)
Definition py_max (l : list R) : result R :=
  match l with
  | [] => Raise ValueError
  | x :: r => Ok (fold_left Rmax r x)
  end.

(** The dictionary returned by [get_statistics]. *)
Record DetmStatistics := {
  st_drone_id : Z;
  st_transmissions_total : Z;
  st_triggers_fired : Z;
  st_triggers_suppressed : Z;
  suppression_rate_percent : R;
  st_current_eta : R;
  st_eta0 : R
}.

Module DETMController.

Definition init : DETMController := {| states := ∅ |}.

Definition register_drone (self : DETMController) (drone_id : Z)
    (eta0 lambda_decay : R) (norm_type : string) : DETMController :=
  {| states :=
       <[drone_id :=
           {| drone_id := drone_id;
              eta0 := eta0;
              lambda_decay := lambda_decay;
              norm_type := str_lower norm_type;
              last_transmitted_state := (0, 0, 0, 0, 0, 0);
              last_transmitted_time_us := 0;
              current_eta := eta0;
              eta_age_ticks := 0;
              transmissions_total := 0;
              triggers_fired := 0;
              triggers_suppressed := 0 |}]> (states self) |}.

(** [_calculate_error_l2] *)
Definition _calculate_error_l2 (state_current state_last : list R) : xfloat :=
  if decide (length state_current = length state_last) then
    let sum_sq := py_sum (map (fun '(c, l) => (c - l) ^ 2) (zip state_current state_last)) in
    Finite (sqrt sum_sq)
  else PosInf.

(** [_calculate_error_linf] *)
Definition _calculate_error_linf (state_current state_last : list R)
  : result xfloat :=
  if decide (length state_current = length state_last) then
    m ← py_max (map (fun '(c, l) => Rabs (c - l)) (zip state_current state_last));
    Ok (Finite m)
  else Ok PosInf.

(** [error > eta] when [error] may be infinite. *)
Definition xfloat_gt (e : xfloat) (eta : R) : bool :=
  match e with
  | Finite r => bool_decide (eta < r)
  | PosInf => true
  end.

(** [should_transmit]: returns [(should_tx, current_eta)] and stores the
    threshold and the decision counters in the drone's record. *)
Definition should_transmit (self : DETMController) (drone_id time_us : Z)
    (x y z vx vy vz : R) : result (DETMController * (bool * R)) :=
  match states self !! drone_id with
  | None => Ok (self, (true, DETM_ETA0))
  | Some state =>
      let current_state := (x, y, z, vx, vy, vz) in
      let delta_t_us := (time_us - last_transmitted_time_us state)%Z in
      let delta_t_s := IZR delta_t_us / 1e6 in
      let eta := eta0 state * exp (- lambda_decay state * delta_t_s) in
      let eta := Rmax eta DETM_MIN_ETA in
      error ←
        (if decide (norm_type state = "l2"%string)
         then Ok (_calculate_error_l2 (tuple_items current_state)
                    (tuple_items (last_transmitted_state state)))
         else _calculate_error_linf (tuple_items current_state)
                (tuple_items (last_transmitted_state state)));
      let should_tx := xfloat_gt error eta in
      let state' :=
        {| drone_id := detm_controller.drone_id state;
           eta0 := eta0 state;
           lambda_decay := lambda_decay state;
           norm_type := norm_type state;
           last_transmitted_state := last_transmitted_state state;
           last_transmitted_time_us := last_transmitted_time_us state;
           current_eta := eta;
           eta_age_ticks := eta_age_ticks state;
           transmissions_total := transmissions_total state;
           triggers_fired :=
             if should_tx then (triggers_fired state + 1)%Z else triggers_fired state;
           triggers_suppressed :=
             if should_tx then triggers_suppressed state
             else (triggers_suppressed state + 1)%Z |} in
      Ok ({| states := <[drone_id := state']> (states self) |}, (should_tx, eta))
  end.

Definition record_transmission (self : DETMController) (drone_id time_us : Z)
    (x y z vx vy vz : R) : DETMController :=
  match states self !! drone_id with
  | None => self
  | Some state =>
      {| states :=
           <[drone_id :=
               {| drone_id := detm_controller.drone_id state;
                  eta0 := eta0 state;
                  lambda_decay := lambda_decay state;
                  norm_type := norm_type state;
                  last_transmitted_state := (x, y, z, vx, vy, vz);
                  last_transmitted_time_us := time_us;
                  current_eta := current_eta state;
                  eta_age_ticks := eta_age_ticks state;
                  transmissions_total := (transmissions_total state + 1)%Z;
                  triggers_fired := triggers_fired state;
                  triggers_suppressed := triggers_suppressed state |}]>
           (states self) |}
  end.

Definition get_state (self : DETMController) (drone_id : Z) : option DetmState :=
  states self !! drone_id.

(** [get_statistics]: the empty dictionary for an unknown drone. *)
Definition get_statistics (self : DETMController) (drone_id : Z)
  : option DetmStatistics :=
  match states self !! drone_id with
  | None => None
  | Some state =>
      let total_decisions := (triggers_fired state + triggers_suppressed state)%Z in
      let suppress_rate :=
        if bool_decide (0 < total_decisions)%Z
        then IZR (triggers_suppressed state) / IZR total_decisions * 100.0
        else 0.0 in
      Some {| st_drone_id := drone_id;
              st_transmissions_total := transmissions_total state;
              st_triggers_fired := triggers_fired state;
              st_triggers_suppressed := triggers_suppressed state;
              suppression_rate_percent := suppress_rate;
              st_current_eta := current_eta state;
              st_eta0 := eta0 state |}
  end.

End DETMController.

(** The two norms of the difference of two state tuples. *)
Definition norm_l2 (s s0 : state6) : R :=
  let '(x, y, z, vx, vy, vz) := s in
  let '(x0, y0, z0, vx0, vy0, vz0) := s0 in
  sqrt ((x - x0) ^ 2 + (y - y0) ^ 2 + (z - z0) ^ 2
        + (vx - vx0) ^ 2 + (vy - vy0) ^ 2 + (vz - vz0) ^ 2).

Definition norm_linf (s s0 : state6) : R :=
  let '(x, y, z, vx, vy, vz) := s in
  let '(x0, y0, z0, vx0, vy0, vz0) := s0 in
  Rmax (Rmax (Rmax (Rmax (Rmax (Rabs (x - x0)) (Rabs (y - y0))) (Rabs (z - z0)))
                (Rabs (vx - vx0))) (Rabs (vy - vy0))) (Rabs (vz - vz0)).

Definition chosen_norm (st : DetmState) (s : state6) : R :=
  if decide (norm_type st = "l2"%string)
  then norm_l2 s (last_transmitted_state st)
  else norm_linf s (last_transmitted_state st).

Definition threshold (st : DetmState) (time_us : Z) : R :=
  Rmax DETM_MIN_ETA
    (eta0 st * exp (- lambda_decay st
                    * (IZR (time_us - last_transmitted_time_us st) / 1e6))).

End detm_controller.

(** ** distributed_observer.py *)

(** A [dict] whose iteration order matters: pairs in insertion order; a
    store to a present key replaces the value where it stands. *)
Fixpoint dict_get {V : Type} (d : list (Z * V)) (k : Z) : option V :=
  match d with
  | [] => None
  | (k', v) :: r => if decide (k' = k) then Some v else dict_get r k
  end.

Fixpoint dict_set {V : Type} (d : list (Z * V)) (k : Z) (v : V) : list (Z * V) :=
  match d with
  | [] => [(k, v)]
  | (k', v') :: r =>
      if decide (k' = k) then (k, v) :: r else (k', v') :: dict_set r k v
  end.

Module distributed_observer.

Record NeighborEstimate := {
  neighbor_id : Z;
  estimated_x : R;
  estimated_y : R;
  estimated_z : R;
  estimated_vx : R;
  estimated_vy : R;
  estimated_vz : R;
  estimate_time_us : Z;
  estimate_age_ticks : Z;
  estimate_confidence : R;
  velocity_model_stale : bool
}.

Record LocalizationObserverState := {
  drone_id : Z;
  max_latency_ticks : Z;
  constant_velocity_timeout_ticks : Z;
  confidence_decay_rate : R;
  neighbors : list (Z * NeighborEstimate)
}.

Record DistributedObserver := {
  local_states : gmap Z LocalizationObserverState;
  do_max_latency_ticks : Z;
  do_constant_velocity_timeout_ticks : Z;
  confidence_decay_factor : R
}.

Definition with_neighbors (o : LocalizationObserverState)
    (n : list (Z * NeighborEstimate)) : LocalizationObserverState :=
  {| drone_id := drone_id o;
     max_latency_ticks := max_latency_ticks o;
     constant_velocity_timeout_ticks := constant_velocity_timeout_ticks o;
     confidence_decay_rate := confidence_decay_rate o;
     neighbors := n |}.

Definition with_local_states (self : DistributedObserver)
    (m : gmap Z LocalizationObserverState) : DistributedObserver :=
  {| local_states := m;
     do_max_latency_ticks := do_max_latency_ticks self;
     do_constant_velocity_timeout_ticks := do_constant_velocity_timeout_ticks self;
     confidence_decay_factor := confidence_decay_factor self |}.

Module DistributedObserver.

Definition init (max_latency_ms constant_velocity_timeout_ms : Z)
    (confidence_decay_factor : R) : DistributedObserver :=
  {| local_states := ∅;
     do_max_latency_ticks := py_int (IZR max_latency_ms / 10);
     do_constant_velocity_timeout_ticks := py_int (IZR constant_velocity_timeout_ms / 10);
     confidence_decay_factor := confidence_decay_factor |}.

(** [DistributedObserver()] with the default arguments. *)
Definition default : DistributedObserver := init 500 200 0.95.

Definition register_drone (self : DistributedObserver) (drone_id : Z)
    (neighbor_ids : list Z) : DistributedObserver :=
  let fresh :=
    {| drone_id := drone_id;
       max_latency_ticks := do_max_latency_ticks self;
       constant_velocity_timeout_ticks := do_constant_velocity_timeout_ticks self;
       confidence_decay_rate := confidence_decay_factor self;
       neighbors := [] |} in
  let add (d : list (Z * NeighborEstimate)) (nid : Z) :=
    dict_set d nid
      {| neighbor_id := nid;
         estimated_x := 0; estimated_y := 0; estimated_z := 0;
         estimated_vx := 0; estimated_vy := 0; estimated_vz := 0;
         estimate_time_us := 0;
         estimate_age_ticks := 0;
         estimate_confidence := 0.0;
         velocity_model_stale := true |} in
  with_local_states self
    (<[drone_id := with_neighbors fresh (fold_left add neighbor_ids [])]>
       (local_states self)).

(** [update_neighbor]: an unknown neighbor of a known observer is
    inserted; a known one is overwritten. Both store the same record. *)
Definition update_neighbor (self : DistributedObserver)
    (observer_drone_id neighbor_id time_us : Z) (x y z vx vy vz : R)
  : DistributedObserver :=
  match local_states self !! observer_drone_id with
  | None => self
  | Some observer =>
      let est :=
        {| neighbor_id := neighbor_id;
           estimated_x := x; estimated_y := y; estimated_z := z;
           estimated_vx := vx; estimated_vy := vy; estimated_vz := vz;
           estimate_time_us := time_us;
           estimate_age_ticks := 0;
           estimate_confidence := 1.0;
           velocity_model_stale := false |} in
      match dict_get (neighbors observer) neighbor_id with
      | None =>
          with_local_states self
            (<[observer_drone_id :=
                 with_neighbors observer (dict_set (neighbors observer) neighbor_id est)]>
               (local_states self))
      | Some estimate =>
          with_local_states self
            (<[observer_drone_id :=
                 with_neighbors observer
                   (dict_set (neighbors observer) neighbor_id
                      {| neighbor_id := distributed_observer.neighbor_id estimate;
                         estimated_x := x; estimated_y := y; estimated_z := z;
                         estimated_vx := vx; estimated_vy := vy; estimated_vz := vz;
                         estimate_time_us := time_us;
                         estimate_age_ticks := 0;
                         estimate_confidence := 1.0;
                         velocity_model_stale := false |})]>
               (local_states self))
      end
  end.

(** The estimate after one [predict_neighbor_state] call. *)
Definition aged (observer : LocalizationObserverState) (estimate : NeighborEstimate)
  : NeighborEstimate :=
  let age := (estimate_age_ticks estimate + 1)%Z in
  let max_age_ticks := 100 in
  let age_ratio := Rmin (IZR age / max_age_ticks) 1.0 in
  let confidence := 1.0 - 0.8 * age_ratio in
  let stale :=
    if decide (max_latency_ticks observer < age)%Z
    then (if velocity_model_stale estimate then velocity_model_stale estimate else true)
    else velocity_model_stale estimate in
  let timed_out := bool_decide (constant_velocity_timeout_ticks observer < age)%Z in
  {| neighbor_id := neighbor_id estimate;
     estimated_x := estimated_x estimate;
     estimated_y := estimated_y estimate;
     estimated_z := estimated_z estimate;
     estimated_vx := if timed_out then 0 else estimated_vx estimate;
     estimated_vy := if timed_out then 0 else estimated_vy estimate;
     estimated_vz := if timed_out then 0 else estimated_vz estimate;
     estimate_time_us := estimate_time_us estimate;
     estimate_age_ticks := age;
     estimate_confidence := confidence;
     velocity_model_stale := stale |}.

(** [predict_neighbor_state]: [None] for an unknown observer or neighbor;
    otherwise ages the estimate in place and returns
    [(x, y, z, confidence)]. *)
Definition predict_neighbor_state (self : DistributedObserver)
    (observer_drone_id neighbor_id current_time_us : Z)
  : DistributedObserver * option (R * R * R * R) :=
  match local_states self !! observer_drone_id with
  | None => (self, None)
  | Some observer =>
      match dict_get (neighbors observer) neighbor_id with
      | None => (self, None)
      | Some estimate =>
          let e := aged observer estimate in
          let time_delta_s := IZR (current_time_us - estimate_time_us e) / 1e6 in
          let predicted_x := estimated_x e + estimated_vx e * time_delta_s in
          let predicted_y := estimated_y e + estimated_vy e * time_delta_s in
          let predicted_z := estimated_z e + estimated_vz e * time_delta_s in
          (with_local_states self
             (<[observer_drone_id :=
                  with_neighbors observer (dict_set (neighbors observer) neighbor_id e)]>
                (local_states self)),
           Some (predicted_x, predicted_y, predicted_z, estimate_confidence e))
      end
  end.

Definition get_separation_to_neighbor (self : DistributedObserver)
    (observer_drone_id neighbor_id current_time_us : Z) (drone_x drone_y drone_z : R)
  : DistributedObserver * option R :=
  match predict_neighbor_state self observer_drone_id neighbor_id current_time_us with
  | (self', None) => (self', None)
  | (self', Some (pred_x, pred_y, pred_z, _)) =>
      let dx := pred_x - drone_x in
      let dy := pred_y - drone_y in
      let dz := pred_z - drone_z in
      (self', Some (sqrt (dx ^ 2 + dy ^ 2 + dz ^ 2)))
  end.

(** [check_collision_risk]: walks the observer's neighbors in insertion
    order; every visit ages that neighbor's estimate. *)
Definition check_collision_risk (self : DistributedObserver)
    (observer_drone_id current_time_us : Z) (drone_x drone_y drone_z : R)
    (min_separation_m : R) : DistributedObserver * list (Z * R) :=
  match local_states self !! observer_drone_id with
  | None => (self, [])
  | Some observer =>
      fold_left
        (fun (acc : DistributedObserver * list (Z * R)) (item : Z * NeighborEstimate) =>
           let '(obs, risky_neighbors) := acc in
           let nid := fst item in
           match get_separation_to_neighbor obs observer_drone_id nid
                   current_time_us drone_x drone_y drone_z with
           | (obs', Some separation) =>
               if decide (separation < min_separation_m)
               then (obs', risky_neighbors ++ [(nid, separation)])
               else (obs', risky_neighbors)
           | (obs', None) => (obs', risky_neighbors)
           end)
        (neighbors observer) (self, [])
  end.

Definition get_observer_state (self : DistributedObserver) (drone_id : Z)
  : option LocalizationObserverState :=
  local_states self !! drone_id.

(** [step]: the loops over observers and estimates have an empty body. *)
Definition step (self : DistributedObserver) : DistributedObserver := self.

End DistributedObserver.

(** The calls that read an observer's estimates; none of them is
    [update_neighbor] or [register_drone]. *)
Inductive observer_query :=
| Predict (observer_drone_id neighbor_id current_time_us : Z)
| Separation (observer_drone_id neighbor_id current_time_us : Z)
    (drone_x drone_y drone_z : R)
| CollisionRisk (observer_drone_id current_time_us : Z)
    (drone_x drone_y drone_z min_separation_m : R)
| ObserverStep.

Definition run_query (self : DistributedObserver) (q : observer_query)
  : DistributedObserver :=
  match q with
  | Predict o n t => fst (DistributedObserver.predict_neighbor_state self o n t)
  | Separation o n t x y z =>
      fst (DistributedObserver.get_separation_to_neighbor self o n t x y z)
  | CollisionRisk o t x y z m =>
      fst (DistributedObserver.check_collision_risk self o t x y z m)
  | ObserverStep => DistributedObserver.step self
  end.

Definition run_queries (self : DistributedObserver) (qs : list observer_query)
  : DistributedObserver :=
  fold_left run_query qs self.

(** The estimate an observer holds for a neighbor, if any. *)
Definition estimate_of (self : DistributedObserver) (observer_drone_id neighbor_id : Z)
  : option NeighborEstimate :=
  match local_states self !! observer_drone_id with
  | None => None
  | Some observer => dict_get (neighbors observer) neighbor_id
  end.

(** The confidence of an estimate that is [age] ticks old. *)
Definition confidence_at (age : Z) : R := 1 - 0.8 * Rmin (IZR age / 100) 1.

End distributed_observer.

(** ** fire_simulation.py *)

(** [range(a, b)] *)
Definition py_range (a b : Z) : list Z :=
  map (fun i => (a + Z.of_nat i)%Z) (seq 0 (Z.to_nat (b - a))).

(** A loop whose body can raise. *)
Fixpoint foldM {A B : Type} (f : A -> B -> result A) (l : list B) (a : A) : result A :=
  match l with
  | [] => Ok a
  | b :: r => a' ← f a b; foldM f r a'
  end.

Module fire_simulation.
Import constants.

Inductive CellState := NO_FIRE | BURNING | BURNED | SUPPRESSED.

#[global] Instance CellState_eq_dec : EqDecision CellState.
Proof. solve_decision. Defined.

Record FireCell := {
  cell_x : Z;
  cell_y : Z;
  state : CellState;
  intensity : R;
  fuel_density : R;
  temperature_k : R;
  ignition_time_us : Z;
  suppression_age_ticks : Z
}.

Module FireCell.

Definition is_burning (self : FireCell) : bool :=
  bool_decide (state self = BURNING) && bool_decide (0 < intensity self).

Definition is_detectable (self : FireCell) : bool :=
  bool_decide (FIRE_INTENSITY_THRESHOLD_DETECTABLE <= intensity self).

End FireCell.

Record WindModel := {
  wind_speed_ms : R;
  wind_direction_deg : R
}.

Module WindModel.

Definition init (speed_ms direction_deg : R) : WindModel :=
  {| wind_speed_ms := speed_ms; wind_direction_deg := fmod direction_deg 360.0 |}.

Definition default : WindModel := init WIND_SPEED_MS WIND_DIRECTION_DEG.

(** [math.radians(90.0 - direction)], then the two components. *)
Definition get_wind_vector (self : WindModel) : R * R :=
  let angle_rad := (90.0 - wind_direction_deg self) * (PI / 180) in
  (wind_speed_ms self * cos angle_rad, wind_speed_ms self * sin angle_rad).

Definition set_wind (self : WindModel) (speed_ms direction_deg : R) : WindModel :=
  {| wind_speed_ms := Rmax 0.0 speed_ms;
     wind_direction_deg := fmod direction_deg 360.0 |}.

End WindModel.

(** The grid is the array [grid[y, x]]; every access of the code is on
    coordinates that passed [_in_bounds], so the array is the function from
    coordinates to cells and the values outside the bounds are never read. *)
Record FireSimulation := {
  width : Z;
  height : Z;
  cell_size_m : R;
  rng : RandomState;
  grid : Z -> Z -> FireCell;
  wind_model : WindModel;
  ticks : Z;
  time_us : Z;
  total_burned_cells : Z
}.

(** [grid[y, x] = c] *)
Definition grid_set (g : Z -> Z -> FireCell) (y x : Z) (c : FireCell)
  : Z -> Z -> FireCell :=
  fun y' x' => if decide (y' = y /\ x' = x) then c else g y' x'.

Definition with_grid (self : FireSimulation) (g : Z -> Z -> FireCell) : FireSimulation :=
  {| width := width self; height := height self; cell_size_m := cell_size_m self;
     rng := rng self; grid := g; wind_model := wind_model self;
     ticks := ticks self; time_us := time_us self;
     total_burned_cells := total_burned_cells self |}.

Definition with_rng (self : FireSimulation) (r : RandomState) : FireSimulation :=
  {| width := width self; height := height self; cell_size_m := cell_size_m self;
     rng := r; grid := grid self; wind_model := wind_model self;
     ticks := ticks self; time_us := time_us self;
     total_burned_cells := total_burned_cells self |}.

Definition with_wind (self : FireSimulation) (w : WindModel) : FireSimulation :=
  {| width := width self; height := height self; cell_size_m := cell_size_m self;
     rng := rng self; grid := grid self; wind_model := w;
     ticks := ticks self; time_us := time_us self;
     total_burned_cells := total_burned_cells self |}.

(** The summary returned by [get_fire_state]. *)
Record FireSummary := {
  total_burning_cells : Z;
  fs_total_burned_cells : Z;
  max_intensity : R;
  fire_coverage_percent : R;
  perimeter_cells : Z;
  total_fuel_remaining : R;
  fs_wind_speed_ms : R;
  fs_wind_direction_deg : R
}.

Module FireSimulation.

(** [__init__]: the generator is made first, then the array is allocated;
    [np.empty((height, width))] raises [ValueError] for a negative
    dimension. *)
Definition init (width height : Z) (cell_size_m : R) (seed : Z)
  : result FireSimulation :=
  rng ← RandomState.init seed;
  if decide (height < 0 \/ width < 0)%Z then Raise ValueError
  else
    Ok {| width := width; height := height; cell_size_m := cell_size_m;
          rng := rng;
          grid := fun y x =>
            {| cell_x := x; cell_y := y; state := NO_FIRE; intensity := 0.0;
               fuel_density := FUEL_DENSITY_FACTOR; temperature_k := 293.0;
               ignition_time_us := 0; suppression_age_ticks := 0 |};
          wind_model := WindModel.default;
          ticks := 0; time_us := 0; total_burned_cells := 0 |}.

Definition _in_bounds (self : FireSimulation) (x y : Z) : bool :=
  bool_decide (0 <= x < width self)%Z && bool_decide (0 <= y < height self)%Z.

Definition ignite (self : FireSimulation) (x y : Z) (intensity : R)
  : FireSimulation * bool :=
  if negb (_in_bounds self x y) then (self, false)
  else
    let cell := grid self y x in
    let cell' :=
      {| cell_x := cell_x cell; cell_y := cell_y cell;
         state := BURNING;
         intensity := Rmax intensity FIRE_INTENSITY_IGNITION;
         fuel_density := fuel_density cell;
         temperature_k := 500.0;
         ignition_time_us := time_us self;
         suppression_age_ticks := suppression_age_ticks cell |} in
    (with_grid self (grid_set (grid self) y x cell'), true).

Definition suppress (self : FireSimulation) (x y : Z) (strength : R)
  : FireSimulation * R :=
  if negb (_in_bounds self x y) then (self, 0.0)
  else
    let cell := grid self y x in
    let reduction :=
      fire_simulation.intensity cell * strength * SUPPRESSION_EFFECTIVENESS in
    let intensity' := Rmax 0.0 (fire_simulation.intensity cell - reduction) in
    let out := bool_decide (intensity' <= 0) in
    let cell' :=
      {| cell_x := cell_x cell; cell_y := cell_y cell;
         state := if out then SUPPRESSED else state cell;
         intensity := intensity';
         fuel_density := fuel_density cell;
         temperature_k := if out then 300.0 else temperature_k cell;
         ignition_time_us := ignition_time_us cell;
         suppression_age_ticks := 0 |} in
    (with_grid self (grid_set (grid self) y x cell'), reduction).

(** [_calculate_spread_distance]; the last division is by the cell size
    the simulation was constructed with. *)
Definition _calculate_spread_distance (self : FireSimulation) (cell : FireCell)
    (wind_vx wind_vy : R) : result R :=
  let spread_mpm := FIRE_SPREAD_RATE_BASE_MPM * fuel_density cell in
  let wind_magnitude := sqrt (wind_vx ^ 2 + wind_vy ^ 2) in
  let wind_factor :=
    1.0 + (wind_magnitude / WIND_SPEED_MS) * FIRE_SPREAD_RATE_WIND_SCALE in
  let spread_mpm := spread_mpm * wind_factor in
  let spread_m_per_step := (spread_mpm / 60.0) * SIM_TICK_PERIOD_S in
  spread_cells ← fdiv spread_m_per_step (cell_size_m self);
  Ok (Rmax 1.0 spread_cells).

Definition _get_neighbors_within_distance (self : FireSimulation) (x y : Z)
    (distance : R) : list (Z * Z * R) :=
  let search_radius := (py_int distance + 1)%Z in
  flat_map
    (fun dy =>
       flat_map
         (fun dx =>
            if bool_decide (dx = 0 /\ dy = 0)%Z then []
            else
              let nx := (x + dx)%Z in
              let ny := (y + dy)%Z in
              if negb (_in_bounds self nx ny) then []
              else
                let dist := sqrt (IZR (dx ^ 2 + dy ^ 2)) in
                if decide (dist <= distance) then [(nx, ny, dist)] else [])
         (py_range (- search_radius) (search_radius + 1)))
    (py_range (- search_radius) (search_radius + 1)).

Definition _get_8_neighbors (self : FireSimulation) (x y : Z) : list (Z * Z) :=
  flat_map
    (fun dy =>
       flat_map
         (fun dx =>
            if bool_decide (dx = 0 /\ dy = 0)%Z then []
            else
              let nx := (x + dx)%Z in
              let ny := (y + dy)%Z in
              if _in_bounds self nx ny then [(nx, ny)] else [])
         [-1; 0; 1]%Z)
    [-1; 0; 1]%Z.

(** The cells in the order of
    [for y in range(height): for x in range(width)], as [(x, y)]. *)
Definition cells (self : FireSimulation) : list (Z * Z) :=
  flat_map (fun y => map (fun x => (x, y)) (py_range 0 (width self)))
    (py_range 0 (height self)).

(** The body of the loop over the neighbors of a burning cell: a
    neighbor that is not [NO_FIRE] or has no fuel is skipped without a
    draw; any other costs one draw of the grid's generator. *)
Definition try_spread `{NumpyGenerator} (self : FireSimulation) (cell : FireCell)
    (spread_distance_cells : R) (acc : RandomState * list (Z * Z * R))
    (n : Z * Z * R) : RandomState * list (Z * Z * R) :=
  let '(rng, cells_to_ignite) := acc in
  let '(nx, ny, dist) := n in
  let neighbor := grid self ny nx in
  if bool_decide (state neighbor <> NO_FIRE) || bool_decide (fuel_density neighbor <= 0)
  then acc
  else
    let distance_factor :=
      0.2 + 0.8 * (1.0 - (dist / (spread_distance_cells + 0.1))) in
    let ignition_prob :=
      Rmin 1.0 (intensity cell * distance_factor * fuel_density neighbor * 0.5) in
    let '(rng', draw) := RandomState.rand rng in
    if decide (draw < ignition_prob)
    then (rng', cells_to_ignite ++ [(nx, ny, intensity cell * distance_factor * 0.5)])
    else (rng', cells_to_ignite).

(** The body of the sweep over the grid, for the cell at [(x, y)]. *)
Definition burn `{NumpyGenerator} (wind_vx wind_vy : R)
    (acc : FireSimulation * list (Z * Z * R)) (xy : Z * Z)
  : result (FireSimulation * list (Z * Z * R)) :=
  let '(self, cells_to_ignite) := acc in
  let '(x, y) := xy in
  let cell := grid self y x in
  if negb (FireCell.is_burning cell) then Ok acc
  else
    let intensity1 := intensity cell * INTENSITY_DECAY_FACTOR in
    let temperature1 := 300.0 + intensity1 * 700.0 in
    let fuel_burn_rate := intensity1 * 0.01 in
    let fuel1 := Rmax 0.0 (fuel_density cell - fuel_burn_rate) in
    if bool_decide (fuel1 <= 0.0) || bool_decide (intensity1 <= 0.001)
    then
      let cell' :=
        {| cell_x := cell_x cell; cell_y := cell_y cell;
           state := BURNED; intensity := 0.0; fuel_density := fuel1;
           temperature_k := temperature1;
           ignition_time_us := ignition_time_us cell;
           suppression_age_ticks := suppression_age_ticks cell |} in
      Ok ({| width := width self; height := height self;
             cell_size_m := cell_size_m self; rng := rng self;
             grid := grid_set (grid self) y x cell';
             wind_model := wind_model self;
             ticks := ticks self; time_us := time_us self;
             total_burned_cells := (total_burned_cells self + 1)%Z |},
          cells_to_ignite)
    else
      let cell' :=
        {| cell_x := cell_x cell; cell_y := cell_y cell;
           state := state cell; intensity := intensity1; fuel_density := fuel1;
           temperature_k := temperature1;
           ignition_time_us := ignition_time_us cell;
           suppression_age_ticks := suppression_age_ticks cell |} in
      let self1 := with_grid self (grid_set (grid self) y x cell') in
      spread_distance_cells ← _calculate_spread_distance self1 cell' wind_vx wind_vy;
      let neighbors := _get_neighbors_within_distance self1 x y spread_distance_cells in
      let '(rng', cells_to_ignite') :=
        fold_left (try_spread self1 cell' spread_distance_cells) neighbors
          (rng self1, cells_to_ignite) in
      Ok (with_rng self1 rng', cells_to_ignite').

(** Applying the queued ignitions and counting the successful ones. *)
Definition apply_ignitions (self : FireSimulation) (cells_to_ignite : list (Z * Z * R))
  : FireSimulation * Z :=
  fold_left
    (fun (acc : FireSimulation * Z) (c : Z * Z * R) =>
       let '(s, newly_ignited) := acc in
       let '(x, y, intensity) := c in
       let '(s', ok) := ignite s x y intensity in
       (s', if ok then (newly_ignited + 1)%Z else newly_ignited))
    cells_to_ignite (self, 0%Z).

(** The closing loop of [step]: every cell whose suppression age is not
    negative gets one tick older. *)
Definition age_cell (cell : FireCell) : FireCell :=
  if bool_decide (0 <= suppression_age_ticks cell)%Z then
    {| cell_x := cell_x cell; cell_y := cell_y cell; state := state cell;
       intensity := intensity cell; fuel_density := fuel_density cell;
       temperature_k := temperature_k cell;
       ignition_time_us := ignition_time_us cell;
       suppression_age_ticks := (suppression_age_ticks cell + 1)%Z |}
  else cell.

Definition age_suppression (self : FireSimulation) : FireSimulation :=
  fold_left
    (fun (s : FireSimulation) '(x, y) =>
       with_grid s (grid_set (grid s) y x (age_cell (grid s y x))))
    (cells self) self.

(** [step]: returns [(newly_ignited, suppressed_cells)]. *)
Definition step `{NumpyGenerator} (self : FireSimulation)
  : result (FireSimulation * (Z * Z)) :=
  let self0 :=
    {| width := width self; height := height self;
       cell_size_m := cell_size_m self; rng := rng self; grid := grid self;
       wind_model := wind_model self;
       ticks := (ticks self + 1)%Z;
       time_us := (time_us self + py_int (SIM_TICK_PERIOD_S * 1e6))%Z;
       total_burned_cells := total_burned_cells self |} in
  let '(wind_vx, wind_vy) := WindModel.get_wind_vector (wind_model self0) in
  '(self1, cells_to_ignite) ← foldM (burn wind_vx wind_vy) (cells self0) (self0, []);
  let '(self2, newly_ignited) := apply_ignitions self1 cells_to_ignite in
  Ok (age_suppression self2, (newly_ignited, 0%Z)).

Definition get_fire_state (self : FireSimulation) : FireSummary :=
  let visit (acc : Z * Z * R * R * Z) '(x, y) :=
    let '(burning_count, burned_count, max_intensity, fuel, perimeter) := acc in
    let cell := grid self y x in
    let fuel' := fuel + fuel_density cell in
    if FireCell.is_burning cell then
      let exposed :=
        existsb (fun '(nx, ny) =>
                   bool_decide (state (grid self ny nx) = NO_FIRE)
                   || bool_decide (state (grid self ny nx) = SUPPRESSED))
          (_get_8_neighbors self x y) in
      ((burning_count + 1)%Z, burned_count, Rmax max_intensity (intensity cell), fuel',
       if exposed then (perimeter + 1)%Z else perimeter)
    else if bool_decide (state cell = BURNED) then
      (burning_count, (burned_count + 1)%Z, max_intensity, fuel', perimeter)
    else (burning_count, burned_count, max_intensity, fuel', perimeter) in
  let '(burning_count, burned_count, max_intensity, fuel, perimeter) :=
    fold_left visit (cells self) (0%Z, 0%Z, 0.0, 0.0, 0%Z) in
  {| total_burning_cells := burning_count;
     fs_total_burned_cells := burned_count;
     max_intensity := max_intensity;
     fire_coverage_percent :=
       if bool_decide (0 < burning_count)%Z
       then (IZR burning_count / IZR (width self * height self)) * 100.0
       else 0.0;
     perimeter_cells := perimeter;
     total_fuel_remaining := fuel;
     fs_wind_speed_ms := wind_speed_ms (wind_model self);
     fs_wind_direction_deg := wind_direction_deg (wind_model self) |}.

(** [detect_fire]: the world position is divided by the cell size. *)
Definition detect_fire (self : FireSimulation) (world_x world_y sensor_range_m : R)
  : result (bool * R) :=
  gx ← fdiv world_x (cell_size_m self);
  gy ← fdiv world_y (cell_size_m self);
  let grid_x := py_int gx in
  let grid_y := py_int gy in
  if negb (_in_bounds self grid_x grid_y) then Ok (false, 0.0)
  else
    let cell := grid self grid_y grid_x in
    if FireCell.is_detectable cell then Ok (true, intensity cell) else Ok (false, 0.0).

(** [get_cells_by_state]: the cells in the given state, row by row. *)
Definition get_cells_by_state (self : FireSimulation) (st : CellState)
  : list (Z * Z * FireCell) :=
  flat_map
    (fun '(x, y) =>
       if bool_decide (state (grid self y x) = st) then [(x, y, grid self y x)] else [])
    (cells self).

Definition get_cell (self : FireSimulation) (x y : Z) : option FireCell :=
  if _in_bounds self x y then Some (grid self y x) else None.

End FireSimulation.

(** The grids some interleaving of [ignite], [suppress], [set_wind] and
    [step] calls produces from a freshly constructed simulation. *)
Inductive reachable `{NumpyGenerator} : FireSimulation -> Prop :=
| reach_init (width height : Z) (cell_size_m : R) (seed : Z) (s : FireSimulation) :
    FireSimulation.init width height cell_size_m seed = Ok s -> reachable s
| reach_ignite (s : FireSimulation) (x y : Z) (intensity : R) :
    reachable s -> reachable (fst (FireSimulation.ignite s x y intensity))
| reach_suppress (s : FireSimulation) (x y : Z) (strength : R) :
    reachable s -> reachable (fst (FireSimulation.suppress s x y strength))
| reach_set_wind (s : FireSimulation) (speed_ms direction_deg : R) :
    reachable s ->
    reachable (with_wind s (WindModel.set_wind (wind_model s) speed_ms direction_deg))
| reach_step (s s' : FireSimulation) (r : Z * Z) :
    reachable s -> FireSimulation.step s = Ok (s', r) -> reachable s'.

(** What one tick of burning makes of a burning cell: the decayed
    intensity, the temperature that follows it, the fuel that is left, and
    [BURNED] with intensity 0 when the fuel is gone or the fire is too
    weak. *)
Definition burnt (cell : FireCell) : FireCell :=
  let intensity1 := intensity cell * INTENSITY_DECAY_FACTOR in
  let fuel1 := Rmax 0.0 (fuel_density cell - intensity1 * 0.01) in
  let out := bool_decide (fuel1 <= 0.0) || bool_decide (intensity1 <= 0.001) in
  {| cell_x := cell_x cell; cell_y := cell_y cell;
     state := if out then BURNED else state cell;
     intensity := if out then 0.0 else intensity1;
     fuel_density := fuel1;
     temperature_k := 300.0 + intensity1 * 700.0;
     ignition_time_us := ignition_time_us cell;
     suppression_age_ticks := suppression_age_ticks cell |}.

(** What the sweep of [step] makes of a cell. *)
Definition after_burn (cell : FireCell) : FireCell :=
  if FireCell.is_burning cell then burnt cell else cell.

(** A queued ignition is sound when its target is an unburnt cell that
    still has fuel. *)
Definition target_ok (g : Z -> Z -> FireCell) (t : Z * Z * R) : Prop :=
  state (g (snd (fst t)) (fst (fst t))) = NO_FIRE /\
  0 < fuel_density (g (snd (fst t)) (fst (fst t))).

(** Two cells in the same fire condition. *)
Definition same_fire (c c' : FireCell) : Prop :=
  state c' = state c /\ intensity c' = intensity c /\ fuel_density c' = fuel_density c.

(** What holds of every cell of a grid in use: a cell without fire still
    has fuel and a burning cell has a positive intensity. *)
Definition grid_inv (s : FireSimulation) : Prop :=
  forall x y, FireSimulation._in_bounds s x y = true ->
    (state (grid s y x) = NO_FIRE -> 0 < fuel_density (grid s y x)) /\
    (state (grid s y x) = BURNING -> 0 < intensity (grid s y x)).

(** The invariant as the specification words it: a cell without fuel and
    with an intensity below the burn-out threshold is [BURNED]. *)
Definition spent_cells_burned (s : FireSimulation) : Prop :=
  forall x y, FireSimulation._in_bounds s x y = true ->
    fuel_density (grid s y x) = 0 -> intensity (grid s y x) < 0.001 ->
    state (grid s y x) = BURNED.

(** A generator whose every draw is 0: enough for a grid of one cell,
    where no draw is ever made. *)
Definition constant_generator : NumpyGenerator :=
  {| np_rand := fun _ _ => 0; np_standard_normal := fun _ _ => 0 |}.

(** [n] times [ignite(0, 0, 1.0)] followed by [step()]. *)
Fixpoint rounds `{NumpyGenerator} (n : nat) (s : FireSimulation) : result FireSimulation :=
  match n with
  | O => Ok s
  | S k =>
      s1 ← rounds k s;
      r ← FireSimulation.step (fst (FireSimulation.ignite s1 0 0 1.0));
      Ok (fst r)
  end.

End fire_simulation.

(** ** physics_engine.py *)

(** A dict comprehension whose value expression can raise. *)
Definition dict_mapM {K : Type} `{Countable K} {V W : Type} (f : V -> result W)
    (m : gmap K V) : result (gmap K W) :=
  map_fold (fun k v (acc : result (gmap K W)) =>
              a ← acc; w ← f v; Ok (<[k := w]> a)) (Ok ∅) m.

Module physics_engine.
Import constants channel_model energy_model fire_simulation.

Record DronePosition := {
  pos_drone_id : Z;
  pos_x : R;
  pos_y : R;
  pos_z : R;
  pos_vx : R;
  pos_vy : R;
  pos_vz : R;
  pos_heading_deg : R
}.

Record PhysicsSnapshot := {
  snap_time_us : Z;
  snap_tick : Z;
  snap_drone_positions : gmap Z DronePosition;
  fire_state : FireSummary;
  channel_states : gmap (Z * Z) ChannelState;
  energy_states : gmap Z (BatteryState * PayloadState)
}.

Record PhysicsEngine := {
  num_drones : Z;
  pe_seed : Z;
  pe_rng : RandomState;
  fire_sim : FireSimulation;
  channel_mgr : ChannelManager;
  energy_mgrs : gmap Z EnergyManager;
  drone_positions : gmap Z DronePosition;
  pe_ticks : Z;
  pe_time_us : Z
}.

Definition with_fire_sim (self : PhysicsEngine) (f : FireSimulation) : PhysicsEngine :=
  {| num_drones := num_drones self; pe_seed := pe_seed self; pe_rng := pe_rng self;
     fire_sim := f; channel_mgr := channel_mgr self; energy_mgrs := energy_mgrs self;
     drone_positions := drone_positions self;
     pe_ticks := pe_ticks self; pe_time_us := pe_time_us self |}.

Definition with_channel_mgr (self : PhysicsEngine) (c : ChannelManager) : PhysicsEngine :=
  {| num_drones := num_drones self; pe_seed := pe_seed self; pe_rng := pe_rng self;
     fire_sim := fire_sim self; channel_mgr := c; energy_mgrs := energy_mgrs self;
     drone_positions := drone_positions self;
     pe_ticks := pe_ticks self; pe_time_us := pe_time_us self |}.

Definition with_energy_mgrs (self : PhysicsEngine) (e : gmap Z EnergyManager)
  : PhysicsEngine :=
  {| num_drones := num_drones self; pe_seed := pe_seed self; pe_rng := pe_rng self;
     fire_sim := fire_sim self; channel_mgr := channel_mgr self; energy_mgrs := e;
     drone_positions := drone_positions self;
     pe_ticks := pe_ticks self; pe_time_us := pe_time_us self |}.

Definition with_drone_positions (self : PhysicsEngine) (d : gmap Z DronePosition)
  : PhysicsEngine :=
  {| num_drones := num_drones self; pe_seed := pe_seed self; pe_rng := pe_rng self;
     fire_sim := fire_sim self; channel_mgr := channel_mgr self;
     energy_mgrs := energy_mgrs self; drone_positions := d;
     pe_ticks := pe_ticks self; pe_time_us := pe_time_us self |}.

Module PhysicsEngine.

Definition init (num_drones seed : Z) : result PhysicsEngine :=
  rng ← RandomState.init seed;
  fire_sim ← FireSimulation.init FIRE_GRID_WIDTH FIRE_GRID_HEIGHT FIRE_CELL_SIZE_M seed;
  channel_mgr ← ChannelManager.init seed;
  Ok {| num_drones := num_drones;
        pe_seed := seed;
        pe_rng := rng;
        fire_sim := fire_sim;
        channel_mgr := channel_mgr;
        energy_mgrs :=
          fold_left (fun (m : gmap Z EnergyManager) id => <[id := EnergyManager.default]> m)
            (py_range 1 (num_drones + 1)) ∅;
        drone_positions :=
          fold_left
            (fun (m : gmap Z DronePosition) id =>
               <[id := {| pos_drone_id := id; pos_x := 0; pos_y := 0; pos_z := 0;
                          pos_vx := 0; pos_vy := 0; pos_vz := 0;
                          pos_heading_deg := 0 |}]> m)
            (py_range 1 (num_drones + 1)) ∅;
        pe_ticks := 0;
        pe_time_us := 0 |}.

Definition get_drone_position (self : PhysicsEngine) (drone_id : Z)
  : option DronePosition :=
  drone_positions self !! drone_id.

Definition get_distance_between_drones (self : PhysicsEngine)
    (drone_id_1 drone_id_2 : Z) : option R :=
  match get_drone_position self drone_id_1, get_drone_position self drone_id_2 with
  | Some pos1, Some pos2 =>
      let dx := pos_x pos2 - pos_x pos1 in
      let dy := pos_y pos2 - pos_y pos1 in
      Some (sqrt (dx ^ 2 + dy ^ 2))
  | _, _ => None
  end.

(** [_update_channel_states]: every ordered pair of distinct drones, in
    the order of the two nested loops. *)
Definition _update_channel_states `{NumpyGenerator} (self : PhysicsEngine)
  : result PhysicsEngine :=
  let ids := py_range 1 (num_drones self + 1) in
  let pairs := flat_map (fun sender => map (fun receiver => (sender, receiver)) ids) ids in
  foldM
    (fun (pe : PhysicsEngine) '(sender_id, receiver_id) =>
       if bool_decide (sender_id = receiver_id) then Ok pe
       else
         match get_distance_between_drones pe sender_id receiver_id with
         | Some distance =>
             r ← ChannelManager.update_link (channel_mgr pe) sender_id receiver_id
                   distance;
             Ok (with_channel_mgr pe (fst r))
         | None => Ok pe
         end)
    pairs self.

Definition step `{NumpyGenerator} (self : PhysicsEngine)
  : result (PhysicsEngine * PhysicsSnapshot) :=
  let self0 :=
    {| num_drones := num_drones self; pe_seed := pe_seed self; pe_rng := pe_rng self;
       fire_sim := fire_sim self; channel_mgr := channel_mgr self;
       energy_mgrs := energy_mgrs self; drone_positions := drone_positions self;
       pe_ticks := (pe_ticks self + 1)%Z;
       pe_time_us := (pe_time_us self + SIM_TICK_PERIOD_US)%Z |} in
  f ← FireSimulation.step (fire_sim self0);
  let self1 := with_fire_sim self0 (fst f) in
  self2 ← _update_channel_states self1;
  es ← dict_mapM EnergyManager.get_energy_state (energy_mgrs self2);
  Ok (self2,
      {| snap_time_us := pe_time_us self2;
         snap_tick := pe_ticks self2;
         snap_drone_positions := drone_positions self2;
         fire_state := FireSimulation.get_fire_state (fire_sim self2);
         channel_states := ChannelManager.get_all_link_states (channel_mgr self2);
         energy_states := es |}).

Definition update_drone_position (self : PhysicsEngine) (drone_id : Z)
    (x y z vx vy vz heading_deg : R) : PhysicsEngine :=
  match drone_positions self !! drone_id with
  | None => self
  | Some pos =>
      with_drone_positions self
        (<[drone_id :=
             {| pos_drone_id := pos_drone_id pos;
                pos_x := x; pos_y := y; pos_z := z;
                pos_vx := vx; pos_vy := vy; pos_vz := vz;
                pos_heading_deg := heading_deg |}]> (drone_positions self))
  end.

Definition ignite_fire (self : PhysicsEngine) (grid_x grid_y : Z) (intensity : R)
  : PhysicsEngine * bool :=
  let '(f, ok) := FireSimulation.ignite (fire_sim self) grid_x grid_y intensity in
  (with_fire_sim self f, ok).

Definition ignite_fire_world (self : PhysicsEngine) (world_x world_y intensity : R)
  : PhysicsEngine * bool :=
  ignite_fire self (py_int (world_x / FIRE_CELL_SIZE_M))
    (py_int (world_y / FIRE_CELL_SIZE_M)) intensity.

Definition suppress_fire (self : PhysicsEngine) (grid_x grid_y : Z) (strength : R)
  : PhysicsEngine * R :=
  let '(f, reduction) := FireSimulation.suppress (fire_sim self) grid_x grid_y strength in
  (with_fire_sim self f, reduction).

Definition suppress_fire_world (self : PhysicsEngine) (world_x world_y strength : R)
  : PhysicsEngine * R :=
  suppress_fire self (py_int (world_x / FIRE_CELL_SIZE_M))
    (py_int (world_y / FIRE_CELL_SIZE_M)) strength.

Definition get_fire_cell (self : PhysicsEngine) (grid_x grid_y : Z) : option FireCell :=
  FireSimulation.get_cell (fire_sim self) grid_x grid_y.

Definition detect_fire (self : PhysicsEngine) (drone_id : Z) (sensor_range_m : R)
  : result (bool * R) :=
  match get_drone_position self drone_id with
  | None => Ok (false, 0.0)
  | Some pos => FireSimulation.detect_fire (fire_sim self) (pos_x pos) (pos_y pos)
                  sensor_range_m
  end.

Definition set_wind (self : PhysicsEngine) (speed_ms direction_deg : R) : PhysicsEngine :=
  with_fire_sim self
    (with_wind (fire_sim self)
       (WindModel.set_wind (wind_model (fire_sim self)) speed_ms direction_deg)).

(** [get_channel_state]: asking for a link creates it. *)
Definition get_channel_state (self : PhysicsEngine) (sender_id receiver_id : Z)
  : PhysicsEngine * ChannelState :=
  let '(c, st) := ChannelManager.get_channel_state (channel_mgr self)
                    sender_id receiver_id in
  (with_channel_mgr self c, st).

Definition get_battery_state (self : PhysicsEngine) (drone_id : Z)
  : result (option BatteryState) :=
  match energy_mgrs self !! drone_id with
  | None => Ok None
  | Some m => st ← BatteryModel.get_state (battery m); Ok (Some st)
  end.

Definition get_payload_state (self : PhysicsEngine) (drone_id : Z)
  : result (option PayloadState) :=
  match energy_mgrs self !! drone_id with
  | None => Ok None
  | Some m => st ← PayloadModel.get_state (payload m); Ok (Some st)
  end.

(** [should_rtl_override]: a drone without an energy manager is never
    sent home. *)
Definition should_rtl_override (self : PhysicsEngine) (drone_id : Z)
  : result (bool * string) :=
  match energy_mgrs self !! drone_id with
  | None => Ok (false, "none"%string)
  | Some m => EnergyManager.should_rtl_override m
  end.

Definition update_drone_energy (self : PhysicsEngine) (drone_id : Z)
    (distance_m hover_time_s aggressiveness : R) : PhysicsEngine * R :=
  match energy_mgrs self !! drone_id with
  | None => (self, 0.0)
  | Some m =>
      let '(m', e) := EnergyManager.update_flight m distance_m hover_time_s
                        aggressiveness in
      (with_energy_mgrs self (<[drone_id := m']> (energy_mgrs self)), e)
  end.

Definition suppress_with_payload (self : PhysicsEngine) (drone_id : Z) (strength : R)
  : PhysicsEngine * (R * R) :=
  match energy_mgrs self !! drone_id with
  | None => (self, (0.0, 0.0))
  | Some m =>
      let '(m', r) := EnergyManager.update_suppression m strength in
      (with_energy_mgrs self (<[drone_id := m']> (energy_mgrs self)), r)
  end.

Definition get_distance_3d (self : PhysicsEngine) (drone_id_1 drone_id_2 : Z)
  : option R :=
  match get_drone_position self drone_id_1, get_drone_position self drone_id_2 with
  | Some pos1, Some pos2 =>
      let dx := pos_x pos2 - pos_x pos1 in
      let dy := pos_y pos2 - pos_y pos1 in
      let dz := pos_z pos2 - pos_z pos1 in
      Some (sqrt (dx ^ 2 + dy ^ 2 + dz ^ 2))
  | _, _ => None
  end.

Definition get_time (self : PhysicsEngine) : Z * Z := (pe_ticks self, pe_time_us self).

Definition get_fire_state (self : PhysicsEngine) : FireSummary :=
  FireSimulation.get_fire_state (fire_sim self).

(** [is_link_connected]: asking about a link creates it. *)
Definition is_link_connected (self : PhysicsEngine) (sender_id receiver_id : Z)
  : PhysicsEngine * bool :=
  let '(c, b) := ChannelManager.is_link_connected (channel_mgr self)
                   sender_id receiver_id in
  (with_channel_mgr self c, b).

Definition dock_drone (self : PhysicsEngine) (drone_id : Z) : PhysicsEngine :=
  match energy_mgrs self !! drone_id with
  | None => self
  | Some m =>
      with_energy_mgrs self (<[drone_id := EnergyManager.dock m]> (energy_mgrs self))
  end.

End PhysicsEngine.

End physics_engine.

(** ** drone_node.py *)

Module drone_node.
Import constants energy_model channel_model physics_engine detm_controller
  distributed_observer.

(** The objects every drone agent holds a reference to: one physics
    engine, one DETM controller and one observer for the whole swarm. *)
Record Shared := {
  physics : PhysicsEngine;
  detm : DETMController;
  observer : DistributedObserver
}.

Definition with_physics (w : Shared) (p : PhysicsEngine) : Shared :=
  {| physics := p; detm := detm w; observer := observer w |}.

Definition with_detm (w : Shared) (d : DETMController) : Shared :=
  {| physics := physics w; detm := d; observer := observer w |}.

Definition with_observer (w : Shared) (o : DistributedObserver) : Shared :=
  {| physics := physics w; detm := detm w; observer := o |}.

Record DroneNode := {
  drone_id : Z;
  drone_type : DroneType;
  dn_x : R;
  dn_y : R;
  dn_z : R;
  dn_vx : R;
  dn_vy : R;
  dn_vz : R;
  heading_deg : R;
  home_x : R;
  home_y : R;
  home_z : R;
  state : DroneState;
  state_ticks : Z;
  neighbor_ids : list Z;
  fire_detected_count : Z;
  fire_suppression_count : Z;
  sensor_range_m : R;
  total_distance_m : R;
  time_in_search_us : Z;
  time_in_suppress_us : Z;
  time_in_rtl_us : Z
}.

#[global] Instance DroneState_eq_dec : EqDecision DroneState.
Proof. solve_decision. Defined.

(** [self.state = st] together with [self.state_ticks = 0]. *)
Definition enter (self : DroneNode) (st : DroneState) : DroneNode :=
  {| drone_id := drone_id self; drone_type := drone_type self;
     dn_x := dn_x self; dn_y := dn_y self; dn_z := dn_z self;
     dn_vx := dn_vx self; dn_vy := dn_vy self; dn_vz := dn_vz self;
     heading_deg := heading_deg self;
     home_x := home_x self; home_y := home_y self; home_z := home_z self;
     state := st; state_ticks := 0;
     neighbor_ids := neighbor_ids self;
     fire_detected_count := fire_detected_count self;
     fire_suppression_count := fire_suppression_count self;
     sensor_range_m := sensor_range_m self;
     total_distance_m := total_distance_m self;
     time_in_search_us := time_in_search_us self;
     time_in_suppress_us := time_in_suppress_us self;
     time_in_rtl_us := time_in_rtl_us self |}.

Definition with_state_ticks (self : DroneNode) (n : Z) : DroneNode :=
  {| drone_id := drone_id self; drone_type := drone_type self;
     dn_x := dn_x self; dn_y := dn_y self; dn_z := dn_z self;
     dn_vx := dn_vx self; dn_vy := dn_vy self; dn_vz := dn_vz self;
     heading_deg := heading_deg self;
     home_x := home_x self; home_y := home_y self; home_z := home_z self;
     state := state self; state_ticks := n;
     neighbor_ids := neighbor_ids self;
     fire_detected_count := fire_detected_count self;
     fire_suppression_count := fire_suppression_count self;
     sensor_range_m := sensor_range_m self;
     total_distance_m := total_distance_m self;
     time_in_search_us := time_in_search_us self;
     time_in_suppress_us := time_in_suppress_us self;
     time_in_rtl_us := time_in_rtl_us self |}.

Definition with_heading (self : DroneNode) (h : R) : DroneNode :=
  {| drone_id := drone_id self; drone_type := drone_type self;
     dn_x := dn_x self; dn_y := dn_y self; dn_z := dn_z self;
     dn_vx := dn_vx self; dn_vy := dn_vy self; dn_vz := dn_vz self;
     heading_deg := h;
     home_x := home_x self; home_y := home_y self; home_z := home_z self;
     state := state self; state_ticks := state_ticks self;
     neighbor_ids := neighbor_ids self;
     fire_detected_count := fire_detected_count self;
     fire_suppression_count := fire_suppression_count self;
     sensor_range_m := sensor_range_m self;
     total_distance_m := total_distance_m self;
     time_in_search_us := time_in_search_us self;
     time_in_suppress_us := time_in_suppress_us self;
     time_in_rtl_us := time_in_rtl_us self |}.

Definition with_counters (self : DroneNode)
    (detected suppressed suppress_us rtl_us : Z) : DroneNode :=
  {| drone_id := drone_id self; drone_type := drone_type self;
     dn_x := dn_x self; dn_y := dn_y self; dn_z := dn_z self;
     dn_vx := dn_vx self; dn_vy := dn_vy self; dn_vz := dn_vz self;
     heading_deg := heading_deg self;
     home_x := home_x self; home_y := home_y self; home_z := home_z self;
     state := state self; state_ticks := state_ticks self;
     neighbor_ids := neighbor_ids self;
     fire_detected_count := detected;
     fire_suppression_count := suppressed;
     sensor_range_m := sensor_range_m self;
     total_distance_m := total_distance_m self;
     time_in_search_us := time_in_search_us self;
     time_in_suppress_us := suppress_us;
     time_in_rtl_us := rtl_us |}.

(** The telemetry dictionary built when the gate fires. *)
Record Telemetry := {
  tm_drone_id : Z;
  timestamp_us : Z;
  position : R * R * R;
  velocity : R * R * R;
  tm_battery_percent : R;
  payload_remaining : R;
  tm_state : DroneState;
  fire_detected : bool;
  fire_intensity : R;
  tm_rssi_dbm : Z
}.

Module DroneNode.

(** [DroneNode.__init__]: registers the drone with the DETM controller
    and looks its energy manager up, which raises [KeyError] for an id
    the physics engine does not have. The manager itself stays in the
    engine; the agent's reference to it is never used again. *)
Definition init (w : Shared) (drone_id : Z) (drone_type : DroneType)
    (home_x home_y home_z : R) : result (Shared * DroneNode) :=
  let w1 := with_detm w (DETMController.register_drone (detm w) drone_id
                           DETM_ETA0 DETM_LAMBDA "l2") in
  match energy_mgrs (physics w1) !! drone_id with
  | None => Raise KeyError
  | Some _ =>
      Ok (w1,
          {| drone_id := drone_id; drone_type := drone_type;
             dn_x := 0.0; dn_y := 0.0; dn_z := 0.0;
             dn_vx := 0.0; dn_vy := 0.0; dn_vz := 0.0;
             heading_deg := 0.0;
             home_x := home_x; home_y := home_y; home_z := home_z;
             state := IDLE; state_ticks := 0;
             neighbor_ids := [];
             fire_detected_count := 0; fire_suppression_count := 0;
             sensor_range_m := 50.0;
             total_distance_m := 0.0;
             time_in_search_us := 0; time_in_suppress_us := 0;
             time_in_rtl_us := 0 |})
  end.

Definition set_neighbors (w : Shared) (self : DroneNode) (ids : list Z)
  : Shared * DroneNode :=
  (with_observer w (DistributedObserver.register_drone (observer w) (drone_id self) ids),
   {| drone_id := drone_id self; drone_type := drone_type self;
      dn_x := dn_x self; dn_y := dn_y self; dn_z := dn_z self;
      dn_vx := dn_vx self; dn_vy := dn_vy self; dn_vz := dn_vz self;
      heading_deg := heading_deg self;
      home_x := home_x self; home_y := home_y self; home_z := home_z self;
      state := state self; state_ticks := state_ticks self;
      neighbor_ids := ids;
      fire_detected_count := fire_detected_count self;
      fire_suppression_count := fire_suppression_count self;
      sensor_range_m := sensor_range_m self;
      total_distance_m := total_distance_m self;
      time_in_search_us := time_in_search_us self;
      time_in_suppress_us := time_in_suppress_us self;
      time_in_rtl_us := time_in_rtl_us self |}).

Definition update_position (w : Shared) (self : DroneNode)
    (x y z vx vy vz heading : R) : Shared * DroneNode :=
  let dx := x - dn_x self in
  let dy := y - dn_y self in
  let distance := sqrt (dx ^ 2 + dy ^ 2) in
  (with_physics w
     (PhysicsEngine.update_drone_position (physics w) (drone_id self)
        x y z vx vy vz heading),
   {| drone_id := drone_id self; drone_type := drone_type self;
      dn_x := x; dn_y := y; dn_z := z;
      dn_vx := vx; dn_vy := vy; dn_vz := vz;
      heading_deg := heading;
      home_x := home_x self; home_y := home_y self; home_z := home_z self;
      state := state self; state_ticks := state_ticks self;
      neighbor_ids := neighbor_ids self;
      fire_detected_count := fire_detected_count self;
      fire_suppression_count := fire_suppression_count self;
      sensor_range_m := sensor_range_m self;
      total_distance_m := total_distance_m self + distance;
      time_in_search_us := time_in_search_us self;
      time_in_suppress_us := time_in_suppress_us self;
      time_in_rtl_us := time_in_rtl_us self |}).

Definition _step_idle (self : DroneNode) : DroneNode := self.

(** [_step_search]: after 100 ticks in the state, the heading moves by
    [random.uniform(-30, 30)], a draw from the global generator. *)
Definition _step_search (self : DroneNode) (g : GlobalRandom)
  : DroneNode * GlobalRandom :=
  if bool_decide (100 < state_ticks self)%Z then
    let '(g', heading_delta) := random.uniform g (-30) 30 in
    (with_heading self (fmod (heading_deg self + heading_delta) 360), g')
  else (self, g).

Definition _step_suppress (w : Shared) (self : DroneNode) (fire_intensity : R)
  : result (Shared * DroneNode) :=
  if bool_decide (fire_intensity <= 0) then
    let self1 := enter self SEARCH in
    Ok (w, with_counters self1 (fire_detected_count self1)
             (fire_suppression_count self1 + 1)%Z
             (time_in_suppress_us self1) (time_in_rtl_us self1))
  else
    let suppression_strength := Rmin 1.0 fire_intensity in
    let '(p1, _) := PhysicsEngine.suppress_with_payload (physics w) (drone_id self)
                      suppression_strength in
    payload_state ← PhysicsEngine.get_payload_state p1 (drone_id self);
    match payload_state with
    | None => Raise AttributeError
    | Some ps =>
        let self1 := if empty ps then enter self RETURN_TO_LAUNCH else self in
        Ok (with_physics w p1,
            with_counters self1 (fire_detected_count self1)
              (fire_suppression_count self1)
              (time_in_suppress_us self1 + py_int (SIM_TICK_PERIOD_S * 1e6))%Z
              (time_in_rtl_us self1))
    end.

Definition _step_rtl (w : Shared) (self : DroneNode) : Shared * DroneNode :=
  let distance_to_home :=
    sqrt ((dn_x self - home_x self) ^ 2 + (dn_y self - home_y self) ^ 2
          + (dn_z self - home_z self) ^ 2) in
  let '(w1, self1) :=
    if decide (distance_to_home < 5.0)
    then (with_physics w (PhysicsEngine.dock_drone (physics w) (drone_id self)),
          enter self IDLE)
    else (w, self) in
  (w1, with_counters self1 (fire_detected_count self1) (fire_suppression_count self1)
         (time_in_suppress_us self1)
         (time_in_rtl_us self1 + py_int (SIM_TICK_PERIOD_S * 1e6))%Z).

Definition _step_formation (self : DroneNode) : DroneNode := self.

Definition _check_collision_risk (w : Shared) (self : DroneNode) (time_us : Z) : Shared :=
  with_observer w
    (fst (DistributedObserver.check_collision_risk (observer w) (drone_id self) time_us
            (dn_x self) (dn_y self) (dn_z self) 10.0)).

(** [_get_link_quality]: the average RSSI over the links to the ids 1 to
    49; asking the engine for a link creates it, so none is missing. *)
Definition _get_link_quality (w : Shared) (self : DroneNode) : Shared * Z :=
  let '(p, total_rssi, count) :=
    fold_left
      (fun (acc : PhysicsEngine * R * Z) receiver_id =>
         let '(p, total_rssi, count) := acc in
         if bool_decide (receiver_id = drone_id self) then acc
         else
           let '(p', channel_state) :=
             PhysicsEngine.get_channel_state p (drone_id self) receiver_id in
           (p', total_rssi + rssi_dbm channel_state, (count + 1)%Z))
      (py_range 1 50) (physics w, 0.0, 0%Z) in
  (with_physics w p,
   if bool_decide (count = 0)%Z then (-120)%Z else py_int (total_rssi / IZR count)).

(** Part 1 of [step]: the return-to-launch override. *)
Definition override (w : Shared) (self : DroneNode) : result DroneNode :=
  r ← PhysicsEngine.should_rtl_override (physics w) (drone_id self);
  if (fst r : bool) && negb (bool_decide (state self = RETURN_TO_LAUNCH))
  then Ok (enter self RETURN_TO_LAUNCH)
  else Ok self.

(** Part 2 of [step]: fire detection. *)
Definition detect (w : Shared) (self : DroneNode) : result (DroneNode * (bool * R)) :=
  d ← PhysicsEngine.detect_fire (physics w) (drone_id self) (sensor_range_m self);
  if (fst d : bool) && bool_decide (state self = SEARCH)
  then
    let self1 := enter self SUPPRESS in
    Ok (with_counters self1 (fire_detected_count self1 + 1)%Z
          (fire_suppression_count self1) (time_in_suppress_us self1)
          (time_in_rtl_us self1), d)
  else Ok (self, d).

(** Part 3 of [step]: the state machine; [RETURN_TO_DOCK] has no branch. *)
Definition dispatch (w : Shared) (self : DroneNode) (g : GlobalRandom)
    (fire_intensity : R) : result (Shared * DroneNode * GlobalRandom) :=
  match state self with
  | IDLE => Ok (w, _step_idle self, g)
  | SEARCH => let '(self', g') := _step_search self g in Ok (w, self', g')
  | SUPPRESS =>
      r ← _step_suppress w self fire_intensity;
      Ok (fst r, snd r, g)
  | RETURN_TO_LAUNCH => let '(w', self') := _step_rtl w self in Ok (w', self', g)
  | FORMATION => Ok (w, _step_formation self, g)
  | RETURN_TO_DOCK => Ok (w, self, g)
  end.

(** Parts 4 and 5 of [step]: the collision check, the DETM gate and the
    telemetry of a transmission. *)
Definition transmit (w : Shared) (self : DroneNode) (time_us : Z)
    (detected : bool * R) : result (Shared * option Telemetry) :=
  let w1 := _check_collision_risk w self time_us in
  t ← DETMController.should_transmit (detm w1) (drone_id self) time_us
        (dn_x self) (dn_y self) (dn_z self) (dn_vx self) (dn_vy self) (dn_vz self);
  let w2 := with_detm w1 (fst t) in
  if (fst (snd t) : bool) then
    let w3 :=
      with_detm w2
        (DETMController.record_transmission (detm w2) (drone_id self) time_us
           (dn_x self) (dn_y self) (dn_z self) (dn_vx self) (dn_vy self) (dn_vz self)) in
    battery_state ← PhysicsEngine.get_battery_state (physics w3) (drone_id self);
    payload_state ← PhysicsEngine.get_payload_state (physics w3) (drone_id self);
    match battery_state, payload_state with
    | Some bs, Some ps =>
        let '(w4, rssi) := _get_link_quality w3 self in
        Ok (w4,
            Some {| tm_drone_id := drone_id self;
                    timestamp_us := time_us;
                    position := (dn_x self, dn_y self, dn_z self);
                    velocity := (dn_vx self, dn_vy self, dn_vz self);
                    tm_battery_percent := battery_percent bs;
                    payload_remaining := ps_payload_units ps;
                    tm_state := state self;
                    fire_detected := fst detected;
                    fire_intensity := snd detected;
                    tm_rssi_dbm := rssi |})
    | _, _ => Raise AttributeError
    end
  else Ok (w2, None).

(** [step]: one tick of the agent. *)
Definition step (w : Shared) (self : DroneNode) (g : GlobalRandom) (time_us : Z)
  : result (Shared * DroneNode * GlobalRandom * option Telemetry) :=
  let self0 := with_state_ticks self (state_ticks self + 1)%Z in
  self1 ← override w self0;
  d ← detect w self1;
  r ← dispatch w (fst d) g (snd (snd d));
  let '(w1, self2, g') := r in
  t ← transmit w1 self2 time_us (snd d);
  Ok (fst t, self2, g', snd t).

End DroneNode.

(** The identity, the position, the velocity and the home of an agent. *)
Definition pose (d : DroneNode) : Z * R * R * R * R * R * R * R * R * R :=
  (drone_id d, dn_x d, dn_y d, dn_z d, dn_vx d, dn_vy d, dn_vz d,
   home_x d, home_y d, home_z d).

End drone_node.

(** ** swarm_launcher.py: the simulation core *)

Module swarm_launcher.
Import constants physics_engine detm_controller distributed_observer drone_node.

(** The simulation objects a [SwarmLauncher] owns. The SITL processes, the
    API server and the communications manager take no part in a tick. *)
Record SwarmLauncher := {
  num_leaders : Z;
  num_followers : Z;
  total_drones : Z;
  shared : Shared;
  drone_nodes : list (Z * DroneNode);
  ticks : Z;
  time_us : Z
}.

Definition with_shared (self : SwarmLauncher) (w : Shared) : SwarmLauncher :=
  {| num_leaders := num_leaders self; num_followers := num_followers self;
     total_drones := total_drones self; shared := w;
     drone_nodes := drone_nodes self; ticks := ticks self; time_us := time_us self |}.

(** What a tick publishes: the physics snapshot and, per drone in id
    order, the telemetry the gate let through. *)
Record TickOutput := {
  snapshot : PhysicsSnapshot;
  telemetry : list (Z * option Telemetry)
}.

(** The external commands, applied between ticks. *)
Inductive command :=
| IgniteFire (x y intensity : R)
| SuppressFire (x y strength : R)
| SetWind (speed_ms direction_deg : R)
| Dock (drone_id : Z)
| UpdatePosition (drone_id : Z) (x y z vx vy vz heading_deg : R).

Module SwarmLauncher.

(** [initialize_simulation], with the seed and the home position that
    the configuration supplies. The method catches what its body raises
    and returns [False]; here the exception is the result, so [Ok] is the
    [True] of the code. *)
Definition initialize_simulation (num_leaders num_followers seed : Z)
    (home_x home_y home_z : R) : result SwarmLauncher :=
  let total_drones := (num_leaders + num_followers)%Z in
  physics_engine ← PhysicsEngine.init total_drones seed;
  let w0 :=
    {| physics := physics_engine;
       detm := DETMController.init;
       observer := DistributedObserver.default |} in
  r ← foldM
        (fun (acc : Shared * list (Z * DroneNode)) i =>
           let '(w, nodes) := acc in
           let drone_id := (i + 1)%Z in
           let drone_type := if bool_decide (i < num_leaders)%Z then LEADER else FOLLOWER in
           d ← DroneNode.init w drone_id drone_type home_x home_y home_z;
           Ok (fst d, dict_set nodes drone_id (snd d)))
        (py_range 0 total_drones) (w0, []);
  let leader_ids := py_range 1 (num_leaders + 1) in
  r' ← foldM
         (fun (acc : Shared * list (Z * DroneNode)) follower_id =>
            let '(w, nodes) := acc in
            match dict_get nodes follower_id with
            | None => Raise KeyError
            | Some d =>
                let '(w', d') := DroneNode.set_neighbors w d leader_ids in
                Ok (w', dict_set nodes follower_id d')
            end)
         (py_range (num_leaders + 1) (total_drones + 1)) r;
  Ok {| num_leaders := num_leaders; num_followers := num_followers;
        total_drones := total_drones; shared := fst r';
        drone_nodes := snd r'; ticks := 0; time_us := 0 |}.

(** The body of the loop of [simulation_step] over the agents. The
    position objects of the snapshot are the engine's own, so an agent
    reads the engine's current position for its id. *)
Definition step_agent (time_us : Z)
    (acc : Shared * list (Z * DroneNode) * list (Z * option Telemetry) * GlobalRandom)
    (item : Z * DroneNode)
  : result (Shared * list (Z * DroneNode) * list (Z * option Telemetry) * GlobalRandom) :=
  let '(w, done, out, g) := acc in
  let '(drone_id, drone) := item in
  let '(w1, drone1) :=
    match PhysicsEngine.get_drone_position (physics w) drone_id with
    | Some pos =>
        DroneNode.update_position w drone (pos_x pos) (pos_y pos) (pos_z pos)
          (pos_vx pos) (pos_vy pos) (pos_vz pos) (pos_heading_deg pos)
    | None => (w, drone)
    end in
  r ← DroneNode.step w1 drone1 g time_us;
  let '(w2, drone2, g', tel) := r in
  Ok (w2, done ++ [(drone_id, drone2)], out ++ [(drone_id, tel)], g').

(** The loop itself, in dictionary order. *)
Definition step_agents (time_us : Z) (nodes : list (Z * DroneNode))
    (w : Shared) (g : GlobalRandom)
  : result (Shared * list (Z * DroneNode) * list (Z * option Telemetry) * GlobalRandom) :=
  foldM (step_agent time_us) nodes (w, [], [], g).

Definition simulation_step `{NumpyGenerator} (self : SwarmLauncher) (g : GlobalRandom)
  : result (SwarmLauncher * TickOutput * GlobalRandom) :=
  p ← PhysicsEngine.step (physics (shared self));
  let '(pe, physics_snapshot) := p in
  let w := with_physics (shared self) pe in
  r ← step_agents (snap_time_us physics_snapshot) (drone_nodes self) w g;
  let '(w', nodes, out, g') := r in
  Ok ({| num_leaders := num_leaders self; num_followers := num_followers self;
         total_drones := total_drones self; shared := w';
         drone_nodes := nodes;
         ticks := snap_tick physics_snapshot;
         time_us := snap_time_us physics_snapshot |},
      {| snapshot := physics_snapshot; telemetry := out |}, g').

Definition apply_command (self : SwarmLauncher) (c : command) : SwarmLauncher :=
  let pe := physics (shared self) in
  with_shared self
    (with_physics (shared self)
       match c with
       | IgniteFire x y intensity => fst (PhysicsEngine.ignite_fire_world pe x y intensity)
       | SuppressFire x y strength => fst (PhysicsEngine.suppress_fire_world pe x y strength)
       | SetWind speed_ms direction_deg => PhysicsEngine.set_wind pe speed_ms direction_deg
       | Dock drone_id => PhysicsEngine.dock_drone pe drone_id
       | UpdatePosition drone_id x y z vx vy vz heading_deg =>
           PhysicsEngine.update_drone_position pe drone_id x y z vx vy vz heading_deg
       end).

(** A run: before each tick the commands that arrived are applied, then
    the tick executes. The result lists, per tick, the full state and
    what the tick published. *)
Fixpoint run `{NumpyGenerator} (self : SwarmLauncher) (g : GlobalRandom)
    (script : list (list command))
  : result (list (SwarmLauncher * TickOutput) * GlobalRandom) :=
  match script with
  | [] => Ok ([], g)
  | commands :: rest =>
      r ← simulation_step (fold_left apply_command commands self) g;
      let '(self', out, g') := r in
      t ← run self' g' rest;
      Ok ((self', out) :: fst t, snd t)
  end.

End SwarmLauncher.

(** A run from construction: the seed and the commands are given, the
    state of the global generator is whatever the process starts with. *)
Definition simulate `{NumpyGenerator} (num_leaders num_followers seed : Z)
    (home_x home_y home_z : R) (script : list (list command)) (g : GlobalRandom)
  : result (list (SwarmLauncher * TickOutput) * GlobalRandom) :=
  l ← SwarmLauncher.initialize_simulation num_leaders num_followers seed
        home_x home_y home_z;
  SwarmLauncher.run l g script.

(** The trajectory of a run: everything but the global generator. *)
Definition trajectory {A : Type} (r : result (A * GlobalRandom)) : result A :=
  x ← r; Ok (fst x).

(** An agent that is neither searching nor suppressing. *)
Definition quiet (d : DroneNode) : Prop :=
  drone_node.state d <> SEARCH /\ drone_node.state d <> SUPPRESS.

Definition all_quiet (nodes : list (Z * DroneNode)) : Prop :=
  Forall (fun item => quiet (snd item)) nodes.

(** An energy manager whose state queries cannot divide by zero. *)
Definition energy_ok (m : energy_model.EnergyManager) : Prop :=
  energy_model.total_energy_wh (energy_model.battery m) <> 0 /\
  energy_model.nominal_voltage_v (energy_model.battery m) <> 0 /\
  energy_model.max_payload_units (energy_model.payload m) <> 0.

(** A physics engine in working order for the drones [fleet]: a grid with
    a cell size, a path-loss model with a positive reference distance, and
    a sound energy manager for exactly the drones of the fleet. *)
Definition engine_ok (fleet : gset Z) (pe : PhysicsEngine) : Prop :=
  fire_simulation.cell_size_m (fire_sim pe) <> 0 /\
  0 < channel_model.reference_distance_m
        (channel_model.path_loss_model (channel_mgr pe)) /\
  dom (energy_mgrs pe) = fleet /\
  forall id m, energy_mgrs pe !! id = Some m -> energy_ok m.

(** An engine whose fading channel NumPy draws from: the standard
    deviation of the fading is not negative. *)
Definition fading_ok (pe : PhysicsEngine) : Prop :=
  0 <= channel_model.fading_std_db (channel_model.fading_channel (channel_mgr pe)).

(** The parts of the engine that asking for a channel state leaves alone. *)
Definition same_engine (pe pe' : PhysicsEngine) : Prop :=
  fire_sim pe' = fire_sim pe /\ energy_mgrs pe' = energy_mgrs pe /\
  channel_model.path_loss_model (channel_mgr pe')
  = channel_model.path_loss_model (channel_mgr pe) /\
  channel_model.fading_channel (channel_mgr pe')
  = channel_model.fading_channel (channel_mgr pe).

(** Agents filed under their own id, each a drone of the fleet. *)
Definition crew_ok (fleet : gset Z) (nodes : list (Z * DroneNode)) : Prop :=
  Forall (fun item => drone_id (snd item) = fst item /\ fst item ∈ fleet) nodes.

End swarm_launcher.

(* ===================================================================== *)
(** * Part II: properties                                                 *)
(* ===================================================================== *)

Section PreludeFacts.

Lemma fdiv_ok (x y : R) : y <> 0 -> fdiv x y = Ok (x / y).
Proof. intros H. unfold fdiv. destruct (decide (y = 0)); [contradiction | reflexivity]. Qed.

Lemma clamp_bounds (v lo hi : R) :
  lo <= hi -> lo <= constants.clamp v lo hi <= hi.
Proof.
  intros H. unfold constants.clamp, Rmax, Rmin.
  repeat destruct (Rle_dec _ _); lra.
Qed.

Lemma clamp_id (v lo hi : R) : lo <= v <= hi -> constants.clamp v lo hi = v.
Proof.
  intros H. unfold constants.clamp, Rmax, Rmin.
  repeat destruct (Rle_dec _ _); lra.
Qed.

Lemma foldM_cons_inv {A B : Type} (f : A -> B -> result A) (b : B) (r : list B)
    (a z : A) :
  foldM f (b :: r) a = Ok z -> exists a', f a b = Ok a' /\ foldM f r a' = Ok z.
Proof.
  simpl. destruct (f a b) as [a' | e]; simpl; [| discriminate].
  intros Hz. exists a'. split; [reflexivity | exact Hz].
Qed.

Lemma foldM_cons_ok {A B : Type} (f : A -> B -> result A) (b : B) (r : list B)
    (a a' : A) :
  f a b = Ok a' -> foldM f (b :: r) a = foldM f r a'.
Proof. intros Hf. simpl. rewrite Hf. reflexivity. Qed.

Lemma foldM_invariant {A B : Type} (P : A -> Prop) (f : A -> B -> result A)
    (l : list B) :
  (forall a b a', P a -> f a b = Ok a' -> P a') ->
  forall a z, P a -> foldM f l a = Ok z -> P z.
Proof.
  intros Hstep. induction l as [| b l IH]; intros a z Ha Hz.
  - simpl in Hz. inversion Hz; subst. exact Ha.
  - apply foldM_cons_inv in Hz. destruct Hz as (a' & Hf & Hz).
    apply (IH a' z); [eapply Hstep; eassumption | exact Hz].
Qed.

Lemma foldM_total {A B : Type} (P : A -> Prop) (f : A -> B -> result A)
    (l : list B) :
  (forall a b, P a -> exists a', f a b = Ok a' /\ P a') ->
  forall a, P a -> exists z, foldM f l a = Ok z /\ P z.
Proof.
  intros Hstep. induction l as [| b l IH]; intros a Ha.
  - exists a. split; [reflexivity | exact Ha].
  - destruct (Hstep a b Ha) as (a' & Hf & Ha').
    destruct (IH a' Ha') as (z & Hz & Pz).
    exists z. split; [| exact Pz].
    rewrite (foldM_cons_ok _ _ _ _ _ Hf). exact Hz.
Qed.

Lemma foldM_total_in {A B : Type} (P : A -> Prop) (f : A -> B -> result A)
    (l : list B) :
  (forall a b, b ∈ l -> P a -> exists a', f a b = Ok a' /\ P a') ->
  forall a, P a -> exists z, foldM f l a = Ok z /\ P z.
Proof.
  induction l as [| b l IH]; intros Hstep a Ha.
  - exists a. split; [reflexivity | exact Ha].
  - destruct (Hstep a b) as (a' & Hf & Ha'); [apply elem_of_cons; left; reflexivity | exact Ha |].
    destruct (IH (fun a0 b0 Hin => Hstep a0 b0 (proj2 (elem_of_cons l b0 b) (or_intror Hin)))
                a' Ha') as (z & Hz & Pz).
    exists z. split; [| exact Pz].
    rewrite (foldM_cons_ok _ _ _ _ _ Hf). exact Hz.
Qed.

Lemma bind_Ok {A B : Type} (a : A) (k : A -> result B) : (Ok a ≫= k) = k a.
Proof. reflexivity. Qed.

Lemma foldM_cons_raise {A B : Type} (f : A -> B -> result A) (b : B) (r : list B)
    (a : A) (e : PyErr) :
  f a b = Raise e -> foldM f (b :: r) a = Raise e.
Proof. intros Hf. simpl. rewrite Hf. reflexivity. Qed.

End PreludeFacts.

(** ** Construction *)

Section ConstructionFacts.
Import constants energy_model channel_model fire_simulation physics_engine.

Lemma bind_Ok_inv {A B : Type} (c : result A) (k : A -> result B) (b : B) :
  (c ≫= k) = Ok b -> exists a, c = Ok a /\ k a = Ok b.
Proof. destruct c as [a | e]; simpl; [eauto | discriminate]. Qed.

(** A generator exists for the seeds NumPy accepts, and for no other. *)
Lemma random_state_init_inv (seed : Z) (r : RandomState) :
  RandomState.init seed = Ok r ->
  (0 <= seed < 2 ^ 32)%Z /\ r = {| rs_seed := seed; rs_drawn := 0 |}.
Proof.
  unfold RandomState.init. destruct (decide _) as [Hs | _]; [| discriminate].
  intros Heq. inversion Heq. split; [exact Hs | reflexivity].
Qed.

Lemma random_state_init_ok (seed : Z) :
  (0 <= seed < 2 ^ 32)%Z ->
  RandomState.init seed = Ok {| rs_seed := seed; rs_drawn := 0 |}.
Proof.
  intros Hs. unfold RandomState.init. destruct (decide _); [reflexivity | contradiction].
Qed.

Lemma random_state_init_bad (seed : Z) :
  ~ (0 <= seed < 2 ^ 32)%Z -> RandomState.init seed = Raise ValueError.
Proof.
  intros Hs. unfold RandomState.init. destruct (decide _); [contradiction | reflexivity].
Qed.

Lemma fire_init_inv (w h : Z) (cs : R) (seed : Z) (s : FireSimulation) :
  FireSimulation.init w h cs seed = Ok s ->
  (0 <= seed < 2 ^ 32)%Z /\
  width s = w /\ height s = h /\ cell_size_m s = cs /\
  fire_simulation.rng s = {| rs_seed := seed; rs_drawn := 0 |} /\
  wind_model s = WindModel.default /\
  fire_simulation.ticks s = 0%Z /\ fire_simulation.time_us s = 0%Z /\
  total_burned_cells s = 0%Z /\
  forall x y,
    grid s y x
    = {| cell_x := x; cell_y := y; state := NO_FIRE; intensity := 0.0;
         fuel_density := FUEL_DENSITY_FACTOR; temperature_k := 293.0;
         ignition_time_us := 0; suppression_age_ticks := 0 |}.
Proof.
  unfold FireSimulation.init. intros Hinit.
  apply bind_Ok_inv in Hinit. destruct Hinit as (r & Hr & Heq).
  apply random_state_init_inv in Hr. destruct Hr as (Hs & ->).
  destruct (decide _); [discriminate |].
  inversion Heq. cbn. split; [exact Hs |]. repeat split; reflexivity.
Qed.

Lemma fire_init_dims (w h : Z) (cs : R) (seed : Z) (s : FireSimulation) :
  FireSimulation.init w h cs seed = Ok s -> (0 <= w)%Z /\ (0 <= h)%Z.
Proof.
  unfold FireSimulation.init. intros Hinit.
  apply bind_Ok_inv in Hinit. destruct Hinit as (r & _ & Heq).
  destruct (decide _); [discriminate | lia].
Qed.

Lemma fire_init_ok (w h : Z) (cs : R) (seed : Z) :
  (0 <= seed < 2 ^ 32)%Z -> (0 <= w)%Z -> (0 <= h)%Z ->
  exists s, FireSimulation.init w h cs seed = Ok s.
Proof.
  intros Hs Hw Hh. unfold FireSimulation.init. rewrite (random_state_init_ok seed Hs).
  rewrite bind_Ok. destruct (decide _); [lia | eauto].
Qed.

Lemma channel_init_inv (seed : Z) (c : ChannelManager) :
  ChannelManager.init seed = Ok c ->
  (0 <= seed < 2 ^ 32)%Z /\
  channel_model.seed c = seed /\
  path_loss_model c = PathLossModel.default /\
  fading_channel c
  = {| k_factor := RICE_K_FACTOR; fading_std_db := FADING_STD_DB;
       channel_model.rng := {| rs_seed := seed; rs_drawn := 0 |} |} /\
  links c = ∅.
Proof.
  unfold ChannelManager.init, RiceFadingChannel.init. intros Hinit.
  apply bind_Ok_inv in Hinit. destruct Hinit as (fc & Hfc & Heq).
  apply bind_Ok_inv in Hfc. destruct Hfc as (r & Hr & Hfc).
  apply random_state_init_inv in Hr. destruct Hr as (Hs & ->).
  inversion Hfc; subst fc. inversion Heq. cbn. split; [exact Hs |].
  repeat split; reflexivity.
Qed.

Lemma channel_init_ok (seed : Z) :
  (0 <= seed < 2 ^ 32)%Z -> exists c, ChannelManager.init seed = Ok c.
Proof.
  intros Hs. unfold ChannelManager.init, RiceFadingChannel.init.
  rewrite (random_state_init_ok seed Hs). simpl. eauto.
Qed.

Lemma physics_init_inv (n seed : Z) (pe : PhysicsEngine) :
  PhysicsEngine.init n seed = Ok pe ->
  (0 <= seed < 2 ^ 32)%Z /\
  FireSimulation.init FIRE_GRID_WIDTH FIRE_GRID_HEIGHT FIRE_CELL_SIZE_M seed
  = Ok (fire_sim pe) /\
  ChannelManager.init seed = Ok (channel_mgr pe) /\
  energy_mgrs pe
  = fold_left (fun (m : gmap Z EnergyManager) id => <[id := EnergyManager.default]> m)
      (py_range 1 (n + 1)) ∅ /\
  drone_positions pe
  = fold_left
      (fun (m : gmap Z DronePosition) id =>
         <[id := {| pos_drone_id := id; pos_x := 0; pos_y := 0; pos_z := 0;
                    pos_vx := 0; pos_vy := 0; pos_vz := 0;
                    pos_heading_deg := 0 |}]> m)
      (py_range 1 (n + 1)) ∅ /\
  num_drones pe = n /\ pe_ticks pe = 0%Z /\ pe_time_us pe = 0%Z.
Proof.
  unfold PhysicsEngine.init. intros Hinit.
  apply bind_Ok_inv in Hinit. destruct Hinit as (r & Hr & Hinit).
  apply bind_Ok_inv in Hinit. destruct Hinit as (f & Hf & Hinit).
  apply bind_Ok_inv in Hinit. destruct Hinit as (c & Hc & Heq).
  apply random_state_init_inv in Hr. destruct Hr as (Hs & _).
  inversion Heq. cbn. split; [exact Hs |]. split; [exact Hf |]. split; [exact Hc |].
  repeat split; reflexivity.
Qed.

Lemma physics_init_ok (n seed : Z) :
  (0 <= seed < 2 ^ 32)%Z -> exists pe, PhysicsEngine.init n seed = Ok pe.
Proof.
  intros Hs. unfold PhysicsEngine.init.
  destruct (fire_init_ok FIRE_GRID_WIDTH FIRE_GRID_HEIGHT FIRE_CELL_SIZE_M seed Hs)
    as (f & Hf); [unfold FIRE_GRID_WIDTH; lia | unfold FIRE_GRID_HEIGHT; lia |].
  destruct (channel_init_ok seed Hs) as (c & Hc).
  rewrite (random_state_init_ok seed Hs), bind_Ok, Hf, bind_Ok, Hc, bind_Ok. eauto.
Qed.

End ConstructionFacts.

(** ** Battery and payload (energy_model.py) *)

Section EnergyFacts.
Import constants energy_model.

Lemma init_total_pos (cap v : R) :
  0 < cap -> 0 < v -> 0 < total_energy_wh (BatteryModel.init cap v).
Proof. intros Hc Hv. simpl. apply Rmult_lt_0_compat; lra. Qed.

Lemma init_wf (cap v : R) : 0 < cap -> 0 < v -> battery_wf (BatteryModel.init cap v).
Proof.
  intros Hc Hv. pose proof (init_total_pos cap v Hc Hv) as Ht.
  unfold battery_wf. simpl in *. lra.
Qed.

Lemma get_state_percent (b : BatteryModel) :
  total_energy_wh b <> 0 -> nominal_voltage_v b <> 0 ->
  exists st, BatteryModel.get_state b = Ok st /\
    battery_percent st =
      clamp (remaining_energy_wh b / total_energy_wh b * 100.0) 0.0 100.0 /\
    critical st = bool_decide (battery_percent st < BATTERY_MIN_PERCENT).
Proof.
  intros Ht Hv. unfold BatteryModel.get_state.
  rewrite (fdiv_ok _ _ Ht). simpl.
  destruct (decide (0 < nominal_drain_rate b)) as [Hr | Hr].
  - rewrite (fdiv_ok _ (total_energy_wh b * nominal_drain_rate b))
      by (apply Rmult_integral_contrapositive; split; lra).
    simpl. rewrite (fdiv_ok _ _ Hv). simpl. eexists. split; [reflexivity |].
    simpl. split; reflexivity.
  - simpl. rewrite (fdiv_ok _ _ Hv). simpl. eexists. split; [reflexivity |].
    simpl. split; reflexivity.
Qed.

Lemma should_rtl_override_spec (m : EnergyManager) :
  total_energy_wh (battery m) <> 0 -> nominal_voltage_v (battery m) <> 0 ->
  EnergyManager.should_rtl_override m =
    Ok (if decide (clamp (remaining_energy_wh (battery m)
                          / total_energy_wh (battery m) * 100.0) 0.0 100.0 < 20)
        then (true, "battery_critical"%string)
        else if decide (payload_units (payload m) <= 0)
             then (true, "payload_empty"%string)
             else (false, "none"%string)).
Proof.
  intros Ht Hv.
  destruct (get_state_percent _ Ht Hv) as (st & Hst & Hp & Hc).
  unfold EnergyManager.should_rtl_override, BatteryModel.is_critical.
  rewrite Hst. simpl. rewrite Hc, Hp. unfold BATTERY_MIN_PERCENT.
  unfold PayloadModel.is_empty.
  destruct (decide (clamp _ _ _ < 20)) as [H | H].
  - rewrite bool_decide_eq_true_2 by lra. reflexivity.
  - rewrite bool_decide_eq_false_2 by lra.
    destruct (decide (payload_units (payload m) <= 0)) as [He | He].
    + rewrite bool_decide_eq_true_2 by exact He. reflexivity.
    + rewrite bool_decide_eq_false_2 by exact He. reflexivity.
Qed.

Lemma apply_op_total (m : EnergyManager) (o : energy_op) :
  total_energy_wh (battery (apply_op m o)) = total_energy_wh (battery m).
Proof. destruct o; reflexivity. Qed.

Lemma apply_op_wf (m : EnergyManager) (o : energy_op) :
  op_nonneg o -> battery_wf (battery m) -> battery_wf (battery (apply_op m o)).
Proof.
  unfold battery_wf. intros Ho [Ht Hr].
  destruct o; simpl in *;
    unfold clamp, Rmax, Rmin, ENERGY_DRAIN_PER_METER, ENERGY_DRAIN_HOVER_PER_SEC;
    repeat destruct (Rle_dec _ _); simpl; try lra.
  all: try (destruct Ho as [Hd Ha];
            assert (0 <= distance_m * aggressiveness) by (apply Rmult_le_pos; lra); nra).
  all: try (destruct Ho as (Hd & Hh & Ha);
            assert (0 <= distance_m * aggressiveness) by (apply Rmult_le_pos; lra); nra).
Qed.

Lemma run_ops_wf (ops : list energy_op) (m : EnergyManager) :
  Forall op_nonneg ops -> battery_wf (battery m) ->
  battery_wf (battery (run_ops m ops)).
Proof.
  unfold run_ops. revert m.
  induction ops as [| o ops IH]; intros m Hall Hwf; simpl; [exact Hwf |].
  inversion Hall; subst. apply IH; [assumption |]. apply apply_op_wf; assumption.
Qed.

Lemma drain_flight_le (b : BatteryModel) (d a : R) :
  0 <= d -> 0 <= a -> 0 <= remaining_energy_wh b ->
  0 <= remaining_energy_wh (fst (BatteryModel.drain_flight b d a))
    <= remaining_energy_wh b.
Proof.
  intros Hd Ha Hr. simpl. unfold ENERGY_DRAIN_PER_METER, Rmax.
  assert (0 <= d * a) by (apply Rmult_le_pos; lra).
  destruct (Rle_dec _ _); nra.
Qed.

Lemma drain_hover_le (b : BatteryModel) (t : R) :
  0 <= t -> 0 <= remaining_energy_wh b ->
  0 <= remaining_energy_wh (fst (BatteryModel.drain_hover b t))
    <= remaining_energy_wh b.
Proof.
  intros Hd Hr. simpl. unfold ENERGY_DRAIN_HOVER_PER_SEC, Rmax.
  destruct (Rle_dec _ _); nra.
Qed.

Lemma dock_full (m : EnergyManager) :
  0 < total_energy_wh (battery m) -> nominal_voltage_v (battery m) <> 0 ->
  exists st, BatteryModel.get_state (battery (EnergyManager.dock m)) = Ok st /\
             battery_percent st = 100 /\
             payload_units (payload (EnergyManager.dock m))
               = max_payload_units (payload m).
Proof.
  intros Ht Hv.
  destruct (get_state_percent (battery (EnergyManager.dock m))) as (st & Hst & Hp & _).
  - simpl. lra.
  - simpl. exact Hv.
  - exists st. split; [exact Hst |]. split; [| reflexivity].
    rewrite Hp. simpl.
    assert (Hfull : clamp (100.0 / 100.0 * total_energy_wh (battery m)) 0.0
                      (total_energy_wh (battery m)) = total_energy_wh (battery m)).
    { rewrite clamp_id; lra. }
    rewrite Hfull.
    assert (Hone : total_energy_wh (battery m) / total_energy_wh (battery m) = 1).
    { unfold Rdiv. apply Rinv_r. lra. }
    rewrite Hone. rewrite clamp_id; lra.
Qed.

End EnergyFacts.

(** ** Path loss (channel_model.py) *)

Section PathLossFacts.
Import constants channel_model.

Lemma ln_10_pos : 0 < ln 10.
Proof. rewrite <- ln_1. apply ln_increasing; lra. Qed.

Lemma math_log10_ok (x : R) : 0 < x -> math_log10 x = Ok (ln x / ln 10).
Proof. intros H. unfold math_log10. destruct (decide (0 < x)); [reflexivity | contradiction]. Qed.

Lemma calculate_path_loss_pos (plm : PathLossModel) (d : R) :
  0 < reference_distance_m plm -> 0 < d ->
  PathLossModel.calculate_path_loss plm d =
    Ok (10.0 * path_loss_exponent plm * (ln (d / reference_distance_m plm) / ln 10)).
Proof.
  intros H0 Hd. unfold PathLossModel.calculate_path_loss.
  destruct (decide (d <= 0)) as [Hle | _]; [lra |].
  rewrite fdiv_ok by lra. simpl.
  rewrite math_log10_ok by (apply Rdiv_lt_0_compat; assumption).
  reflexivity.
Qed.

Lemma calculate_path_loss_reference (plm : PathLossModel) :
  PathLossModel.calculate_path_loss plm (reference_distance_m plm) = Ok 0.
Proof.
  unfold PathLossModel.calculate_path_loss.
  destruct (decide (reference_distance_m plm <= 0)) as [Hle | Hgt].
  - f_equal. lra.
  - rewrite fdiv_ok by lra. simpl.
    replace (reference_distance_m plm / reference_distance_m plm) with 1
      by (field; lra).
    rewrite math_log10_ok by lra. simpl. f_equal. rewrite ln_1. unfold Rdiv. ring.
Qed.

End PathLossFacts.

(** ** DETM gate (detm_controller.py) *)

Section DetmFacts.
Import constants detm_controller.

Lemma Rmax_0_abs (a b : R) : 0 <= a -> 0 <= b -> Rmax a b = 0 -> a = 0 /\ b = 0.
Proof. unfold Rmax. destruct (Rle_dec a b); lra. Qed.

Lemma min_eta_pos (e : R) : 0 < Rmax e DETM_MIN_ETA.
Proof.
  unfold DETM_MIN_ETA.
  pose proof (Rmax_r e 0.01). lra.
Qed.


Lemma chosen_norm_same (st : DetmState) :
  chosen_norm st (last_transmitted_state st) = 0.
Proof.
  unfold chosen_norm, norm_l2, norm_linf.
  destruct (last_transmitted_state st) as [[[[[x y] z] vx] vy] vz].
  destruct (decide _).
  - replace ((x - x) ^ 2 + (y - y) ^ 2 + (z - z) ^ 2
             + (vx - vx) ^ 2 + (vy - vy) ^ 2 + (vz - vz) ^ 2) with 0 by ring.
    apply sqrt_0.
  - replace (x - x) with 0 by ring. replace (y - y) with 0 by ring.
    replace (z - z) with 0 by ring. replace (vx - vx) with 0 by ring.
    replace (vy - vy) with 0 by ring. replace (vz - vz) with 0 by ring.
    rewrite Rabs_R0. unfold Rmax. repeat destruct (Rle_dec _ _); lra.
Qed.

Lemma threshold_pos (st : DetmState) (time_us : Z) : 0 < threshold st time_us.
Proof. unfold threshold. rewrite Rmax_comm. apply min_eta_pos. Qed.

Lemma should_transmit_error (st : DetmState) (s6 : state6) :
  (if decide (norm_type st = "l2"%string)
   then Ok (DETMController._calculate_error_l2 (tuple_items s6)
              (tuple_items (last_transmitted_state st)))
   else DETMController._calculate_error_linf (tuple_items s6)
          (tuple_items (last_transmitted_state st)))
  = Ok (Finite (chosen_norm st s6)).
Proof.
  unfold chosen_norm, norm_l2, norm_linf.
  destruct s6 as [[[[[x y] z] vx] vy] vz].
  destruct (last_transmitted_state st) as [[[[[x0 y0] z0] vx0] vy0] vz0].
  destruct (decide _).
  - unfold DETMController._calculate_error_l2, py_sum. simpl.
    do 3 f_equal. ring.
  - reflexivity.
Qed.

Lemma should_transmit_registered (c : DETMController) (id time_us : Z)
    (x y z vx vy vz : R) (st : DetmState) :
  states c !! id = Some st ->
  exists c',
    DETMController.should_transmit c id time_us x y z vx vy vz
      = Ok (c', (bool_decide (threshold st time_us
                              < chosen_norm st (x, y, z, vx, vy, vz)),
                 threshold st time_us)).
Proof.
  intros Hst. unfold DETMController.should_transmit. rewrite Hst.
  assert (Heta : Rmax (eta0 st * exp (- lambda_decay st
                         * (IZR (time_us - last_transmitted_time_us st) / 1e6)))
                   DETM_MIN_ETA = threshold st time_us).
  { unfold threshold. apply Rmax_comm. }
  rewrite Heta, (should_transmit_error st (x, y, z, vx, vy, vz)), bind_Ok.
  eexists. reflexivity.
Qed.

End DetmFacts.

Section PathLossClaims.
Import constants channel_model.

(** Claim C5. For a path-loss model with a positive reference distance and
    a non-negative exponent, [calculate_path_loss] returns a value at both
    of two distances [0 < d1 <= d2], the value at [d1] is at most the value
    at [d2], and the loss at the reference distance is 0. *)
Theorem path_loss_monotone (plm : PathLossModel) (d1 d2 : R) :
  0 < reference_distance_m plm ->
  0 <= path_loss_exponent plm ->
  0 < d1 <= d2 ->
  (exists p1 p2,
      PathLossModel.calculate_path_loss plm d1 = Ok p1 /\
      PathLossModel.calculate_path_loss plm d2 = Ok p2 /\
      p1 <= p2) /\
  PathLossModel.calculate_path_loss plm (reference_distance_m plm) = Ok 0.
Proof.
  intros H0 Hn [Hd1 Hd12]. split; [| apply calculate_path_loss_reference].
  do 2 eexists. split; [apply calculate_path_loss_pos; lra |].
  split; [apply calculate_path_loss_pos; lra |].
  assert (Hq1 : 0 < d1 / reference_distance_m plm) by (apply Rdiv_lt_0_compat; lra).
  assert (Hq : d1 / reference_distance_m plm <= d2 / reference_distance_m plm).
  { unfold Rdiv. apply Rmult_le_compat_r; [| exact Hd12].
    left. apply Rinv_0_lt_compat. exact H0. }
  assert (Hln : ln (d1 / reference_distance_m plm) <= ln (d2 / reference_distance_m plm)).
  { destruct Hq as [Hlt | Heq].
    - left. apply ln_increasing; assumption.
    - rewrite Heq. lra. }
  pose proof ln_10_pos as H10.
  assert (Hdiv : ln (d1 / reference_distance_m plm) / ln 10
                 <= ln (d2 / reference_distance_m plm) / ln 10).
  { unfold Rdiv. apply Rmult_le_compat_r; [| exact Hln].
    left. apply Rinv_0_lt_compat. exact H10. }
  apply Rmult_le_compat_l; [lra | exact Hdiv].
Qed.

Lemma path_loss_monotone_witness :
  (exists p1 p2,
      PathLossModel.calculate_path_loss PathLossModel.default 1 = Ok p1 /\
      PathLossModel.calculate_path_loss PathLossModel.default 10 = Ok p2 /\
      p1 <= p2) /\
  PathLossModel.calculate_path_loss PathLossModel.default
    (reference_distance_m PathLossModel.default) = Ok 0.
Proof.
  apply (path_loss_monotone PathLossModel.default 1 10);
    simpl; unfold REFERENCE_DISTANCE_M, PATH_LOSS_EXPONENT; lra.
Defined.

End PathLossClaims.

Section DetmClaims.
Import constants detm_controller.

(** Claim C3. For a registered drone, [should_transmit] returns the
    threshold [max(eta_MIN, eta0 * exp(-lambda * (t - t_last) / 1e6))] and
    the decision is true exactly when the drone's norm (L2 or L-infinity)
    of the difference to the last transmitted tuple exceeds it; a query
    with the last transmitted tuple itself is answered false at every
    time. *)
Theorem should_transmit_threshold (c : DETMController) (id time_us : Z)
    (x y z vx vy vz : R) (st : DetmState) :
  states c !! id = Some st ->
  exists c' b,
    DETMController.should_transmit c id time_us x y z vx vy vz
      = Ok (c', (b, threshold st time_us)) /\
    (b = true <-> threshold st time_us < chosen_norm st (x, y, z, vx, vy, vz)) /\
    ((x, y, z, vx, vy, vz) = last_transmitted_state st -> b = false).
Proof.
  intros Hst.
  destruct (should_transmit_registered c id time_us x y z vx vy vz st Hst) as (c' & Hok).
  exists c', (bool_decide (threshold st time_us < chosen_norm st (x, y, z, vx, vy, vz))).
  split; [exact Hok |]. split.
  - rewrite bool_decide_eq_true. reflexivity.
  - intros Hsame. apply bool_decide_eq_false.
    rewrite Hsame, chosen_norm_same.
    pose proof (threshold_pos st time_us). lra.
Qed.

Lemma should_transmit_threshold_witness :
  let c := DETMController.register_drone DETMController.init 1 0.5 0.1 "l2" in
  exists st, states c !! 1%Z = Some st /\
  exists c' b,
    DETMController.should_transmit c 1 100000 0 0 0 0 0 0
      = Ok (c', (b, threshold st 100000)) /\
    (b = true <-> threshold st 100000 < chosen_norm st (0, 0, 0, 0, 0, 0)) /\
    ((0, 0, 0, 0, 0, 0) = last_transmitted_state st -> b = false).
Proof.
  intros c. eexists. split; [apply lookup_insert_eq |].
  apply should_transmit_threshold. apply lookup_insert_eq.
Defined.

(** Claim C10. For a drone id that is not registered, [should_transmit]
    answers [(True, DETM_ETA0)] and [record_transmission] returns at once:
    both leave the controller as it was. *)
Theorem unregistered_drone_defaults (c : DETMController) (id time_us : Z)
    (x y z vx vy vz : R) :
  states c !! id = None ->
  DETMController.should_transmit c id time_us x y z vx vy vz
    = Ok (c, (true, DETM_ETA0)) /\
  DETMController.record_transmission c id time_us x y z vx vy vz = c.
Proof.
  intros Hnone.
  unfold DETMController.should_transmit, DETMController.record_transmission.
  rewrite Hnone. split; reflexivity.
Qed.

Lemma unregistered_drone_defaults_witness :
  DETMController.should_transmit DETMController.init 7 0 1 2 3 0 0 0
    = Ok (DETMController.init, (true, DETM_ETA0)) /\
  DETMController.record_transmission DETMController.init 7 0 1 2 3 0 0 0
    = DETMController.init.
Proof.
  apply (unregistered_drone_defaults DETMController.init 7 0 1 2 3 0 0 0).
  apply lookup_empty.
Defined.

End DetmClaims.

(** ** Distributed observer (distributed_observer.py) *)

Section DictFacts.
Context {V : Type}.

Lemma dict_get_set_eq (d : list (Z * V)) (k : Z) (v : V) :
  dict_get (dict_set d k v) k = Some v.
Proof.
  induction d as [| [k' v'] d IH]; simpl.
  - destruct (decide (k = k)); [reflexivity | contradiction].
  - destruct (decide (k' = k)) as [-> | Hne]; simpl.
    + destruct (decide (k = k)); [reflexivity | contradiction].
    + destruct (decide (k' = k)); [contradiction | exact IH].
Qed.

Lemma dict_get_set_ne (d : list (Z * V)) (k k' : Z) (v : V) :
  k <> k' -> dict_get (dict_set d k v) k' = dict_get d k'.
Proof.
  intros Hne. induction d as [| [k1 v1] d IH]; simpl.
  - destruct (decide (k = k')); [contradiction | reflexivity].
  - destruct (decide (k1 = k)) as [-> | Hne1]; simpl.
    + destruct (decide (k = k')); [contradiction | reflexivity].
    + destruct (decide (k1 = k')); [reflexivity | exact IH].
Qed.

End DictFacts.

Section ObserverFacts.
Import distributed_observer.

Lemma confidence_at_mono (a b : Z) : (a <= b)%Z -> confidence_at b <= confidence_at a.
Proof.
  intros Hab. unfold confidence_at. apply IZR_le in Hab.
  unfold Rmin. repeat destruct (Rle_dec _ _); lra.
Qed.

(** The age of the estimate an observer holds for a neighbor. *)
Lemma predict_known (self : DistributedObserver) (o n t : Z) (e : NeighborEstimate) :
  estimate_of self o n = Some e ->
  exists self' x y z e',
    DistributedObserver.predict_neighbor_state self o n t
      = (self', Some (x, y, z, confidence_at (estimate_age_ticks e + 1))) /\
    estimate_of self' o n = Some e' /\
    estimate_age_ticks e' = (estimate_age_ticks e + 1)%Z /\
    estimate_confidence e' = confidence_at (estimate_age_ticks e + 1).
Proof.
  unfold estimate_of, DistributedObserver.predict_neighbor_state.
  destruct (local_states self !! o) as [os |] eqn:Hos; [| discriminate].
  intros He. rewrite He.
  do 5 eexists. split; [| split; [| split]].
  - f_equal. f_equal. f_equal. unfold confidence_at. simpl.
    replace 1.0 with 1 by lra. reflexivity.
  - simpl. rewrite lookup_insert_eq. simpl. apply dict_get_set_eq.
  - reflexivity.
  - unfold confidence_at. simpl. replace 1.0 with 1 by lra. reflexivity.
Qed.

Lemma predict_unknown (self : DistributedObserver) (o n t : Z) :
  estimate_of self o n = None ->
  DistributedObserver.predict_neighbor_state self o n t = (self, None).
Proof.
  unfold estimate_of, DistributedObserver.predict_neighbor_state.
  destruct (local_states self !! o) as [os |]; [| reflexivity].
  intros ->. reflexivity.
Qed.

(** A prediction for any pair never makes another estimate younger. *)
Lemma predict_ages (self : DistributedObserver) (o' n' t : Z) (o n : Z)
    (e : NeighborEstimate) :
  estimate_of self o n = Some e ->
  exists e',
    estimate_of (fst (DistributedObserver.predict_neighbor_state self o' n' t)) o n
      = Some e' /\
    (estimate_age_ticks e <= estimate_age_ticks e')%Z.
Proof.
  intros He.
  destruct (estimate_of self o' n') as [e0 |] eqn:He0.
  - destruct (decide (o' = o /\ n' = n)) as [[-> ->] | Hne].
    + destruct (predict_known self o n t e He) as (s' & x & y & z & e' & Hp & He' & Ha & _).
      rewrite Hp. simpl. exists e'. split; [exact He' | lia].
    + exists e. split; [| lia].
      unfold estimate_of, DistributedObserver.predict_neighbor_state in *.
      destruct (local_states self !! o') as [os' |] eqn:Hos'; [| discriminate].
      rewrite He0. simpl.
      destruct (decide (o' = o)) as [-> | Ho].
      * rewrite lookup_insert_eq. simpl. rewrite Hos' in He.
        rewrite dict_get_set_ne; [exact He |]. intros ->. apply Hne. split; reflexivity.
      * rewrite lookup_insert_ne by exact Ho. exact He.
  - rewrite (predict_unknown self o' n' t He0). simpl. exists e. split; [exact He | lia].
Qed.

Lemma separation_fst (self : DistributedObserver) (o n t : Z) (x y z : R) :
  fst (DistributedObserver.get_separation_to_neighbor self o n t x y z)
  = fst (DistributedObserver.predict_neighbor_state self o n t).
Proof.
  unfold DistributedObserver.get_separation_to_neighbor.
  destruct (DistributedObserver.predict_neighbor_state self o n t) as [s' [[[[a b] c] d] |]];
    reflexivity.
Qed.

Lemma collision_fold_ages (o' t : Z) (x y z m : R) (o n : Z)
    (items : list (Z * NeighborEstimate)) :
  forall (acc : DistributedObserver * list (Z * R)) (e : NeighborEstimate),
    estimate_of (fst acc) o n = Some e ->
    exists e',
      estimate_of
        (fst (fold_left
           (fun (acc : DistributedObserver * list (Z * R)) (item : Z * NeighborEstimate) =>
              let '(obs, risky_neighbors) := acc in
              let nid := fst item in
              match DistributedObserver.get_separation_to_neighbor obs o' nid t x y z with
              | (obs', Some separation) =>
                  if decide (separation < m)
                  then (obs', risky_neighbors ++ [(nid, separation)])
                  else (obs', risky_neighbors)
              | (obs', None) => (obs', risky_neighbors)
              end) items acc)) o n = Some e' /\
      (estimate_age_ticks e <= estimate_age_ticks e')%Z.
Proof.
  induction items as [| item items IH]; intros [obs risky] e He; simpl in *.
  - exists e. split; [exact He | lia].
  - destruct (predict_ages obs o' (fst item) t o n e He) as (e1 & He1 & Hle1).
    rewrite <- separation_fst with (x := x) (y := y) (z := z) in He1.
    destruct (DistributedObserver.get_separation_to_neighbor obs o' (fst item) t x y z)
      as [obs' [sep |]]; simpl in He1.
    + destruct (decide (sep < m)).
      * destruct (IH (obs', risky ++ [(fst item, sep)]) e1 He1) as (e' & He' & Hle').
        exists e'. split; [exact He' | lia].
      * destruct (IH (obs', risky) e1 He1) as (e' & He' & Hle').
        exists e'. split; [exact He' | lia].
    + destruct (IH (obs', risky) e1 He1) as (e' & He' & Hle').
      exists e'. split; [exact He' | lia].
Qed.

Lemma run_query_ages (self : DistributedObserver) (q : observer_query) (o n : Z)
    (e : NeighborEstimate) :
  estimate_of self o n = Some e ->
  exists e', estimate_of (run_query self q) o n = Some e' /\
             (estimate_age_ticks e <= estimate_age_ticks e')%Z.
Proof.
  intros He. destruct q as [o' n' t | o' n' t x y z | o' t x y z m |]; simpl.
  - apply predict_ages. exact He.
  - rewrite separation_fst. apply predict_ages. exact He.
  - unfold DistributedObserver.check_collision_risk.
    destruct (local_states self !! o') as [os' |].
    + apply (collision_fold_ages o' t x y z m o n (neighbors os') (self, []) e He).
    + exists e. split; [exact He | lia].
  - exists e. split; [exact He | lia].
Qed.

Lemma run_queries_ages (qs : list observer_query) :
  forall (self : DistributedObserver) (o n : Z) (e : NeighborEstimate),
    estimate_of self o n = Some e ->
    exists e', estimate_of (run_queries self qs) o n = Some e' /\
               (estimate_age_ticks e <= estimate_age_ticks e')%Z.
Proof.
  unfold run_queries.
  induction qs as [| q qs IH]; intros self o n e He; simpl.
  - exists e. split; [exact He | lia].
  - destruct (run_query_ages self q o n e He) as (e1 & He1 & Hle1).
    destruct (IH (run_query self q) o n e1 He1) as (e' & He' & Hle').
    exists e'. split; [exact He' | lia].
Qed.

End ObserverFacts.

Section ObserverClaims.
Import distributed_observer.

(** Claim C8. A [predict_neighbor_state] call on a pair the observer tracks
    ages the estimate by one tick and returns the confidence
    [1 - 0.8 * min(age / 100, 1)] of the new age; after any further
    predictions, separation queries, collision checks and observer steps
    (for any pairs, at any times) and no [update_neighbor], the next
    prediction for the pair returns a confidence that is not larger. *)
Theorem confidence_non_increasing (self : DistributedObserver) (o n t1 t2 : Z)
    (qs : list observer_query) (e : NeighborEstimate) :
  estimate_of self o n = Some e ->
  exists self1 x1 y1 z1 c1 e1 self2 x2 y2 z2 c2,
    DistributedObserver.predict_neighbor_state self o n t1
      = (self1, Some (x1, y1, z1, c1)) /\
    estimate_of self1 o n = Some e1 /\
    estimate_age_ticks e1 = (estimate_age_ticks e + 1)%Z /\
    c1 = 1 - 0.8 * Rmin (IZR (estimate_age_ticks e1) / 100) 1 /\
    DistributedObserver.predict_neighbor_state (run_queries self1 qs) o n t2
      = (self2, Some (x2, y2, z2, c2)) /\
    c2 <= c1.
Proof.
  intros He.
  destruct (predict_known self o n t1 e He)
    as (self1 & x1 & y1 & z1 & e1 & Hp1 & He1 & Ha1 & _).
  destruct (run_queries_ages qs self1 o n e1 He1) as (e' & He' & Hle).
  destruct (predict_known (run_queries self1 qs) o n t2 e' He')
    as (self2 & x2 & y2 & z2 & e2 & Hp2 & _).
  exists self1, x1, y1, z1, (confidence_at (estimate_age_ticks e + 1)), e1,
    self2, x2, y2, z2, (confidence_at (estimate_age_ticks e' + 1)).
  split; [exact Hp1 |]. split; [exact He1 |]. split; [exact Ha1 |].
  split; [rewrite Ha1; reflexivity |]. split; [exact Hp2 |].
  apply confidence_at_mono. lia.
Qed.

Lemma confidence_non_increasing_witness :
  let self := DistributedObserver.register_drone DistributedObserver.default 1 [2%Z] in
  exists e, estimate_of self 1 2 = Some e /\
  exists self1 x1 y1 z1 c1 e1 self2 x2 y2 z2 c2,
    DistributedObserver.predict_neighbor_state self 1 2 10000
      = (self1, Some (x1, y1, z1, c1)) /\
    estimate_of self1 1 2 = Some e1 /\
    estimate_age_ticks e1 = (estimate_age_ticks e + 1)%Z /\
    c1 = 1 - 0.8 * Rmin (IZR (estimate_age_ticks e1) / 100) 1 /\
    DistributedObserver.predict_neighbor_state
      (run_queries self1 [CollisionRisk 1 20000 0 0 0 10; Predict 1 2 30000]) 1 2 40000
      = (self2, Some (x2, y2, z2, c2)) /\
    c2 <= c1.
Proof.
  intros self. eexists. split.
  - unfold estimate_of, self. simpl. rewrite lookup_insert_eq. reflexivity.
  - apply confidence_non_increasing.
    unfold estimate_of, self. simpl. rewrite lookup_insert_eq. reflexivity.
Defined.

End ObserverClaims.

(** ** Fire grid (fire_simulation.py) *)

Section FireFacts.
Import constants fire_simulation.

Lemma grid_set_eq (g : Z -> Z -> FireCell) (y x : Z) (c : FireCell) :
  grid_set g y x c y x = c.
Proof. unfold grid_set. destruct (decide (y = y /\ x = x)) as [_ | H]; [reflexivity | tauto]. Qed.

Lemma grid_set_ne (g : Z -> Z -> FireCell) (y x y' x' : Z) (c : FireCell) :
  (x', y') <> (x, y) -> grid_set g y x c y' x' = g y' x'.
Proof.
  intros Hne. unfold grid_set.
  destruct (decide (y' = y /\ x' = x)) as [[-> ->] | _]; [congruence | reflexivity].
Qed.

Lemma in_bounds_true (s : FireSimulation) (x y : Z) :
  FireSimulation._in_bounds s x y = true <->
  (0 <= x < width s)%Z /\ (0 <= y < height s)%Z.
Proof.
  unfold FireSimulation._in_bounds.
  rewrite andb_true_iff, !bool_decide_eq_true. reflexivity.
Qed.

End FireFacts.

Section FireClaims.
Import constants fire_simulation distributed_observer.

(** Claim C7. [suppress] on a cell inside the grid returns
    [intensity * strength * SUPPRESSION_EFFECTIVENESS], lowers the cell's
    intensity by that amount but not below 0, and when the new intensity is
    0 the cell becomes [SUPPRESSED] at 300 K with suppression age 0; no
    other cell changes. Outside the grid it returns 0 and the simulation is
    unchanged. *)
Theorem suppress_reduces_intensity (s : FireSimulation) (x y : Z) (strength : R) :
  let cell := grid s y x in
  let s' := fst (FireSimulation.suppress s x y strength) in
  let reduction := snd (FireSimulation.suppress s x y strength) in
  let cell' := grid s' y x in
  if FireSimulation._in_bounds s x y then
    reduction = intensity cell * strength * SUPPRESSION_EFFECTIVENESS /\
    intensity cell' = Rmax 0 (intensity cell - reduction) /\
    (intensity cell' <= 0 ->
       state cell' = SUPPRESSED /\ temperature_k cell' = 300 /\
       suppression_age_ticks cell' = 0%Z) /\
    (forall x' y', (x', y') <> (x, y) -> grid s' y' x' = grid s y' x')
  else
    reduction = 0 /\ s' = s.
Proof.
  unfold FireSimulation.suppress.
  destruct (FireSimulation._in_bounds s x y); simpl.
  - rewrite grid_set_eq. simpl.
    split; [reflexivity |].
    split; [replace 0.0 with 0 by lra; reflexivity |]. split.
    + intros Hz. rewrite bool_decide_eq_true_2 by exact Hz.
      split; [reflexivity |]. split; [lra | reflexivity].
    + intros x' y' Hne. apply grid_set_ne. exact Hne.
  - split; [lra | reflexivity].
Qed.

(** Claim C9, as amended. Invalid arguments never raise. Outside the grid
    [ignite] returns [False], [suppress] returns 0, [get_cell] returns
    [None] and the grid is unchanged. For an observer or neighbor id that is
    not known, [predict_neighbor_state] and [get_separation_to_neighbor]
    return [None] and change nothing; for an unknown observer
    [check_collision_risk] returns the empty list, [get_observer_state]
    returns [None] and [update_neighbor] does nothing. For a known observer
    and an unknown neighbor, [update_neighbor] does change the state: it
    files the message as the estimate of that neighbor, with age 0 and
    confidence 1, and leaves every other estimate as it was. *)
Theorem invalid_arguments_never_raise (s : FireSimulation) (x y : Z)
    (intensity strength : R) (self : DistributedObserver) (o n t : Z)
    (px py pz m vx vy vz : R) :
  FireSimulation._in_bounds s x y = false ->
  estimate_of self o n = None ->
  FireSimulation.ignite s x y intensity = (s, false) /\
  FireSimulation.suppress s x y strength = (s, 0.0) /\
  FireSimulation.get_cell s x y = None /\
  DistributedObserver.predict_neighbor_state self o n t = (self, None) /\
  DistributedObserver.get_separation_to_neighbor self o n t px py pz = (self, None) /\
  (local_states self !! o = None ->
     DistributedObserver.check_collision_risk self o t px py pz m = (self, []) /\
     DistributedObserver.get_observer_state self o = None /\
     DistributedObserver.update_neighbor self o n t px py pz vx vy vz = self) /\
  (is_Some (local_states self !! o) ->
     let self' := DistributedObserver.update_neighbor self o n t px py pz vx vy vz in
     self' <> self /\
     estimate_of self' o n
     = Some {| neighbor_id := n;
               estimated_x := px; estimated_y := py; estimated_z := pz;
               estimated_vx := vx; estimated_vy := vy; estimated_vz := vz;
               estimate_time_us := t;
               estimate_age_ticks := 0;
               estimate_confidence := 1.0;
               velocity_model_stale := false |} /\
     forall o' n', (o', n') <> (o, n) ->
                   estimate_of self' o' n' = estimate_of self o' n').
Proof.
  intros Hoob Hunk.
  unfold FireSimulation.ignite, FireSimulation.suppress, FireSimulation.get_cell.
  rewrite Hoob. simpl.
  do 3 (split; [reflexivity |]).
  split; [apply predict_unknown; exact Hunk |].
  split; [| split].
  - unfold DistributedObserver.get_separation_to_neighbor.
    rewrite (predict_unknown self o n t Hunk). reflexivity.
  - intros Hnone.
    unfold DistributedObserver.check_collision_risk,
      DistributedObserver.get_observer_state, DistributedObserver.update_neighbor.
    rewrite Hnone. repeat split.
  - intros (obs & Hobs). cbv zeta.
    unfold estimate_of in Hunk. rewrite Hobs in Hunk.
    unfold DistributedObserver.update_neighbor. rewrite Hobs, Hunk.
    match goal with
    | |- ?a <> _ /\ estimate_of ?a o n = Some ?e /\ _ =>
        assert (Hnew : estimate_of a o n = Some e)
    end.
    { unfold estimate_of. cbn [local_states with_local_states].
      rewrite lookup_insert_eq. cbn [neighbors with_neighbors].
      apply dict_get_set_eq. }
    split; [| split; [exact Hnew |]].
    + intros Heq. rewrite Heq in Hnew. unfold estimate_of in Hnew.
      rewrite Hobs, Hunk in Hnew. discriminate.
    + intros o' n' Hne. unfold estimate_of. cbn [local_states with_local_states].
      destruct (decide (o = o')) as [<- | Ho].
      * rewrite lookup_insert_eq, Hobs. cbn [neighbors with_neighbors].
        apply dict_get_set_ne. intros ->. apply Hne. reflexivity.
      * rewrite lookup_insert_ne by exact Ho. reflexivity.
Qed.

Lemma invalid_arguments_never_raise_witness :
  exists s,
    FireSimulation.init 100 100 10 42 = Ok s /\
    let self := DistributedObserver.register_drone DistributedObserver.default 1 [2%Z] in
    let self' := DistributedObserver.update_neighbor self 1 7 0 1 2 3 0 0 0 in
    FireSimulation.ignite s (-1) 100 1 = (s, false) /\
    FireSimulation.suppress s (-1) 100 0.8 = (s, 0.0) /\
    FireSimulation.get_cell s (-1) 100 = None /\
    DistributedObserver.predict_neighbor_state self 5 2 0 = (self, None) /\
    DistributedObserver.get_separation_to_neighbor self 5 2 0 1 2 3 = (self, None) /\
    DistributedObserver.check_collision_risk self 5 0 1 2 3 10 = (self, []) /\
    DistributedObserver.get_observer_state self 5 = None /\
    DistributedObserver.update_neighbor self 5 2 0 1 2 3 0 0 0 = self /\
    DistributedObserver.predict_neighbor_state self 1 7 0 = (self, None) /\
    self' <> self /\
    estimate_of self' 1 7
    = Some {| neighbor_id := 7;
              estimated_x := 1; estimated_y := 2; estimated_z := 3;
              estimated_vx := 0; estimated_vy := 0; estimated_vz := 0;
              estimate_time_us := 0;
              estimate_age_ticks := 0;
              estimate_confidence := 1.0;
              velocity_model_stale := false |} /\
    estimate_of self' 1 2 = estimate_of self 1 2.
Proof.
  eexists. split; [reflexivity |]. intros self self'.
  match goal with
  | |- FireSimulation.ignite ?s0 _ _ _ = _ /\ _ =>
      pose proof (invalid_arguments_never_raise s0 (-1) 100 1 0.8 self 5 2 0 1 2 3 10 0 0 0)
        as Hunknown;
      pose proof (invalid_arguments_never_raise s0 (-1) 100 1 0.8 self 1 7 0 1 2 3 10 0 0 0)
        as Hknown
  end.
  assert (Hlocal : local_states self !! 5%Z = None).
  { unfold self. simpl. rewrite lookup_insert_ne by lia. apply lookup_empty. }
  assert (Hobs : is_Some (local_states self !! 1%Z)).
  { unfold self. simpl. rewrite lookup_insert_eq. eauto. }
  destruct Hunknown as (Hi & Hs & Hc & Hp & Hsep & Hnone & _).
  { reflexivity. }
  { unfold estimate_of. rewrite Hlocal. reflexivity. }
  destruct Hknown as (_ & _ & _ & Hp' & _ & _ & Hins).
  { reflexivity. }
  { unfold estimate_of, self. simpl. rewrite lookup_insert_eq. simpl.
    destruct (decide (2 = 7)%Z); [lia | reflexivity]. }
  destruct (Hnone Hlocal) as (Hrisk & Hget & Hupd).
  destruct (Hins Hobs) as (Hne & Hnew & Hframe).
  repeat (split; [assumption |]).
  apply Hframe. intros Heq. inversion Heq.
Defined.

(** Claim C9 fails as stated. An observer registered for drone 1 with the
    neighbor 2 holds no estimate for drone 7, and [predict_neighbor_state]
    for the pair (1, 7) returns [None]. An [update_neighbor] for that
    unknown neighbor raises nothing, but it changes the observer: afterwards
    the observer holds an estimate for drone 7 and [predict_neighbor_state]
    answers with the position of the message. *)
Lemma update_neighbor_inserts_counterexample :
  let self := DistributedObserver.register_drone DistributedObserver.default 1 [2%Z] in
  let self' := DistributedObserver.update_neighbor self 1 7 0 1 2 3 0 0 0 in
  estimate_of self 1 7 = None /\
  DistributedObserver.predict_neighbor_state self 1 7 0 = (self, None) /\
  self' <> self /\
  (exists e, estimate_of self' 1 7 = Some e /\ estimate_confidence e = 1.0) /\
  exists c, snd (DistributedObserver.predict_neighbor_state self' 1 7 0)
            = Some (1, 2, 3, c).
Proof.
  intros self self'.
  assert (Hold : estimate_of self 1 7 = None).
  { unfold estimate_of, self. simpl. rewrite lookup_insert_eq. simpl.
    destruct (decide (2 = 7)%Z); [lia | reflexivity]. }
  assert (Hnew : exists e, estimate_of self' 1 7 = Some e /\ estimate_confidence e = 1.0).
  { unfold estimate_of, self', self, DistributedObserver.update_neighbor. simpl.
    rewrite lookup_insert_eq. simpl.
    destruct (decide (2 = 7)%Z); [lia |]. simpl.
    rewrite lookup_insert_eq. simpl.
    destruct (decide (2 = 7)%Z); [lia |]. simpl.
    destruct (decide (7 = 7)%Z); [| lia]. eexists. split; reflexivity. }
  split; [exact Hold |].
  split; [apply predict_unknown; exact Hold |].
  split; [| split; [exact Hnew |]].
  - intros Heq. destruct Hnew as (e & He & _). rewrite Heq, Hold in He. discriminate.
  - unfold self', self, DistributedObserver.update_neighbor,
      DistributedObserver.predict_neighbor_state. simpl.
    rewrite lookup_insert_eq. simpl.
    destruct (decide (2 = 7)%Z); [lia |]. simpl.
    rewrite lookup_insert_eq. simpl.
    destruct (decide (2 = 7)%Z); [lia |]. simpl.
    destruct (decide (7 = 7)%Z); [| lia]. simpl.
    destruct (bool_decide _); eexists; rewrite !Rmult_0_l, !Rplus_0_r; reflexivity.
Qed.

End FireClaims.

Section EnergyClaims.
Import constants energy_model.

Lemma apply_op_voltage (m : EnergyManager) (o : energy_op) :
  nominal_voltage_v (battery (apply_op m o)) = nominal_voltage_v (battery m).
Proof. destruct o; reflexivity. Qed.

Lemma run_ops_voltage (ops : list energy_op) (m : EnergyManager) :
  nominal_voltage_v (battery (run_ops m ops)) = nominal_voltage_v (battery m).
Proof.
  unfold run_ops. revert m. induction ops as [| o ops IH]; intros m; simpl;
    [reflexivity |]. rewrite IH. apply apply_op_voltage.
Qed.

Lemma apply_op_max_payload (m : EnergyManager) (o : energy_op) :
  max_payload_units (payload (apply_op m o)) = max_payload_units (payload m).
Proof. destruct o; reflexivity. Qed.

Lemma run_ops_max_payload (ops : list energy_op) (m : EnergyManager) :
  max_payload_units (payload (run_ops m ops)) = max_payload_units (payload m).
Proof.
  unfold run_ops. revert m. induction ops as [| o ops IH]; intros m; simpl;
    [reflexivity |]. rewrite IH. apply apply_op_max_payload.
Qed.

(** Claim C6. Take an energy manager constructed with a positive capacity
    and voltage and run any sequence of its operations whose distances,
    durations and energies are not negative. In the state reached, the
    remaining energy lies between 0 and the capacity; a further
    [drain_flight] or [drain_hover] does not raise it and keeps it at or
    above 0; and after [dock] the battery reads 100 percent and the payload
    is at its maximum. *)
Theorem energy_stays_in_bounds (cap v maxp : R) (ops : list energy_op) :
  0 < cap -> 0 < v ->
  Forall op_nonneg ops ->
  let m := run_ops (EnergyManager.init cap v maxp) ops in
  0 <= remaining_energy_wh (battery m) <= total_energy_wh (battery m) /\
  (forall d a, 0 <= d -> 0 <= a ->
     0 <= remaining_energy_wh (fst (BatteryModel.drain_flight (battery m) d a))
       <= remaining_energy_wh (battery m)) /\
  (forall t, 0 <= t ->
     0 <= remaining_energy_wh (fst (BatteryModel.drain_hover (battery m) t))
       <= remaining_energy_wh (battery m)) /\
  (exists st,
     BatteryModel.get_state (battery (EnergyManager.dock m)) = Ok st /\
     battery_percent st = 100) /\
  payload_units (payload (EnergyManager.dock m)) = maxp.
Proof.
  intros Hc Hv Hops m.
  assert (Hwf : battery_wf (battery m)).
  { apply run_ops_wf; [exact Hops |]. apply init_wf; assumption. }
  destruct Hwf as [Ht Hr].
  split; [exact Hr |].
  split; [intros d a Hd Ha; apply drain_flight_le; lra |].
  split; [intros t Hnn; apply drain_hover_le; lra |].
  assert (Hvolt : nominal_voltage_v (battery m) <> 0).
  { unfold m. rewrite run_ops_voltage. simpl. lra. }
  destruct (dock_full m Ht Hvolt) as (st & Hst & Hp & Hpay).
  split; [exists st; split; assumption |].
  rewrite Hpay. unfold m. rewrite run_ops_max_payload. reflexivity.
Qed.

Lemma energy_stays_in_bounds_witness :
  let m := run_ops (EnergyManager.init 5000 14.8 40)
             [UpdateFlight 100 5 1; UpdateSuppression 1; Dock; DrainHover 3600] in
  0 <= remaining_energy_wh (battery m) <= total_energy_wh (battery m) /\
  (forall d a, 0 <= d -> 0 <= a ->
     0 <= remaining_energy_wh (fst (BatteryModel.drain_flight (battery m) d a))
       <= remaining_energy_wh (battery m)) /\
  (forall t, 0 <= t ->
     0 <= remaining_energy_wh (fst (BatteryModel.drain_hover (battery m) t))
       <= remaining_energy_wh (battery m)) /\
  (exists st,
     BatteryModel.get_state (battery (EnergyManager.dock m)) = Ok st /\
     battery_percent st = 100) /\
  payload_units (payload (EnergyManager.dock m)) = 40.
Proof.
  apply (energy_stays_in_bounds 5000 14.8 40
           [UpdateFlight 100 5 1; UpdateSuppression 1; Dock; DrainHover 3600]);
    [lra | lra |].
  repeat constructor; simpl; lra.
Defined.

End EnergyClaims.

(** ** One tick of the fire grid *)

Section RangeFacts.

Lemma elem_of_py_range (a b z : Z) : z ∈ py_range a b <-> (a <= z < b)%Z.
Proof.
  unfold py_range. rewrite list_elem_of_fmap. split.
  - intros (i & -> & Hi). apply elem_of_seq in Hi. lia.
  - intros Hz. exists (Z.to_nat (z - a)). split; [lia |].
    apply elem_of_seq. lia.
Qed.

Lemma NoDup_py_range (a b : Z) : NoDup (py_range a b).
Proof.
  unfold py_range. apply NoDup_fmap_2; [| apply NoDup_seq].
  intros i j Hij. lia.
Qed.

End RangeFacts.

Section SweepFacts.
Context `{NumpyGenerator}.
Import constants fire_simulation.

Lemma elem_of_cells (s : FireSimulation) (x y : Z) :
  (x, y) ∈ FireSimulation.cells s <-> FireSimulation._in_bounds s x y = true.
Proof.
  rewrite in_bounds_true. unfold FireSimulation.cells.
  rewrite list_elem_of_In, in_flat_map. split.
  - intros (y' & Hy' & Hin). apply list_elem_of_In in Hy'. apply in_map_iff in Hin.
    destruct Hin as (x' & Heq & Hx'). apply list_elem_of_In in Hx'.
    inversion Heq; subst. apply elem_of_py_range in Hy', Hx'. lia.
  - intros [Hx Hy]. exists y. split.
    + apply list_elem_of_In, elem_of_py_range. lia.
    + apply in_map_iff. exists x. split; [reflexivity |].
      apply list_elem_of_In, elem_of_py_range. lia.
Qed.

Lemma NoDup_pairs (xs ys : list Z) :
  NoDup xs -> NoDup ys ->
  NoDup (flat_map (fun y => map (fun x => (x, y)) xs) ys).
Proof.
  intros Hxs Hys. induction Hys as [| y ys Hy Hys IH]; simpl; [constructor |].
  apply NoDup_app. split; [| split; [| exact IH]].
  - apply (NoDup_fmap_2 (fun x => (x, y))); exact Hxs.
  - intros [a b] Hin Hin'.
    apply list_elem_of_fmap in Hin. destruct Hin as (x' & Heq & _).
    inversion Heq; subst.
    apply list_elem_of_In, in_flat_map in Hin'.
    destruct Hin' as (y' & Hy' & Hin'). apply in_map_iff in Hin'.
    destruct Hin' as (x'' & Heq' & _). inversion Heq'; subst.
    apply Hy. apply list_elem_of_In. exact Hy'.
Qed.

Lemma NoDup_cells (s : FireSimulation) : NoDup (FireSimulation.cells s).
Proof. apply NoDup_pairs; apply NoDup_py_range. Qed.

Lemma target_ok_grid_set (g : Z -> Z -> FireCell) (y x : Z) (c : FireCell)
    (t : Z * Z * R) :
  state (g y x) <> NO_FIRE -> target_ok g t -> target_ok (grid_set g y x c) t.
Proof.
  intros Hne [Hs Hf]. unfold target_ok.
  rewrite grid_set_ne; [split; assumption |].
  intros Heq. inversion Heq as [[Hx Hy]]. rewrite Hx, Hy in Hs. contradiction.
Qed.

Lemma try_spread_targets (s : FireSimulation) (cell : FireCell) (sd : R)
    (ns : list (Z * Z * R)) :
  forall (rng0 : RandomState) (q : list (Z * Z * R)),
    Forall (target_ok (grid s)) q ->
    Forall (target_ok (grid s))
      (snd (fold_left (FireSimulation.try_spread s cell sd) ns (rng0, q))).
Proof.
  induction ns as [| [[nx ny] dist] ns IH]; intros rng0 q Hq; simpl; [exact Hq |].
  destruct (bool_decide (state (grid s ny nx) <> NO_FIRE)
            || bool_decide (fuel_density (grid s ny nx) <= 0)) eqn:Hskip.
  - apply IH. exact Hq.
  - apply orb_false_iff in Hskip. destruct Hskip as [Hst Hfu].
    apply bool_decide_eq_false in Hst, Hfu.
    destruct (decide _).
    + apply IH. apply Forall_app. split; [exact Hq |].
      constructor; [| constructor]. unfold target_ok. simpl.
      split; [destruct (decide (state (grid s ny nx) = NO_FIRE)); tauto | lra].
    + apply IH. exact Hq.
Qed.

End SweepFacts.

Section BurnFacts.
Context `{NumpyGenerator}.
Import constants fire_simulation.

Lemma is_burning_state (c : FireCell) :
  FireCell.is_burning c = true -> state c = BURNING /\ 0 < intensity c.
Proof.
  unfold FireCell.is_burning. rewrite andb_true_iff, !bool_decide_eq_true. tauto.
Qed.

Lemma burn_spec (wx wy : R) (s s' : FireSimulation) (q q' : list (Z * Z * R))
    (x y : Z) :
  FireSimulation.burn wx wy (s, q) (x, y) = Ok (s', q') ->
  Forall (target_ok (grid s)) q ->
  width s' = width s /\ height s' = height s /\ cell_size_m s' = cell_size_m s /\
  (forall y' x', grid s' y' x' = grid_set (grid s) y x (after_burn (grid s y x)) y' x') /\
  Forall (target_ok (grid s')) q'.
Proof.
  unfold FireSimulation.burn. intros Hburn Hq.
  destruct (FireCell.is_burning (grid s y x)) eqn:Hb; simpl in Hburn.
  - destruct (is_burning_state _ Hb) as [Hst Hint].
    assert (Hne : state (grid s y x) <> NO_FIRE) by (rewrite Hst; discriminate).
    destruct (bool_decide _ || bool_decide _) eqn:Hout.
    + inversion Hburn; subst; clear Hburn. simpl.
      repeat (split; [reflexivity |]). split.
      * intros y' x'. unfold after_burn, burnt. rewrite Hb, Hout. reflexivity.
      * eapply Forall_impl; [exact Hq |]. intros t Ht.
        apply target_ok_grid_set; assumption.
    + unfold FireSimulation._calculate_spread_distance in Hburn.
      destruct (fdiv _ _) as [sc | e]; simpl in Hburn; [| discriminate].
      match type of Hburn with
      | context [fold_left (FireSimulation.try_spread ?s1 ?c1 ?sd) ?ns (?r0, ?q0)] =>
          pose proof (try_spread_targets s1 c1 sd ns r0 q0) as Hfold;
          destruct (fold_left (FireSimulation.try_spread s1 c1 sd) ns (r0, q0))
            as [rng' q''] eqn:Hfl
      end.
      inversion Hburn; subst; clear Hburn. simpl in *.
      repeat (split; [reflexivity |]). split.
      * intros y' x'. unfold after_burn, burnt. rewrite Hb, Hout. reflexivity.
      * apply Hfold.
        eapply Forall_impl; [exact Hq |]. intros t Ht.
        apply target_ok_grid_set; assumption.
  - inversion Hburn; subst; clear Hburn.
    repeat (split; [reflexivity |]). split; [| exact Hq].
    intros y' x'. unfold after_burn, grid_set. rewrite Hb.
    destruct (decide (y' = y /\ x' = x)) as [[-> ->] | _]; reflexivity.
Qed.

End BurnFacts.

Section StepFacts.
Context `{NumpyGenerator}.
Import constants fire_simulation.

Lemma sweep_spec (wx wy : R) (l : list (Z * Z)) :
  forall (s s' : FireSimulation) (q q' : list (Z * Z * R)),
    foldM (FireSimulation.burn wx wy) l (s, q) = Ok (s', q') ->
    NoDup l ->
    Forall (target_ok (grid s)) q ->
    width s' = width s /\ height s' = height s /\ cell_size_m s' = cell_size_m s /\
    (forall x y, (x, y) ∈ l -> grid s' y x = after_burn (grid s y x)) /\
    (forall x y, (x, y) ∉ l -> grid s' y x = grid s y x) /\
    Forall (target_ok (grid s')) q'.
Proof.
  induction l as [| [x0 y0] l IH]; intros s s' q q' Hfold Hnd Hq.
  - simpl in Hfold. inversion Hfold; subst. repeat (split; [reflexivity |]).
    split; [intros x y Hin; inversion Hin |]. split; [intros; reflexivity | exact Hq].
  - apply foldM_cons_inv in Hfold. destruct Hfold as ([s1 q1] & Hb & Hfold).
    apply NoDup_cons in Hnd. destruct Hnd as [Hnotin Hnd].
    destruct (burn_spec _ _ _ _ _ _ _ _ Hb Hq) as (Hw1 & Hh1 & Hc1 & Hg1 & Hq1).
    destruct (IH _ _ _ _ Hfold Hnd Hq1) as (Hw & Hh & Hc & Hin & Hout & Hq').
    split; [congruence |]. split; [congruence |]. split; [congruence |].
    split; [| split; [| exact Hq']].
    + intros x y Hxy. apply elem_of_cons in Hxy. destruct Hxy as [Heq | Hl].
      * inversion Heq; subst. rewrite Hout by exact Hnotin.
        rewrite Hg1. apply grid_set_eq.
      * rewrite Hin by exact Hl. rewrite Hg1. rewrite grid_set_ne; [reflexivity |].
        intros Heq. rewrite Heq in Hl. contradiction.
    + intros x y Hxy. apply not_elem_of_cons in Hxy. destruct Hxy as [Hne Hl].
      rewrite Hout by exact Hl. rewrite Hg1. apply grid_set_ne. exact Hne.
Qed.

Lemma burn_total (wx wy : R) (s : FireSimulation) (q : list (Z * Z * R)) (p : Z * Z) :
  cell_size_m s <> 0 ->
  exists s' q', FireSimulation.burn wx wy (s, q) p = Ok (s', q').
Proof.
  intros Hcs. destruct p as [x y]. unfold FireSimulation.burn.
  destruct (FireCell.is_burning (grid s y x)); simpl; [| eauto].
  destruct (bool_decide _ || bool_decide _); [eauto |].
  unfold FireSimulation._calculate_spread_distance. simpl.
  rewrite fdiv_ok by exact Hcs. simpl.
  match goal with
  | |- context [fold_left ?f ?ns ?a] => destruct (fold_left f ns a) as [rng' q'']
  end.
  eauto.
Qed.

Lemma sweep_total (wx wy : R) (l : list (Z * Z)) :
  forall (s : FireSimulation) (q : list (Z * Z * R)),
    cell_size_m s <> 0 -> Forall (target_ok (grid s)) q ->
    exists s' q', foldM (FireSimulation.burn wx wy) l (s, q) = Ok (s', q').
Proof.
  induction l as [| p l IH]; intros s q Hcs Hq; [simpl; eauto |].
  destruct (burn_total wx wy s q p Hcs) as (s1 & q1 & Hb).
  rewrite (foldM_cons_ok _ _ _ _ _ Hb).
  destruct p as [x y].
  destruct (burn_spec _ _ _ _ _ _ _ _ Hb Hq) as (_ & _ & Hc1 & _ & Hq1).
  apply IH; [congruence | exact Hq1].
Qed.

(** Applying queued ignitions: a cell is either left alone or set burning
    with an intensity of at least [FIRE_INTENSITY_IGNITION] and its fuel
    untouched, and the latter only happens to a queued target. *)
Lemma apply_ignitions_spec (q : list (Z * Z * R)) :
  forall (s s' : FireSimulation) (n n' : Z),
    fold_left
      (fun (acc : FireSimulation * Z) (c : Z * Z * R) =>
         let '(s, newly_ignited) := acc in
         let '(x, y, intensity) := c in
         let '(s', ok) := FireSimulation.ignite s x y intensity in
         (s', if ok then (newly_ignited + 1)%Z else newly_ignited))
      q (s, n) = (s', n') ->
    width s' = width s /\ height s' = height s /\ cell_size_m s' = cell_size_m s /\
    forall x y,
      grid s' y x = grid s y x \/
      (state (grid s' y x) = BURNING /\ 0.5 <= intensity (grid s' y x) /\
       fuel_density (grid s' y x) = fuel_density (grid s y x) /\
       exists i, (x, y, i) ∈ q).
Proof.
  induction q as [| [[x0 y0] i0] q IH]; intros s s' n n' Hfold; simpl in Hfold.
  - inversion Hfold; subst. repeat (split; [reflexivity |]). intros; left; reflexivity.
  - unfold FireSimulation.ignite in Hfold.
    destruct (FireSimulation._in_bounds s x0 y0) eqn:Hib; simpl in Hfold.
    + apply IH in Hfold. destruct Hfold as (Hw & Hh & Hc & Hg).
      simpl in Hw, Hh, Hc. repeat (split; [assumption |]).
      intros x y. destruct (Hg x y) as [Heq | (Hst & Hi & Hf & i & Hin)].
      * rewrite Heq. simpl.
        destruct (decide ((x, y) = (x0, y0))) as [Hxy | Hxy].
        -- inversion Hxy; subst. right. rewrite grid_set_eq. simpl.
           split; [reflexivity |]. split.
           ++ unfold FIRE_INTENSITY_IGNITION. pose proof (Rmax_r i0 0.5). lra.
           ++ split; [reflexivity |]. exists i0. apply elem_of_cons. left. reflexivity.
        -- left. apply grid_set_ne. exact Hxy.
      * right. split; [exact Hst |]. split; [exact Hi |]. split.
        -- rewrite Hf. simpl. unfold grid_set.
           destruct (decide (y = y0 /\ x = x0)) as [[-> ->] | _]; reflexivity.
        -- exists i. apply elem_of_cons. right. exact Hin.
    + apply IH in Hfold. destruct Hfold as (Hw & Hh & Hc & Hg).
      repeat (split; [assumption |]).
      intros x y. destruct (Hg x y) as [Heq | (Hst & Hi & Hf & i & Hin)].
      * left. exact Heq.
      * right. repeat (split; [assumption |]). exists i. apply elem_of_cons. right. exact Hin.
Qed.

Lemma age_cell_same_fire (c : FireCell) : same_fire c (FireSimulation.age_cell c).
Proof.
  unfold same_fire, FireSimulation.age_cell.
  destruct (bool_decide _); simpl; repeat split; reflexivity.
Qed.

Lemma age_suppression_spec (l : list (Z * Z)) :
  forall s : FireSimulation,
    let s' := fold_left
                (fun (s : FireSimulation) '(x, y) =>
                   with_grid s (grid_set (grid s) y x
                                  (FireSimulation.age_cell (grid s y x)))) l s in
    width s' = width s /\ height s' = height s /\ cell_size_m s' = cell_size_m s /\
    forall x y, same_fire (grid s y x) (grid s' y x).
Proof.
  induction l as [| [x0 y0] l IH]; intros s.
  - simpl. do 3 (split; [reflexivity |]). intros cx cy. repeat split; reflexivity.
  - cbn [fold_left].
    set (s1 := with_grid s (grid_set (grid s) y0 x0
                              (FireSimulation.age_cell (grid s y0 x0)))).
    destruct (IH s1) as (Hw & Hh & Hc & Hg).
    do 3 (split; [assumption |]).
    intros cx cy. destruct (Hg cx cy) as (B1 & B2 & B3).
    assert (Hs1 : same_fire (grid s cy cx) (grid s1 cy cx)).
    { unfold s1. simpl. unfold grid_set.
      destruct (decide (cy = y0 /\ cx = x0)) as [[-> ->] | _];
        [apply age_cell_same_fire | repeat split; reflexivity]. }
    destruct Hs1 as (A1 & A2 & A3). unfold same_fire. rewrite B1, B2, B3. tauto.
Qed.

End StepFacts.

Section StepCell.
Context `{NumpyGenerator}.
Import constants fire_simulation.

Lemma same_fire_trans (a b c : FireCell) : same_fire a b -> same_fire b c -> same_fire a c.
Proof. unfold same_fire. intros (A1 & A2 & A3) (B1 & B2 & B3). repeat split; congruence. Qed.

Lemma same_fire_refl (a : FireCell) : same_fire a a.
Proof. repeat split; reflexivity. Qed.

(** What [step] does to a cell of the grid: a burning cell burns for one
    tick; any other cell is left in its fire condition, unless it had no
    fire and still had fuel and a neighbor set it alight. *)
Lemma step_cell (s s' : FireSimulation) (r : Z * Z) (x y : Z) :
  FireSimulation.step s = Ok (s', r) ->
  FireSimulation._in_bounds s x y = true ->
  width s' = width s /\ height s' = height s /\ cell_size_m s' = cell_size_m s /\
  (FireCell.is_burning (grid s y x) = true ->
     same_fire (burnt (grid s y x)) (grid s' y x)) /\
  (FireCell.is_burning (grid s y x) = false ->
     same_fire (grid s y x) (grid s' y x) \/
     (state (grid s y x) = NO_FIRE /\ 0 < fuel_density (grid s y x) /\
      state (grid s' y x) = BURNING /\ 0.5 <= intensity (grid s' y x) /\
      fuel_density (grid s' y x) = fuel_density (grid s y x))).
Proof.
  unfold FireSimulation.step. intros Hstep Hib.
  destruct (WindModel.get_wind_vector _) as [wx wy].
  match type of Hstep with
  | context [foldM ?f ?l ?a] => destruct (foldM f l a) as [[s1 q] | e] eqn:Hsweep
  end; simpl in Hstep; [| discriminate].
  destruct (FireSimulation.apply_ignitions s1 q) as [s2 n] eqn:Hign.
  inversion Hstep; subst; clear Hstep.
  apply sweep_spec in Hsweep; [| apply NoDup_cells | constructor].
  destruct Hsweep as (Hw1 & Hh1 & Hc1 & Hin1 & _ & Hq1). simpl in Hw1, Hh1, Hc1.
  apply apply_ignitions_spec in Hign. destruct Hign as (Hw2 & Hh2 & Hc2 & Hg2).
  destruct (age_suppression_spec (FireSimulation.cells s2) s2) as (Hw3 & Hh3 & Hc3 & Hg3).
  fold (FireSimulation.age_suppression s2) in Hw3, Hh3, Hc3, Hg3.
  split; [congruence |]. split; [congruence |]. split; [congruence |].
  assert (Hs1 : grid s1 y x = after_burn (grid s y x)).
  { apply (Hin1 x y).
    apply (elem_of_cells
             {| width := width s; height := height s; cell_size_m := cell_size_m s;
                rng := rng s; grid := grid s; wind_model := wind_model s;
                ticks := (ticks s + 1)%Z;
                time_us := (time_us s + py_int (SIM_TICK_PERIOD_S * 1e6))%Z;
                total_burned_cells := total_burned_cells s |}).
    exact Hib. }
  specialize (Hg3 x y).
  destruct (Hg2 x y) as [Heq | (Hst & Hi & Hf & i & Hin)].
  - rewrite Heq, Hs1 in Hg3. unfold after_burn in Hg3. split.
    + intros Hb. rewrite Hb in Hg3. exact Hg3.
    + intros Hb. rewrite Hb in Hg3. left. exact Hg3.
  - rewrite Forall_forall in Hq1. specialize (Hq1 _ Hin).
    destruct Hq1 as [Hno Hfu]. simpl in Hno, Hfu. rewrite Hs1 in Hno, Hfu, Hf.
    unfold after_burn in Hno, Hfu, Hf. split.
    + intros Hb. exfalso. rewrite Hb in Hno.
      destruct (is_burning_state _ Hb) as [Hbs _].
      unfold burnt in Hno. simpl in Hno.
      destruct (bool_decide _ || bool_decide _); congruence.
    + intros Hb. rewrite Hb in Hno, Hfu, Hf. right.
      destruct Hg3 as (C1 & C2 & C3).
      split; [exact Hno |]. split; [exact Hfu |].
      split; [congruence |]. split; [rewrite C2; exact Hi | congruence].
Qed.

Lemma step_dims (s s' : FireSimulation) (r : Z * Z) :
  FireSimulation.step s = Ok (s', r) ->
  width s' = width s /\ height s' = height s /\ cell_size_m s' = cell_size_m s.
Proof.
  unfold FireSimulation.step. intros Hstep.
  destruct (WindModel.get_wind_vector _) as [wx wy].
  match type of Hstep with
  | context [foldM ?f ?l ?a] => destruct (foldM f l a) as [[s1 q] | e] eqn:Hsweep
  end; simpl in Hstep; [| discriminate].
  destruct (FireSimulation.apply_ignitions s1 q) as [s2 n] eqn:Hign.
  inversion Hstep; subst; clear Hstep.
  apply sweep_spec in Hsweep; [| apply NoDup_cells | constructor].
  destruct Hsweep as (Hw1 & Hh1 & Hc1 & _). simpl in Hw1, Hh1, Hc1.
  apply apply_ignitions_spec in Hign. destruct Hign as (Hw2 & Hh2 & Hc2 & _).
  destruct (age_suppression_spec (FireSimulation.cells s2) s2) as (Hw3 & Hh3 & Hc3 & _).
  fold (FireSimulation.age_suppression s2) in Hw3, Hh3, Hc3.
  repeat split; congruence.
Qed.

Lemma step_total (s : FireSimulation) :
  cell_size_m s <> 0 -> exists s' r, FireSimulation.step s = Ok (s', r).
Proof.
  intros Hcs. unfold FireSimulation.step.
  destruct (WindModel.get_wind_vector _) as [wx wy].
  match goal with
  | |- context [foldM ?f ?l ?a] =>
      destruct (sweep_total wx wy l (fst a) (snd a)) as (s1 & q & Hsweep);
        [exact Hcs | constructor |]
  end.
  simpl in Hsweep. rewrite Hsweep. simpl.
  destruct (FireSimulation.apply_ignitions s1 q) as [s2 n]. eauto.
Qed.

End StepCell.

Section GridInvariant.
Context `{NumpyGenerator}.
Import constants fire_simulation.

Lemma in_bounds_dims (s s' : FireSimulation) (x y : Z) :
  width s' = width s -> height s' = height s ->
  FireSimulation._in_bounds s' x y = FireSimulation._in_bounds s x y.
Proof. intros Hw Hh. unfold FireSimulation._in_bounds. rewrite Hw, Hh. reflexivity. Qed.

Lemma grid_inv_init (w h : Z) (cs : R) (seed : Z) (s : FireSimulation) :
  FireSimulation.init w h cs seed = Ok s -> grid_inv s.
Proof.
  intros Hinit x y _.
  destruct (fire_init_inv _ _ _ _ _ Hinit) as (_ & _ & _ & _ & _ & _ & _ & _ & _ & Hgrid).
  rewrite Hgrid. simpl. split; [intros _ | discriminate].
  unfold FUEL_DENSITY_FACTOR. lra.
Qed.

Lemma grid_inv_ignite (s : FireSimulation) (x y : Z) (i : R) :
  grid_inv s -> grid_inv (fst (FireSimulation.ignite s x y i)).
Proof.
  intros Hinv. unfold FireSimulation.ignite.
  destruct (FireSimulation._in_bounds s x y); simpl; [| exact Hinv].
  intros x' y' Hib. simpl. unfold grid_set.
  destruct (decide (y' = y /\ x' = x)) as [[-> ->] | _]; simpl.
  - split; [discriminate | intros _].
    unfold FIRE_INTENSITY_IGNITION. pose proof (Rmax_r i 0.5). lra.
  - apply Hinv. exact Hib.
Qed.

Lemma grid_inv_suppress (s : FireSimulation) (x y : Z) (k : R) :
  grid_inv s -> grid_inv (fst (FireSimulation.suppress s x y k)).
Proof.
  intros Hinv. unfold FireSimulation.suppress.
  destruct (FireSimulation._in_bounds s x y) eqn:Hxy; simpl; [| exact Hinv].
  intros x' y' Hib. simpl. unfold grid_set.
  destruct (decide (y' = y /\ x' = x)) as [[-> ->] | _]; simpl.
  - destruct (Hinv x y Hxy) as [Hno Hbu].
    destruct (bool_decide _) eqn:Hout.
    + split; discriminate.
    + apply bool_decide_eq_false in Hout. split; [exact Hno | intros _; lra].
  - apply Hinv. exact Hib.
Qed.

Lemma burnt_burning (c : FireCell) :
  state (burnt c) = BURNING ->
  0 < fuel_density (burnt c) /\ 0.001 < intensity (burnt c) /\
  intensity (burnt c) = intensity c * INTENSITY_DECAY_FACTOR.
Proof.
  unfold burnt. simpl.
  destruct (bool_decide _ || bool_decide _) eqn:Hout; [discriminate |].
  intros _. apply orb_false_iff in Hout. destruct Hout as [Hf Hi].
  apply bool_decide_eq_false in Hf, Hi. repeat split; lra.
Qed.

Lemma burnt_state (c : FireCell) :
  state c = BURNING -> state (burnt c) = BURNED \/ state (burnt c) = BURNING.
Proof.
  intros Hc. unfold burnt. simpl.
  destruct (bool_decide _ || bool_decide _); [left; reflexivity | right; exact Hc].
Qed.

(** Right after a step every burning cell has fuel left and an intensity
    above the burn-out threshold. *)
Lemma step_burning_cells (s s' : FireSimulation) (r : Z * Z) (x y : Z) :
  grid_inv s ->
  FireSimulation.step s = Ok (s', r) ->
  FireSimulation._in_bounds s' x y = true ->
  state (grid s' y x) = BURNING ->
  0 < fuel_density (grid s' y x) /\ 0.001 < intensity (grid s' y x).
Proof.
  intros Hinv Hstep Hib' Hbu.
  destruct (step_dims s s' r Hstep) as (Hw & Hh & _).
  assert (Hib : FireSimulation._in_bounds s x y = true).
  { rewrite <- (in_bounds_dims s s' x y Hw Hh). exact Hib'. }
  destruct (step_cell s s' r x y Hstep Hib) as (_ & _ & _ & Hburn & Hrest).
  destruct (Hinv x y Hib) as [Hno Hpos].
  destruct (FireCell.is_burning (grid s y x)) eqn:Hb.
  - destruct (Hburn eq_refl) as (S1 & S2 & S3).
    rewrite S1 in Hbu. destruct (burnt_burning _ Hbu) as (Hf & Hi & _).
    rewrite S2, S3. split; assumption.
  - destruct (Hrest eq_refl) as [(S1 & S2 & S3) | (_ & Hfu & _ & Hi & Hf)].
    + exfalso. rewrite S1 in Hbu. specialize (Hpos Hbu).
      unfold FireCell.is_burning in Hb. apply andb_false_iff in Hb.
      destruct Hb as [Hb | Hb]; apply bool_decide_eq_false in Hb; tauto.
    + rewrite Hf. split; [exact Hfu | lra].
Qed.

End GridInvariant.

Section ReachableGrids.
Context `{NumpyGenerator}.
Import constants fire_simulation.

Lemma grid_inv_step (s s' : FireSimulation) (r : Z * Z) :
  grid_inv s -> FireSimulation.step s = Ok (s', r) -> grid_inv s'.
Proof.
  intros Hinv Hstep x y Hib'.
  destruct (step_dims s s' r Hstep) as (Hw & Hh & _).
  assert (Hib : FireSimulation._in_bounds s x y = true).
  { rewrite <- (in_bounds_dims s s' x y Hw Hh). exact Hib'. }
  split.
  - intros Hno.
    destruct (step_cell s s' r x y Hstep Hib) as (_ & _ & _ & Hburn & Hrest).
    destruct (Hinv x y Hib) as [Hfuel _].
    destruct (FireCell.is_burning (grid s y x)) eqn:Hb.
    + exfalso. destruct (Hburn eq_refl) as (S1 & _).
      destruct (is_burning_state _ Hb) as [Hst _].
      destruct (burnt_state _ Hst); congruence.
    + destruct (Hrest eq_refl) as [(S1 & S2 & S3) | (_ & _ & Hbu & _)].
      * rewrite S3. apply Hfuel. congruence.
      * congruence.
  - intros Hbu.
    destruct (step_burning_cells s s' r x y Hinv Hstep Hib' Hbu) as [_ Hi]. lra.
Qed.

Lemma reachable_grid_inv (s : FireSimulation) : reachable s -> grid_inv s.
Proof.
  induction 1 as [w h cs seed s Hinit | s x y i _ IH | s x y k _ IH | s sp d _ IH
                 | s s' r _ IH Hstep].
  - exact (grid_inv_init _ _ _ _ _ Hinit).
  - apply grid_inv_ignite. exact IH.
  - apply grid_inv_suppress. exact IH.
  - exact IH.
  - eapply grid_inv_step; eassumption.
Qed.

End ReachableGrids.

Section BurnedInvariant.
Import constants fire_simulation.

(** Claim C2, as amended. In the grid a [step] call returns, from any
    reachable grid, every cell whose fuel is 0 and whose intensity is below
    the burn-out threshold 0.001 is [BURNED] or [SUPPRESSED]: it is neither
    burning nor without fire. *)
Theorem spent_cells_after_step `{NumpyGenerator} (s s' : FireSimulation)
    (r : Z * Z) (x y : Z) :
  reachable s ->
  FireSimulation.step s = Ok (s', r) ->
  FireSimulation._in_bounds s' x y = true ->
  fuel_density (grid s' y x) = 0 ->
  intensity (grid s' y x) < 0.001 ->
  state (grid s' y x) = BURNED \/ state (grid s' y x) = SUPPRESSED.
Proof.
  intros Hreach Hstep Hib Hfuel _.
  pose proof (reachable_grid_inv s Hreach) as Hinv.
  pose proof (grid_inv_step s s' r Hinv Hstep x y Hib) as [Hno _].
  destruct (state (grid s' y x)) eqn:Hst.
  - specialize (Hno eq_refl). lra.
  - destruct (step_burning_cells s s' r x y Hinv Hstep Hib Hst) as [Hf _]. lra.
  - left. reflexivity.
  - right. reflexivity.
Qed.

End BurnedInvariant.

Section BurningOut.
Context `{NumpyGenerator}.
Import constants fire_simulation.

(** One round of [ignite(0, 0, 1.0)] and [step()] takes 0.0095 of the
    fuel of the cell at the origin, and burns the cell out when no more
    than that is left. *)
Lemma round_spec (s : FireSimulation) :
  FireSimulation._in_bounds s 0 0 = true -> cell_size_m s <> 0 ->
  exists s' r,
    FireSimulation.step (fst (FireSimulation.ignite s 0 0 1.0)) = Ok (s', r) /\
    FireSimulation._in_bounds s' 0 0 = true /\ cell_size_m s' <> 0 /\
    fuel_density (grid s' 0 0) = Rmax 0 (fuel_density (grid s 0 0) - 0.0095) /\
    (fuel_density (grid s 0 0) <= 0.0095 ->
       state (grid s' 0 0) = BURNED /\ intensity (grid s' 0 0) = 0).
Proof.
  intros Hib Hcs.
  set (s1 := fst (FireSimulation.ignite s 0 0 1.0)).
  assert (Hs1 : width s1 = width s /\ height s1 = height s /\
                cell_size_m s1 = cell_size_m s /\
                state (grid s1 0 0) = BURNING /\ intensity (grid s1 0 0) = 1 /\
                fuel_density (grid s1 0 0) = fuel_density (grid s 0 0)).
  { unfold s1, FireSimulation.ignite. rewrite Hib. simpl.
    repeat (split; [reflexivity |]). split; [| reflexivity].
    unfold FIRE_INTENSITY_IGNITION, Rmax. destruct (Rle_dec _ _); lra. }
  destruct Hs1 as (Hw1 & Hh1 & Hc1 & Hst1 & Hi1 & Hf1).
  destruct (step_total s1) as (s' & r & Hstep); [congruence |].
  exists s', r. split; [exact Hstep |].
  assert (Hib1 : FireSimulation._in_bounds s1 0 0 = true).
  { rewrite (in_bounds_dims s s1 0 0 Hw1 Hh1). exact Hib. }
  destruct (step_cell s1 s' r 0 0 Hstep Hib1) as (Hw & Hh & Hc & Hburn & _).
  split; [rewrite (in_bounds_dims s1 s' 0 0 Hw Hh); exact Hib1 |].
  split; [congruence |].
  assert (Hb : FireCell.is_burning (grid s1 0 0) = true).
  { unfold FireCell.is_burning. rewrite Hst1, Hi1.
    apply andb_true_iff. split; apply bool_decide_eq_true; [reflexivity | lra]. }
  destruct (Hburn Hb) as (S1 & S2 & S3).
  rewrite S1, S2, S3. unfold burnt. simpl. rewrite Hi1, Hf1.
  unfold INTENSITY_DECAY_FACTOR. split.
  - unfold Rmax. repeat destruct (Rle_dec _ _); lra.
  - intros Hlow.
    assert (Hout : bool_decide (Rmax 0.0 (fuel_density (grid s 0 0) - 1 * 0.95 * 0.01)
                                <= 0.0) = true).
    { apply bool_decide_eq_true. unfold Rmax. destruct (Rle_dec _ _); lra. }
    rewrite Hout. simpl. split; [reflexivity | lra].
Qed.

Lemma rounds_spec (w h : Z) (cs : R) (seed : Z) (n : nat) (s0 : FireSimulation) :
  (0 < w)%Z -> (0 < h)%Z -> cs <> 0 ->
  FireSimulation.init w h cs seed = Ok s0 ->
  exists s,
    rounds n s0 = Ok s /\
    reachable s /\
    FireSimulation._in_bounds s 0 0 = true /\ cell_size_m s <> 0 /\
    fuel_density (grid s 0 0) = Rmax 0 (1 - 0.0095 * INR n) /\
    (1 <= 0.0095 * INR n -> state (grid s 0 0) = BURNED /\ intensity (grid s 0 0) = 0).
Proof.
  intros Hw Hh Hcs Hinit.
  destruct (fire_init_inv _ _ _ _ _ Hinit)
    as (_ & Hw0 & Hh0 & Hcs0 & _ & _ & _ & _ & _ & Hgrid).
  induction n as [| n IH].
  - exists s0. split; [reflexivity |].
    split; [exact (reach_init _ _ _ _ _ Hinit) |]. split.
    { apply in_bounds_true. rewrite Hw0, Hh0. lia. }
    split; [rewrite Hcs0; exact Hcs |]. rewrite Hgrid. simpl.
    unfold FUEL_DENSITY_FACTOR, Rmax. split.
    + destruct (Rle_dec _ _); lra.
    + intros Habs. lra.
  - destruct IH as (s & Hr & Hreach & Hib & Hc & Hf & Hst).
    destruct (round_spec s Hib Hc) as (s' & r & Hstep & Hib' & Hc' & Hf' & Hst').
    exists s'. split.
    { simpl. rewrite Hr. simpl. rewrite Hstep. reflexivity. }
    split.
    { eapply reach_step; [| exact Hstep]. apply reach_ignite. exact Hreach. }
    split; [exact Hib' |]. split; [exact Hc' |].
    rewrite S_INR. split.
    + rewrite Hf', Hf. unfold Rmax. repeat destruct (Rle_dec _ _); lra.
    + intros Hn. apply Hst'. rewrite Hf. unfold Rmax. destruct (Rle_dec _ _); lra.
Qed.

Lemma suppress_origin (s : FireSimulation) (k : R) :
  FireSimulation._in_bounds s 0 0 = true ->
  let c := grid s 0 0 in
  let c' := grid (fst (FireSimulation.suppress s 0 0 k)) 0 0 in
  FireSimulation._in_bounds (fst (FireSimulation.suppress s 0 0 k)) 0 0 = true /\
  fuel_density c' = fuel_density c /\
  intensity c' = Rmax 0 (intensity c - intensity c * k * 0.9) /\
  state c' = (if bool_decide (Rmax 0 (intensity c - intensity c * k * 0.9) <= 0)
              then SUPPRESSED else state c).
Proof.
  intros Hib. unfold FireSimulation.suppress. rewrite Hib. simpl.
  unfold SUPPRESSION_EFFECTIVENESS.
  replace 0.0 with 0 by lra.
  split; [exact Hib |]. repeat split; reflexivity.
Qed.

End BurningOut.

Section BurnedInvariantCounterexample.
Import constants fire_simulation.

Lemma INR_106 : INR 106 = 106.
Proof. rewrite INR_IZR_INZ. reflexivity. Qed.

Lemma INR_105 : INR 105 = 105.
Proof. rewrite INR_IZR_INZ. reflexivity. Qed.

Lemma ignite_origin (s : FireSimulation) (i : R) :
  FireSimulation._in_bounds s 0 0 = true ->
  let c := grid s 0 0 in
  let c' := grid (fst (FireSimulation.ignite s 0 0 i)) 0 0 in
  FireSimulation._in_bounds (fst (FireSimulation.ignite s 0 0 i)) 0 0 = true /\
  fuel_density c' = fuel_density c /\
  intensity c' = Rmax i 0.5 /\ state c' = BURNING.
Proof.
  intros Hib. unfold FireSimulation.ignite. rewrite Hib. simpl.
  split; [exact Hib |]. repeat split; reflexivity.
Qed.

Lemma suppress_full_strength (s : FireSimulation) :
  FireSimulation._in_bounds s 0 0 = true ->
  0 < intensity (grid s 0 0) ->
  let c := grid s 0 0 in
  let c' := grid (fst (FireSimulation.suppress s 0 0 1.0)) 0 0 in
  FireSimulation._in_bounds (fst (FireSimulation.suppress s 0 0 1.0)) 0 0 = true /\
  fuel_density c' = fuel_density c /\
  intensity c' = 0.1 * intensity c /\ state c' = state c.
Proof.
  intros Hib Hpos.
  destruct (suppress_origin s 1.0 Hib) as (Hib' & Hf & Hi & Hs).
  assert (Hval : Rmax 0 (intensity (grid s 0 0) - intensity (grid s 0 0) * 1.0 * 0.9)
                 = 0.1 * intensity (grid s 0 0)).
  { unfold Rmax. destruct (Rle_dec _ _); lra. }
  rewrite Hval in Hi, Hs.
  rewrite bool_decide_eq_false_2 in Hs by lra.
  repeat split; assumption.
Qed.

(** Claim C2 fails as stated. On a grid of one cell, 106 rounds of
    [ignite(0, 0, 1.0)] and [step()] leave the cell [BURNED] with no fuel.
    One [suppress(0, 0, 1.0)] then makes it [SUPPRESSED]; and
    [ignite(0, 0, 0.5)] followed by three [suppress(0, 0, 1.0)] leaves it
    [BURNING] with intensity 0.0005. Both grids are reachable, and in both
    the cell has fuel 0 and an intensity below 0.001 without being
    [BURNED]. *)
Lemma spent_cells_burned_counterexample :
  exists s0 s106,
    FireSimulation.init 1 1 10 42 = Ok s0 /\
    @rounds constant_generator 106 s0 = Ok s106 /\
    (let s := fst (FireSimulation.suppress s106 0 0 1.0) in
     @reachable constant_generator s /\
     state (grid s 0 0) = SUPPRESSED /\
     ~ spent_cells_burned s) /\
    (let s :=
       fst (FireSimulation.suppress
              (fst (FireSimulation.suppress
                      (fst (FireSimulation.suppress
                              (fst (FireSimulation.ignite s106 0 0 0.5)) 0 0 1.0))
                      0 0 1.0)) 0 0 1.0) in
     @reachable constant_generator s /\
     state (grid s 0 0) = BURNING /\
     ~ spent_cells_burned s).
Proof.
  destruct (fire_init_ok 1 1 10 42) as (s0 & Hinit); [lia | lia | lia |].
  destruct (@rounds_spec constant_generator 1 1 10 42 106 s0)
    as (s & Hr & Hreach & Hib & _ & Hf & Hst); [lia | lia | lra | exact Hinit |].
  rewrite INR_106 in Hf, Hst.
  assert (Hfuel : fuel_density (grid s 0 0) = 0).
  { rewrite Hf. unfold Rmax. destruct (Rle_dec _ _); lra. }
  destruct Hst as [Hburned Hzero]; [lra |].
  exists s0, s. split; [exact Hinit |]. split; [exact Hr |]. split.
  - destruct (suppress_origin s 1.0 Hib) as (Hib' & Hf' & Hi' & Hs').
    rewrite Hzero in Hi', Hs'.
    assert (Hval : Rmax 0 (0 - 0 * 1.0 * 0.9) = 0).
    { unfold Rmax. destruct (Rle_dec _ _); lra. }
    rewrite Hval in Hi', Hs'. rewrite bool_decide_eq_true_2 in Hs' by lra.
    split; [apply reach_suppress; exact Hreach |]. split; [exact Hs' |].
    intros Hclaim. specialize (Hclaim 0%Z 0%Z Hib').
    rewrite Hs' in Hclaim. discriminate Hclaim; [congruence | lra].
  - destruct (ignite_origin s 0.5 Hib) as (Hib1 & Hf1 & Hi1 & Hs1).
    assert (Hhalf : Rmax 0.5 0.5 = 0.5) by (unfold Rmax; destruct (Rle_dec _ _); lra).
    rewrite Hhalf in Hi1.
    set (s1 := fst (FireSimulation.ignite s 0 0 0.5)) in *.
    destruct (suppress_full_strength s1 Hib1) as (Hib2 & Hf2 & Hi2 & Hs2); [lra |].
    set (s2 := fst (FireSimulation.suppress s1 0 0 1.0)) in *.
    destruct (suppress_full_strength s2 Hib2) as (Hib3 & Hf3 & Hi3 & Hs3); [lra |].
    set (s3 := fst (FireSimulation.suppress s2 0 0 1.0)) in *.
    destruct (suppress_full_strength s3 Hib3) as (Hib4 & Hf4 & Hi4 & Hs4); [lra |].
    set (s4 := fst (FireSimulation.suppress s3 0 0 1.0)) in *.
    split.
    { unfold s4, s3, s2, s1. do 3 apply reach_suppress. apply reach_ignite. exact Hreach. }
    split; [congruence |].
    intros Hclaim. specialize (Hclaim 0%Z 0%Z Hib4).
    assert (Hb : state (grid s4 0 0) = BURNING) by congruence.
    rewrite Hb in Hclaim. discriminate Hclaim; [congruence | lra].
Qed.

Lemma spent_cells_after_step_witness :
  exists s0 s105 s' r,
    FireSimulation.init 1 1 10 42 = Ok s0 /\
    @rounds constant_generator 105 s0 = Ok s105 /\
    @FireSimulation.step constant_generator
      (fst (FireSimulation.ignite s105 0 0 1.0)) = Ok (s', r) /\
    fuel_density (grid s' 0 0) = 0 /\
    (state (grid s' 0 0) = BURNED \/ state (grid s' 0 0) = SUPPRESSED).
Proof.
  destruct (fire_init_ok 1 1 10 42) as (s0 & Hinit); [lia | lia | lia |].
  destruct (@rounds_spec constant_generator 1 1 10 42 105 s0)
    as (s & Hr & Hreach & Hib & Hc & Hf & _); [lia | lia | lra | exact Hinit |].
  rewrite INR_105 in Hf.
  destruct (@round_spec constant_generator s Hib Hc)
    as (s' & r & Hstep & Hib' & _ & Hf' & Hst').
  assert (Hfuel : fuel_density (grid s' 0 0) = 0).
  { rewrite Hf', Hf. unfold Rmax. repeat destruct (Rle_dec _ _); lra. }
  assert (Hint : intensity (grid s' 0 0) < 0.001).
  { destruct Hst' as [_ Hz]; [| lra].
    rewrite Hf. unfold Rmax. destruct (Rle_dec _ _); lra. }
  exists s0, s, s', r. split; [exact Hinit |].
  split; [exact Hr |]. split; [exact Hstep |]. split; [exact Hfuel |].
  apply (@spent_cells_after_step constant_generator
           (fst (FireSimulation.ignite s 0 0 1.0)) s' r 0 0).
  - apply reach_ignite. exact Hreach.
  - exact Hstep.
  - exact Hib'.
  - exact Hfuel.
  - exact Hint.
Defined.

End BurnedInvariantCounterexample.

(** ** The tick loop and the global generator *)

Section AgentFacts.
Import constants physics_engine detm_controller distributed_observer drone_node
  swarm_launcher.

Lemma quiet_enter_rtl (d : DroneNode) : quiet (enter d RETURN_TO_LAUNCH).
Proof. split; discriminate. Qed.

Lemma quiet_enter_idle (d : DroneNode) : quiet (enter d IDLE).
Proof. split; discriminate. Qed.

Lemma override_quiet (w : Shared) (d d1 : DroneNode) :
  quiet d -> DroneNode.override w d = Ok d1 -> quiet d1.
Proof.
  intros Hq. unfold DroneNode.override.
  destruct (PhysicsEngine.should_rtl_override _ _) as [r | e]; simpl; [| discriminate].
  destruct (fst r && negb (bool_decide (drone_node.state d = RETURN_TO_LAUNCH)));
    intros Heq; inversion Heq; subst; [apply quiet_enter_rtl | exact Hq].
Qed.

Lemma detect_quiet (w : Shared) (d d1 : DroneNode) (f : bool * R) :
  quiet d -> DroneNode.detect w d = Ok (d1, f) -> d1 = d.
Proof.
  intros [Hs _]. unfold DroneNode.detect.
  destruct (PhysicsEngine.detect_fire _ _ _) as [r | e]; simpl; [| discriminate].
  rewrite (bool_decide_eq_false_2 _ Hs), andb_false_r.
  intros Heq. inversion Heq. reflexivity.
Qed.

Lemma step_rtl_quiet (w : Shared) (d : DroneNode) :
  drone_node.state d = RETURN_TO_LAUNCH -> quiet (snd (DroneNode._step_rtl w d)).
Proof.
  intros Hst. unfold DroneNode._step_rtl.
  destruct (decide _); simpl; split; simpl; try discriminate; rewrite Hst; discriminate.
Qed.

(** In a quiet state the state machine makes no draw: its outcome is the
    same for every state of the global generator, which it hands back
    untouched. *)
Lemma dispatch_quiet (w : Shared) (d : DroneNode) (fi : R) :
  quiet d ->
  exists w' d', quiet d' /\
    forall g, DroneNode.dispatch w d g fi = Ok (w', d', g).
Proof.
  intros Hq. pose proof Hq as [Hs1 Hs2]. unfold DroneNode.dispatch.
  destruct (drone_node.state d) eqn:Hst; try contradiction.
  - exists w, d. split; [exact Hq | reflexivity].
  - pose proof (step_rtl_quiet w d Hst) as Hq'.
    destruct (DroneNode._step_rtl w d) as [w' d'].
    exists w', d'. split; [exact Hq' | reflexivity].
  - exists w, d. split; [exact Hq | reflexivity].
  - exists w, d. split; [exact Hq | reflexivity].
Qed.

Lemma step_quiet (w : Shared) (d : DroneNode) (t : Z) :
  quiet d ->
  (exists e, forall g, DroneNode.step w d g t = Raise e) \/
  (exists w' d' tel, quiet d' /\
     forall g, DroneNode.step w d g t = Ok (w', d', g, tel)).
Proof.
  intros Hq. unfold DroneNode.step.
  assert (Hq0 : quiet (with_state_ticks d (state_ticks d + 1))) by exact Hq.
  destruct (DroneNode.override w _) as [d1 | e] eqn:Hov; simpl;
    [| left; exists e; reflexivity].
  pose proof (override_quiet _ _ _ Hq0 Hov) as Hq1.
  destruct (DroneNode.detect w d1) as [[d2 f] | e] eqn:Hdet; simpl;
    [| left; exists e; reflexivity].
  pose proof (detect_quiet _ _ _ _ Hq1 Hdet) as ->.
  destruct (dispatch_quiet w d1 (snd f) Hq1) as (w' & d' & Hq' & Hdisp).
  destruct (DroneNode.transmit w' d' t f) as [[w'' tel] | e] eqn:Htr.
  - right. exists w'', d', tel. split; [exact Hq' |].
    intros g. rewrite Hdisp. simpl. rewrite Htr. reflexivity.
  - left. exists e. intros g. rewrite Hdisp. simpl. rewrite Htr. reflexivity.
Qed.

End AgentFacts.

Section TickFacts.
Context `{NumpyGenerator}.
Import constants physics_engine detm_controller distributed_observer drone_node
  swarm_launcher.

Lemma update_position_quiet (w : Shared) (d : DroneNode) (x y z vx vy vz h : R) :
  quiet d -> quiet (snd (DroneNode.update_position w d x y z vx vy vz h)).
Proof. intros Hq. exact Hq. Qed.

Lemma step_agent_quiet (t : Z) (w : Shared) (done : list (Z * DroneNode))
    (out : list (Z * option Telemetry)) (item : Z * DroneNode) :
  quiet (snd item) ->
  (exists e, forall g, SwarmLauncher.step_agent t (w, done, out, g) item = Raise e) \/
  (exists w' d' tel, quiet d' /\
     forall g, SwarmLauncher.step_agent t (w, done, out, g) item
               = Ok (w', done ++ [(fst item, d')], out ++ [(fst item, tel)], g)).
Proof.
  destruct item as [id d]. simpl. intros Hq.
  unfold SwarmLauncher.step_agent.
  destruct (match PhysicsEngine.get_drone_position (physics w) id with
            | Some pos =>
                DroneNode.update_position w d (pos_x pos) (pos_y pos) (pos_z pos)
                  (pos_vx pos) (pos_vy pos) (pos_vz pos) (pos_heading_deg pos)
            | None => (w, d)
            end) as [w1 d1] eqn:Hpos.
  assert (Hq1 : quiet d1).
  { destruct (PhysicsEngine.get_drone_position (physics w) id) as [pos |].
    - pose proof (update_position_quiet w d (pos_x pos) (pos_y pos) (pos_z pos)
                    (pos_vx pos) (pos_vy pos) (pos_vz pos) (pos_heading_deg pos) Hq) as Hu.
      rewrite Hpos in Hu. exact Hu.
    - inversion Hpos; subst. exact Hq. }
  destruct (step_quiet w1 d1 t Hq1) as [(e & He) | (w' & d' & tel & Hq' & Hok)].
  - left. exists e. intros g. rewrite He. reflexivity.
  - right. exists w', d', tel. split; [exact Hq' |].
    intros g. rewrite Hok. reflexivity.
Qed.

Lemma step_agents_quiet (t : Z) (nodes : list (Z * DroneNode)) :
  all_quiet nodes ->
  forall (w : Shared) (done : list (Z * DroneNode)) (out : list (Z * option Telemetry)),
    all_quiet done ->
    (exists e, forall g,
        foldM (SwarmLauncher.step_agent t) nodes (w, done, out, g) = Raise e) \/
    (exists w' nodes' out', all_quiet nodes' /\
       forall g, foldM (SwarmLauncher.step_agent t) nodes (w, done, out, g)
                 = Ok (w', nodes', out', g)).
Proof.
  induction 1 as [| item nodes Hq Hall IH]; intros w done out Hdone.
  - right. exists w, done, out. split; [exact Hdone | reflexivity].
  - destruct (step_agent_quiet t w done out item Hq)
      as [(e & He) | (w' & d' & tel & Hq' & Hok)].
    + left. exists e. intros g. apply foldM_cons_raise. apply He.
    + assert (Hdone' : all_quiet (done ++ [(fst item, d')])).
      { apply Forall_app. split; [exact Hdone |]. constructor; [exact Hq' | constructor]. }
      destruct (IH w' (done ++ [(fst item, d')]) (out ++ [(fst item, tel)]) Hdone')
        as [(e & He) | (w'' & nodes' & out' & Hq'' & Hok')].
      * left. exists e. intros g. rewrite (foldM_cons_ok _ _ _ _ _ (Hok g)). apply He.
      * right. exists w'', nodes', out'. split; [exact Hq'' |].
        intros g. rewrite (foldM_cons_ok _ _ _ _ _ (Hok g)). apply Hok'.
Qed.

Lemma simulation_step_quiet (l : SwarmLauncher) :
  all_quiet (drone_nodes l) ->
  (exists e, forall g, SwarmLauncher.simulation_step l g = Raise e) \/
  (exists l' out, all_quiet (drone_nodes l') /\
     forall g, SwarmLauncher.simulation_step l g = Ok (l', out, g)).
Proof.
  intros Hq. unfold SwarmLauncher.simulation_step.
  destruct (PhysicsEngine.step (physics (shared l))) as [[pe snap] | e]; simpl;
    [| left; exists e; reflexivity].
  unfold SwarmLauncher.step_agents.
  destruct (step_agents_quiet (snap_time_us snap) (drone_nodes l) Hq
              (with_physics (shared l) pe) [] [])
    as [(e & He) | (w' & nodes' & out' & Hq' & Hok)]; [constructor | |].
  - left. exists e. intros g. rewrite He. reflexivity.
  - right. eexists _, _. split; [| intros g; rewrite Hok; simpl; reflexivity].
    exact Hq'.
Qed.

Lemma apply_commands_nodes (cs : list command) (l : SwarmLauncher) :
  drone_nodes (fold_left SwarmLauncher.apply_command cs l) = drone_nodes l.
Proof.
  revert l. induction cs as [| c cs IH]; intros l; simpl; [reflexivity |].
  rewrite IH. reflexivity.
Qed.

Lemma run_quiet (script : list (list command)) :
  forall l : SwarmLauncher,
    all_quiet (drone_nodes l) ->
    (exists e, forall g, SwarmLauncher.run l g script = Raise e) \/
    (exists recs, forall g, SwarmLauncher.run l g script = Ok (recs, g)).
Proof.
  induction script as [| cs script IH]; intros l Hq.
  - right. exists []. reflexivity.
  - assert (Hq0 : all_quiet (drone_nodes (fold_left SwarmLauncher.apply_command cs l))).
    { rewrite apply_commands_nodes. exact Hq. }
    destruct (simulation_step_quiet _ Hq0) as [(e & He) | (l' & out & Hq' & Hok)].
    + left. exists e. intros g. simpl. rewrite He. reflexivity.
    + destruct (IH l' Hq') as [(e & He) | (recs & Hrecs)].
      * left. exists e. intros g. simpl. rewrite Hok. simpl. rewrite He. reflexivity.
      * right. exists ((l', out) :: recs). intros g. simpl. rewrite Hok. simpl.
        rewrite Hrecs. reflexivity.
Qed.

End TickFacts.

Section Determinism.
Import constants physics_engine detm_controller distributed_observer drone_node
  swarm_launcher.

Lemma all_quiet_dict_set (nodes : list (Z * DroneNode)) (k : Z) (d : DroneNode) :
  all_quiet nodes -> quiet d -> all_quiet (dict_set nodes k d).
Proof.
  intros Hall Hq. induction Hall as [| [k' d'] nodes Hq' Hall IH]; simpl.
  - constructor; [exact Hq | constructor].
  - destruct (decide (k' = k)).
    + constructor; [exact Hq | exact Hall].
    + constructor; [exact Hq' | exact IH].
Qed.

Lemma all_quiet_dict_get (nodes : list (Z * DroneNode)) (k : Z) (d : DroneNode) :
  all_quiet nodes -> dict_get nodes k = Some d -> quiet d.
Proof.
  intros Hall. induction Hall as [| [k' d'] nodes Hq' Hall IH]; simpl; [discriminate |].
  destruct (decide (k' = k)); [| exact IH].
  intros Heq. inversion Heq; subst. exact Hq'.
Qed.

(** Every agent of a freshly initialized swarm is idle. *)
Lemma initialize_simulation_quiet (nl nf seed : Z) (hx hy hz : R) (l : SwarmLauncher) :
  SwarmLauncher.initialize_simulation nl nf seed hx hy hz = Ok l ->
  all_quiet (drone_nodes l).
Proof.
  unfold SwarmLauncher.initialize_simulation. intros Hinit. cbv zeta in Hinit.
  apply bind_Ok_inv in Hinit. destruct Hinit as (pe0 & _ & Hinit).
  match type of Hinit with
  | context [foldM ?f ?l0 (?w0, [])] =>
      destruct (foldM f l0 (w0, [])) as [r |] eqn:Hcreate
  end; simpl in Hinit; [| discriminate].
  match type of Hinit with
  | context [foldM ?f ?l0 r] => destruct (foldM f l0 r) as [r' |] eqn:Hbind
  end; simpl in Hinit; [| discriminate].
  inversion Hinit; subst; clear Hinit. simpl.
  assert (Hr : all_quiet (snd r)).
  { revert Hcreate.
    apply (foldM_invariant (fun acc : Shared * list (Z * DroneNode) => all_quiet (snd acc)));
      [| constructor].
    intros [w nodes] i [w' nodes'] Hacc. simpl in Hacc.
    unfold DroneNode.init.
    destruct (energy_mgrs _ !! _); simpl; [| discriminate].
    intros Heq. inversion Heq; subst; clear Heq. simpl.
    apply all_quiet_dict_set; [exact Hacc | split; discriminate]. }
  revert Hbind.
  apply (foldM_invariant (fun acc : Shared * list (Z * DroneNode) => all_quiet (snd acc)));
    [| exact Hr].
  intros [w nodes] i [w' nodes'] Hacc. simpl in Hacc.
  destruct (dict_get nodes i) as [d |] eqn:Hget; [| discriminate].
  simpl. intros Heq. inversion Heq; subst; clear Heq. simpl.
  apply all_quiet_dict_set; [exact Hacc |].
  exact (all_quiet_dict_get nodes i d Hacc Hget).
Qed.

(** Claim C1. Two runs of the core constructed with the same seed (and
    the same swarm size and home position) and fed the same commands
    between the same ticks have the same trajectory: tick by tick the same
    full simulation state, the same published snapshot and the same
    telemetry, or the same exception. The only draws that no seed
    determines are those of the global generator, made by an agent in the
    search state; no agent of a run ever leaves the idle and
    return-to-launch states, so the two runs agree whatever the global
    generator holds. *)
Theorem seeded_runs_agree `{NumpyGenerator} (num_leaders num_followers seed : Z)
    (home_x home_y home_z : R) (script : list (list command))
    (g1 g2 : GlobalRandom) :
  trajectory (simulate num_leaders num_followers seed home_x home_y home_z script g1)
  = trajectory (simulate num_leaders num_followers seed home_x home_y home_z script g2).
Proof.
  unfold simulate.
  destruct (SwarmLauncher.initialize_simulation num_leaders num_followers seed
              home_x home_y home_z) as [l | e] eqn:Hinit; simpl; [| reflexivity].
  destruct (run_quiet script l (initialize_simulation_quiet _ _ _ _ _ _ _ Hinit))
    as [(e & He) | (recs & Hrecs)].
  - rewrite !He. reflexivity.
  - rewrite !Hrecs. reflexivity.
Qed.

End Determinism.

(** ** A run on a seed NumPy accepts never raises *)

Section EngineFacts.
Context `{NumpyGenerator}.
Import constants energy_model channel_model fire_simulation physics_engine
  detm_controller distributed_observer drone_node swarm_launcher.

Lemma energy_ok_states (m : EnergyManager) :
  energy_ok m ->
  (exists bs, BatteryModel.get_state (battery m) = Ok bs) /\
  (exists ps, PayloadModel.get_state (payload m) = Ok ps) /\
  (exists r, EnergyManager.should_rtl_override m = Ok r).
Proof.
  intros (Ht & Hv & Hp).
  destruct (get_state_percent (battery m) Ht Hv) as (bs & Hbs & _).
  split; [exists bs; exact Hbs |]. split.
  - unfold PayloadModel.get_state. rewrite fdiv_ok by exact Hp. simpl. eauto.
  - rewrite (should_rtl_override_spec m Ht Hv). eauto.
Qed.

Lemma energy_ok_dock (m : EnergyManager) : energy_ok m -> energy_ok (EnergyManager.dock m).
Proof. intros H0. exact H0. Qed.

Lemma energy_ok_default : energy_ok EnergyManager.default.
Proof.
  unfold energy_ok, EnergyManager.default. simpl.
  unfold BATTERY_CAPACITY_MAH, BATTERY_VOLTAGE_V, MAX_PAYLOAD_UNITS. repeat split; lra.
Qed.

Lemma dict_mapM_total {V W : Type} (f : V -> result W) (m : gmap Z V) :
  (forall k v, m !! k = Some v -> exists w, f v = Ok w) ->
  exists r, dict_mapM f m = Ok r.
Proof.
  unfold dict_mapM.
  apply (map_fold_weak_ind
           (fun (acc : result (gmap Z W)) (m : gmap Z V) =>
              (forall k v, m !! k = Some v -> exists w, f v = Ok w) ->
              exists r, acc = Ok r)).
  - intros _. eauto.
  - intros k v m0 acc Hk IH Hall.
    destruct IH as (r & ->).
    { intros k' v' Hk'. apply (Hall k' v').
      rewrite lookup_insert_ne; [exact Hk' |]. intros ->. congruence. }
    destruct (Hall k v) as (w & Hw); [apply lookup_insert_eq |].
    simpl. rewrite Hw. simpl. eauto.
Qed.

Lemma calculate_path_loss_total (plm : PathLossModel) (d : R) :
  0 < reference_distance_m plm ->
  exists p, PathLossModel.calculate_path_loss plm d = Ok p.
Proof.
  intros H0. destruct (decide (d <= 0)) as [Hd | Hd].
  - unfold PathLossModel.calculate_path_loss.
    destruct (decide (d <= 0)); [eauto | contradiction].
  - rewrite calculate_path_loss_pos by lra. eauto.
Qed.

(** A fading draw succeeds when the standard deviation is not negative,
    and raises [ValueError] when it is. *)
Lemma generate_fading_ok (fc : RiceFadingChannel) :
  0 <= fading_std_db fc ->
  RiceFadingChannel.generate_fading fc
  = Ok ({| k_factor := k_factor fc; fading_std_db := fading_std_db fc;
           channel_model.rng := {| rs_seed := rs_seed (channel_model.rng fc);
                                   rs_drawn := S (rs_drawn (channel_model.rng fc)) |} |},
        0.0 + fading_std_db fc
              * np_standard_normal (rs_seed (channel_model.rng fc))
                  (rs_drawn (channel_model.rng fc))).
Proof.
  intros Hstd. unfold RiceFadingChannel.generate_fading, RandomState.normal.
  destruct (decide (fading_std_db fc < 0)); [lra | reflexivity].
Qed.

Lemma generate_fading_bad (fc : RiceFadingChannel) :
  fading_std_db fc < 0 -> RiceFadingChannel.generate_fading fc = Raise ValueError.
Proof.
  intros Hstd. unfold RiceFadingChannel.generate_fading, RandomState.normal.
  destruct (decide (fading_std_db fc < 0)); [reflexivity | lra].
Qed.

Lemma update_link_total (c : ChannelManager) (a b : Z) (d : R) :
  0 < reference_distance_m (path_loss_model c) ->
  0 <= fading_std_db (fading_channel c) ->
  exists c' st, ChannelManager.update_link c a b d = Ok (c', st) /\
                path_loss_model c' = path_loss_model c /\
                fading_std_db (fading_channel c') = fading_std_db (fading_channel c).
Proof.
  intros H0 Hstd. unfold ChannelManager.update_link, ChannelManager.ensure_link.
  destruct (links c !! (a, b)) as [l |]; cbn [path_loss_model fading_channel];
    unfold RFLink.update;
    destruct (calculate_path_loss_total _ d H0) as (p & ->);
    rewrite bind_Ok, (generate_fading_ok _ Hstd), bind_Ok; simpl; eauto.
Qed.

End EngineFacts.

Section PhysicsStepFacts.
Context `{NumpyGenerator}.
Import constants energy_model channel_model fire_simulation physics_engine
  detm_controller distributed_observer drone_node swarm_launcher.

Lemma update_channel_states_total (pe : PhysicsEngine) :
  0 < reference_distance_m (path_loss_model (channel_mgr pe)) ->
  fading_ok pe ->
  exists pe',
    PhysicsEngine._update_channel_states pe = Ok pe' /\
    fire_sim pe' = fire_sim pe /\ energy_mgrs pe' = energy_mgrs pe /\
    0 < reference_distance_m (path_loss_model (channel_mgr pe')) /\
    fading_ok pe'.
Proof.
  intros H0 Hfd. unfold PhysicsEngine._update_channel_states.
  apply (foldM_total
           (fun pe' : PhysicsEngine =>
              fire_sim pe' = fire_sim pe /\ energy_mgrs pe' = energy_mgrs pe /\
              0 < reference_distance_m (path_loss_model (channel_mgr pe')) /\
              fading_ok pe')).
  2: { split; [reflexivity |]. split; [reflexivity |]. split; [exact H0 | exact Hfd]. }
  intros pe0 [a b] (Hf & He & Hd & Hs).
  destruct (bool_decide (a = b)); [exists pe0; tauto |].
  destruct (PhysicsEngine.get_distance_between_drones pe0 a b) as [d |];
    [| exists pe0; tauto].
  destruct (update_link_total (channel_mgr pe0) a b d Hd Hs)
    as (c' & st & Hup & Hplm & Hstd).
  rewrite Hup. simpl. eexists. split; [reflexivity |]. unfold fading_ok. simpl.
  rewrite Hplm, Hstd. tauto.
Qed.

Lemma physics_step_total (fleet : gset Z) (pe : PhysicsEngine) :
  engine_ok fleet pe -> fading_ok pe ->
  exists pe' snap,
    PhysicsEngine.step pe = Ok (pe', snap) /\ engine_ok fleet pe' /\ fading_ok pe'.
Proof.
  intros (Hcs & Hd & Hdom & Hen) Hfd. unfold PhysicsEngine.step. simpl.
  destruct (step_total (fire_sim pe) Hcs) as (f' & r & Hstep).
  rewrite Hstep. simpl.
  destruct (step_dims _ _ _ Hstep) as (_ & _ & Hcs').
  match goal with
  | |- context [PhysicsEngine._update_channel_states ?p] =>
      destruct (update_channel_states_total p) as (pe2 & Hup & Hf2 & He2 & Hd2 & Hfd2);
        [exact Hd | exact Hfd |]
  end.
  rewrite Hup. simpl. simpl in Hf2, He2.
  destruct (dict_mapM_total EnergyManager.get_energy_state (energy_mgrs pe2))
    as (es & Hes).
  { intros k m Hk. rewrite He2 in Hk.
    destruct (energy_ok_states m (Hen k m Hk)) as ((bs & Hbs) & (ps & Hps) & _).
    unfold EnergyManager.get_energy_state. rewrite Hbs. simpl. rewrite Hps. simpl. eauto. }
  rewrite Hes. simpl. eexists _, _. split; [reflexivity |].
  split; [| exact Hfd2].
  unfold engine_ok. rewrite Hf2, He2.
  split; [congruence |]. split; [exact Hd2 |]. split; [exact Hdom | exact Hen].
Qed.

Lemma fading_ok_command (l : SwarmLauncher) (c : command) :
  fading_ok (physics (shared l)) ->
  fading_ok (physics (shared (SwarmLauncher.apply_command l c))).
Proof.
  intros Hok. destruct c; simpl.
  - unfold PhysicsEngine.ignite_fire_world, PhysicsEngine.ignite_fire.
    destruct (FireSimulation.ignite _ _ _ _). exact Hok.
  - unfold PhysicsEngine.suppress_fire_world, PhysicsEngine.suppress_fire.
    destruct (FireSimulation.suppress _ _ _ _). exact Hok.
  - exact Hok.
  - unfold PhysicsEngine.dock_drone. destruct (energy_mgrs _ !! _); exact Hok.
  - unfold PhysicsEngine.update_drone_position.
    destruct (drone_positions _ !! _); exact Hok.
Qed.

Lemma engine_ok_dock (fleet : gset Z) (pe : PhysicsEngine) (id : Z) :
  engine_ok fleet pe -> engine_ok fleet (PhysicsEngine.dock_drone pe id).
Proof.
  intros Hok. pose proof Hok as (Hcs & Hd & Hdom & Hen).
  unfold PhysicsEngine.dock_drone.
  destruct (energy_mgrs pe !! id) as [m |] eqn:Hm; [| exact Hok].
  unfold engine_ok. simpl. split; [exact Hcs |]. split; [exact Hd |]. split.
  - rewrite dom_insert_lookup_L; [exact Hdom | rewrite Hm; eauto].
  - intros id' m' Hm'. destruct (decide (id = id')) as [-> | Hne].
    + rewrite lookup_insert_eq in Hm'. inversion Hm'; subst.
      apply energy_ok_dock. exact (Hen _ _ Hm).
    + rewrite lookup_insert_ne in Hm' by exact Hne. exact (Hen _ _ Hm').
Qed.

Lemma engine_ok_update_position (fleet : gset Z) (pe : PhysicsEngine) (id : Z)
    (x y z vx vy vz h : R) :
  engine_ok fleet pe ->
  engine_ok fleet (PhysicsEngine.update_drone_position pe id x y z vx vy vz h).
Proof.
  intros Hok. unfold PhysicsEngine.update_drone_position.
  destruct (drone_positions pe !! id); exact Hok.
Qed.

Lemma engine_ok_command (fleet : gset Z) (l : SwarmLauncher) (c : command) :
  engine_ok fleet (physics (shared l)) ->
  engine_ok fleet (physics (shared (SwarmLauncher.apply_command l c))).
Proof.
  intros Hok. pose proof Hok as (Hcs & Hd & Hdom & Hen).
  destruct c; simpl.
  - unfold PhysicsEngine.ignite_fire_world, PhysicsEngine.ignite_fire,
      FireSimulation.ignite.
    destruct (negb _); simpl; [exact Hok |].
    split; [exact Hcs |]. split; [exact Hd |]. split; [exact Hdom | exact Hen].
  - unfold PhysicsEngine.suppress_fire_world, PhysicsEngine.suppress_fire,
      FireSimulation.suppress.
    destruct (negb _); simpl; [exact Hok |].
    split; [exact Hcs |]. split; [exact Hd |]. split; [exact Hdom | exact Hen].
  - split; [exact Hcs |]. split; [exact Hd |]. split; [exact Hdom | exact Hen].
  - apply engine_ok_dock. exact Hok.
  - apply engine_ok_update_position. exact Hok.
Qed.

End PhysicsStepFacts.

Section AgentStepFacts.
Import constants energy_model channel_model fire_simulation physics_engine
  detm_controller distributed_observer drone_node swarm_launcher.

Lemma fold_left_invariant {A B : Type} (P : A -> Prop) (f : A -> B -> A) (l : list B) :
  (forall a b, P a -> P (f a b)) -> forall a, P a -> P (fold_left f l a).
Proof.
  intros Hstep. induction l as [| b l IH]; intros a Ha; simpl; [exact Ha |].
  apply IH. apply Hstep. exact Ha.
Qed.

Lemma should_transmit_total (c : DETMController) (id t : Z) (x y z vx vy vz : R) :
  exists c' r, DETMController.should_transmit c id t x y z vx vy vz = Ok (c', r).
Proof.
  destruct (states c !! id) as [st |] eqn:Hst.
  - destruct (should_transmit_registered c id t x y z vx vy vz st Hst) as (c' & Hok).
    eauto.
  - unfold DETMController.should_transmit. rewrite Hst. eauto.
Qed.

Lemma same_engine_ok (fleet : gset Z) (pe pe' : PhysicsEngine) :
  same_engine pe pe' -> engine_ok fleet pe -> engine_ok fleet pe'.
Proof.
  intros (Hf & He & Hp & _) (Hcs & Hd & Hdom & Hen). unfold engine_ok.
  rewrite Hf, He, Hp. tauto.
Qed.

Lemma get_link_quality_engine (w : Shared) (d : DroneNode) :
  same_engine (physics w) (physics (fst (DroneNode._get_link_quality w d))).
Proof.
  unfold DroneNode._get_link_quality.
  match goal with
  | |- context [fold_left ?f ?l ?a] =>
      assert (Hinv : same_engine (physics w) (fst (fst (fold_left f l a))));
        [apply (fold_left_invariant
                  (fun acc : PhysicsEngine * R * Z =>
                     same_engine (physics w) (fst (fst acc)))) |];
        [| | destruct (fold_left f l a) as [[p total] count]; simpl; exact Hinv]
  end.
  - intros [[p total] count] rid Hp. simpl in Hp.
    destruct (bool_decide (rid = drone_id d)); [exact Hp |].
    unfold PhysicsEngine.get_channel_state, ChannelManager.get_channel_state,
      ChannelManager.ensure_link.
    destruct (links (channel_mgr p) !! (drone_id d, rid)); simpl; exact Hp.
  - repeat split; reflexivity.
Qed.

End AgentStepFacts.

Section AgentFrame.
Import constants energy_model channel_model fire_simulation physics_engine
  detm_controller distributed_observer drone_node swarm_launcher.

Lemma dispatch_frame (w w' : Shared) (d d' : DroneNode) (g g' : GlobalRandom) (fi : R) :
  DroneNode.dispatch w d g fi = Ok (w', d', g') ->
  pose d' = pose d /\ detm w' = detm w /\ observer w' = observer w /\
  fire_sim (physics w') = fire_sim (physics w) /\
  channel_mgr (physics w') = channel_mgr (physics w) /\
  drone_positions (physics w') = drone_positions (physics w).
Proof.
  unfold DroneNode.dispatch.
  destruct (drone_node.state d).
  - intros Heq. inversion Heq; subst. repeat split; reflexivity.
  - unfold DroneNode._step_search.
    destruct (bool_decide (100 < state_ticks d)%Z).
    + destruct (random.uniform g (-30) 30) as [g1 h].
      intros Heq. inversion Heq; subst. repeat split; reflexivity.
    + intros Heq. inversion Heq; subst. repeat split; reflexivity.
  - intros Heq. apply bind_Ok_inv in Heq. destruct Heq as ([w1 d1] & Hs & Heq).
    inversion Heq; subst. clear Heq. cbn [fst snd].
    unfold DroneNode._step_suppress in Hs.
    destruct (bool_decide (fi <= 0)).
    + inversion Hs; subst. repeat split; reflexivity.
    + unfold PhysicsEngine.suppress_with_payload in Hs.
      destruct (energy_mgrs (physics w) !! drone_id d) as [m |].
      * destruct (EnergyManager.update_suppression m (Rmin 1.0 fi)) as [m' r].
        apply bind_Ok_inv in Hs. destruct Hs as (ps & _ & Hs).
        destruct ps as [ps |]; [| discriminate].
        inversion Hs; subst. destruct (empty ps); repeat split; reflexivity.
      * apply bind_Ok_inv in Hs. destruct Hs as (ps & _ & Hs).
        destruct ps as [ps |]; [| discriminate].
        inversion Hs; subst. destruct (empty ps); repeat split; reflexivity.
  - unfold DroneNode._step_rtl.
    destruct (decide _); intros Heq; inversion Heq; subst.
    + unfold PhysicsEngine.dock_drone.
      destruct (energy_mgrs (physics w) !! drone_id d); repeat split; reflexivity.
    + repeat split; reflexivity.
  - intros Heq. inversion Heq; subst. repeat split; reflexivity.
  - intros Heq. inversion Heq; subst. repeat split; reflexivity.
Qed.

Lemma transmit_engine (w w' : Shared) (d : DroneNode) (t : Z) (f : bool * R)
    (tel : option Telemetry) :
  DroneNode.transmit w d t f = Ok (w', tel) ->
  same_engine (physics w) (physics w').
Proof.
  unfold DroneNode.transmit.
  set (w1 := DroneNode._check_collision_risk w d t).
  intros Htr. apply bind_Ok_inv in Htr. destruct Htr as ([c' [b eta]] & _ & Htr).
  cbn [fst snd] in Htr. destruct b.
  - apply bind_Ok_inv in Htr. destruct Htr as (bs & _ & Htr).
    apply bind_Ok_inv in Htr. destruct Htr as (ps & _ & Htr).
    destruct bs as [bs |]; [| discriminate].
    destruct ps as [ps |]; [| discriminate].
    match type of Htr with
    | context [DroneNode._get_link_quality ?w0 d] =>
        pose proof (get_link_quality_engine w0 d) as Hsame;
          destruct (DroneNode._get_link_quality w0 d) as [w4 rssi]
    end.
    inversion Htr; subst. exact Hsame.
  - inversion Htr; subst. repeat split; reflexivity.
Qed.

(** A tick of an agent leaves the fading channel of the engine alone. *)
Lemma agent_step_fading (w w' : Shared) (d d' : DroneNode) (g g' : GlobalRandom) (t : Z)
    (tel : option Telemetry) :
  DroneNode.step w d g t = Ok (w', d', g', tel) ->
  fading_channel (channel_mgr (physics w')) = fading_channel (channel_mgr (physics w)).
Proof.
  unfold DroneNode.step. intros Hs.
  apply bind_Ok_inv in Hs. destruct Hs as (d1 & _ & Hs).
  apply bind_Ok_inv in Hs. destruct Hs as ([d2 f] & _ & Hs).
  apply bind_Ok_inv in Hs. destruct Hs as ([[w1 d3] g1] & Hdis & Hs).
  apply bind_Ok_inv in Hs. destruct Hs as ([w2 tel'] & Htr & Hs).
  cbn [fst snd] in *. inversion Hs; subst. clear Hs.
  destruct (dispatch_frame _ _ _ _ _ _ _ Hdis) as (_ & _ & _ & _ & C & _).
  destruct (transmit_engine _ _ _ _ _ _ Htr) as (_ & _ & _ & F).
  rewrite F, C. reflexivity.
Qed.

End AgentFrame.

Section AgentTotality.
Import constants energy_model channel_model fire_simulation physics_engine
  detm_controller distributed_observer drone_node swarm_launcher.

Lemma override_ok (fleet : gset Z) (w : Shared) (d : DroneNode) :
  engine_ok fleet (physics w) -> drone_id d ∈ fleet ->
  exists d1, DroneNode.override w d = Ok d1 /\ drone_id d1 = drone_id d.
Proof.
  intros (_ & _ & Hdom & Hen) Hin. unfold DroneNode.override,
    PhysicsEngine.should_rtl_override.
  rewrite <- Hdom in Hin. apply elem_of_dom in Hin. destruct Hin as (m & Hm).
  rewrite Hm. destruct (energy_ok_states m (Hen _ _ Hm)) as (_ & _ & (r & Hr)).
  rewrite Hr. simpl.
  destruct (fst r && negb (bool_decide (drone_node.state d = RETURN_TO_LAUNCH)));
    eexists; split; reflexivity.
Qed.

Lemma detect_ok (fleet : gset Z) (w : Shared) (d : DroneNode) :
  engine_ok fleet (physics w) ->
  exists r, DroneNode.detect w d = Ok r.
Proof.
  intros (Hcs & _).
  assert (Hdet : exists r0, PhysicsEngine.detect_fire (physics w) (drone_id d)
                              (sensor_range_m d) = Ok r0).
  { unfold PhysicsEngine.detect_fire.
    destruct (PhysicsEngine.get_drone_position (physics w) (drone_id d)) as [pos |];
      [| eauto].
    unfold FireSimulation.detect_fire. rewrite !fdiv_ok by exact Hcs. simpl.
    destruct (negb _); [eauto |].
    destruct (FireCell.is_detectable _); eauto. }
  destruct Hdet as (r0 & Hr0). unfold DroneNode.detect. rewrite Hr0. simpl.
  destruct (fst r0 && bool_decide (drone_node.state d = SEARCH)); eauto.
Qed.

Lemma dispatch_ok (fleet : gset Z) (w : Shared) (d : DroneNode) (fi : R) :
  quiet d -> engine_ok fleet (physics w) ->
  exists w' d', quiet d' /\ drone_id d' = drone_id d /\
    engine_ok fleet (physics w') /\
    forall g, DroneNode.dispatch w d g fi = Ok (w', d', g).
Proof.
  intros Hq Hok. pose proof Hq as [Hs1 Hs2]. unfold DroneNode.dispatch.
  destruct (drone_node.state d) eqn:Hst; try contradiction.
  - exists w, d. split; [exact Hq |]. split; [reflexivity |].
    split; [exact Hok | reflexivity].
  - pose proof (step_rtl_quiet w d Hst) as Hq'.
    unfold DroneNode._step_rtl in *.
    destruct (decide _); simpl in *.
    + eexists _, _. split; [| split; [| split; [| intros g; reflexivity]]].
      * exact Hq'.
      * reflexivity.
      * apply engine_ok_dock. exact Hok.
    + eexists _, _. split; [| split; [| split; [| intros g; reflexivity]]].
      * exact Hq'.
      * reflexivity.
      * exact Hok.
  - exists w, d. split; [exact Hq |]. split; [reflexivity |].
    split; [exact Hok | reflexivity].
  - exists w, d. split; [exact Hq |]. split; [reflexivity |].
    split; [exact Hok | reflexivity].
Qed.

Lemma transmit_ok (fleet : gset Z) (w : Shared) (d : DroneNode) (t : Z) (f : bool * R) :
  engine_ok fleet (physics w) -> drone_id d ∈ fleet ->
  exists w' tel, DroneNode.transmit w d t f = Ok (w', tel) /\
                 engine_ok fleet (physics w').
Proof.
  intros Hok Hin. pose proof Hok as (_ & _ & Hdom & Hen).
  unfold DroneNode.transmit.
  set (w1 := DroneNode._check_collision_risk w d t).
  destruct (should_transmit_total (detm w1) (drone_id d) t (dn_x d) (dn_y d) (dn_z d)
              (dn_vx d) (dn_vy d) (dn_vz d)) as (c' & [b eta] & Htx).
  rewrite Htx, bind_Ok. cbn [fst snd].
  destruct b; [| eexists _, _; split; [reflexivity | exact Hok]].
  unfold PhysicsEngine.get_battery_state, PhysicsEngine.get_payload_state.
  cbn [physics with_detm].
  change (physics w1) with (physics w).
  rewrite <- Hdom in Hin. apply elem_of_dom in Hin. destruct Hin as (m & Hm).
  rewrite Hm. destruct (energy_ok_states m (Hen _ _ Hm)) as ((bs & Hbs) & (ps & Hps) & _).
  rewrite Hbs, !bind_Ok, Hps, !bind_Ok.
  match goal with
  | |- context [DroneNode._get_link_quality ?w0 d] =>
      pose proof (get_link_quality_engine w0 d) as Hsame;
        destruct (DroneNode._get_link_quality w0 d) as [w4 rssi]
  end.
  eexists _, _. split; [reflexivity |].
  cbn [fst physics with_detm] in Hsame.
  change (physics w1) with (physics w) in Hsame.
  exact (same_engine_ok fleet _ _ Hsame Hok).
Qed.

(** An agent in a quiet state, in a working engine, completes its tick
    whatever the global generator holds and leaves the generator as it
    found it. *)
Lemma agent_step_ok (fleet : gset Z) (w : Shared) (d : DroneNode) (t : Z) :
  quiet d -> engine_ok fleet (physics w) -> drone_id d ∈ fleet ->
  exists w' d' tel,
    quiet d' /\ drone_id d' = drone_id d /\ engine_ok fleet (physics w') /\
    forall g, DroneNode.step w d g t = Ok (w', d', g, tel).
Proof.
  intros Hq Hok Hin. unfold DroneNode.step.
  assert (Hq0 : quiet (with_state_ticks d (state_ticks d + 1))) by exact Hq.
  destruct (override_ok fleet w (with_state_ticks d (state_ticks d + 1)) Hok Hin)
    as (d1 & Hov & Hid1).
  rewrite Hov. simpl. simpl in Hid1.
  pose proof (override_quiet _ _ _ Hq0 Hov) as Hq1.
  destruct (detect_ok fleet w d1 Hok) as ([d2 f] & Hdet).
  rewrite Hdet. simpl.
  pose proof (detect_quiet _ _ _ _ Hq1 Hdet) as ->.
  destruct (dispatch_ok fleet w d1 (snd f) Hq1 Hok) as (w' & d' & Hq' & Hid' & Hok' & Hdisp).
  destruct (transmit_ok fleet w' d' t f Hok') as (w'' & tel & Htr & Hok'').
  { rewrite Hid', Hid1. exact Hin. }
  exists w'', d', tel. split; [exact Hq' |]. split; [congruence |].
  split; [exact Hok'' |].
  intros g. rewrite Hdisp. simpl. rewrite Htr. reflexivity.
Qed.

End AgentTotality.

Section TickTotality.
Context `{NumpyGenerator}.
Import constants energy_model channel_model fire_simulation physics_engine
  detm_controller distributed_observer drone_node swarm_launcher.

Lemma step_agent_ok (fleet : gset Z) (t : Z) (w : Shared) (done : list (Z * DroneNode))
    (out : list (Z * option Telemetry)) (item : Z * DroneNode) :
  quiet (snd item) -> drone_id (snd item) = fst item -> fst item ∈ fleet ->
  engine_ok fleet (physics w) -> fading_ok (physics w) ->
  exists w' d' tel,
    quiet d' /\ drone_id d' = fst item /\ engine_ok fleet (physics w') /\
    fading_ok (physics w') /\
    forall g, SwarmLauncher.step_agent t (w, done, out, g) item
              = Ok (w', done ++ [(fst item, d')], out ++ [(fst item, tel)], g).
Proof.
  destruct item as [id d]. simpl. intros Hq Hid Hin Hok Hfd.
  unfold SwarmLauncher.step_agent.
  destruct (match PhysicsEngine.get_drone_position (physics w) id with
            | Some pos =>
                DroneNode.update_position w d (pos_x pos) (pos_y pos) (pos_z pos)
                  (pos_vx pos) (pos_vy pos) (pos_vz pos) (pos_heading_deg pos)
            | None => (w, d)
            end) as [w1 d1] eqn:Hpos.
  assert (H1 : quiet d1 /\ drone_id d1 = id /\ engine_ok fleet (physics w1) /\
               fading_ok (physics w1)).
  { destruct (PhysicsEngine.get_drone_position (physics w) id) as [pos |].
    - unfold DroneNode.update_position in Hpos. inversion Hpos; subst; clear Hpos.
      split; [exact Hq |]. split; [reflexivity |]. split.
      + apply engine_ok_update_position. exact Hok.
      + cbn [physics with_physics]. unfold PhysicsEngine.update_drone_position.
        destruct (drone_positions _ !! _); exact Hfd.
    - inversion Hpos; subst. tauto. }
  destruct H1 as (Hq1 & Hid1 & Hok1 & Hfd1).
  destruct (agent_step_ok fleet w1 d1 t Hq1 Hok1) as (w' & d' & tel & Hq' & Hid' & Hok' & Hstep).
  { rewrite Hid1. exact Hin. }
  exists w', d', tel. split; [exact Hq' |]. split; [congruence |]. split; [exact Hok' |].
  split.
  - unfold fading_ok.
    rewrite (agent_step_fading _ _ _ _ _ _ _ _
               (Hstep {| gr_outputs := fun _ => 0; gr_drawn := 0 |})).
    exact Hfd1.
  - intros g. rewrite Hstep. reflexivity.
Qed.

Lemma step_agents_ok (fleet : gset Z) (t : Z) (nodes : list (Z * DroneNode)) :
  all_quiet nodes -> crew_ok fleet nodes ->
  forall (w : Shared) (done : list (Z * DroneNode)) (out : list (Z * option Telemetry)),
    engine_ok fleet (physics w) -> fading_ok (physics w) ->
    all_quiet done -> crew_ok fleet done ->
    exists w' nodes' out',
      all_quiet nodes' /\ crew_ok fleet nodes' /\ engine_ok fleet (physics w') /\
      fading_ok (physics w') /\
      forall g, foldM (SwarmLauncher.step_agent t) nodes (w, done, out, g)
                = Ok (w', nodes', out', g).
Proof.
  intros Hq. induction Hq as [| item nodes Hq Hall IH];
    intros Hcrew w done out Hok Hfd Hdq Hdc.
  - exists w, done, out. repeat (split; [assumption |]). reflexivity.
  - apply Forall_cons in Hcrew. destruct Hcrew as [[Hid Hin] Hcrew].
    destruct (step_agent_ok fleet t w done out item Hq Hid Hin Hok Hfd)
      as (w' & d' & tel & Hq' & Hid' & Hok' & Hfd' & Hstep).
    destruct (IH Hcrew w' (done ++ [(fst item, d')]) (out ++ [(fst item, tel)]) Hok' Hfd')
      as (w'' & nodes' & out' & Hq'' & Hc'' & Hok'' & Hfd'' & Hfold).
    { apply Forall_app. split; [exact Hdq |]. constructor; [exact Hq' | constructor]. }
    { apply Forall_app. split; [exact Hdc |].
      constructor; [split; [exact Hid' | exact Hin] | constructor]. }
    exists w'', nodes', out'. repeat (split; [assumption |]).
    intros g. rewrite (foldM_cons_ok _ _ _ _ _ (Hstep g)). apply Hfold.
Qed.

Lemma simulation_step_ok (fleet : gset Z) (l : SwarmLauncher) :
  all_quiet (drone_nodes l) -> crew_ok fleet (drone_nodes l) ->
  engine_ok fleet (physics (shared l)) -> fading_ok (physics (shared l)) ->
  exists l' out,
    all_quiet (drone_nodes l') /\ crew_ok fleet (drone_nodes l') /\
    engine_ok fleet (physics (shared l')) /\ fading_ok (physics (shared l')) /\
    forall g, SwarmLauncher.simulation_step l g = Ok (l', out, g).
Proof.
  intros Hq Hc Hok Hfd. unfold SwarmLauncher.simulation_step.
  destruct (physics_step_total fleet _ Hok Hfd) as (pe & snap & Hstep & Hok' & Hfd').
  rewrite Hstep.
  destruct (step_agents_ok fleet (snap_time_us snap) (drone_nodes l) Hq Hc
              (with_physics (shared l) pe) [] [])
    as (w' & nodes' & out' & Hq' & Hc' & Hok'' & Hfd'' & Hfold);
    [exact Hok' | exact Hfd' | constructor | constructor |].
  exists {| num_leaders := num_leaders l; num_followers := num_followers l;
            total_drones := total_drones l; shared := w'; drone_nodes := nodes';
            ticks := snap_tick snap; time_us := snap_time_us snap |},
         {| snapshot := snap; telemetry := out' |}.
  split; [exact Hq' |]. split; [exact Hc' |]. split; [exact Hok'' |].
  split; [exact Hfd'' |].
  intros g. rewrite bind_Ok. unfold SwarmLauncher.step_agents.
  rewrite Hfold, bind_Ok. reflexivity.
Qed.

Lemma apply_commands_engine (fleet : gset Z) (cs : list command) (l : SwarmLauncher) :
  engine_ok fleet (physics (shared l)) ->
  engine_ok fleet (physics (shared (fold_left SwarmLauncher.apply_command cs l))).
Proof.
  revert l. induction cs as [| c cs IH]; intros l Hok; simpl; [exact Hok |].
  apply IH. apply engine_ok_command. exact Hok.
Qed.

Lemma apply_commands_fading (cs : list command) (l : SwarmLauncher) :
  fading_ok (physics (shared l)) ->
  fading_ok (physics (shared (fold_left SwarmLauncher.apply_command cs l))).
Proof.
  revert l. induction cs as [| c cs IH]; intros l Hok; simpl; [exact Hok |].
  apply IH. apply fading_ok_command. exact Hok.
Qed.

Lemma run_ok (fleet : gset Z) (script : list (list command)) :
  forall l : SwarmLauncher,
    all_quiet (drone_nodes l) -> crew_ok fleet (drone_nodes l) ->
    engine_ok fleet (physics (shared l)) -> fading_ok (physics (shared l)) ->
    exists recs,
      length recs = length script /\
      forall g, SwarmLauncher.run l g script = Ok (recs, g).
Proof.
  induction script as [| cs script IH]; intros l Hq Hc Hok Hfd.
  - exists []. split; reflexivity.
  - destruct (simulation_step_ok fleet (fold_left SwarmLauncher.apply_command cs l))
      as (l' & out & Hq' & Hc' & Hok' & Hfd' & Hstep).
    { rewrite apply_commands_nodes. exact Hq. }
    { rewrite apply_commands_nodes. exact Hc. }
    { apply apply_commands_engine. exact Hok. }
    { apply apply_commands_fading. exact Hfd. }
    destruct (IH l' Hq' Hc' Hok' Hfd') as (recs & Hlen & Hrun).
    exists ((l', out) :: recs). split; [simpl; rewrite Hlen; reflexivity |].
    intros g. cbn [SwarmLauncher.run]. rewrite Hstep, bind_Ok, Hrun, bind_Ok.
    reflexivity.
Qed.

End TickTotality.

Section InitFacts.
Import constants energy_model channel_model fire_simulation physics_engine
  detm_controller distributed_observer drone_node swarm_launcher.

Lemma lookup_fold_insert {V : Type} (v : V) (l : list Z) :
  forall (m0 : gmap Z V) (k : Z),
    fold_left (fun (m : gmap Z V) id => <[id := v]> m) l m0 !! k
    = if decide (k ∈ l) then Some v else m0 !! k.
Proof.
  induction l as [| a l IH]; intros m0 k; simpl.
  - destruct (decide (k ∈ [])) as [Hin | _]; [inversion Hin | reflexivity].
  - rewrite IH. destruct (decide (k ∈ l)) as [Hin | Hnin].
    + destruct (decide (k ∈ a :: l)) as [_ | Hn]; [reflexivity |].
      exfalso. apply Hn. apply elem_of_cons. right. exact Hin.
    + destruct (decide (k = a)) as [-> | Hne].
      * rewrite lookup_insert_eq.
        destruct (decide (a ∈ a :: l)) as [_ | Hn]; [reflexivity |].
        exfalso. apply Hn. apply elem_of_cons. left. reflexivity.
      * rewrite lookup_insert_ne by congruence.
        destruct (decide (k ∈ a :: l)) as [Hin | _]; [| reflexivity].
        apply elem_of_cons in Hin. destruct Hin; contradiction.
Qed.

Lemma engine_ok_init (total seed : Z) (pe : PhysicsEngine) :
  PhysicsEngine.init total seed = Ok pe -> engine_ok (dom (energy_mgrs pe)) pe.
Proof.
  intros Hinit.
  destruct (physics_init_inv _ _ _ Hinit) as (_ & Hf & Hc & He & _).
  destruct (fire_init_inv _ _ _ _ _ Hf) as (_ & _ & _ & Hcs & _).
  destruct (channel_init_inv _ _ Hc) as (_ & _ & Hplm & _).
  unfold engine_ok. rewrite Hcs, Hplm.
  split; [unfold FIRE_CELL_SIZE_M; lra |].
  split; [simpl; unfold REFERENCE_DISTANCE_M; lra |].
  split; [reflexivity |].
  intros id m. rewrite He, lookup_fold_insert.
  destruct (decide _); [| rewrite lookup_empty; discriminate].
  intros Heq. inversion Heq. apply energy_ok_default.
Qed.

Lemma fading_ok_init (total seed : Z) (pe : PhysicsEngine) :
  PhysicsEngine.init total seed = Ok pe -> fading_ok pe.
Proof.
  intros Hinit.
  destruct (physics_init_inv _ _ _ Hinit) as (_ & _ & Hc & _).
  destruct (channel_init_inv _ _ Hc) as (_ & _ & _ & Hfc & _).
  unfold fading_ok. rewrite Hfc. simpl. unfold FADING_STD_DB. lra.
Qed.

Lemma init_fleet (total seed k : Z) (pe : PhysicsEngine) :
  PhysicsEngine.init total seed = Ok pe ->
  (1 <= k <= total)%Z -> energy_mgrs pe !! k = Some EnergyManager.default.
Proof.
  intros Hinit Hk.
  destruct (physics_init_inv _ _ _ Hinit) as (_ & _ & _ & He & _).
  rewrite He, lookup_fold_insert.
  destruct (decide (k ∈ py_range 1 (total + 1))) as [_ | Hn]; [reflexivity |].
  exfalso. apply Hn. apply elem_of_py_range. lia.
Qed.

Lemma Forall_dict_set {V : Type} (P : Z * V -> Prop) (d : list (Z * V)) (k : Z) (v : V) :
  Forall P d -> P (k, v) -> Forall P (dict_set d k v).
Proof.
  intros Hall Hp. induction Hall as [| [k' v'] d Hp' Hall IH]; simpl.
  - constructor; [exact Hp | constructor].
  - destruct (decide (k' = k)).
    + constructor; [exact Hp | exact Hall].
    + constructor; [exact Hp' | exact IH].
Qed.

Lemma Forall_dict_get {V : Type} (P : Z * V -> Prop) (d : list (Z * V)) (k : Z) (v : V) :
  Forall P d -> dict_get d k = Some v -> P (k, v).
Proof.
  intros Hall. induction Hall as [| [k' v'] d Hp' Hall IH]; simpl; [discriminate |].
  destruct (decide (k' = k)) as [-> | _]; [| exact IH].
  intros Heq. inversion Heq; subst. exact Hp'.
Qed.

Lemma dict_get_set_is_Some {V : Type} (d : list (Z * V)) (k k' : Z) (v : V) :
  is_Some (dict_get (dict_set d k v) k') <-> k = k' \/ is_Some (dict_get d k').
Proof.
  destruct (decide (k = k')) as [-> | Hne].
  - rewrite dict_get_set_eq. split; [left; reflexivity | eauto].
  - rewrite dict_get_set_ne by exact Hne. tauto.
Qed.

(** The loop of [initialize_simulation] that creates the agents. *)
Lemma create_agents_ok (nl total seed : Z) (hx hy hz : R) (l : list Z)
    (pe : PhysicsEngine) :
  PhysicsEngine.init total seed = Ok pe ->
  (forall i, i ∈ l -> (1 <= i + 1 <= total)%Z) ->
  forall (w : Shared) (nodes : list (Z * DroneNode)),
    physics w = pe ->
    all_quiet nodes ->
    crew_ok (dom (energy_mgrs pe)) nodes ->
    exists w' nodes',
      foldM
        (fun (acc : Shared * list (Z * DroneNode)) i =>
           let '(w, nodes) := acc in
           let drone_id := (i + 1)%Z in
           let drone_type := if bool_decide (i < nl)%Z then LEADER else FOLLOWER in
           d ← DroneNode.init w drone_id drone_type hx hy hz;
           Ok (fst d, dict_set nodes drone_id (snd d)))
        l (w, nodes) = Ok (w', nodes') /\
      physics w' = pe /\
      all_quiet nodes' /\
      crew_ok (dom (energy_mgrs pe)) nodes' /\
      forall k, (is_Some (dict_get nodes k) \/ (k - 1)%Z ∈ l) ->
                is_Some (dict_get nodes' k).
Proof.
  intros Hpe. induction l as [| i l IH]; intros Hl w nodes Hw Hq Hc.
  - exists w, nodes. split; [reflexivity |]. split; [exact Hw |].
    split; [exact Hq |]. split; [exact Hc |].
    intros k [Hk | Hk]; [exact Hk | inversion Hk].
  - assert (Hi : (1 <= i + 1 <= total)%Z) by (apply Hl; apply elem_of_cons; left; reflexivity).
    pose proof (init_fleet total seed (i + 1) pe Hpe Hi) as Hm.
    assert (Hfleet : (i + 1)%Z ∈ dom (energy_mgrs pe)) by (apply elem_of_dom; eauto).
    set (d := {| drone_id := (i + 1)%Z;
                 drone_type := if bool_decide (i < nl)%Z then LEADER else FOLLOWER;
                 dn_x := 0.0; dn_y := 0.0; dn_z := 0.0;
                 dn_vx := 0.0; dn_vy := 0.0; dn_vz := 0.0;
                 heading_deg := 0.0;
                 home_x := hx; home_y := hy; home_z := hz;
                 drone_node.state := IDLE; state_ticks := 0;
                 neighbor_ids := [];
                 fire_detected_count := 0; fire_suppression_count := 0;
                 sensor_range_m := 50.0;
                 total_distance_m := 0.0;
                 time_in_search_us := 0; time_in_suppress_us := 0;
                 time_in_rtl_us := 0 |}).
    set (w1 := with_detm w (DETMController.register_drone (detm w) (i + 1)
                              DETM_ETA0 DETM_LAMBDA "l2")).
    assert (Hinit : DroneNode.init w (i + 1)
                      (if bool_decide (i < nl)%Z then LEADER else FOLLOWER) hx hy hz
                    = Ok (w1, d)).
    { unfold DroneNode.init. cbn [physics with_detm]. rewrite Hw, Hm. reflexivity. }
    destruct (IH (fun j Hj => Hl j (proj2 (elem_of_cons l j i) (or_intror Hj)))
                w1 (dict_set nodes (i + 1) d))
      as (w' & nodes' & Hfold & Hw' & Hq' & Hc' & Hkeys).
    { exact Hw. }
    { apply Forall_dict_set; [exact Hq | split; discriminate]. }
    { apply Forall_dict_set; [exact Hc | split; [reflexivity | exact Hfleet]]. }
    exists w', nodes'. split.
    { rewrite (foldM_cons_ok _ _ _ _ (w1, dict_set nodes (i + 1) d)); [exact Hfold |].
      cbv beta iota zeta. rewrite Hinit, bind_Ok. reflexivity. }
    split; [exact Hw' |]. split; [exact Hq' |]. split; [exact Hc' |].
    intros k Hk. apply Hkeys.
    destruct Hk as [Hk | Hk].
    + left. apply dict_get_set_is_Some. right. exact Hk.
    + apply elem_of_cons in Hk. destruct Hk as [Hk | Hk]; [| right; exact Hk].
      left. apply dict_get_set_is_Some. left. lia.
Qed.

End InitFacts.

Section RunTotality.
Context `{NumpyGenerator}.
Import constants energy_model channel_model fire_simulation physics_engine
  detm_controller distributed_observer drone_node swarm_launcher.

(** With a seed NumPy accepts and no negative number of leaders,
    [initialize_simulation] succeeds and hands over idle agents in a
    working engine. *)
Lemma initialize_simulation_ok (nl nf seed : Z) (hx hy hz : R) :
  (0 <= seed < 2 ^ 32)%Z -> (0 <= nl)%Z ->
  exists l,
    SwarmLauncher.initialize_simulation nl nf seed hx hy hz = Ok l /\
    all_quiet (drone_nodes l) /\
    crew_ok (dom (energy_mgrs (physics (shared l)))) (drone_nodes l) /\
    engine_ok (dom (energy_mgrs (physics (shared l)))) (physics (shared l)) /\
    fading_ok (physics (shared l)).
Proof.
  intros Hseed Hnl. unfold SwarmLauncher.initialize_simulation.
  destruct (physics_init_ok (nl + nf) seed Hseed) as (pe & Hpe).
  set (fleet := dom (energy_mgrs pe)).
  destruct (create_agents_ok nl (nl + nf) seed hx hy hz (py_range 0 (nl + nf)) pe Hpe)
    with (w := {| physics := pe;
                  detm := DETMController.init;
                  observer := DistributedObserver.default |})
         (nodes := @nil (Z * DroneNode))
    as (w1 & nodes1 & Hcreate & Hw1 & Hq1 & Hc1 & Hkeys).
  { intros i Hi. apply elem_of_py_range in Hi. lia. }
  { reflexivity. }
  { constructor. }
  { constructor. }
  cbv zeta in Hcreate |- *. rewrite Hpe, bind_Ok, Hcreate, bind_Ok.
  match goal with
  | |- context [foldM ?f ?l0 (w1, nodes1)] =>
      destruct (foldM_total_in
                  (fun acc : Shared * list (Z * DroneNode) =>
                     physics (fst acc) = pe /\
                     all_quiet (snd acc) /\ crew_ok fleet (snd acc) /\
                     forall k, is_Some (dict_get nodes1 k) -> is_Some (dict_get (snd acc) k))
                  f l0) with (a := (w1, nodes1)) as ([w2 nodes2] & Hbind & Hw2 & Hq2 & Hc2 & _)
  end.
  - intros [w nodes] fid Hfid (Hw & Hq & Hc & Hk). simpl in Hw, Hq, Hc, Hk.
    apply elem_of_py_range in Hfid.
    destruct (Hk fid) as (d & Hd).
    { apply Hkeys. right. apply elem_of_py_range. lia. }
    rewrite Hd. unfold DroneNode.set_neighbors.
    eexists. split; [reflexivity |]. simpl.
    split; [exact Hw |].
    pose proof (Forall_dict_get _ _ _ _ Hq Hd) as Hqd.
    pose proof (Forall_dict_get _ _ _ _ Hc Hd) as Hcd.
    split; [apply Forall_dict_set; [exact Hq | exact Hqd] |].
    split; [apply Forall_dict_set; [exact Hc | exact Hcd] |].
    intros k Hk1. apply dict_get_set_is_Some. right. apply Hk. exact Hk1.
  - simpl. split; [exact Hw1 |]. split; [exact Hq1 |]. split; [exact Hc1 |]. tauto.
  - rewrite Hbind, bind_Ok. eexists. split; [reflexivity |]. simpl in *.
    split; [exact Hq2 |]. rewrite Hw2. split; [exact Hc2 |].
    split; [exact (engine_ok_init _ _ _ Hpe) | exact (fading_ok_init _ _ _ Hpe)].
Qed.

(** With a seed NumPy accepts and no negative number of leaders a run
    never raises: it yields one record per tick of the script, the same
    whatever the global generator holds, and leaves the generator
    untouched. *)
Lemma simulate_total (nl nf seed : Z) (hx hy hz : R) (script : list (list command)) :
  (0 <= seed < 2 ^ 32)%Z -> (0 <= nl)%Z ->
  exists recs,
    length recs = length script /\
    forall g, simulate nl nf seed hx hy hz script g = Ok (recs, g).
Proof.
  intros Hseed Hnl. unfold simulate.
  destruct (initialize_simulation_ok nl nf seed hx hy hz Hseed Hnl)
    as (l & Hinit & Hq & Hc & Hok & Hfd).
  destruct (run_ok _ script l Hq Hc Hok Hfd) as (recs & Hlen & Hrun).
  exists recs. split; [exact Hlen |].
  intros g. rewrite Hinit, bind_Ok. apply Hrun.
Qed.

End RunTotality.

Section RtlClaim.
Import constants energy_model physics_engine swarm_launcher.

(** Claim C4. For a drone whose energy manager the engine holds (built with
    a capacity and a voltage that are not zero), [should_rtl_override]
    returns [(True, "battery_critical")] when the battery percent is below
    20, otherwise [(True, "payload_empty")] when the payload units are at or
    below 0, otherwise [(False, "none")]; the battery check comes first, so
    it wins when both conditions hold. *)
Theorem should_rtl_decision (pe : PhysicsEngine) (id : Z) (m : EnergyManager) :
  energy_mgrs pe !! id = Some m ->
  total_energy_wh (battery m) <> 0 ->
  nominal_voltage_v (battery m) <> 0 ->
  exists st,
    BatteryModel.get_state (battery m) = Ok st /\
    PhysicsEngine.should_rtl_override pe id =
      Ok (if decide (battery_percent st < 20)
          then (true, "battery_critical"%string)
          else if decide (payload_units (payload m) <= 0)
               then (true, "payload_empty"%string)
               else (false, "none"%string)) /\
    (battery_percent st < 20 -> payload_units (payload m) <= 0 ->
     PhysicsEngine.should_rtl_override pe id = Ok (true, "battery_critical"%string)).
Proof.
  intros Hm Ht Hv.
  destruct (get_state_percent (battery m) Ht Hv) as (st & Hst & Hp & _).
  exists st. split; [exact Hst |].
  assert (Hdec : PhysicsEngine.should_rtl_override pe id =
                 Ok (if decide (battery_percent st < 20)
                     then (true, "battery_critical"%string)
                     else if decide (payload_units (payload m) <= 0)
                          then (true, "payload_empty"%string)
                          else (false, "none"%string))).
  { unfold PhysicsEngine.should_rtl_override. rewrite Hm.
    rewrite (should_rtl_override_spec m Ht Hv), Hp. reflexivity. }
  split; [exact Hdec |].
  intros Hcrit _. rewrite Hdec.
  destruct (decide (battery_percent st < 20)); [reflexivity | contradiction].
Qed.

Lemma should_rtl_decision_witness :
  exists pe st,
    PhysicsEngine.init 1 42 = Ok pe /\
    BatteryModel.get_state (battery EnergyManager.default) = Ok st /\
    PhysicsEngine.should_rtl_override pe 1 =
      Ok (if decide (battery_percent st < 20)
          then (true, "battery_critical"%string)
          else if decide (payload_units (payload EnergyManager.default) <= 0)
               then (true, "payload_empty"%string)
               else (false, "none"%string)) /\
    (battery_percent st < 20 -> payload_units (payload EnergyManager.default) <= 0 ->
     PhysicsEngine.should_rtl_override pe 1 = Ok (true, "battery_critical"%string)).
Proof.
  destruct (physics_init_ok 1 42) as (pe & Hpe); [lia |].
  destruct (should_rtl_decision pe 1 EnergyManager.default) as (st & Hst);
    [| | | exists pe, st; split; [exact Hpe | exact Hst]].
  - apply (init_fleet 1 42 1 pe Hpe). lia.
  - simpl. unfold BATTERY_CAPACITY_MAH, BATTERY_VOLTAGE_V. lra.
  - simpl. unfold BATTERY_VOLTAGE_V. lra.
Defined.

End RtlClaim.

Section SearchDraw.
Import constants drone_node.

Lemma Int_part_small (x : R) : 0 <= x < 1 -> Int_part x = 0%Z.
Proof. intros Hx. symmetry. apply Int_part_spec. simpl. lra. Qed.

(** The one draw that no seed determines: an agent that has been searching
    for more than 100 ticks turns by what the global generator yields, so
    two generator states give two headings. No run reaches the search
    state (see [agent_step_ok]). *)
Lemma search_draws_from_global_generator (d : DroneNode) :
  (100 < state_ticks d)%Z -> heading_deg d = 0 ->
  heading_deg (fst (DroneNode._step_search d
                      {| gr_outputs := fun _ => 0.5; gr_drawn := 0 |})) = 0 /\
  heading_deg (fst (DroneNode._step_search d
                      {| gr_outputs := fun _ => 0.75; gr_drawn := 0 |})) = 15.
Proof.
  intros Ht Hh. unfold DroneNode._step_search.
  rewrite bool_decide_eq_true_2 by exact Ht. simpl. rewrite Hh. unfold fmod. split.
  - replace ((0 + (-30 + (30 - -30) * 0.5)) / 360) with 0 by lra.
    rewrite Int_part_small by lra. lra.
  - replace ((0 + (-30 + (30 - -30) * 0.75)) / 360) with (1 / 24) by lra.
    rewrite Int_part_small by lra. lra.
Qed.

End SearchDraw.

(* ===================================================================== *)
(** * Part III: further properties of the code                            *)
(* ===================================================================== *)

(** ** Battery and payload accounting (energy_model.py) *)

Section EnergyAccounting.
Import constants energy_model.

Lemma get_state_total (b : BatteryModel) :
  0 < total_energy_wh b -> nominal_voltage_v b <> 0 ->
  exists st, BatteryModel.get_state b = Ok st /\
    battery_percent st =
      clamp (remaining_energy_wh b / total_energy_wh b * 100.0) 0.0 100.0 /\
    critical st = bool_decide (battery_percent st < BATTERY_MIN_PERCENT) /\
    depleted st = bool_decide (battery_percent st <= 0.0).
Proof.
  intros Ht Hv. unfold BatteryModel.get_state.
  rewrite (fdiv_ok (remaining_energy_wh b) (total_energy_wh b)) by lra.
  rewrite bind_Ok.
  destruct (decide (0 < nominal_drain_rate b)) as [Hr | Hr].
  - rewrite (fdiv_ok (remaining_energy_wh b)
               (total_energy_wh b * nominal_drain_rate b)) by nra.
    rewrite !bind_Ok.
    rewrite (fdiv_ok (remaining_energy_wh b) (nominal_voltage_v b)) by exact Hv.
    rewrite bind_Ok. eexists. split; [reflexivity |]. simpl. auto.
  - rewrite bind_Ok.
    rewrite (fdiv_ok (remaining_energy_wh b) (nominal_voltage_v b)) by exact Hv.
    rewrite bind_Ok. eexists. split; [reflexivity |]. simpl. auto.
Qed.

Lemma percent_below (r t c : R) :
  0 < t -> 0 < c <= 100 ->
  (clamp (r / t * 100.0) 0.0 100.0 < c <-> r < c / 100 * t).
Proof.
  intros Ht Hc.
  assert (Hrt : r = r / t * t) by (field; lra).
  assert (Hq : r / t * 100.0 < c <-> r < c / 100 * t).
  { rewrite Hrt at 2. generalize (r / t). intros q. split; intros Hlt; nra. }
  unfold clamp, Rmax, Rmin.
  destruct (Rle_dec 100.0 (r / t * 100.0)); destruct (Rle_dec 0.0 _); lra.
Qed.

Lemma percent_zero (r t : R) :
  0 < t -> (clamp (r / t * 100.0) 0.0 100.0 <= 0.0 <-> r <= 0).
Proof.
  intros Ht.
  assert (Hrt : r = r / t * t) by (field; lra).
  assert (Hq : r / t * 100.0 <= 0 <-> r <= 0).
  { rewrite Hrt at 2. generalize (r / t). intros q. split; intros Hle; nra. }
  unfold clamp, Rmax, Rmin.
  destruct (Rle_dec 100.0 (r / t * 100.0)); destruct (Rle_dec 0.0 _); lra.
Qed.

(** Extra X1. For a battery with a positive capacity and a voltage that is
    not zero, [is_critical] answers true exactly when the remaining energy
    is below 20 % of the capacity, and [is_depleted] exactly when no energy
    is left. *)
Theorem critical_and_depleted_thresholds (b : BatteryModel) :
  0 < total_energy_wh b -> nominal_voltage_v b <> 0 ->
  BatteryModel.is_critical b
    = Ok (bool_decide (remaining_energy_wh b < 0.2 * total_energy_wh b)) /\
  BatteryModel.is_depleted b = Ok (bool_decide (remaining_energy_wh b <= 0)).
Proof.
  intros Ht Hv.
  destruct (get_state_total b Ht Hv) as (st & Hst & Hp & Hc & Hd).
  unfold BatteryModel.is_critical, BatteryModel.is_depleted.
  rewrite Hst, !bind_Ok, Hc, Hd, Hp. split; f_equal; apply bool_decide_ext.
  - unfold BATTERY_MIN_PERCENT.
    rewrite (percent_below _ _ 20.0 Ht) by lra. split; intros; lra.
  - apply percent_zero. exact Ht.
Qed.

Lemma critical_and_depleted_thresholds_witness :
  BatteryModel.is_critical (BatteryModel.init 5000 14.8)
    = Ok (bool_decide (remaining_energy_wh (BatteryModel.init 5000 14.8)
                       < 0.2 * total_energy_wh (BatteryModel.init 5000 14.8))) /\
  BatteryModel.is_depleted (BatteryModel.init 5000 14.8)
    = Ok (bool_decide (remaining_energy_wh (BatteryModel.init 5000 14.8) <= 0)).
Proof.
  apply (critical_and_depleted_thresholds (BatteryModel.init 5000 14.8)).
  - simpl. lra.
  - simpl. lra.
Defined.

(** A manager built with a capacity or a voltage of zero has a
    total energy of zero, and every query of its battery state divides by
    it: [get_state], [is_critical], [is_depleted], [should_rtl_override],
    [get_energy_state] and [export_telemetry] all raise
    [ZeroDivisionError]. *)
Lemma zero_capacity_queries_raise (cap v maxp : R) :
  cap = 0 \/ v = 0 ->
  let m := EnergyManager.init cap v maxp in
  BatteryModel.get_state (battery m) = Raise ZeroDivisionError /\
  BatteryModel.is_critical (battery m) = Raise ZeroDivisionError /\
  BatteryModel.is_depleted (battery m) = Raise ZeroDivisionError /\
  EnergyManager.should_rtl_override m = Raise ZeroDivisionError /\
  EnergyManager.get_energy_state m = Raise ZeroDivisionError /\
  EnergyManager.export_telemetry m = Raise ZeroDivisionError.
Proof.
  intros Hz m.
  assert (Ht : total_energy_wh (battery m) = 0).
  { simpl. destruct Hz as [-> | ->]; lra. }
  assert (Hg : BatteryModel.get_state (battery m) = Raise ZeroDivisionError).
  { unfold BatteryModel.get_state, fdiv. rewrite Ht.
    destruct (decide (0 = 0)) as [_ | Hn]; [reflexivity | contradiction]. }
  unfold BatteryModel.is_critical, BatteryModel.is_depleted,
    EnergyManager.should_rtl_override, EnergyManager.get_energy_state,
    EnergyManager.export_telemetry, BatteryModel.is_critical.
  rewrite Hg. repeat split; reflexivity.
Qed.

(** Extra X3. [drain_custom] returns what it actually took out of the
    battery, the request capped at the remaining energy. [drain_flight] and
    [drain_hover] return the energy requested: when the battery holds less,
    it ends at zero and the reported consumption exceeds what it held. *)
Theorem drain_accounting (b : BatteryModel) (e d a t : R) :
  0 <= remaining_energy_wh b ->
  (snd (BatteryModel.drain_custom b e)
     = remaining_energy_wh b - remaining_energy_wh (fst (BatteryModel.drain_custom b e)) /\
   snd (BatteryModel.drain_custom b e) = Rmin e (remaining_energy_wh b)) /\
  (snd (BatteryModel.drain_flight b d a) = d * ENERGY_DRAIN_PER_METER * a /\
   remaining_energy_wh b - remaining_energy_wh (fst (BatteryModel.drain_flight b d a))
     = Rmin (d * ENERGY_DRAIN_PER_METER * a) (remaining_energy_wh b)) /\
  (snd (BatteryModel.drain_hover b t) = t * ENERGY_DRAIN_HOVER_PER_SEC /\
   remaining_energy_wh b - remaining_energy_wh (fst (BatteryModel.drain_hover b t))
     = Rmin (t * ENERGY_DRAIN_HOVER_PER_SEC) (remaining_energy_wh b)).
Proof.
  intros Hr. simpl.
  repeat split; try lra;
    unfold Rmax, Rmin; repeat destruct (Rle_dec _ _); lra.
Qed.

Lemma drain_accounting_witness :
  let b := BatteryModel.init 5000 14.8 in
  (snd (BatteryModel.drain_custom b 100)
     = remaining_energy_wh b - remaining_energy_wh (fst (BatteryModel.drain_custom b 100)) /\
   snd (BatteryModel.drain_custom b 100) = Rmin 100 (remaining_energy_wh b)) /\
  (snd (BatteryModel.drain_flight b 1000 1) = 1000 * ENERGY_DRAIN_PER_METER * 1 /\
   remaining_energy_wh b - remaining_energy_wh (fst (BatteryModel.drain_flight b 1000 1))
     = Rmin (1000 * ENERGY_DRAIN_PER_METER * 1) (remaining_energy_wh b)) /\
  (snd (BatteryModel.drain_hover b 60) = 60 * ENERGY_DRAIN_HOVER_PER_SEC /\
   remaining_energy_wh b - remaining_energy_wh (fst (BatteryModel.drain_hover b 60))
     = Rmin (60 * ENERGY_DRAIN_HOVER_PER_SEC) (remaining_energy_wh b)).
Proof.
  apply (drain_accounting (BatteryModel.init 5000 14.8) 100 1000 1 60).
  simpl. lra.
Defined.

(** [update_flight] with a distance, a hover time and an
    aggressiveness that are not negative drains the battery like one drain
    of the two energies added up, and returns that sum. *)
Lemma update_flight_is_one_drain (m : EnergyManager) (d t a : R) :
  0 <= d -> 0 <= t -> 0 <= a ->
  let total := d * ENERGY_DRAIN_PER_METER * a + t * ENERGY_DRAIN_HOVER_PER_SEC in
  snd (EnergyManager.update_flight m d t a) = total /\
  remaining_energy_wh (battery (fst (EnergyManager.update_flight m d t a)))
    = Rmax 0 (remaining_energy_wh (battery m) - total) /\
  payload (fst (EnergyManager.update_flight m d t a)) = payload m.
Proof.
  intros Hd Ht Ha total. unfold total. simpl.
  assert (H1 : 0 <= d * ENERGY_DRAIN_PER_METER * a).
  { unfold ENERGY_DRAIN_PER_METER. apply Rmult_le_pos; [lra | exact Ha]. }
  assert (H2 : 0 <= t * ENERGY_DRAIN_HOVER_PER_SEC).
  { unfold ENERGY_DRAIN_HOVER_PER_SEC. lra. }
  repeat split.
  unfold Rmax; repeat destruct (Rle_dec _ _); lra.
Qed.

(** Extra X4. On a payload between zero and its capacity, consuming an
    amount that is not negative takes out the amount capped at what is
    left, and replenishing what was consumed restores the payload as it
    was. *)
Theorem consume_replenish_round_trip (p : PayloadModel) (u : R) :
  0 <= u -> 0 <= payload_units p <= max_payload_units p ->
  let p1 := fst (PayloadModel.consume p u) in
  let consumed := snd (PayloadModel.consume p u) in
  consumed = Rmin u (payload_units p) /\
  payload_units p1 = payload_units p - consumed /\
  (PayloadModel.is_empty p1 = true <-> payload_units p <= u) /\
  PayloadModel.replenish p1 consumed = (p, consumed).
Proof.
  intros Hu Hp p1 consumed. unfold p1, consumed. destruct p as [mx pu].
  simpl in *. unfold PayloadModel.is_empty, PayloadModel.replenish. simpl.
  split; [reflexivity |]. split.
  { unfold Rmax, Rmin; repeat destruct (Rle_dec _ _); lra. }
  split.
  { rewrite bool_decide_eq_true. unfold Rmax; destruct (Rle_dec _ _); lra. }
  f_equal.
  - f_equal. unfold Rmax, Rmin; repeat destruct (Rle_dec _ _); lra.
  - unfold Rmax, Rmin; repeat destruct (Rle_dec _ _); lra.
Qed.

Lemma consume_replenish_round_trip_witness :
  let p := PayloadModel.init 40 in
  let p1 := fst (PayloadModel.consume p 1) in
  let consumed := snd (PayloadModel.consume p 1) in
  consumed = Rmin 1 (payload_units p) /\
  payload_units p1 = payload_units p - consumed /\
  (PayloadModel.is_empty p1 = true <-> payload_units p <= 1) /\
  PayloadModel.replenish p1 consumed = (p, consumed).
Proof.
  apply (consume_replenish_round_trip (PayloadModel.init 40) 1); simpl; lra.
Defined.

Lemma apply_op_payload (m : EnergyManager) (o : energy_op) :
  strength_nonneg o ->
  0 <= payload_units (payload m) <= max_payload_units (payload m) ->
  0 <= payload_units (payload (apply_op m o)) <= max_payload_units (payload (apply_op m o)) /\
  max_payload_units (payload (apply_op m o)) = max_payload_units (payload m).
Proof.
  intros Ho Hp. destruct o; simpl in *; try (split; [exact Hp | reflexivity]).
  - split; [| reflexivity]. unfold PAYLOAD_DRAIN_PER_SUPPRESSION.
    unfold Rmax; destruct (Rle_dec _ _); lra.
  - split; [lra | reflexivity].
Qed.

(** Extra X5. Whatever sequence of manager operations runs (drains,
    charges, flight updates, suppressions of a strength that is not
    negative, docking), the payload stays between zero and its capacity,
    and the capacity never changes. *)
Theorem payload_stays_in_range (m : EnergyManager) (ops : list energy_op) :
  Forall strength_nonneg ops ->
  0 <= payload_units (payload m) <= max_payload_units (payload m) ->
  0 <= payload_units (payload (run_ops m ops)) <= max_payload_units (payload m) /\
  max_payload_units (payload (run_ops m ops)) = max_payload_units (payload m).
Proof.
  intros Hops. revert m. unfold run_ops.
  induction Hops as [| o ops Ho _ IH]; intros m Hp; simpl.
  - split; [exact Hp | reflexivity].
  - destruct (apply_op_payload m o Ho Hp) as (Hp' & Hm').
    destruct (IH (apply_op m o) Hp') as (Hr & Hmx).
    rewrite Hm' in Hr, Hmx. split; assumption.
Qed.

Lemma payload_stays_in_range_witness :
  let m := EnergyManager.default in
  let ops := [UpdateSuppression 1; UpdateFlight 100 5 1; Dock; UpdateSuppression 0.5] in
  0 <= payload_units (payload (run_ops m ops)) <= max_payload_units (payload m) /\
  max_payload_units (payload (run_ops m ops)) = max_payload_units (payload m).
Proof.
  apply (payload_stays_in_range EnergyManager.default
           [UpdateSuppression 1; UpdateFlight 100 5 1; Dock; UpdateSuppression 0.5]).
  - repeat constructor; simpl; lra.
  - simpl. unfold MAX_PAYLOAD_UNITS. lra.
Defined.

Lemma py_int_range (x hi : R) (n : Z) :
  0 <= x <= hi -> hi = IZR n -> (0 <= py_int x <= n)%Z.
Proof.
  intros Hx Hn. unfold py_int.
  destruct (decide (0 <= x)) as [_ | Hneg]; [| lra].
  destruct (base_Int_part x) as (Hlo & Hhi). split.
  - apply Z.lt_succ_r. apply lt_IZR. rewrite succ_IZR. lra.
  - apply le_IZR. lra.
Qed.

(** For a manager with a positive capacity, a voltage and a
    payload capacity that are not zero, [export_telemetry] returns a
    battery percentage between 0 and 100, a fuel distance between 0 and
    10000 (the integer part of a hundred times the percentage) and the
    payload units the manager holds. *)
Lemma export_telemetry_ranges (m : EnergyManager) :
  0 < total_energy_wh (battery m) -> nominal_voltage_v (battery m) <> 0 ->
  max_payload_units (payload m) <> 0 ->
  exists t,
    EnergyManager.export_telemetry m = Ok t /\
    0 <= EnergyManager.et_battery_percent t <= 100 /\
    EnergyManager.fuel_distance_m t
      = py_int (EnergyManager.et_battery_percent t * 100) /\
    (0 <= EnergyManager.fuel_distance_m t <= 10000)%Z /\
    EnergyManager.et_payload_remaining t = payload_units (payload m).
Proof.
  intros Ht Hv Hp.
  destruct (get_state_total (battery m) Ht Hv) as (st & Hst & Hpc & _).
  unfold EnergyManager.export_telemetry. rewrite Hst, bind_Ok.
  unfold PayloadModel.get_state. rewrite fdiv_ok by exact Hp. rewrite !bind_Ok.
  eexists. split; [reflexivity |]. simpl.
  assert (Hr : 0 <= battery_percent st <= 100).
  { rewrite Hpc.
    replace 0 with 0.0 by lra. replace 100 with 100.0 by lra.
    apply clamp_bounds. lra. }
  split; [exact Hr |]. split; [reflexivity |]. split; [| reflexivity].
  apply (py_int_range _ 10000); [lra | reflexivity].
Qed.

End EnergyAccounting.

(** ** Docking through the engine (physics_engine.py) *)

Section DockingFacts.
Import constants energy_model physics_engine.

(** Extra X6. Docking a drone of the engine whose battery has a positive
    capacity and a voltage that is not zero, and whose payload capacity is
    positive, clears the return-to-launch override whatever charge and
    payload it had: the next [should_rtl_override] answers
    [(False, "none")]. The other drones keep their managers. *)
Theorem dock_clears_rtl_override (pe : PhysicsEngine) (id : Z) (m : EnergyManager) :
  energy_mgrs pe !! id = Some m ->
  0 < total_energy_wh (battery m) -> nominal_voltage_v (battery m) <> 0 ->
  0 < max_payload_units (payload m) ->
  PhysicsEngine.should_rtl_override (PhysicsEngine.dock_drone pe id) id
    = Ok (false, "none"%string) /\
  forall id', id' <> id ->
    energy_mgrs (PhysicsEngine.dock_drone pe id) !! id' = energy_mgrs pe !! id'.
Proof.
  intros Hm Ht Hv Hp. unfold PhysicsEngine.dock_drone. rewrite Hm. split.
  - unfold PhysicsEngine.should_rtl_override. cbn [energy_mgrs with_energy_mgrs].
    rewrite lookup_insert_eq.
    rewrite should_rtl_override_spec by (simpl; lra).
    cbn [EnergyManager.dock battery payload BatteryModel.charge_percent set_remaining
         remaining_energy_wh total_energy_wh PayloadModel.refill payload_units].
    replace (100.0 / 100.0 * total_energy_wh (battery m))
      with (total_energy_wh (battery m)) by lra.
    rewrite (clamp_id (total_energy_wh (battery m)) 0.0 (total_energy_wh (battery m)))
      by lra.
    replace (total_energy_wh (battery m) / total_energy_wh (battery m) * 100.0)
      with 100.0 by (field; lra).
    rewrite (clamp_id 100.0 0.0 100.0) by lra.
    destruct (decide (100.0 < 20)) as [Hc | _]; [lra |].
    destruct (decide (max_payload_units (payload m) <= 0)) as [Hc | _]; [lra |].
    reflexivity.
  - intros id' Hne. cbn [energy_mgrs with_energy_mgrs].
    apply lookup_insert_ne. congruence.
Qed.

Lemma dock_clears_rtl_override_witness :
  exists pe0,
    PhysicsEngine.init 2 42 = Ok pe0 /\
    let pe := fst (PhysicsEngine.suppress_with_payload pe0 1 1) in
    PhysicsEngine.should_rtl_override (PhysicsEngine.dock_drone pe 1) 1
      = Ok (false, "none"%string) /\
    forall id', id' <> 1%Z ->
      energy_mgrs (PhysicsEngine.dock_drone pe 1) !! id' = energy_mgrs pe !! id'.
Proof.
  destruct (physics_init_ok 2 42) as (pe0 & Hpe); [lia |].
  exists pe0. split; [exact Hpe |]. intros pe.
  assert (Hm : energy_mgrs pe !! 1%Z
               = Some (fst (EnergyManager.update_suppression EnergyManager.default 1))).
  { unfold pe, PhysicsEngine.suppress_with_payload.
    rewrite (init_fleet 2 42 1 pe0 Hpe) by lia.
    cbn [energy_mgrs with_energy_mgrs fst]. apply lookup_insert_eq. }
  apply (dock_clears_rtl_override pe 1 _ Hm).
  - simpl. unfold BATTERY_CAPACITY_MAH, BATTERY_VOLTAGE_V. lra.
  - simpl. unfold BATTERY_VOLTAGE_V. lra.
  - simpl. unfold MAX_PAYLOAD_UNITS. lra.
Defined.

End DockingFacts.

(** ** RF links (channel_model.py) *)

Section ChannelExtras.
Context `{NumpyGenerator}.
Import constants channel_model.

Lemma clamp_mono (a b lo hi : R) : a <= b -> clamp a lo hi <= clamp b lo hi.
Proof.
  intros Hab. unfold clamp, Rmax, Rmin.
  repeat destruct (Rle_dec _ _); lra.
Qed.

Lemma path_loss_le (plm : PathLossModel) (d1 d2 : R) :
  0 < reference_distance_m plm -> 0 <= path_loss_exponent plm -> 0 < d1 <= d2 ->
  exists p1 p2,
    PathLossModel.calculate_path_loss plm d1 = Ok p1 /\
    PathLossModel.calculate_path_loss plm d2 = Ok p2 /\ p1 <= p2.
Proof.
  intros Hr Hn Hd.
  rewrite !calculate_path_loss_pos by (try exact Hr; lra).
  eexists _, _. split; [reflexivity |]. split; [reflexivity |].
  assert (Hln : ln (d1 / reference_distance_m plm) <= ln (d2 / reference_distance_m plm)).
  { destruct (Req_dec d1 d2) as [-> | Hne]; [lra |].
    left. apply ln_increasing.
    - apply Rdiv_lt_0_compat; lra.
    - unfold Rdiv. apply Rmult_lt_compat_r; [apply Rinv_0_lt_compat; lra | lra]. }
  pose proof ln_10_pos as H10.
  assert (Hq : ln (d1 / reference_distance_m plm) / ln 10
               <= ln (d2 / reference_distance_m plm) / ln 10).
  { unfold Rdiv. apply Rmult_le_compat_r; [| exact Hln].
    left. apply Rinv_0_lt_compat. exact H10. }
  replace 10.0 with 10 by lra.
  apply Rmult_le_compat_l; [| exact Hq].
  apply Rmult_le_pos; lra.
Qed.

(** Extra X7. For a path-loss model with a positive reference distance and
    an exponent that is not negative, [calculate_rssi] never raises, stays
    between -200 dBm and 0 dBm, and never grows with the distance. *)
Theorem rssi_non_increasing (plm : PathLossModel) (d1 d2 : R) :
  0 < reference_distance_m plm -> 0 <= path_loss_exponent plm -> 0 < d1 <= d2 ->
  exists r1 r2,
    PathLossModel.calculate_rssi plm d1 = Ok r1 /\
    PathLossModel.calculate_rssi plm d2 = Ok r2 /\
    r2 <= r1 /\ -200 <= r2 /\ r1 <= 0.
Proof.
  intros Hr Hn Hd.
  destruct (path_loss_le plm d1 d2 Hr Hn Hd) as (p1 & p2 & H1 & H2 & Hle).
  unfold PathLossModel.calculate_rssi. rewrite H1, H2, !bind_Ok.
  eexists _, _. split; [reflexivity |]. split; [reflexivity |].
  split; [apply clamp_mono; lra |].
  unfold MAX_RSSI_DBM.
  pose proof (clamp_bounds (reference_rssi_dbm plm - p2) (-200.0) 0) as B2.
  pose proof (clamp_bounds (reference_rssi_dbm plm - p1) (-200.0) 0) as B1.
  lra.
Qed.

(** Extra X8. A distance at or below zero gives a path loss of 0 whatever
    the model. For a positive distance, a reference distance of zero makes
    [calculate_path_loss] raise [ZeroDivisionError] and a negative one
    makes it raise [ValueError] (the logarithm of a negative ratio);
    [calculate_rssi] and a link update raise the same. *)
Theorem path_loss_bad_reference (plm : PathLossModel) (fc : RiceFadingChannel)
    (l : RFLink) (d : R) :
  0 < d ->
  (forall d0, d0 <= 0 -> PathLossModel.calculate_path_loss plm d0 = Ok 0) /\
  (reference_distance_m plm = 0 ->
     PathLossModel.calculate_path_loss plm d = Raise ZeroDivisionError /\
     PathLossModel.calculate_rssi plm d = Raise ZeroDivisionError /\
     RFLink.update plm fc l d = Raise ZeroDivisionError) /\
  (reference_distance_m plm < 0 ->
     PathLossModel.calculate_path_loss plm d = Raise ValueError /\
     PathLossModel.calculate_rssi plm d = Raise ValueError /\
     RFLink.update plm fc l d = Raise ValueError).
Proof.
  intros Hd. split; [| split].
  - intros d0 Hd0. unfold PathLossModel.calculate_path_loss.
    destruct (decide (d0 <= 0)); [f_equal; lra | lra].
  - intros Hz.
    assert (Hp : PathLossModel.calculate_path_loss plm d = Raise ZeroDivisionError).
    { unfold PathLossModel.calculate_path_loss, fdiv.
      destruct (decide (d <= 0)); [lra |].
      destruct (decide (reference_distance_m plm = 0)); [reflexivity | contradiction]. }
    unfold PathLossModel.calculate_rssi, RFLink.update. rewrite Hp. auto.
  - intros Hneg.
    assert (Hp : PathLossModel.calculate_path_loss plm d = Raise ValueError).
    { unfold PathLossModel.calculate_path_loss, fdiv.
      destruct (decide (d <= 0)); [lra |].
      destruct (decide (reference_distance_m plm = 0)); [lra |].
      rewrite bind_Ok. unfold math_log10.
      destruct (decide (0 < d / reference_distance_m plm)) as [Hq | _]; [| reflexivity].
      exfalso.
      assert (Hm : d / reference_distance_m plm * (- reference_distance_m plm) = - d)
        by (field; lra).
      nra. }
    unfold PathLossModel.calculate_rssi, RFLink.update. rewrite Hp. auto.
Qed.

(** Extra X9. With a positive reference distance, a link update on a
    fading channel whose standard deviation is negative raises
    [ValueError] (NumPy rejects the scale of the draw), whatever the
    distance. With a standard deviation that is not negative the update
    never raises, whatever the distance and the fading drawn: the state it
    stores and returns has an RSSI between -200 and 0 dBm, a link quality
    between 0 and 1 that is 0 below the sensitivity of -110 dBm, a
    packet-loss probability between 0.05 and 1 that is 0.05 from -100 dBm
    up, a latency of at least 5 ms, and the link counts as connected exactly
    from -110 dBm up. One fading sample is drawn. *)
Theorem link_update_ranges (plm : PathLossModel) (fc : RiceFadingChannel)
    (l : RFLink) (d : R) :
  0 < reference_distance_m plm ->
  (fading_std_db fc < 0 -> RFLink.update plm fc l d = Raise ValueError) /\
  (0 <= fading_std_db fc ->
   exists fc' l' st,
     RFLink.update plm fc l d = Ok (fc', l', st) /\
     RFLink.get_state l' = st /\
     sender_id l' = sender_id l /\ receiver_id l' = receiver_id l /\
     distance_m st = d /\
     total_loss_db st = path_loss_db st + fading_db st /\
     -200 <= rssi_dbm st <= 0 /\
     0 <= link_quality st <= 1 /\
     (rssi_dbm st <= -110 -> link_quality st = 0) /\
     0.05 <= packet_loss_probability st <= 1 /\
     (-100 <= rssi_dbm st -> packet_loss_probability st = 0.05) /\
     5 <= estimated_latency_ms st /\
     (RFLink.is_connected l' = true <-> -110 <= rssi_dbm st) /\
     rs_drawn (rng fc') = S (rs_drawn (rng fc))).
Proof.
  intros Hr.
  destruct (calculate_path_loss_total plm d Hr) as (p & Hp).
  unfold RFLink.update. rewrite Hp, bind_Ok.
  split; [intros Hneg; rewrite (generate_fading_bad fc Hneg); reflexivity |].
  intros Hstd. rewrite (generate_fading_ok fc Hstd), bind_Ok.
  cbv zeta.
  set (fading := 0.0 + fading_std_db fc * np_standard_normal (rs_seed (rng fc))
                                           (rs_drawn (rng fc))).
  set (rssi := clamp (reference_rssi_dbm plm - (p + fading)) (-200.0) MAX_RSSI_DBM).
  assert (Hrssi : -200 <= rssi <= 0).
  { unfold rssi, MAX_RSSI_DBM.
    pose proof (clamp_bounds (reference_rssi_dbm plm - (p + fading)) (-200.0) 0). lra. }
  eexists _, _, _. split; [reflexivity |].
  cbn [RFLink.get_state state sender_id receiver_id distance_m total_loss_db
       path_loss_db fading_db rssi_dbm link_quality packet_loss_probability
       estimated_latency_ms RFLink.is_connected rng rs_drawn].
  fold fading. fold rssi.
  unfold REFERENCE_RSSI_DBM, SENSITIVITY_DBM, RSSI_PACKET_LOSS_THRESHOLD_DBM,
    BASE_PACKET_LOSS_PROBABILITY, BASE_LATENCY_MS, LATENCY_RSSI_SCALE.
  repeat match goal with |- _ /\ _ => split end; try reflexivity; try lra.
  - pose proof (clamp_bounds ((rssi - -110) / (-40 - -110)) 0.0 1.0). lra.
  - pose proof (clamp_bounds ((rssi - -110) / (-40 - -110)) 0.0 1.0). lra.
  - intros Hlow. unfold clamp, Rmax, Rmin.
    repeat destruct (Rle_dec _ _); lra.
  - destruct (decide (rssi < -100)); [| lra].
    pose proof (clamp_bounds (0.05 + 0.1 * ((-100 - rssi) / 10.0)) 0.0 1.0) as B.
    unfold clamp, Rmax, Rmin in *. repeat destruct (Rle_dec _ _); lra.
  - destruct (decide (rssi < -100)); [| lra].
    pose proof (clamp_bounds (0.05 + 0.1 * ((-100 - rssi) / 10.0)) 0.0 1.0) as B.
    lra.
  - intros Hhigh. destruct (decide (rssi < -100)); [lra | reflexivity].
  - destruct (decide (rssi < reference_rssi_dbm plm)); lra.
  - unfold RFLink.is_connected. cbn [state rssi_dbm].
    rewrite bool_decide_eq_true. unfold SENSITIVITY_DBM. tauto.
Qed.

Lemma link_update_stored (plm : PathLossModel) (fc : RiceFadingChannel)
    (l : RFLink) (d : R) :
  0 < reference_distance_m plm -> 0 <= fading_std_db fc ->
  exists fc' l' st,
    RFLink.update plm fc l d = Ok (fc', l', st) /\ RFLink.get_state l' = st /\
    fading_std_db fc' = fading_std_db fc.
Proof.
  intros Hr Hstd.
  destruct (calculate_path_loss_total plm d Hr) as (p & Hp).
  unfold RFLink.update. rewrite Hp, bind_Ok, (generate_fading_ok fc Hstd), bind_Ok.
  cbv zeta. eexists _, _, _. repeat split; reflexivity.
Qed.

(** Extra X10. For a manager with a positive reference distance and a
    fading standard deviation that is not negative, [update_link] never
    raises and stores what it returns: asking the manager for the state of
    the same link right after gives the same state and changes nothing.
    Links are directional: every other link, the reverse direction
    included, is left as it was. The path-loss model and the standard
    deviation are kept, so the next update succeeds as well. *)
Theorem update_link_then_get (c : ChannelManager) (a b : Z) (d : R) :
  0 < reference_distance_m (path_loss_model c) ->
  0 <= fading_std_db (fading_channel c) ->
  exists c' st,
    ChannelManager.update_link c a b d = Ok (c', st) /\
    ChannelManager.get_channel_state c' a b = (c', st) /\
    ChannelManager.get_all_link_states c' !! (a, b) = Some st /\
    (forall k, k <> (a, b) -> links c' !! k = links c !! k) /\
    path_loss_model c' = path_loss_model c /\
    fading_std_db (fading_channel c') = fading_std_db (fading_channel c).
Proof.
  intros Hr Hstd. unfold ChannelManager.update_link, ChannelManager.ensure_link.
  destruct (links c !! (a, b)) as [l |] eqn:Hl.
  - destruct (link_update_stored (path_loss_model c) (fading_channel c) l d Hr Hstd)
      as (fc' & l' & st & Hu & Hst & Hfd).
    rewrite Hu, bind_Ok. eexists _, _. split; [reflexivity |].
    unfold ChannelManager.get_channel_state, ChannelManager.ensure_link,
      ChannelManager.get_all_link_states.
    cbn [links path_loss_model fading_channel]. rewrite lookup_fmap, lookup_insert_eq.
    cbn [fmap option_fmap option_map]. rewrite Hst.
    repeat split; try reflexivity; try exact Hfd.
    intros k Hk. apply lookup_insert_ne. congruence.
  - cbn [path_loss_model fading_channel links seed].
    destruct (link_update_stored (path_loss_model c) (fading_channel c)
                (RFLink.init a b) d Hr Hstd) as (fc' & l' & st & Hu & Hst & Hfd).
    rewrite Hu, bind_Ok. eexists _, _. split; [reflexivity |].
    unfold ChannelManager.get_channel_state, ChannelManager.ensure_link,
      ChannelManager.get_all_link_states.
    cbn [links path_loss_model fading_channel]. rewrite lookup_fmap, lookup_insert_eq.
    cbn [fmap option_fmap option_map]. rewrite Hst.
    repeat split; try reflexivity; try exact Hfd.
    intros k Hk. rewrite !lookup_insert_ne by congruence. reflexivity.
Qed.

(** [set_k_factor] keeps the Rice K-factor at 0.1 or above, and
    the K-factor has no effect on the channel: after any change of it the
    next fading sample and the state a link update computes are the same
    as without the change. *)
Lemma k_factor_has_no_effect (plm : PathLossModel) (fc : RiceFadingChannel)
    (l : RFLink) (d k : R) :
  RiceFadingChannel.get_k_factor (RiceFadingChannel.set_k_factor fc k) = Rmax 0.1 k /\
  0.1 <= RiceFadingChannel.get_k_factor (RiceFadingChannel.set_k_factor fc k) /\
  (x ← RiceFadingChannel.generate_fading (RiceFadingChannel.set_k_factor fc k);
   Ok (snd x))
    = (x ← RiceFadingChannel.generate_fading fc; Ok (snd x)) /\
  (x ← RFLink.update plm (RiceFadingChannel.set_k_factor fc k) l d; Ok (snd x))
    = (x ← RFLink.update plm fc l d; Ok (snd x)).
Proof.
  split; [reflexivity |]. split; [simpl; apply Rmax_l |].
  unfold RFLink.update, RiceFadingChannel.generate_fading, RandomState.normal.
  cbn [fading_std_db rng RiceFadingChannel.set_k_factor].
  split.
  - destruct (decide (fading_std_db fc < 0)); reflexivity.
  - destruct (PathLossModel.calculate_path_loss plm d); [| reflexivity].
    rewrite !bind_Ok. destruct (decide (fading_std_db fc < 0)); reflexivity.
Qed.

End ChannelExtras.

Section ChannelExtrasWitnesses.
Import constants channel_model.

Lemma rssi_non_increasing_witness :
  exists r1 r2,
    PathLossModel.calculate_rssi PathLossModel.default 10 = Ok r1 /\
    PathLossModel.calculate_rssi PathLossModel.default 100 = Ok r2 /\
    r2 <= r1 /\ -200 <= r2 /\ r1 <= 0.
Proof.
  apply (rssi_non_increasing PathLossModel.default 10 100).
  - simpl. unfold REFERENCE_DISTANCE_M. lra.
  - simpl. unfold PATH_LOSS_EXPONENT. lra.
  - lra.
Defined.

Lemma path_loss_bad_reference_witness :
  exists fc,
  RiceFadingChannel.init 8 2 42 = Ok fc /\
  let plm := PathLossModel.init 0 3 (-40) in
  let l := RFLink.init 1 2 in
  (forall d0, d0 <= 0 -> PathLossModel.calculate_path_loss plm d0 = Ok 0) /\
  (reference_distance_m plm = 0 ->
     PathLossModel.calculate_path_loss plm 10 = Raise ZeroDivisionError /\
     PathLossModel.calculate_rssi plm 10 = Raise ZeroDivisionError /\
     @RFLink.update fire_simulation.constant_generator plm fc l 10 = Raise ZeroDivisionError) /\
  (reference_distance_m plm < 0 ->
     PathLossModel.calculate_path_loss plm 10 = Raise ValueError /\
     PathLossModel.calculate_rssi plm 10 = Raise ValueError /\
     @RFLink.update fire_simulation.constant_generator plm fc l 10 = Raise ValueError).
Proof.
  eexists. split; [reflexivity |].
  match goal with
  | |- context [RFLink.update _ ?fc _ _] =>
      apply (@path_loss_bad_reference fire_simulation.constant_generator
               (PathLossModel.init 0 3 (-40)) fc (RFLink.init 1 2) 10)
  end.
  lra.
Defined.

Lemma link_update_ranges_witness :
  exists fc fc' l' st,
    RiceFadingChannel.init 8 2 42 = Ok fc /\
    @RFLink.update fire_simulation.constant_generator PathLossModel.default fc
      (RFLink.init 1 2) 25 = Ok (fc', l', st) /\
    RFLink.get_state l' = st /\
    sender_id l' = sender_id (RFLink.init 1 2) /\
    receiver_id l' = receiver_id (RFLink.init 1 2) /\
    distance_m st = 25 /\
    total_loss_db st = path_loss_db st + fading_db st /\
    -200 <= rssi_dbm st <= 0 /\
    0 <= link_quality st <= 1 /\
    (rssi_dbm st <= -110 -> link_quality st = 0) /\
    0.05 <= packet_loss_probability st <= 1 /\
    (-100 <= rssi_dbm st -> packet_loss_probability st = 0.05) /\
    5 <= estimated_latency_ms st /\
    (RFLink.is_connected l' = true <-> -110 <= rssi_dbm st) /\
    rs_drawn (rng fc') = S (rs_drawn (rng fc)).
Proof.
  set (fc := {| k_factor := 8; fading_std_db := 2;
                rng := {| rs_seed := 42; rs_drawn := 0 |} |}).
  destruct (@link_update_ranges fire_simulation.constant_generator
              PathLossModel.default fc (RFLink.init 1 2) 25) as (_ & Hok).
  { simpl. unfold REFERENCE_DISTANCE_M. lra. }
  destruct Hok as (fc' & l' & st & Hok); [simpl; lra |].
  exists fc, fc', l', st. split; [reflexivity | exact Hok].
Defined.

Lemma update_link_then_get_witness :
  exists c c' st,
    ChannelManager.init 42 = Ok c /\
    @ChannelManager.update_link fire_simulation.constant_generator c 1 2 25 = Ok (c', st) /\
    ChannelManager.get_channel_state c' 1 2 = (c', st) /\
    ChannelManager.get_all_link_states c' !! (1%Z, 2%Z) = Some st /\
    (forall k, k <> (1%Z, 2%Z) -> links c' !! k = links c !! k) /\
    path_loss_model c' = path_loss_model c /\
    fading_std_db (fading_channel c') = fading_std_db (fading_channel c).
Proof.
  destruct (channel_init_ok 42) as (c & Hc); [lia |].
  destruct (channel_init_inv 42 c Hc) as (_ & _ & Hplm & Hfc & _).
  destruct (@update_link_then_get fire_simulation.constant_generator c 1 2 25)
    as (c' & st & Hok).
  - rewrite Hplm. simpl. unfold REFERENCE_DISTANCE_M. lra.
  - rewrite Hfc. simpl. unfold FADING_STD_DB. lra.
  - exists c, c', st. split; [exact Hc | exact Hok].
Defined.

End ChannelExtrasWitnesses.

(** ** The transmission gate over time (detm_controller.py) *)

Section DetmExtras.
Import constants detm_controller.

(** What [should_transmit] does to the record of a registered drone. *)
Lemma should_transmit_record (c : DETMController) (id time_us : Z)
    (x y z vx vy vz : R) (st : DetmState) :
  states c !! id = Some st ->
  let b := bool_decide (threshold st time_us < chosen_norm st (x, y, z, vx, vy, vz)) in
  exists st',
    DETMController.should_transmit c id time_us x y z vx vy vz
      = Ok ({| states := <[id := st']> (states c) |}, (b, threshold st time_us)) /\
    eta0 st' = eta0 st /\ lambda_decay st' = lambda_decay st /\
    norm_type st' = norm_type st /\
    last_transmitted_state st' = last_transmitted_state st /\
    last_transmitted_time_us st' = last_transmitted_time_us st /\
    transmissions_total st' = transmissions_total st /\
    current_eta st' = threshold st time_us /\
    triggers_fired st' = (if b then triggers_fired st + 1 else triggers_fired st)%Z /\
    triggers_suppressed st'
      = (if b then triggers_suppressed st else triggers_suppressed st + 1)%Z.
Proof.
  intros Hst b. unfold DETMController.should_transmit. rewrite Hst. cbv zeta.
  rewrite (should_transmit_error st (x, y, z, vx, vy, vz)), bind_Ok.
  unfold DETMController.xfloat_gt.
  replace (Rmax (eta0 st * exp (- lambda_decay st
             * (IZR (time_us - last_transmitted_time_us st) / 1e6))) DETM_MIN_ETA)
    with (threshold st time_us) by (unfold threshold; apply Rmax_comm).
  fold b. eexists. split; [reflexivity |]. simpl. repeat split; reflexivity.
Qed.

Lemma threshold_mono (st : DetmState) (t1 t2 : Z) :
  0 <= eta0 st -> 0 <= lambda_decay st -> (t1 <= t2)%Z ->
  threshold st t2 <= threshold st t1.
Proof.
  intros He Hl Ht. unfold threshold.
  apply Rle_max_compat_l.
  apply Rmult_le_compat_l; [exact He |].
  assert (Hle : IZR (t1 - last_transmitted_time_us st) / 1e6
                <= IZR (t2 - last_transmitted_time_us st) / 1e6).
  { apply IZR_le in Ht. rewrite !minus_IZR. lra. }
  destruct (Req_dec (- lambda_decay st * (IZR (t2 - last_transmitted_time_us st) / 1e6))
              (- lambda_decay st * (IZR (t1 - last_transmitted_time_us st) / 1e6)))
    as [-> | Hne]; [lra |].
  left. apply exp_increasing. nra.
Qed.

Lemma threshold_bounds (st : DetmState) (t : Z) :
  DETM_MIN_ETA <= threshold st t /\
  (0 <= eta0 st -> 0 <= lambda_decay st -> (last_transmitted_time_us st <= t)%Z ->
   threshold st t <= Rmax DETM_MIN_ETA (eta0 st)).
Proof.
  unfold threshold. split; [apply Rmax_l |].
  intros He Hl Ht. apply Rle_max_compat_l.
  assert (Hd : 0 <= IZR (t - last_transmitted_time_us st) / 1e6).
  { apply IZR_le in Ht. rewrite minus_IZR. lra. }
  set (u := - lambda_decay st * (IZR (t - last_transmitted_time_us st) / 1e6)).
  assert (Hu : u <= 0) by (unfold u; nra).
  assert (Hx : exp u <= exp 0).
  { destruct (Req_dec u 0) as [-> | Hne]; [lra |].
    left. apply exp_increasing. lra. }
  rewrite exp_0 in Hx.
  nra.
Qed.

(** Extra X11. For a registered drone whose initial threshold and decay
    rate are not negative, the threshold [should_transmit] returns never
    grows with time: of two successive queries, the later one (at a time
    that is not earlier) gets a threshold that is not larger. It is never
    below [DETM_MIN_ETA], and from the time of the last transmission on it
    is at most the larger of the initial threshold and [DETM_MIN_ETA]. *)
Theorem threshold_never_grows (c : DETMController) (id t1 t2 : Z)
    (x1 y1 z1 vx1 vy1 vz1 x2 y2 z2 vx2 vy2 vz2 : R) (st : DetmState) :
  states c !! id = Some st ->
  0 <= eta0 st -> 0 <= lambda_decay st -> (t1 <= t2)%Z ->
  exists c1 b1 e1 c2 b2 e2,
    DETMController.should_transmit c id t1 x1 y1 z1 vx1 vy1 vz1 = Ok (c1, (b1, e1)) /\
    DETMController.should_transmit c1 id t2 x2 y2 z2 vx2 vy2 vz2 = Ok (c2, (b2, e2)) /\
    e2 <= e1 /\ DETM_MIN_ETA <= e2 /\
    ((last_transmitted_time_us st <= t1)%Z -> e1 <= Rmax DETM_MIN_ETA (eta0 st)).
Proof.
  intros Hst He Hl Ht.
  destruct (should_transmit_record c id t1 x1 y1 z1 vx1 vy1 vz1 st Hst)
    as (st1 & H1 & He1 & Hl1 & _ & _ & Ht1 & _).
  set (c1 := {| states := <[id := st1]> (states c) |}) in *.
  assert (Hst1 : states c1 !! id = Some st1) by apply lookup_insert_eq.
  destruct (should_transmit_record c1 id t2 x2 y2 z2 vx2 vy2 vz2 st1 Hst1)
    as (st2 & H2 & _).
  eexists _, _, _, _, _, _. split; [exact H1 |]. split; [exact H2 |].
  assert (Heq : forall t, threshold st1 t = threshold st t).
  { intros t. unfold threshold. rewrite He1, Hl1, Ht1. reflexivity. }
  rewrite Heq. split; [apply threshold_mono; assumption |].
  split; [apply threshold_bounds |].
  intros Hlast. apply threshold_bounds; assumption.
Qed.

Lemma threshold_never_grows_witness :
  let c := DETMController.register_drone DETMController.init 1 0.5 0.1 "l2" in
  exists st, states c !! 1%Z = Some st /\
  exists c1 b1 e1 c2 b2 e2,
    DETMController.should_transmit c 1 10000 1 0 0 0 0 0 = Ok (c1, (b1, e1)) /\
    DETMController.should_transmit c1 1 20000 2 0 0 0 0 0 = Ok (c2, (b2, e2)) /\
    e2 <= e1 /\ DETM_MIN_ETA <= e2 /\
    ((last_transmitted_time_us st <= 10000)%Z -> e1 <= Rmax DETM_MIN_ETA (eta0 st)).
Proof.
  intros c. eexists. split; [apply lookup_insert_eq |].
  apply (threshold_never_grows c 1 10000 20000 1 0 0 0 0 0 2 0 0 0 0 0).
  - apply lookup_insert_eq.
  - simpl. lra.
  - simpl. lra.
  - lia.
Defined.

(** Extra X12. After [record_transmission] stored a state for a registered
    drone, a query with that same state is answered "do not transmit" at
    every time, earlier or later; the query is counted as a suppressed
    trigger and the recorded transmission as one more transmission. *)
Theorem recorded_state_is_not_resent (c : DETMController) (id t t' : Z)
    (x y z vx vy vz : R) (st : DetmState) :
  states c !! id = Some st ->
  let c1 := DETMController.record_transmission c id t x y z vx vy vz in
  exists c2 eta st2,
    DETMController.should_transmit c1 id t' x y z vx vy vz = Ok (c2, (false, eta)) /\
    DETMController.get_state c2 id = Some st2 /\
    last_transmitted_state st2 = (x, y, z, vx, vy, vz) /\
    last_transmitted_time_us st2 = t /\
    transmissions_total st2 = (transmissions_total st + 1)%Z /\
    triggers_fired st2 = triggers_fired st /\
    triggers_suppressed st2 = (triggers_suppressed st + 1)%Z.
Proof.
  intros Hst c1.
  assert (Hst1 : exists st1, states c1 !! id = Some st1 /\
            norm_type st1 = norm_type st /\
            last_transmitted_state st1 = (x, y, z, vx, vy, vz) /\
            last_transmitted_time_us st1 = t /\
            transmissions_total st1 = (transmissions_total st + 1)%Z /\
            triggers_fired st1 = triggers_fired st /\
            triggers_suppressed st1 = triggers_suppressed st).
  { unfold c1, DETMController.record_transmission. rewrite Hst.
    eexists. split; [apply lookup_insert_eq |]. simpl. repeat split; reflexivity. }
  destruct Hst1 as (st1 & Hl1 & _ & Hs1 & Ht1 & Hn1 & Hf1 & Hp1).
  destruct (should_transmit_record c1 id t' x y z vx vy vz st1 Hl1)
    as (st2 & H2 & _ & _ & _ & Hs2 & Ht2 & Hn2 & _ & Hf2 & Hp2).
  assert (Hb : bool_decide (threshold st1 t' < chosen_norm st1 (x, y, z, vx, vy, vz))
               = false).
  { apply bool_decide_eq_false. rewrite <- Hs1, chosen_norm_same.
    pose proof (threshold_pos st1 t'). lra. }
  rewrite Hb in H2, Hf2, Hp2.
  eexists _, _, st2. split; [exact H2 |].
  unfold DETMController.get_state. cbn [states].
  split; [apply lookup_insert_eq |].
  repeat split; congruence.
Qed.

Lemma recorded_state_is_not_resent_witness :
  let c := DETMController.register_drone DETMController.init 1 0.5 0.1 "l2" in
  let c1 := DETMController.record_transmission c 1 10000 3 4 5 1 0 0 in
  exists st, states c !! 1%Z = Some st /\
  exists c2 eta st2,
    DETMController.should_transmit c1 1 5000000 3 4 5 1 0 0 = Ok (c2, (false, eta)) /\
    DETMController.get_state c2 1 = Some st2 /\
    last_transmitted_state st2 = (3, 4, 5, 1, 0, 0) /\
    last_transmitted_time_us st2 = 10000%Z /\
    transmissions_total st2 = (transmissions_total st + 1)%Z /\
    triggers_fired st2 = triggers_fired st /\
    triggers_suppressed st2 = (triggers_suppressed st + 1)%Z.
Proof.
  intros c c1. eexists. split; [apply lookup_insert_eq |].
  apply (recorded_state_is_not_resent c 1 10000 5000000 3 4 5 1 0 0).
  apply lookup_insert_eq.
Defined.

(** Extra X13. Every [should_transmit] query for a registered drone is
    counted once: in the statistics, the fired and the suppressed triggers
    together grow by one, the fired ones exactly when the answer is
    "transmit"; the number of transmissions does not move and the current
    threshold is the one returned. When the counters are not negative the
    suppression rate reported afterwards lies between 0 and 100. The
    statistics of every other drone are untouched. *)
Theorem every_query_is_counted (c : DETMController) (id time_us : Z)
    (x y z vx vy vz : R) (st : DetmState) :
  states c !! id = Some st ->
  (0 <= triggers_fired st)%Z -> (0 <= triggers_suppressed st)%Z ->
  exists c' b eta s s',
    DETMController.should_transmit c id time_us x y z vx vy vz = Ok (c', (b, eta)) /\
    DETMController.get_statistics c id = Some s /\
    DETMController.get_statistics c' id = Some s' /\
    (st_triggers_fired s' + st_triggers_suppressed s'
     = st_triggers_fired s + st_triggers_suppressed s + 1)%Z /\
    st_triggers_fired s'
      = (if b then st_triggers_fired s + 1 else st_triggers_fired s)%Z /\
    st_transmissions_total s' = st_transmissions_total s /\
    st_current_eta s' = eta /\
    0 <= suppression_rate_percent s' <= 100 /\
    forall id', id' <> id ->
      DETMController.get_statistics c' id' = DETMController.get_statistics c id'.
Proof.
  intros Hst Hf Hp.
  destruct (should_transmit_record c id time_us x y z vx vy vz st Hst)
    as (st' & H1 & He & _ & _ & _ & _ & Hn & Hc & Hf' & Hp').
  set (b := bool_decide (threshold st time_us < chosen_norm st (x, y, z, vx, vy, vz))) in *.
  eexists _, b, _, _, _. split; [exact H1 |].
  unfold DETMController.get_statistics. cbn [states].
  rewrite Hst, lookup_insert_eq. split; [reflexivity |]. split; [reflexivity |].
  cbn [st_triggers_fired st_triggers_suppressed st_transmissions_total
       st_current_eta suppression_rate_percent].
  split; [rewrite Hf', Hp'; destruct b; lia |].
  split; [exact Hf' |]. split; [exact Hn |]. split; [exact Hc |].
  split.
  - assert (Hf2 : (0 <= triggers_fired st')%Z) by (rewrite Hf'; destruct b; lia).
    assert (Hp2 : (0 <= triggers_suppressed st')%Z) by (rewrite Hp'; destruct b; lia).
    destruct (bool_decide (0 < triggers_fired st' + triggers_suppressed st')%Z) eqn:Hd;
      [| lra].
    apply bool_decide_eq_true in Hd.
    assert (Ht : 0 < IZR (triggers_fired st' + triggers_suppressed st'))
      by (apply IZR_lt; exact Hd).
    assert (Hs : 0 <= IZR (triggers_suppressed st')) by (apply IZR_le; exact Hp2).
    assert (Hle : IZR (triggers_suppressed st')
                  <= IZR (triggers_fired st' + triggers_suppressed st'))
      by (apply IZR_le; lia).
    set (n := IZR (triggers_suppressed st')) in *.
    set (d := IZR (triggers_fired st' + triggers_suppressed st')) in *.
    assert (Hq : 0 <= n / d <= 1).
    { split.
      - apply Rmult_le_pos; [exact Hs | left; apply Rinv_0_lt_compat; exact Ht].
      - apply (Rmult_le_reg_r d); [exact Ht |].
        replace (n / d * d) with n by (field; lra). lra. }
    lra.
  - intros id' Hne. rewrite lookup_insert_ne by congruence. reflexivity.
Qed.

Lemma every_query_is_counted_witness :
  let c := DETMController.register_drone DETMController.init 1 0.5 0.1 "l2" in
  exists c' b eta s s',
    DETMController.should_transmit c 1 10000 3 4 0 0 0 0 = Ok (c', (b, eta)) /\
    DETMController.get_statistics c 1 = Some s /\
    DETMController.get_statistics c' 1 = Some s' /\
    (st_triggers_fired s' + st_triggers_suppressed s'
     = st_triggers_fired s + st_triggers_suppressed s + 1)%Z /\
    st_triggers_fired s'
      = (if b then st_triggers_fired s + 1 else st_triggers_fired s)%Z /\
    st_transmissions_total s' = st_transmissions_total s /\
    st_current_eta s' = eta /\
    0 <= suppression_rate_percent s' <= 100 /\
    forall id', id' <> 1%Z ->
      DETMController.get_statistics c' id' = DETMController.get_statistics c id'.
Proof.
  intros c.
  apply (every_query_is_counted c 1 10000 3 4 0 0 0 0 _ (lookup_insert_eq _ _ _)).
  - simpl. lia.
  - simpl. lia.
Defined.

(** Extra X14. The norm a drone is registered with is compared in lower
    case, and every name other than "l2" selects the L-infinity norm: right
    after [register_drone] the answer of [should_transmit] at time [t] is
    "transmit" exactly when the distance of the queried state from the
    origin, in the L2 norm if the lower-cased name is "l2" and in the
    L-infinity norm otherwise, exceeds the threshold. *)
Theorem norm_name_selects_the_norm (c : DETMController) (id t : Z)
    (e0 lam : R) (name : string) (x y z vx vy vz : R) :
  let c1 := DETMController.register_drone c id e0 lam name in
  let eta := Rmax DETM_MIN_ETA (e0 * exp (- lam * (IZR t / 1e6))) in
  let dist :=
    if decide (str_lower name = "l2"%string)
    then sqrt (x ^ 2 + y ^ 2 + z ^ 2 + vx ^ 2 + vy ^ 2 + vz ^ 2)
    else Rmax (Rmax (Rmax (Rmax (Rmax (Rabs x) (Rabs y)) (Rabs z)) (Rabs vx))
                 (Rabs vy)) (Rabs vz) in
  (exists c2,
     DETMController.should_transmit c1 id t x y z vx vy vz
       = Ok (c2, (bool_decide (eta < dist), eta))) /\
  str_lower "L2" = "l2"%string /\ str_lower "LINF" <> "l2"%string /\
  str_lower "l1" <> "l2"%string.
Proof.
  intros c1 eta dist. split; [| split; [reflexivity | split; discriminate]].
  assert (Hst : exists st, states c1 !! id = Some st /\ eta0 st = e0 /\
                  lambda_decay st = lam /\ norm_type st = str_lower name /\
                  last_transmitted_state st = (0, 0, 0, 0, 0, 0) /\
                  last_transmitted_time_us st = 0%Z).
  { eexists. split; [apply lookup_insert_eq |]. simpl. repeat split; reflexivity. }
  destruct Hst as (st & Hl & He & Hlam & Hn & Hs & Ht).
  destruct (should_transmit_registered c1 id t x y z vx vy vz st Hl) as (c2 & H2).
  exists c2. rewrite H2.
  assert (Heta : threshold st t = eta).
  { unfold threshold, eta. rewrite He, Hlam, Ht, Z.sub_0_r. reflexivity. }
  assert (Hd : chosen_norm st (x, y, z, vx, vy, vz) = dist).
  { unfold chosen_norm, dist. rewrite Hn, Hs.
    destruct (decide (str_lower name = "l2"%string)); simpl.
    - f_equal. ring.
    - rewrite !Rminus_0_r. reflexivity. }
  rewrite Heta, Hd. reflexivity.
Qed.

(** The two error helpers on tuples of different lengths give
    an infinite error, which exceeds every threshold. On two empty tuples
    the L2 error is 0, while the L-infinity error takes the maximum of an
    empty sequence and raises [ValueError]. *)
Lemma error_of_mismatched_tuples (a b : list R) :
  length a <> length b ->
  DETMController._calculate_error_l2 a b = PosInf /\
  DETMController._calculate_error_linf a b = Ok PosInf /\
  (forall eta, DETMController.xfloat_gt PosInf eta = true) /\
  DETMController._calculate_error_l2 [] [] = Finite 0 /\
  DETMController._calculate_error_linf [] [] = Raise ValueError.
Proof.
  intros Hne.
  unfold DETMController._calculate_error_l2, DETMController._calculate_error_linf.
  destruct (decide (length a = length b)); [contradiction |].
  repeat split; try reflexivity.
  simpl. unfold py_sum. simpl. rewrite sqrt_0. reflexivity.
Qed.

(** Extra X15. For a registered drone with a decay rate that is not
    negative, queried at or after the time of its last transmission, a
    state whose distance from the last transmitted one exceeds both the
    initial threshold and [DETM_MIN_ETA] is always answered "transmit". *)
Theorem large_motion_fires (c : DETMController) (id t : Z)
    (x y z vx vy vz : R) (st : DetmState) :
  states c !! id = Some st ->
  0 <= lambda_decay st -> (last_transmitted_time_us st <= t)%Z ->
  Rmax DETM_MIN_ETA (eta0 st) < chosen_norm st (x, y, z, vx, vy, vz) ->
  exists c' eta,
    DETMController.should_transmit c id t x y z vx vy vz = Ok (c', (true, eta)).
Proof.
  intros Hst Hl Ht Hbig.
  destruct (should_transmit_registered c id t x y z vx vy vz st Hst) as (c' & H1).
  exists c', (threshold st t). rewrite H1. do 3 f_equal.
  apply bool_decide_eq_true.
  destruct (Rle_dec 0 (eta0 st)) as [He | He].
  - destruct (threshold_bounds st t) as (_ & Hub).
    specialize (Hub He Hl Ht). lra.
  - unfold threshold.
    assert (Hneg : eta0 st * exp (- lambda_decay st
                     * (IZR (t - last_transmitted_time_us st) / 1e6)) <= 0).
    { pose proof (exp_pos (- lambda_decay st
                     * (IZR (t - last_transmitted_time_us st) / 1e6))). nra. }
    assert (Hm : Rmax DETM_MIN_ETA (eta0 st * exp (- lambda_decay st
                     * (IZR (t - last_transmitted_time_us st) / 1e6))) = DETM_MIN_ETA).
    { apply Rmax_left. unfold DETM_MIN_ETA in *. lra. }
    rewrite Hm. pose proof (Rmax_l DETM_MIN_ETA (eta0 st)). lra.
Qed.

Lemma large_motion_fires_witness :
  let c := DETMController.register_drone DETMController.init 1 0.5 0.1 "linf" in
  exists c' eta,
    DETMController.should_transmit c 1 10000 0 0 2 0 0 0 = Ok (c', (true, eta)).
Proof.
  intros c.
  apply (large_motion_fires c 1 10000 0 0 2 0 0 0 _ (lookup_insert_eq _ _ _)).
  - simpl. lra.
  - simpl. lia.
  - unfold chosen_norm. simpl.
    destruct (decide ("linf"%string = "l2"%string)) as [Heq | _]; [discriminate |].
    unfold norm_linf, DETM_MIN_ETA.
    rewrite !Rminus_0_r, Rabs_R0, (Rabs_right 2) by lra.
    unfold Rmax; repeat destruct (Rle_dec _ _); lra.
Defined.

End DetmExtras.

(** ** Estimates between messages (distributed_observer.py) *)

Section ObserverExtras.
Import distributed_observer.

Lemma confidence_first_tick : 1.0 - 0.8 * Rmin (IZR (0 + 1) / 100) 1.0 = 0.992.
Proof.
  replace (0 + 1)%Z with 1%Z by lia.
  rewrite Rmin_left by lra. lra.
Qed.

(** Extra X16. After [update_neighbor] stored a message from a neighbor
    for a registered observer, the next [predict_neighbor_state] returns
    the reported position moved along the reported velocity for the time
    elapsed since the message, with confidence 0.992, provided the
    observer's constant-velocity timeout is at least one tick; with a
    timeout of zero ticks it returns the reported position itself. *)
Theorem ingest_then_predict (self : DistributedObserver) (o n t0 t : Z)
    (x y z vx vy vz : R) (obs : LocalizationObserverState) :
  local_states self !! o = Some obs ->
  let self1 := DistributedObserver.update_neighbor self o n t0 x y z vx vy vz in
  let dt := IZR (t - t0) / 1e6 in
  exists self2,
    DistributedObserver.predict_neighbor_state self1 o n t
    = (self2,
       Some (if decide (1 <= constant_velocity_timeout_ticks obs)%Z
             then (x + vx * dt, y + vy * dt, z + vz * dt, 0.992)
             else (x, y, z, 0.992))).
Proof.
  intros Hobs self1 dt.
  assert (H1 : exists obs1 e1,
            local_states self1 !! o = Some obs1 /\
            constant_velocity_timeout_ticks obs1 = constant_velocity_timeout_ticks obs /\
            dict_get (neighbors obs1) n = Some e1 /\
            estimated_x e1 = x /\ estimated_y e1 = y /\ estimated_z e1 = z /\
            estimated_vx e1 = vx /\ estimated_vy e1 = vy /\ estimated_vz e1 = vz /\
            estimate_time_us e1 = t0 /\ estimate_age_ticks e1 = 0%Z).
  { unfold self1, DistributedObserver.update_neighbor. rewrite Hobs.
    destruct (dict_get (neighbors obs) n) as [e |] eqn:He;
      cbn [local_states with_local_states]; rewrite lookup_insert_eq;
      eexists _, _; (split; [reflexivity |]);
      cbn [neighbors with_neighbors constant_velocity_timeout_ticks];
      (split; [reflexivity |]); (split; [apply dict_get_set_eq |]);
      simpl; repeat split; reflexivity. }
  destruct H1 as (obs1 & e1 & Hl & Hto & Hg & Hx & Hy & Hz & Hvx & Hvy & Hvz & Ht0 & Ha).
  unfold DistributedObserver.predict_neighbor_state. rewrite Hl, Hg.
  eexists. f_equal. f_equal.
  unfold DistributedObserver.aged. cbv zeta.
  cbn [estimated_x estimated_y estimated_z estimated_vx estimated_vy estimated_vz
       estimate_time_us estimate_confidence].
  rewrite Hx, Hy, Hz, Hvx, Hvy, Hvz, Ht0, Ha, Hto. fold dt.
  rewrite confidence_first_tick.
  destruct (decide (1 <= constant_velocity_timeout_ticks obs)%Z) as [Hc | Hc].
  - rewrite bool_decide_eq_false_2 by (simpl; lia). reflexivity.
  - rewrite bool_decide_eq_true_2 by (simpl; lia).
    rewrite !Rmult_0_l, !Rplus_0_r. reflexivity.
Qed.

Lemma ingest_then_predict_witness :
  let self := DistributedObserver.register_drone DistributedObserver.default 1 [2%Z] in
  let self1 := DistributedObserver.update_neighbor self 1 2 1000000 10 20 30 1 2 3 in
  let dt := IZR (1500000 - 1000000) / 1e6 in
  exists obs, local_states self !! 1%Z = Some obs /\
  exists self2,
    DistributedObserver.predict_neighbor_state self1 1 2 1500000
    = (self2,
       Some (if decide (1 <= constant_velocity_timeout_ticks obs)%Z
             then (10 + 1 * dt, 20 + 2 * dt, 30 + 3 * dt, 0.992)
             else (10, 20, 30, 0.992))).
Proof.
  intros self self1 dt. eexists. split; [apply lookup_insert_eq |].
  apply (ingest_then_predict self 1 2 1000000 1500000 10 20 30 1 2 3).
  apply lookup_insert_eq.
Defined.

(** Extra X17. Once an estimate is as old as the observer's
    constant-velocity timeout, a prediction erases its velocity and returns
    the stored position itself, whatever the time asked for; the velocity
    stays erased, so every later prediction returns that same position
    until a new message arrives. *)
Theorem stale_estimate_is_stationary (self : DistributedObserver) (o n t t' : Z)
    (obs : LocalizationObserverState) (e : NeighborEstimate) :
  local_states self !! o = Some obs ->
  dict_get (neighbors obs) n = Some e ->
  (constant_velocity_timeout_ticks obs <= estimate_age_ticks e)%Z ->
  exists self1 c1 e1 self2 c2,
    DistributedObserver.predict_neighbor_state self o n t
    = (self1, Some (estimated_x e, estimated_y e, estimated_z e, c1)) /\
    estimate_of self1 o n = Some e1 /\
    estimated_vx e1 = 0 /\ estimated_vy e1 = 0 /\ estimated_vz e1 = 0 /\
    estimated_x e1 = estimated_x e /\ estimated_y e1 = estimated_y e /\
    estimated_z e1 = estimated_z e /\
    DistributedObserver.predict_neighbor_state self1 o n t'
    = (self2, Some (estimated_x e, estimated_y e, estimated_z e, c2)).
Proof.
  intros Hobs He Hold.
  unfold DistributedObserver.predict_neighbor_state at 1. rewrite Hobs, He.
  set (e1 := DistributedObserver.aged obs e).
  assert (Hv : estimated_vx e1 = 0 /\ estimated_vy e1 = 0 /\ estimated_vz e1 = 0 /\
               estimated_x e1 = estimated_x e /\ estimated_y e1 = estimated_y e /\
               estimated_z e1 = estimated_z e /\
               estimate_time_us e1 = estimate_time_us e /\
               estimate_age_ticks e1 = (estimate_age_ticks e + 1)%Z).
  { unfold e1, DistributedObserver.aged. cbv zeta.
    rewrite bool_decide_eq_true_2 by lia. simpl. repeat split; reflexivity. }
  destruct Hv as (Hvx & Hvy & Hvz & Hx & Hy & Hz & Ht & Ha).
  set (obs1 := with_neighbors obs (dict_set (neighbors obs) n e1)).
  set (self1 := with_local_states self (<[o := obs1]> (local_states self))).
  assert (Hl1 : local_states self1 !! o = Some obs1) by apply lookup_insert_eq.
  assert (Hg1 : dict_get (neighbors obs1) n = Some e1) by apply dict_get_set_eq.
  eexists self1, _, e1, _, _.
  split; [cbv zeta; rewrite Hvx, Hvy, Hvz, Hx, Hy, Hz, Ht;
          rewrite !Rmult_0_l, !Rplus_0_r; reflexivity |].
  split; [unfold estimate_of; rewrite Hl1; exact Hg1 |].
  do 6 (split; [assumption |]).
  unfold DistributedObserver.predict_neighbor_state. rewrite Hl1, Hg1.
  f_equal.
  unfold DistributedObserver.aged. cbv zeta.
  cbn [estimated_x estimated_y estimated_z estimated_vx estimated_vy estimated_vz
       estimate_time_us estimate_confidence].
  replace (constant_velocity_timeout_ticks obs1)
    with (constant_velocity_timeout_ticks obs) by reflexivity.
  rewrite bool_decide_eq_true_2 by lia.
  rewrite Hx, Hy, Hz, Ht, !Rmult_0_l, !Rplus_0_r. reflexivity.
Qed.

Lemma stale_estimate_is_stationary_witness :
  let obs := {| drone_id := 1; max_latency_ticks := 50;
                constant_velocity_timeout_ticks := 0;
                confidence_decay_rate := 0.95;
                neighbors :=
                  [(2%Z, {| neighbor_id := 2;
                            estimated_x := 10; estimated_y := 20; estimated_z := 30;
                            estimated_vx := 1; estimated_vy := 2; estimated_vz := 3;
                            estimate_time_us := 0; estimate_age_ticks := 0;
                            estimate_confidence := 1;
                            velocity_model_stale := false |})] |} in
  let self := with_local_states DistributedObserver.default {[ 1%Z := obs ]} in
  exists e, dict_get (neighbors obs) 2 = Some e /\
  exists self1 c1 e1 self2 c2,
    DistributedObserver.predict_neighbor_state self 1 2 1000000
    = (self1, Some (estimated_x e, estimated_y e, estimated_z e, c1)) /\
    estimate_of self1 1 2 = Some e1 /\
    estimated_vx e1 = 0 /\ estimated_vy e1 = 0 /\ estimated_vz e1 = 0 /\
    estimated_x e1 = estimated_x e /\ estimated_y e1 = estimated_y e /\
    estimated_z e1 = estimated_z e /\
    DistributedObserver.predict_neighbor_state self1 1 2 2000000
    = (self2, Some (estimated_x e, estimated_y e, estimated_z e, c2)).
Proof.
  intros obs self. eexists. split; [reflexivity |].
  apply (stale_estimate_is_stationary self 1 2 1000000 2000000 obs).
  - apply lookup_singleton_eq.
  - reflexivity.
  - simpl. lia.
Defined.

Lemma register_fold_get (ns : list Z) :
  forall (d : list (Z * NeighborEstimate)) (n : Z),
    dict_get
      (fold_left
         (fun (d : list (Z * NeighborEstimate)) (nid : Z) =>
            dict_set d nid
              {| neighbor_id := nid;
                 estimated_x := 0; estimated_y := 0; estimated_z := 0;
                 estimated_vx := 0; estimated_vy := 0; estimated_vz := 0;
                 estimate_time_us := 0;
                 estimate_age_ticks := 0;
                 estimate_confidence := 0.0;
                 velocity_model_stale := true |}) ns d) n
    = if decide (n ∈ ns)
      then Some {| neighbor_id := n;
                   estimated_x := 0; estimated_y := 0; estimated_z := 0;
                   estimated_vx := 0; estimated_vy := 0; estimated_vz := 0;
                   estimate_time_us := 0;
                   estimate_age_ticks := 0;
                   estimate_confidence := 0.0;
                   velocity_model_stale := true |}
      else dict_get d n.
Proof.
  induction ns as [| a ns IH]; intros d n; simpl.
  - destruct (decide (n ∈ [])) as [Hin | _]; [inversion Hin | reflexivity].
  - rewrite IH.
    destruct (decide (n ∈ ns)) as [Hin | Hnin].
    + destruct (decide (n ∈ a :: ns)) as [_ | Hn]; [reflexivity |].
      exfalso. apply Hn. right. exact Hin.
    + destruct (decide (a = n)) as [-> | Hne].
      * rewrite dict_get_set_eq.
        destruct (decide (n ∈ n :: ns)) as [_ | Hn]; [reflexivity |].
        exfalso. apply Hn. left.
      * rewrite dict_get_set_ne by exact Hne.
        destruct (decide (n ∈ a :: ns)) as [Hin | _]; [| reflexivity].
        exfalso. apply elem_of_cons in Hin. destruct Hin as [-> | Hin]; tauto.
Qed.

(** Extra X18. [register_drone] gives the observer exactly the neighbors
    of the list, whatever it held before, each with an estimate at the
    origin, confidence 0 and the stale flag set. The first prediction for
    such a neighbor, from which nothing was ever received, returns the
    origin with confidence 0.992. *)
Theorem unheard_neighbor_is_predicted_at_origin (self : DistributedObserver)
    (o : Z) (ns : list Z) (n t : Z) :
  let self1 := DistributedObserver.register_drone self o ns in
  (n ∉ ns -> estimate_of self1 o n = None) /\
  (n ∈ ns ->
     (exists e, estimate_of self1 o n = Some e /\
                estimate_confidence e = 0 /\ velocity_model_stale e = true) /\
     exists self2,
       DistributedObserver.predict_neighbor_state self1 o n t
         = (self2, Some (0, 0, 0, 0.992))).
Proof.
  intros self1.
  assert (Hl : exists obs1, local_states self1 !! o = Some obs1 /\
            dict_get (neighbors obs1) n
            = if decide (n ∈ ns)
              then Some {| neighbor_id := n;
                           estimated_x := 0; estimated_y := 0; estimated_z := 0;
                           estimated_vx := 0; estimated_vy := 0; estimated_vz := 0;
                           estimate_time_us := 0;
                           estimate_age_ticks := 0;
                           estimate_confidence := 0.0;
                           velocity_model_stale := true |}
              else None).
  { unfold self1, DistributedObserver.register_drone. cbv zeta.
    cbn [local_states with_local_states]. rewrite lookup_insert_eq.
    eexists. split; [reflexivity |].
    cbn [neighbors with_neighbors]. rewrite register_fold_get. reflexivity. }
  destruct Hl as (obs1 & Hl & Hg). split.
  - intros Hnin. unfold estimate_of. rewrite Hl, Hg.
    destruct (decide (n ∈ ns)); [contradiction | reflexivity].
  - intros Hin. destruct (decide (n ∈ ns)) as [_ | Hn]; [| contradiction]. split.
    + eexists. unfold estimate_of. rewrite Hl. split; [exact Hg |].
      simpl. split; [lra | reflexivity].
    + unfold DistributedObserver.predict_neighbor_state. rewrite Hl, Hg.
      eexists. f_equal. f_equal. unfold DistributedObserver.aged. cbv zeta.
      cbn [estimated_x estimated_y estimated_z estimated_vx estimated_vy
           estimated_vz estimate_time_us estimate_confidence estimate_age_ticks].
      rewrite confidence_first_tick.
      destruct (bool_decide _); rewrite !Rmult_0_l, !Rplus_0_r; reflexivity.
Qed.

Lemma unheard_neighbor_is_predicted_at_origin_witness :
  let self1 := DistributedObserver.register_drone DistributedObserver.default 4
                 [1%Z; 2%Z; 3%Z] in
  (2%Z ∉ [1%Z; 2%Z; 3%Z] -> estimate_of self1 4 2 = None) /\
  (2%Z ∈ [1%Z; 2%Z; 3%Z] ->
     (exists e, estimate_of self1 4 2 = Some e /\
                estimate_confidence e = 0 /\ velocity_model_stale e = true) /\
     exists self2,
       DistributedObserver.predict_neighbor_state self1 4 2 777
         = (self2, Some (0, 0, 0, 0.992))).
Proof.
  apply (unheard_neighbor_is_predicted_at_origin DistributedObserver.default 4
           [1%Z; 2%Z; 3%Z] 2 777).
Defined.

Lemma dict_get_is_Some {V : Type} (d : list (Z * V)) (k : Z) (v : V) :
  (k, v) ∈ d -> is_Some (dict_get d k).
Proof.
  induction d as [| [k' v'] d IH]; simpl; intros Hin.
  - inversion Hin.
  - destruct (decide (k' = k)); [eexists; reflexivity |].
    apply IH. apply elem_of_cons in Hin.
    destruct Hin as [Heq | Hin]; [congruence | exact Hin].
Qed.

Lemma separation_nonneg (self : DistributedObserver) (o n t : Z) (x y z : R)
    (self' : DistributedObserver) (s : R) :
  DistributedObserver.get_separation_to_neighbor self o n t x y z = (self', Some s) ->
  0 <= s.
Proof.
  unfold DistributedObserver.get_separation_to_neighbor.
  destruct (DistributedObserver.predict_neighbor_state self o n t) as [self1 [[[[px py] pz] c] |]];
    intros Heq; inversion Heq; subst.
  apply sqrt_pos.
Qed.

Lemma collision_fold_sound (o t : Z) (x y z m : R) (Q : Z -> Prop)
    (items : list (Z * NeighborEstimate)) :
  forall acc : DistributedObserver * list (Z * R),
    Forall (fun p => 0 <= snd p < m /\ Q (fst p)) (snd acc) ->
    Forall (fun item => Q (fst item)) items ->
    let r := fold_left
           (fun (acc : DistributedObserver * list (Z * R)) (item : Z * NeighborEstimate) =>
              let '(obs, risky_neighbors) := acc in
              let nid := fst item in
              match DistributedObserver.get_separation_to_neighbor obs o nid t x y z with
              | (obs', Some separation) =>
                  if decide (separation < m)
                  then (obs', risky_neighbors ++ [(nid, separation)])
                  else (obs', risky_neighbors)
              | (obs', None) => (obs', risky_neighbors)
              end) items acc in
    Forall (fun p => 0 <= snd p < m /\ Q (fst p)) (snd r) /\
    (length (snd r) <= length (snd acc) + length items)%nat.
Proof.
  induction items as [| item items IH]; intros [obs risky] Hacc Hitems; simpl.
  - split; [exact Hacc | lia].
  - inversion Hitems as [| ? ? Hq Hrest]; subst.
    destruct (DistributedObserver.get_separation_to_neighbor obs o (fst item) t x y z)
      as [obs' [s |]] eqn:Hsep.
    + destruct (decide (s < m)) as [Hlt | Hge].
      * assert (Hacc' : Forall (fun p => 0 <= snd p < m /\ Q (fst p))
                          (risky ++ [(fst item, s)])).
        { apply Forall_app. split; [exact Hacc |].
          constructor; [| constructor]. simpl. split; [| exact Hq].
          split; [eapply separation_nonneg; exact Hsep | exact Hlt]. }
        destruct (IH (obs', risky ++ [(fst item, s)]) Hacc' Hrest) as (Hf & Hlen).
        split; [exact Hf |]. simpl in Hlen. rewrite length_app in Hlen. simpl in Hlen.
        simpl. lia.
      * destruct (IH (obs', risky) Hacc Hrest) as (Hf & Hlen).
        split; [exact Hf |]. simpl in *. lia.
    + destruct (IH (obs', risky) Hacc Hrest) as (Hf & Hlen).
      split; [exact Hf |]. simpl in *. lia.
Qed.

(** Extra X19. Every pair [(neighbor, separation)] that
    [check_collision_risk] returns names a neighbor the observer tracks,
    with a separation that is not negative and strictly below the minimum
    asked for; the list is never longer than the observer's neighbor table,
    and it is empty when the minimum separation is zero or negative or the
    observer is unknown. *)
Theorem collision_risk_is_sound (self : DistributedObserver) (o t : Z)
    (x y z m : R) :
  let r := snd (DistributedObserver.check_collision_risk self o t x y z m) in
  (forall nid sep, (nid, sep) ∈ r ->
     0 <= sep < m /\
     exists obs, local_states self !! o = Some obs /\
                 is_Some (dict_get (neighbors obs) nid)) /\
  (m <= 0 -> r = []) /\
  (local_states self !! o = None -> r = []) /\
  (forall obs, local_states self !! o = Some obs ->
     (length r <= length (neighbors obs))%nat).
Proof.
  intros r. unfold r, DistributedObserver.check_collision_risk.
  destruct (local_states self !! o) as [obs |] eqn:Hobs.
  - pose proof (collision_fold_sound o t x y z m
                  (fun nid => is_Some (dict_get (neighbors obs) nid))
                  (neighbors obs) (self, [])) as Hs.
    cbv zeta in Hs. destruct Hs as (Hf & Hlen).
    { constructor. }
    { apply Forall_forall. intros [k v] Hin.
      apply (dict_get_is_Some _ k v). exact Hin. }
    split; [| split; [| split]].
    + intros nid sep Hin. rewrite Forall_forall in Hf.
      destruct (Hf _ Hin) as (Hsep & Hq). simpl in *.
      split; [exact Hsep |]. exists obs. split; [reflexivity | exact Hq].
    + intros Hm.
      assert (Hnil : forall l : list (Z * R),
                Forall (fun p => 0 <= snd p < m /\
                                 is_Some (dict_get (neighbors obs) (fst p))) l -> l = []).
      { intros [| p l] Hl; [reflexivity |].
        inversion Hl as [| ? ? Hhd _]; subst. lra. }
      exact (Hnil _ Hf).
    + discriminate.
    + intros obs' Heq. inversion Heq; subst. simpl in Hlen. exact Hlen.
  - simpl. split; [| split; [| split]]; try reflexivity.
    + intros nid sep Hin. inversion Hin.
    + intros obs Heq. discriminate.
Qed.

End ObserverExtras.

(** ** Wind, spread and detection (fire_simulation.py) *)

Section WindFacts.
Import constants fire_simulation.

Lemma fmod_range (x m : R) : 0 < m -> 0 <= fmod x m < m.
Proof.
  intros Hm. unfold fmod.
  destruct (base_Int_part (x / m)) as (Hlo & Hhi).
  assert (Hx : x = x / m * m) by (field; lra).
  set (k := IZR (Int_part (x / m))) in *.
  set (q := x / m) in *.
  clearbody q k. subst x. split; nra.
Qed.

Lemma wind_vector_norm (w : WindModel) :
  sqrt (fst (WindModel.get_wind_vector w) ^ 2 + snd (WindModel.get_wind_vector w) ^ 2)
  = Rabs (wind_speed_ms w).
Proof.
  unfold WindModel.get_wind_vector. cbn [fst snd].
  set (a := (90.0 - wind_direction_deg w) * (PI / 180)).
  replace ((wind_speed_ms w * cos a) ^ 2 + (wind_speed_ms w * sin a) ^ 2)
    with (Rsqr (wind_speed_ms w)).
  - apply sqrt_Rsqr_abs.
  - pose proof (sin2_cos2 a) as Hsc. unfold Rsqr in *. nra.
Qed.

(** Extra X20. [set_wind] stores a speed that is never negative (a
    negative one becomes 0) and a direction in [0, 360) that differs from
    the one given by a whole number of turns. Whatever the direction, the
    wind vector has the length of the speed. *)
Theorem set_wind_normalises (w0 : WindModel) (speed direction : R) :
  let w := WindModel.set_wind w0 speed direction in
  wind_speed_ms w = Rmax 0 speed /\ 0 <= wind_speed_ms w /\
  0 <= wind_direction_deg w < 360 /\
  (exists k : Z, direction = wind_direction_deg w + IZR k * 360) /\
  sqrt (fst (WindModel.get_wind_vector w) ^ 2 + snd (WindModel.get_wind_vector w) ^ 2)
  = wind_speed_ms w.
Proof.
  intros w.
  assert (Hs : wind_speed_ms w = Rmax 0 speed).
  { unfold w. simpl. f_equal. lra. }
  assert (Hd : wind_direction_deg w = fmod direction 360).
  { unfold w. simpl. f_equal. lra. }
  rewrite wind_vector_norm, Hs, Hd.
  split; [reflexivity |]. split; [apply Rmax_l |].
  split; [apply fmod_range; lra |].
  split; [exists (Int_part (direction / 360)); unfold fmod; lra |].
  apply Rabs_right. apply Rle_ge. apply Rmax_l.
Qed.

Lemma spread_distance_formula (s : FireSimulation) (cell : FireCell) (w : WindModel) :
  cell_size_m s <> 0 ->
  FireSimulation._calculate_spread_distance s cell
    (fst (WindModel.get_wind_vector w)) (snd (WindModel.get_wind_vector w))
  = Ok (Rmax 1 (500 * fuel_density cell * (1 + Rabs (wind_speed_ms w) / 5 * 2)
                / 60 * 0.01 / cell_size_m s)).
Proof.
  intros Hcs. unfold FireSimulation._calculate_spread_distance.
  rewrite wind_vector_norm.
  rewrite fdiv_ok by exact Hcs. rewrite bind_Ok.
  unfold FIRE_SPREAD_RATE_BASE_MPM, WIND_SPEED_MS, FIRE_SPREAD_RATE_WIND_SCALE,
    SIM_TICK_PERIOD_S, SIM_TICK_RATE_HZ.
  replace 500.0 with 500 by lra. replace 5.0 with 5 by lra.
  replace 2.0 with 2 by lra. replace 60.0 with 60 by lra.
  replace 1.0 with 1 by lra. replace 0.01 with (1 / 100) by lra.
  reflexivity.
Qed.

(** Extra X21. The spread distance of a burning cell depends on the wind
    only through its speed: two winds of the same speed, blowing in any two
    directions, give the same distance. On a grid with cells of 10 m, for a
    cell with fuel between 0 and 1 and a wind of at most 297.5 m/s, the
    distance is exactly one cell. *)
Theorem spread_distance_ignores_wind_direction (s : FireSimulation) (cell : FireCell)
    (speed d1 d2 : R) :
  cell_size_m s <> 0 ->
  let w1 := WindModel.init speed d1 in
  let w2 := WindModel.init speed d2 in
  FireSimulation._calculate_spread_distance s cell
    (fst (WindModel.get_wind_vector w1)) (snd (WindModel.get_wind_vector w1))
  = FireSimulation._calculate_spread_distance s cell
      (fst (WindModel.get_wind_vector w2)) (snd (WindModel.get_wind_vector w2)) /\
  (cell_size_m s = 10 -> 0 <= fuel_density cell <= 1 -> Rabs speed <= 297.5 ->
   FireSimulation._calculate_spread_distance s cell
     (fst (WindModel.get_wind_vector w1)) (snd (WindModel.get_wind_vector w1))
   = Ok 1).
Proof.
  intros Hcs w1 w2. rewrite !spread_distance_formula by exact Hcs.
  split; [reflexivity |].
  intros H10 Hf Hsp. f_equal. cbn [w1 WindModel.init wind_speed_ms]. rewrite H10.
  apply Rmax_left.
  pose proof (Rabs_pos speed) as Hpos.
  assert (Hw : 1 <= 1 + Rabs speed / 5 * 2 <= 120) by lra.
  assert (Hprod : fuel_density cell * (1 + Rabs speed / 5 * 2) <= 120) by nra.
  lra.
Qed.

Lemma spread_distance_ignores_wind_direction_witness :
  exists s,
  FireSimulation.init 100 100 10 42 = Ok s /\
  let cell := grid s 50 50 in
  let w1 := WindModel.init 5 45 in
  let w2 := WindModel.init 5 270 in
  FireSimulation._calculate_spread_distance s cell
    (fst (WindModel.get_wind_vector w1)) (snd (WindModel.get_wind_vector w1))
  = FireSimulation._calculate_spread_distance s cell
      (fst (WindModel.get_wind_vector w2)) (snd (WindModel.get_wind_vector w2)) /\
  (cell_size_m s = 10 -> 0 <= fuel_density cell <= 1 -> Rabs 5 <= 297.5 ->
   FireSimulation._calculate_spread_distance s cell
     (fst (WindModel.get_wind_vector w1)) (snd (WindModel.get_wind_vector w1))
   = Ok 1).
Proof.
  eexists. split; [reflexivity |].
  match goal with
  | |- let cell := grid ?s 50 50 in _ =>
      apply (spread_distance_ignores_wind_direction s (grid s 50 50) 5 45 270)
  end.
  simpl. lra.
Defined.

End WindFacts.

Section NeighbourFacts.
Import constants fire_simulation.

Lemma py_int_one : py_int 1 = 1%Z.
Proof.
  unfold py_int. destruct (decide (0 <= 1)) as [_ | Hn]; [| lra].
  symmetry. apply Int_part_spec. simpl. lra.
Qed.

Lemma sqrt_IZR_le_1 (k : Z) : (0 <= k)%Z -> (sqrt (IZR k) <= 1 <-> (k <= 1)%Z).
Proof.
  intros Hk. split.
  - intros Hs. apply le_IZR.
    assert (H0 : 0 <= IZR k) by (apply IZR_le; exact Hk).
    rewrite <- (sqrt_sqrt (IZR k)) by exact H0.
    pose proof (sqrt_pos (IZR k)). nra.
  - intros Hle. assert (Hc : k = 0%Z \/ k = 1%Z) by lia.
    destruct Hc as [-> | ->]; [rewrite sqrt_0; lra | rewrite sqrt_1; lra].
Qed.

Lemma sqrt_IZR_1 (k : Z) : (0 <= k <= 1)%Z -> k <> 0%Z -> sqrt (IZR k) = 1.
Proof. intros Hk Hne. assert (k = 1%Z) as -> by lia. apply sqrt_1. Qed.

(** Extra X22. With a spread distance of one cell, the cells
    [_get_neighbors_within_distance] returns are exactly the cells of the
    grid that touch the centre along an edge, each at distance 1: a
    diagonal neighbour, at distance [sqrt 2], is never among them. *)
Theorem unit_spread_reaches_edge_neighbours (s : FireSimulation) (x y nx ny : Z)
    (dist : R) :
  In (nx, ny, dist) (FireSimulation._get_neighbors_within_distance s x y 1) <->
  FireSimulation._in_bounds s nx ny = true /\
  (Z.abs (nx - x) + Z.abs (ny - y) = 1)%Z /\ dist = 1.
Proof.
  unfold FireSimulation._get_neighbors_within_distance. rewrite py_int_one.
  change (py_range (- (1 + 1)) (1 + 1 + 1)) with [-2; -1; 0; 1; 2]%Z.
  cbv zeta. rewrite in_flat_map. split.
  - intros (dy & Hdy & Hin). rewrite in_flat_map in Hin.
    destruct Hin as (dx & Hdx & Hin).
    destruct (bool_decide (dx = 0 /\ dy = 0)%Z) eqn:Hz; [inversion Hin |].
    apply bool_decide_eq_false in Hz.
    destruct (FireSimulation._in_bounds s (x + dx) (y + dy)) eqn:Hb;
      cbn [negb] in Hin; [| inversion Hin].
    destruct (decide (sqrt (IZR (dx ^ 2 + dy ^ 2)) <= 1)) as [Hs | _];
      [| inversion Hin].
    destruct Hin as [Heq | []]. inversion Heq; subst. clear Heq.
    assert (Hk : (0 <= dx ^ 2 + dy ^ 2)%Z) by nia.
    apply (sqrt_IZR_le_1 _ Hk) in Hs.
    split; [exact Hb |]. split; [nia |].
    apply sqrt_IZR_1; [lia | nia].
  - intros (Hb & Habs & ->).
    exists (ny - y)%Z. split.
    { simpl. lia. }
    rewrite in_flat_map. exists (nx - x)%Z. split.
    { simpl. lia. }
    rewrite bool_decide_eq_false_2 by lia.
    replace (x + (nx - x))%Z with nx by lia.
    replace (y + (ny - y))%Z with ny by lia.
    rewrite Hb. cbn [negb].
    assert (Hk : ((nx - x) ^ 2 + (ny - y) ^ 2 = 1)%Z) by nia.
    rewrite Hk, sqrt_1.
    destruct (decide (1 <= 1)) as [_ | Hn]; [left; reflexivity | lra].
Qed.

End NeighbourFacts.

(** ** A grid without fire, cell ranges and detection (fire_simulation.py) *)

Section QuietGrid.
Context `{NumpyGenerator}.
Import constants fire_simulation.

Lemma sweep_without_fire (wx wy : R) (l : list (Z * Z)) :
  forall (s : FireSimulation) (q : list (Z * Z * R)),
    (forall x y, (x, y) ∈ l -> FireCell.is_burning (grid s y x) = false) ->
    foldM (FireSimulation.burn wx wy) l (s, q) = Ok (s, q).
Proof.
  induction l as [| [x y] l IH]; intros s q Hq; [reflexivity |].
  assert (Hb : FireSimulation.burn wx wy (s, q) (x, y) = Ok (s, q)).
  { unfold FireSimulation.burn. rewrite (Hq x y) by left. reflexivity. }
  rewrite (foldM_cons_ok _ _ _ _ _ Hb).
  apply IH. intros x' y' Hin. apply Hq. right. exact Hin.
Qed.

Lemma age_suppression_frame (l : list (Z * Z)) :
  forall s : FireSimulation,
    let s' := fold_left
                (fun (s : FireSimulation) '(x, y) =>
                   with_grid s (grid_set (grid s) y x
                                  (FireSimulation.age_cell (grid s y x)))) l s in
    rng s' = rng s /\ ticks s' = ticks s /\ time_us s' = time_us s /\
    total_burned_cells s' = total_burned_cells s /\ wind_model s' = wind_model s.
Proof.
  induction l as [| [x0 y0] l IH]; intros s.
  - simpl. repeat split; reflexivity.
  - cbn [fold_left].
    destruct (IH (with_grid s (grid_set (grid s) y0 x0
                                 (FireSimulation.age_cell (grid s y0 x0)))))
      as (A1 & A2 & A3 & A4 & A5).
    cbv zeta. rewrite A1, A2, A3, A4, A5. repeat split; reflexivity.
Qed.

(** Extra X23. Fire never starts by itself: when no cell of the grid is
    burning, [step] returns [(0, 0)] whatever the cell size, draws nothing
    from the generator, counts no burnt cell, advances the tick counter by
    one, and leaves the state, the intensity and the fuel of every cell as
    they were. *)
Theorem step_without_fire (s : FireSimulation) :
  (forall x y, FireSimulation._in_bounds s x y = true ->
               FireCell.is_burning (grid s y x) = false) ->
  exists s',
    FireSimulation.step s = Ok (s', (0, 0)%Z) /\
    rng s' = rng s /\
    total_burned_cells s' = total_burned_cells s /\
    ticks s' = (ticks s + 1)%Z /\
    width s' = width s /\ height s' = height s /\
    forall x y, same_fire (grid s y x) (grid s' y x).
Proof.
  intros Hq. unfold FireSimulation.step.
  destruct (WindModel.get_wind_vector _) as [wx wy].
  match goal with
  | |- context [foldM ?f ?l (?a, ?b)] =>
      rewrite (sweep_without_fire wx wy l a b)
  end.
  2:{ intros x y Hin. apply elem_of_cells in Hin. cbn [grid]. apply Hq. exact Hin. }
  rewrite bind_Ok. cbn [FireSimulation.apply_ignitions fold_left].
  eexists. split; [reflexivity |].
  unfold FireSimulation.age_suppression.
  match goal with
  | |- context [fold_left ?f ?l ?a] =>
      pose proof (age_suppression_frame l a) as Hf;
      pose proof (age_suppression_spec l a) as Hs
  end.
  cbv zeta in Hf, Hs.
  destruct Hf as (F1 & F2 & _ & F4 & _). destruct Hs as (S1 & S2 & _ & S4).
  split; [exact F1 |]. split; [exact F4 |]. split; [exact F2 |].
  split; [exact S1 |]. split; [exact S2 |]. exact S4.
Qed.

Lemma burnt_ranges (c : FireCell) :
  0 <= fuel_density c <= 1 -> 0 <= intensity c ->
  0 <= fuel_density (burnt c) <= 1 /\ 0 <= intensity (burnt c).
Proof.
  intros Hf Hi. unfold burnt. cbv zeta.
  cbn [fuel_density intensity]. unfold INTENSITY_DECAY_FACTOR. split.
  - unfold Rmax. destruct (Rle_dec _ _); nra.
  - destruct (_ || _); lra.
Qed.

(** Extra X24. In every grid that some sequence of [ignite], [suppress],
    [set_wind] and [step] calls produces from a freshly constructed
    simulation, every cell has a fuel density between 0 and 1 and an
    intensity that is not negative. *)
Theorem cell_ranges_hold (s : FireSimulation) :
  reachable s ->
  forall x y, FireSimulation._in_bounds s x y = true ->
    0 <= fuel_density (grid s y x) <= 1 /\ 0 <= intensity (grid s y x).
Proof.
  induction 1 as [w h cs seed s Hinit | s x0 y0 i _ IH | s x0 y0 k _ IH | s sp d _ IH
                 | s s' r _ IH Hstep]; intros x y Hib.
  - destruct (fire_init_inv _ _ _ _ _ Hinit) as (_ & _ & _ & _ & _ & _ & _ & _ & _ & Hgrid).
    rewrite Hgrid. simpl. unfold FUEL_DENSITY_FACTOR. lra.
  - revert Hib. unfold FireSimulation.ignite.
    destruct (FireSimulation._in_bounds s x0 y0); simpl; [| apply IH].
    intros Hib. unfold grid_set.
    destruct (decide (y = y0 /\ x = x0)) as [[-> ->] | _]; simpl.
    + split; [apply IH; exact Hib |].
      unfold FIRE_INTENSITY_IGNITION. pose proof (Rmax_r i 0.5). lra.
    + apply IH. exact Hib.
  - revert Hib. unfold FireSimulation.suppress.
    destruct (FireSimulation._in_bounds s x0 y0); simpl; [| apply IH].
    intros Hib. unfold grid_set.
    destruct (decide (y = y0 /\ x = x0)) as [[-> ->] | _]; simpl.
    + split; [apply IH; exact Hib |]. replace 0.0 with 0 by lra. apply Rmax_l.
    + apply IH. exact Hib.
  - apply IH. exact Hib.
  - destruct (step_dims s s' r Hstep) as (Hw & Hh & _).
    rewrite (in_bounds_dims s s' x y Hw Hh) in Hib.
    destruct (step_cell s s' r x y Hstep Hib) as (_ & _ & _ & Hburn & Hrest).
    destruct (IH x y Hib) as (Hf & Hi).
    destruct (FireCell.is_burning (grid s y x)) eqn:Hb.
    + destruct (Hburn eq_refl) as (_ & E2 & E3). rewrite E2, E3.
      apply burnt_ranges; assumption.
    + destruct (Hrest eq_refl) as [(_ & E2 & E3) | (_ & _ & _ & E2 & E3)].
      * rewrite E2, E3. split; assumption.
      * rewrite E3. split; [assumption | lra].
Qed.

End QuietGrid.

Section QuietGridWitnesses.
Import constants fire_simulation.

Lemma step_without_fire_witness :
  exists s s',
    FireSimulation.init 100 100 10 42 = Ok s /\
    @FireSimulation.step constant_generator s = Ok (s', (0, 0)%Z) /\
    rng s' = rng s /\
    total_burned_cells s' = total_burned_cells s /\
    ticks s' = (ticks s + 1)%Z /\
    width s' = width s /\ height s' = height s /\
    forall x y, same_fire (grid s y x) (grid s' y x).
Proof.
  destruct (fire_init_ok 100 100 10 42) as (s & Hs); [lia | lia | lia |].
  destruct (@step_without_fire constant_generator s) as (s' & Hstep).
  - intros x y _.
    destruct (fire_init_inv _ _ _ _ _ Hs) as (_ & _ & _ & _ & _ & _ & _ & _ & _ & Hgrid).
    rewrite Hgrid. reflexivity.
  - exists s, s'. split; [exact Hs | exact Hstep].
Defined.

Lemma cell_ranges_hold_witness :
  exists s0,
  FireSimulation.init 100 100 10 42 = Ok s0 /\
  let s := fst (FireSimulation.suppress
                  (fst (FireSimulation.ignite s0 50 50 7)) 50 50 0.3) in
  FireSimulation._in_bounds s 50 50 = true /\
  0 <= fuel_density (grid s 50 50) <= 1 /\ 0 <= intensity (grid s 50 50).
Proof.
  eexists. split; [reflexivity |].
  intros s. split; [reflexivity |].
  apply (@cell_ranges_hold constant_generator s); [| reflexivity].
  unfold s. apply reach_suppress. apply reach_ignite.
  apply (reach_init 100 100 10 42). reflexivity.
Defined.

End QuietGridWitnesses.

Section DetectionFacts.
Import constants fire_simulation.

Lemma py_int_small (q : R) : -1 < q < 1 -> py_int q = 0%Z.
Proof.
  intros Hq. unfold py_int. destruct (decide (0 <= q)) as [Hp | Hn].
  - apply Int_part_small. lra.
  - rewrite (Int_part_small (- q)) by lra. reflexivity.
Qed.

(** Extra X25. [detect_fire] looks at one cell only, the one under the
    given position, and does not use the sensor range: any two ranges give
    the same answer. Coordinates are truncated toward zero, so on a grid
    with a positive cell size every position less than one cell size away
    from the origin on either side, the negative one included, reads the
    cell (0, 0): fire is reported with that cell's intensity exactly when
    the intensity is at least 0.1. *)
Theorem detect_fire_reads_one_cell (s : FireSimulation) (wx wy r1 r2 : R) :
  0 < cell_size_m s ->
  FireSimulation.detect_fire s wx wy r1 = FireSimulation.detect_fire s wx wy r2 /\
  (FireSimulation._in_bounds s 0 0 = true ->
   - cell_size_m s < wx < cell_size_m s -> - cell_size_m s < wy < cell_size_m s ->
   FireSimulation.detect_fire s wx wy r1
   = Ok (if bool_decide (0.1 <= intensity (grid s 0 0))
         then (true, intensity (grid s 0 0)) else (false, 0.0))).
Proof.
  intros Hcs. split; [reflexivity |].
  intros Hib Hx Hy. unfold FireSimulation.detect_fire.
  rewrite !fdiv_ok by lra. rewrite !bind_Ok.
  assert (Hq : forall v, - cell_size_m s < v < cell_size_m s ->
                         -1 < v / cell_size_m s < 1).
  { intros v Hv.
    assert (Hv' : v = v / cell_size_m s * cell_size_m s) by (field; lra).
    generalize dependent (v / cell_size_m s). intros q Hv'. split; nra. }
  rewrite (py_int_small _ (Hq wx Hx)), (py_int_small _ (Hq wy Hy)).
  rewrite Hib. cbn [negb]. unfold FireCell.is_detectable,
    FIRE_INTENSITY_THRESHOLD_DETECTABLE.
  destruct (bool_decide (0.1 <= intensity (grid s 0 0))); reflexivity.
Qed.

Lemma detect_fire_reads_one_cell_witness :
  exists s0,
  FireSimulation.init 100 100 10 42 = Ok s0 /\
  let s := fst (FireSimulation.ignite s0 0 0 1) in
  FireSimulation.detect_fire s (-5) (-9.5) 50 = FireSimulation.detect_fire s (-5) (-9.5) 0 /\
  (FireSimulation._in_bounds s 0 0 = true ->
   - cell_size_m s < -5 < cell_size_m s -> - cell_size_m s < -9.5 < cell_size_m s ->
   FireSimulation.detect_fire s (-5) (-9.5) 50
   = Ok (if bool_decide (0.1 <= intensity (grid s 0 0))
         then (true, intensity (grid s 0 0)) else (false, 0.0))).
Proof.
  eexists. split; [reflexivity |]. intros s.
  apply (detect_fire_reads_one_cell s (-5) (-9.5) 50 0).
  simpl. lra.
Defined.

End DetectionFacts.

(** ** The fire summary (fire_simulation.py) *)

Section SummaryFacts.
Import constants fire_simulation.

Lemma length_py_range (a b : Z) : length (py_range a b) = Z.to_nat (b - a).
Proof. unfold py_range. rewrite length_map, length_seq. reflexivity. Qed.

Lemma length_cells (s : FireSimulation) :
  length (FireSimulation.cells s) = (Z.to_nat (height s) * Z.to_nat (width s))%nat.
Proof.
  unfold FireSimulation.cells.
  assert (Hrow : forall ys : list Z,
            length (flat_map (fun y => map (fun x => (x, y)) (py_range 0 (width s))) ys)
            = (length ys * Z.to_nat (width s))%nat).
  { induction ys as [| y ys IH]; [reflexivity |].
    simpl. rewrite length_app, IH, length_map, length_py_range, Z.sub_0_r. lia. }
  rewrite Hrow, length_py_range, Z.sub_0_r. reflexivity.
Qed.

Lemma summary_fold (s : FireSimulation) (l : list (Z * Z)) :
  forall (acc : Z * Z * R * R * Z) (n : nat),
    let inv (n : nat) (acc : Z * Z * R * R * Z) :=
      let '(b, d, mi, fu, p) := acc in
      (0 <= p <= b)%Z /\ (0 <= d)%Z /\ (b + d <= Z.of_nat n)%Z /\ 0 <= mi in
    inv n acc ->
    inv (n + length l)%nat
      (fold_left
         (fun (acc : Z * Z * R * R * Z) '(x, y) =>
            let '(burning_count, burned_count, max_intensity, fuel, perimeter) := acc in
            let cell := grid s y x in
            let fuel' := fuel + fuel_density cell in
            if FireCell.is_burning cell then
              let exposed :=
                existsb (fun '(nx, ny) =>
                           bool_decide (state (grid s ny nx) = NO_FIRE)
                           || bool_decide (state (grid s ny nx) = SUPPRESSED))
                  (FireSimulation._get_8_neighbors s x y) in
              ((burning_count + 1)%Z, burned_count,
               Rmax max_intensity (intensity cell), fuel',
               if exposed then (perimeter + 1)%Z else perimeter)
            else if bool_decide (state cell = BURNED) then
              (burning_count, (burned_count + 1)%Z, max_intensity, fuel', perimeter)
            else (burning_count, burned_count, max_intensity, fuel', perimeter))
         l acc).
Proof.
  induction l as [| [x y] l IH]; intros [[[[b d] mi] fu] p] n inv Hinv.
  - simpl. rewrite Nat.add_0_r. exact Hinv.
  - cbn [fold_left length]. replace (n + S (length l))%nat with (S n + length l)%nat by lia.
    apply IH. unfold inv in *. destruct Hinv as (Hp & Hd & Hn & Hm).
    destruct (FireCell.is_burning (grid s y x)).
    + split; [destruct (existsb _ _); lia |]. split; [lia |]. split; [lia |].
      pose proof (Rmax_l mi (intensity (grid s y x))). lra.
    + destruct (bool_decide (state (grid s y x) = BURNED));
        (split; [lia |]); (split; [lia |]); (split; [lia | exact Hm]).
Qed.

(** Extra X26. The summary [get_fire_state] returns is consistent on every
    grid: the perimeter count is between 0 and the number of burning
    cells, the burning and the burnt cells together are at most the cells
    of the grid, the largest intensity is not negative, and the coverage is
    a percentage between 0 and 100, computed without a division by zero
    even on a grid without cells. *)
Theorem fire_summary_is_consistent (s : FireSimulation) :
  let f := FireSimulation.get_fire_state s in
  (0 <= perimeter_cells f <= total_burning_cells f)%Z /\
  (0 <= fs_total_burned_cells f)%Z /\
  (total_burning_cells f + fs_total_burned_cells f
   <= Z.max 0 (height s) * Z.max 0 (width s))%Z /\
  0 <= max_intensity f /\
  0 <= fire_coverage_percent f <= 100 /\
  fs_wind_speed_ms f = wind_speed_ms (wind_model s).
Proof.
  intros f. unfold f, FireSimulation.get_fire_state.
  match goal with
  | |- context [fold_left ?g ?l ?a] =>
      pose proof (summary_fold s l a 0) as Hinv;
        destruct (fold_left g l a) as [[[[b d] mi] fu] p]
  end.
  cbv zeta in Hinv. rewrite length_cells in Hinv.
  destruct Hinv as (Hp & Hd & Hn & Hm).
  { split; [lia |]. split; [lia |]. split; [lia | lra]. }
  cbn [perimeter_cells total_burning_cells fs_total_burned_cells max_intensity
       fire_coverage_percent fs_wind_speed_ms].
  assert (Hcells : Z.of_nat (0 + Z.to_nat (height s) * Z.to_nat (width s))
                   = (Z.max 0 (height s) * Z.max 0 (width s))%Z).
  { rewrite Nat.add_0_l, Nat2Z.inj_mul. f_equal; lia. }
  rewrite Hcells in Hn.
  split; [exact Hp |]. split; [exact Hd |]. split; [exact Hn |]. split; [exact Hm |].
  split; [| reflexivity].
  destruct (bool_decide (0 < b)%Z) eqn:Hb; [| lra].
  apply bool_decide_eq_true in Hb.
  assert (Hwh : (0 < height s /\ 0 < width s)%Z) by nia.
  assert (Hle : (b <= width s * height s)%Z) by nia.
  assert (Hb' : 0 < IZR b) by (apply IZR_lt; exact Hb).
  assert (Ht : 0 < IZR (width s * height s)) by (apply IZR_lt; nia).
  apply IZR_le in Hle.
  set (q := IZR b / IZR (width s * height s)).
  assert (Hq : 0 <= q <= 1).
  { unfold q. split.
    - apply Rmult_le_pos; [lra | left; apply Rinv_0_lt_compat; exact Ht].
    - apply (Rmult_le_reg_r (IZR (width s * height s))); [exact Ht |].
      replace (IZR b / IZR (width s * height s) * IZR (width s * height s))
        with (IZR b) by (field; lra). lra. }
  lra.
Qed.

End SummaryFacts.

(** ** Unknown drone ids (physics_engine.py, drone_node.py) *)

Section UnknownIds.
Import constants energy_model fire_simulation physics_engine detm_controller
  distributed_observer drone_node.

Lemma fold_insert_other (id : Z) (l : list Z) :
  forall m : gmap Z DronePosition,
    id ∉ l ->
    fold_left
      (fun (m : gmap Z DronePosition) id0 =>
         <[id0 := {| pos_drone_id := id0; pos_x := 0; pos_y := 0; pos_z := 0;
                     pos_vx := 0; pos_vy := 0; pos_vz := 0;
                     pos_heading_deg := 0 |}]> m) l m !! id = m !! id.
Proof.
  induction l as [| a l IH]; intros m Hl; [reflexivity |].
  cbn [fold_left]. rewrite IH by (intros Hin; apply Hl; right; exact Hin).
  apply lookup_insert_ne. intros ->. apply Hl. left.
Qed.

Lemma init_unknown (n seed id : Z) (pe : PhysicsEngine) :
  PhysicsEngine.init n seed = Ok pe ->
  (id < 1 \/ n < id)%Z ->
  energy_mgrs pe !! id = None /\ drone_positions pe !! id = None.
Proof.
  intros Hinit Hid.
  destruct (physics_init_inv _ _ _ Hinit) as (_ & _ & _ & -> & -> & _).
  assert (Hnin : id ∉ py_range 1 (n + 1)).
  { intros Hin. apply elem_of_py_range in Hin. lia. }
  split.
  - rewrite lookup_fold_insert.
    destruct (decide (id ∈ py_range 1 (n + 1))); [contradiction | apply lookup_empty].
  - rewrite fold_insert_other by exact Hnin. apply lookup_empty.
Qed.

(** Extra X27. An engine built for [n] drones knows the ids 1 to [n]
    only. For any other id its queries answer with defaults instead of
    raising ([None] for the position, the battery and the payload, no
    return-to-launch order, no fire detected, no distance), its updates
    (energy, suppression, docking, position) change nothing, and only the
    constructor of an agent for such an id raises [KeyError]. *)
Theorem unknown_drone_is_harmless (n seed id id' : Z) (pe : PhysicsEngine)
    (c : DETMController) (o : DistributedObserver) (ty : DroneType)
    (a b x y z vx vy vz h : R) :
  PhysicsEngine.init n seed = Ok pe ->
  (id < 1 \/ n < id)%Z ->
  PhysicsEngine.get_drone_position pe id = None /\
  PhysicsEngine.get_battery_state pe id = Ok None /\
  PhysicsEngine.get_payload_state pe id = Ok None /\
  PhysicsEngine.should_rtl_override pe id = Ok (false, "none"%string) /\
  PhysicsEngine.detect_fire pe id a = Ok (false, 0.0) /\
  PhysicsEngine.get_distance_between_drones pe id id' = None /\
  PhysicsEngine.get_distance_between_drones pe id' id = None /\
  PhysicsEngine.get_distance_3d pe id id' = None /\
  PhysicsEngine.update_drone_energy pe id a b x = (pe, 0.0) /\
  PhysicsEngine.suppress_with_payload pe id a = (pe, (0.0, 0.0)) /\
  PhysicsEngine.dock_drone pe id = pe /\
  PhysicsEngine.update_drone_position pe id x y z vx vy vz h = pe /\
  DroneNode.init {| physics := pe; detm := c; observer := o |} id ty x y z
    = Raise KeyError.
Proof.
  intros Hinit Hid. destruct (init_unknown n seed id pe Hinit Hid) as (He & Hp).
  unfold PhysicsEngine.get_drone_position, PhysicsEngine.get_battery_state,
    PhysicsEngine.get_payload_state, PhysicsEngine.should_rtl_override,
    PhysicsEngine.detect_fire, PhysicsEngine.get_distance_between_drones,
    PhysicsEngine.get_distance_3d, PhysicsEngine.update_drone_energy,
    PhysicsEngine.suppress_with_payload, PhysicsEngine.dock_drone,
    PhysicsEngine.update_drone_position, DroneNode.init,
    PhysicsEngine.get_drone_position.
  cbn [physics with_detm]. rewrite He, Hp.
  repeat split; try reflexivity.
  destruct (drone_positions pe !! id'); reflexivity.
Qed.

Lemma unknown_drone_is_harmless_witness :
  exists pe,
  PhysicsEngine.init 3 42 = Ok pe /\
  PhysicsEngine.get_drone_position pe 0 = None /\
  PhysicsEngine.get_battery_state pe 0 = Ok None /\
  PhysicsEngine.get_payload_state pe 0 = Ok None /\
  PhysicsEngine.should_rtl_override pe 0 = Ok (false, "none"%string) /\
  PhysicsEngine.detect_fire pe 0 50 = Ok (false, 0.0) /\
  PhysicsEngine.get_distance_between_drones pe 0 1 = None /\
  PhysicsEngine.get_distance_between_drones pe 1 0 = None /\
  PhysicsEngine.get_distance_3d pe 0 1 = None /\
  PhysicsEngine.update_drone_energy pe 0 50 2 1 = (pe, 0.0) /\
  PhysicsEngine.suppress_with_payload pe 0 50 = (pe, (0.0, 0.0)) /\
  PhysicsEngine.dock_drone pe 0 = pe /\
  PhysicsEngine.update_drone_position pe 0 1 2 3 0 0 0 90 = pe /\
  DroneNode.init {| physics := pe; detm := DETMController.init;
                    observer := DistributedObserver.default |} 0 LEADER 1 2 3
    = Raise KeyError.
Proof.
  destruct (physics_init_ok 3 42) as (pe & Hpe); [lia |].
  exists pe. split; [exact Hpe |].
  apply (unknown_drone_is_harmless 3 42 0 1 pe DETMController.init
           DistributedObserver.default LEADER 50 2 1 2 3 0 0 0 90).
  - exact Hpe.
  - left. lia.
Defined.

End UnknownIds.

(** ** One tick of an agent (drone_node.py) *)

Section AgentExtras.
Import constants energy_model channel_model fire_simulation physics_engine
  detm_controller distributed_observer drone_node swarm_launcher.

Lemma override_pose (w : Shared) (d d1 : DroneNode) :
  DroneNode.override w d = Ok d1 -> pose d1 = pose d.
Proof.
  unfold DroneNode.override. intros Hov.
  apply bind_Ok_inv in Hov. destruct Hov as (r & _ & Hov).
  destruct (fst r && negb (bool_decide (drone_node.state d = RETURN_TO_LAUNCH)));
    inversion Hov; reflexivity.
Qed.

Lemma detect_pose (w : Shared) (d d1 : DroneNode) (f : bool * R) :
  DroneNode.detect w d = Ok (d1, f) -> pose d1 = pose d.
Proof.
  unfold DroneNode.detect. intros Hd.
  apply bind_Ok_inv in Hd. destruct Hd as (r & _ & Hd).
  destruct (fst r && bool_decide (drone_node.state d = SEARCH));
    inversion Hd; reflexivity.
Qed.

(** The stages of [step]: the agent keeps its identity, position, velocity
    and home through the override, the detection and the state machine,
    which leave the controller and the fire grid alone; the transmission
    stage runs last. *)
Lemma step_stages (w w' : Shared) (d d' : DroneNode) (g g' : GlobalRandom) (t : Z)
    (tel : option Telemetry) :
  DroneNode.step w d g t = Ok (w', d', g', tel) ->
  exists w1 f,
    pose d' = pose d /\ detm w1 = detm w /\ observer w1 = observer w /\
    fire_sim (physics w1) = fire_sim (physics w) /\
    drone_positions (physics w1) = drone_positions (physics w) /\
    DroneNode.transmit w1 d' t f = Ok (w', tel).
Proof.
  unfold DroneNode.step. intros Hs.
  apply bind_Ok_inv in Hs. destruct Hs as (d1 & Hov & Hs).
  apply bind_Ok_inv in Hs. destruct Hs as ([d2 f] & Hdet & Hs).
  apply bind_Ok_inv in Hs. destruct Hs as ([[w1 d3] g1] & Hdis & Hs).
  apply bind_Ok_inv in Hs. destruct Hs as ([w2 tel'] & Htr & Hs).
  cbn [fst snd] in *. inversion Hs; subst. clear Hs.
  destruct (dispatch_frame _ _ _ _ _ _ _ Hdis) as (P3 & D & O & F & _ & Q).
  exists w1, f. split.
  { rewrite P3, (detect_pose _ _ _ _ Hdet), (override_pose _ _ _ Hov). reflexivity. }
  repeat (split; [assumption |]). exact Htr.
Qed.

(** Extra X28. A tick of an agent never changes the fire: whatever state
    the agent is in, suppressing included, the fire simulation of the
    engine after [step] is the one before it. Suppression by an agent only
    consumes the agent's payload. *)
Theorem agent_step_leaves_fire_alone (w w' : Shared) (d d' : DroneNode)
    (g g' : GlobalRandom) (t : Z) (tel : option Telemetry) :
  DroneNode.step w d g t = Ok (w', d', g', tel) ->
  fire_sim (physics w') = fire_sim (physics w).
Proof.
  intros Hs. destruct (step_stages _ _ _ _ _ _ _ _ Hs) as (w1 & f & _ & _ & _ & F & _ & Htr).
  destruct (transmit_engine _ _ _ _ _ _ Htr) as (F' & _). congruence.
Qed.

(** Extra X29. An agent whose position and velocity are the ones it last
    transmitted publishes nothing: its [step] returns no telemetry,
    whatever the time, its state and the fire around it. *)
Theorem stationary_agent_is_silent (w w' : Shared) (d d' : DroneNode)
    (g g' : GlobalRandom) (t : Z) (tel : option Telemetry) (st : DetmState) :
  states (detm w) !! drone_id d = Some st ->
  last_transmitted_state st = (dn_x d, dn_y d, dn_z d, dn_vx d, dn_vy d, dn_vz d) ->
  DroneNode.step w d g t = Ok (w', d', g', tel) ->
  tel = None.
Proof.
  intros Hst Hlast Hs.
  destruct (step_stages _ _ _ _ _ _ _ _ Hs) as (w1 & f & P & D & _ & _ & _ & Htr).
  unfold pose in P. inversion P as [[Hid Hx Hy Hz Hvx Hvy Hvz Hhx Hhy Hhz]].
  unfold DroneNode.transmit in Htr.
  assert (Hdetm : detm (DroneNode._check_collision_risk w1 d' t) = detm w)
    by (rewrite <- D; reflexivity).
  rewrite Hdetm, Hid, Hx, Hy, Hz, Hvx, Hvy, Hvz in Htr.
  destruct (should_transmit_registered (detm w) (drone_id d) t (dn_x d) (dn_y d) (dn_z d)
              (dn_vx d) (dn_vy d) (dn_vz d) st Hst) as (c' & Htx).
  rewrite Htx, bind_Ok in Htr. cbn [fst snd] in Htr.
  rewrite <- Hlast, chosen_norm_same in Htr.
  rewrite bool_decide_eq_false_2 in Htr
    by (pose proof (threshold_pos st t); lra).
  inversion Htr. reflexivity.
Qed.

(** Extra X30. An agent that is returning to launch, or whose engine
    orders the return because the battery is critical or the payload
    empty, and that stands within 5 m of its home, docks within that one
    tick: [step] completes whatever the global generator holds, the agent
    ends in [IDLE] with its state tick counter at 0, and its energy manager
    is the docked one (battery fully charged, payload refilled). *)
Theorem returning_drone_at_home_docks (fleet : gset Z) (w : Shared) (d : DroneNode)
    (t : Z) (m : EnergyManager) :
  engine_ok fleet (physics w) -> drone_id d ∈ fleet ->
  energy_mgrs (physics w) !! drone_id d = Some m ->
  (drone_node.state d = RETURN_TO_LAUNCH \/
   exists reason,
     PhysicsEngine.should_rtl_override (physics w) (drone_id d) = Ok (true, reason)) ->
  sqrt ((dn_x d - home_x d) ^ 2 + (dn_y d - home_y d) ^ 2 + (dn_z d - home_z d) ^ 2)
    < 5.0 ->
  exists w' d' tel,
    (forall g, DroneNode.step w d g t = Ok (w', d', g, tel)) /\
    drone_node.state d' = IDLE /\ state_ticks d' = 0%Z /\
    energy_mgrs (physics w') !! drone_id d = Some (EnergyManager.dock m).
Proof.
  intros Hok Hin Hm Hret Hhome.
  set (d0 := with_state_ticks d (state_ticks d + 1)).
  destruct (override_ok fleet w d0 Hok Hin) as (d1 & Hov & Hid1).
  assert (Hst1 : drone_node.state d1 = RETURN_TO_LAUNCH).
  { revert Hov. unfold DroneNode.override. intros Hov.
    apply bind_Ok_inv in Hov. destruct Hov as (r & Hr & Hov).
    destruct (fst r && negb (bool_decide (drone_node.state d0 = RETURN_TO_LAUNCH)))
      eqn:Hc; inversion Hov; subst; [reflexivity |].
    destruct Hret as [Hs | (reason & Hs)]; [exact Hs |].
    change (drone_id d0) with (drone_id d) in Hr. rewrite Hs in Hr.
    inversion Hr; subst. cbn [fst] in Hc. cbn [andb] in Hc.
    apply negb_false_iff, bool_decide_eq_true in Hc. exact Hc. }
  pose proof (override_pose _ _ _ Hov) as Hp1.
  unfold pose in Hp1. inversion Hp1 as [[Hid Hx Hy Hz Hvx Hvy Hvz Hhx Hhy Hhz]].
  assert (Hq1 : quiet d1) by (split; rewrite Hst1; discriminate).
  destruct (detect_ok fleet w d1 Hok) as ([d2 f] & Hdet).
  pose proof (detect_quiet _ _ _ _ Hq1 Hdet) as ->.
  set (w1 := with_physics w (PhysicsEngine.dock_drone (physics w) (drone_id d1))).
  set (d3 := with_counters (enter d1 IDLE) (fire_detected_count (enter d1 IDLE))
               (fire_suppression_count (enter d1 IDLE))
               (time_in_suppress_us (enter d1 IDLE))
               (time_in_rtl_us (enter d1 IDLE) + py_int (SIM_TICK_PERIOD_S * 1e6))%Z).
  assert (Hdis : forall g, DroneNode.dispatch w d1 g (snd f) = Ok (w1, d3, g)).
  { intros g. unfold DroneNode.dispatch. rewrite Hst1.
    unfold DroneNode._step_rtl. rewrite Hx, Hy, Hz, Hhx, Hhy, Hhz.
    cbn [dn_x dn_y dn_z home_x home_y home_z d0 with_state_ticks].
    destruct (decide _) as [_ | Hn]; [reflexivity | contradiction]. }
  assert (Hok1 : engine_ok fleet (physics w1)) by (apply engine_ok_dock; exact Hok).
  destruct (transmit_ok fleet w1 d3 t f Hok1) as (w2 & tel & Htr & _).
  { change (drone_id d3) with (drone_id d1). rewrite Hid1. exact Hin. }
  exists w2, d3, tel. split; [| split; [reflexivity | split; [reflexivity |]]].
  - intros g. unfold DroneNode.step. fold d0. rewrite Hov, bind_Ok, Hdet, bind_Ok.
    cbn [fst snd]. rewrite Hdis, bind_Ok, Htr. reflexivity.
  - destruct (transmit_engine _ _ _ _ _ _ Htr) as (_ & He & _). rewrite He.
    unfold w1, PhysicsEngine.dock_drone. cbn [physics with_physics].
    rewrite Hid1. change (drone_id d0) with (drone_id d). rewrite Hm.
    cbn [energy_mgrs with_energy_mgrs]. apply lookup_insert_eq.
Qed.

End AgentExtras.

Section AgentExtrasWitnesses.
Import constants energy_model channel_model fire_simulation physics_engine
  detm_controller distributed_observer drone_node swarm_launcher.

Lemma parked_agent_ok (st : DroneState) (pe : PhysicsEngine) :
  PhysicsEngine.init 2 42 = Ok pe ->
  st = IDLE \/ st = RETURN_TO_LAUNCH ->
  let w := {| physics := pe;
              detm := DETMController.register_drone DETMController.init 1
                        DETM_ETA0 DETM_LAMBDA "l2";
              observer := DistributedObserver.default |} in
  let d := {| drone_id := 1; drone_type := LEADER;
              dn_x := 0; dn_y := 0; dn_z := 0; dn_vx := 0; dn_vy := 0; dn_vz := 0;
              heading_deg := 0; home_x := 0; home_y := 0; home_z := 0;
              drone_node.state := st; state_ticks := 0; neighbor_ids := [];
              fire_detected_count := 0; fire_suppression_count := 0;
              sensor_range_m := 50; total_distance_m := 0;
              time_in_search_us := 0; time_in_suppress_us := 0;
              time_in_rtl_us := 0 |} in
  quiet d /\
  engine_ok (dom (energy_mgrs pe)) (physics w) /\
  drone_id d ∈ dom (energy_mgrs pe) /\
  energy_mgrs (physics w) !! drone_id d = Some EnergyManager.default.
Proof.
  intros Hpe Hst w d.
  assert (Hm : energy_mgrs pe !! 1%Z = Some EnergyManager.default)
    by (apply (init_fleet 2 42 1 pe Hpe); lia).
  split; [| split; [| split]].
  - split; simpl; destruct Hst as [-> | ->]; discriminate.
  - exact (engine_ok_init _ _ _ Hpe).
  - apply elem_of_dom. cbn [drone_id d]. eauto.
  - exact Hm.
Qed.

Lemma agent_step_leaves_fire_alone_witness :
  exists pe,
  PhysicsEngine.init 2 42 = Ok pe /\
  let w := {| physics := pe;
              detm := DETMController.register_drone DETMController.init 1
                        DETM_ETA0 DETM_LAMBDA "l2";
              observer := DistributedObserver.default |} in
  let d := {| drone_id := 1; drone_type := LEADER;
              dn_x := 0; dn_y := 0; dn_z := 0; dn_vx := 0; dn_vy := 0; dn_vz := 0;
              heading_deg := 0; home_x := 0; home_y := 0; home_z := 0;
              drone_node.state := IDLE; state_ticks := 0; neighbor_ids := [];
              fire_detected_count := 0; fire_suppression_count := 0;
              sensor_range_m := 50; total_distance_m := 0;
              time_in_search_us := 0; time_in_suppress_us := 0;
              time_in_rtl_us := 0 |} in
  let g := {| gr_outputs := fun _ => 0; gr_drawn := 0 |} in
  exists w' d' tel,
    DroneNode.step w d g 10000 = Ok (w', d', g, tel) /\
    fire_sim (physics w') = fire_sim (physics w).
Proof.
  destruct (physics_init_ok 2 42) as (pe & Hpe); [lia |].
  exists pe. split; [exact Hpe |]. intros w d g.
  destruct (parked_agent_ok IDLE pe Hpe (or_introl eq_refl)) as (Hq & Hok & Hin & _).
  destruct (agent_step_ok _ w d 10000 Hq Hok Hin) as (w' & d' & tel & _ & _ & _ & Hs).
  exists w', d', tel. split; [apply Hs |].
  apply (agent_step_leaves_fire_alone w w' d d' g g 10000 tel). apply Hs.
Defined.

Lemma stationary_agent_is_silent_witness :
  exists pe,
  PhysicsEngine.init 2 42 = Ok pe /\
  let w := {| physics := pe;
              detm := DETMController.register_drone DETMController.init 1
                        DETM_ETA0 DETM_LAMBDA "l2";
              observer := DistributedObserver.default |} in
  let d := {| drone_id := 1; drone_type := LEADER;
              dn_x := 0; dn_y := 0; dn_z := 0; dn_vx := 0; dn_vy := 0; dn_vz := 0;
              heading_deg := 0; home_x := 0; home_y := 0; home_z := 0;
              drone_node.state := IDLE; state_ticks := 0; neighbor_ids := [];
              fire_detected_count := 0; fire_suppression_count := 0;
              sensor_range_m := 50; total_distance_m := 0;
              time_in_search_us := 0; time_in_suppress_us := 0;
              time_in_rtl_us := 0 |} in
  let g := {| gr_outputs := fun _ => 0; gr_drawn := 0 |} in
  exists w' d' tel,
    DroneNode.step w d g 10000 = Ok (w', d', g, tel) /\ tel = None.
Proof.
  destruct (physics_init_ok 2 42) as (pe & Hpe); [lia |].
  exists pe. split; [exact Hpe |]. intros w d g.
  destruct (parked_agent_ok IDLE pe Hpe (or_introl eq_refl)) as (Hq & Hok & Hin & _).
  destruct (agent_step_ok _ w d 10000 Hq Hok Hin) as (w' & d' & tel & _ & _ & _ & Hs).
  exists w', d', tel. split; [apply Hs |].
  apply (stationary_agent_is_silent w w' d d' g g 10000 tel _
           (lookup_insert_eq _ _ _) eq_refl).
  apply Hs.
Defined.

Lemma returning_drone_at_home_docks_witness :
  exists pe,
  PhysicsEngine.init 2 42 = Ok pe /\
  let w := {| physics := pe;
              detm := DETMController.register_drone DETMController.init 1
                        DETM_ETA0 DETM_LAMBDA "l2";
              observer := DistributedObserver.default |} in
  let d := {| drone_id := 1; drone_type := LEADER;
              dn_x := 0; dn_y := 0; dn_z := 0; dn_vx := 0; dn_vy := 0; dn_vz := 0;
              heading_deg := 0; home_x := 0; home_y := 0; home_z := 0;
              drone_node.state := RETURN_TO_LAUNCH; state_ticks := 0;
              neighbor_ids := [];
              fire_detected_count := 0; fire_suppression_count := 0;
              sensor_range_m := 50; total_distance_m := 0;
              time_in_search_us := 0; time_in_suppress_us := 0;
              time_in_rtl_us := 0 |} in
  exists w' d' tel,
    (forall g, DroneNode.step w d g 10000 = Ok (w', d', g, tel)) /\
    drone_node.state d' = IDLE /\ state_ticks d' = 0%Z /\
    energy_mgrs (physics w') !! drone_id d
      = Some (EnergyManager.dock EnergyManager.default).
Proof.
  destruct (physics_init_ok 2 42) as (pe & Hpe); [lia |].
  exists pe. split; [exact Hpe |]. intros w d.
  destruct (parked_agent_ok RETURN_TO_LAUNCH pe Hpe (or_intror eq_refl))
    as (_ & Hok & Hin & Hm).
  apply (returning_drone_at_home_docks _ w d 10000 EnergyManager.default Hok Hin Hm).
  - left. reflexivity.
  - cbn [dn_x dn_y dn_z home_x home_y home_z d].
    replace ((0 - 0) ^ 2 + (0 - 0) ^ 2 + (0 - 0) ^ 2) with 0 by ring.
    rewrite sqrt_0. lra.
Defined.

End AgentExtrasWitnesses.

(** ** Whole runs (swarm_launcher.py) *)

Section RunExtras.
Context `{NumpyGenerator}.
Import constants energy_model channel_model fire_simulation physics_engine
  detm_controller distributed_observer drone_node swarm_launcher.

Lemma run_records_quiet (fleet : gset Z) (script : list (list command)) :
  forall l : SwarmLauncher,
    all_quiet (drone_nodes l) -> crew_ok fleet (drone_nodes l) ->
    engine_ok fleet (physics (shared l)) -> fading_ok (physics (shared l)) ->
    exists recs,
      length recs = length script /\
      Forall (fun rec : SwarmLauncher * TickOutput =>
                all_quiet (drone_nodes (fst rec)) /\
                length (telemetry (snd rec)) = length (drone_nodes l)) recs /\
      forall g, SwarmLauncher.run l g script = Ok (recs, g).
Proof.
  induction script as [| cs script IH]; intros l Hq Hc Hok Hfd.
  - exists []. split; [reflexivity |]. split; [constructor | reflexivity].
  - destruct (simulation_step_ok fleet (fold_left SwarmLauncher.apply_command cs l))
      as (l' & out & Hq' & Hc' & Hok' & Hfd' & Hstep).
    { rewrite apply_commands_nodes. exact Hq. }
    { rewrite apply_commands_nodes. exact Hc. }
    { apply apply_commands_engine. exact Hok. }
    { apply apply_commands_fading. exact Hfd. }
    assert (Hlen' : length (telemetry out) = length (drone_nodes l) /\
                    length (drone_nodes l') = length (drone_nodes l)).
    { pose proof (Hstep {| gr_outputs := fun _ => 0; gr_drawn := 0 |}) as Hs.
      unfold SwarmLauncher.simulation_step in Hs.
      apply bind_Ok_inv in Hs. destruct Hs as ([pe snap] & _ & Hs).
      apply bind_Ok_inv in Hs. destruct Hs as ([[[w' nodes'] out'] g'] & Hag & Hs).
      inversion Hs; subst. clear Hs. cbn [telemetry drone_nodes].
      rewrite apply_commands_nodes in Hag.
      unfold SwarmLauncher.step_agents in Hag.
      assert (Hgen : forall (nodes : list (Z * DroneNode)) w0 done0 out0 g0 w1 done1 out1 g1,
                foldM (SwarmLauncher.step_agent (snap_time_us snap)) nodes
                  (w0, done0, out0, g0) = Ok (w1, done1, out1, g1) ->
                length out1 = (length out0 + length nodes)%nat /\
                length done1 = (length done0 + length nodes)%nat).
      { induction nodes as [| [id d] nodes IHn];
          intros w0 done0 out0 g0 w1 done1 out1 g1 Hf.
        - inversion Hf; subst. simpl. lia.
        - apply foldM_cons_inv in Hf.
          destruct Hf as ([[[w2 done2] out2] g2] & Hone & Hrest).
          apply IHn in Hrest. destruct Hrest as (Ho & Hd).
          unfold SwarmLauncher.step_agent in Hone.
          destruct (match PhysicsEngine.get_drone_position (physics w0) id with
                    | Some pos => _ | None => _ end) as [wa da].
          apply bind_Ok_inv in Hone.
          destruct Hone as ([[[wb db] gb] telb] & _ & Hone).
          inversion Hone; subst.
          rewrite length_app in Ho, Hd. simpl in *. lia. }
      apply Hgen in Hag. simpl in Hag. exact Hag. }
    destruct Hlen' as (Hlo & Hln).
    destruct (IH l' Hq' Hc' Hok' Hfd') as (recs & Hlen & Hall & Hrun).
    exists ((l', out) :: recs). split; [simpl; rewrite Hlen; reflexivity |].
    split.
    + constructor; [split; [exact Hq' | exact Hlo] |].
      rewrite Hln in Hall. exact Hall.
    + intros g. cbn [SwarmLauncher.run]. rewrite Hstep, bind_Ok, Hrun, bind_Ok.
      reflexivity.
Qed.

(** Extra X2. With a seed outside 0 .. 2**32 - 1 the construction of the
    engine raises [ValueError] ([initialize_simulation] fails) and no tick
    runs. With a seed in that range and a number of leaders that is not
    negative, a simulation never raises: construction succeeds and,
    whatever commands arrive between the ticks and whatever the global
    random generator holds, every tick completes and publishes one
    telemetry slot per agent. No agent is ever in [SEARCH] or [SUPPRESS]
    after a tick: the agents stay parked and never engage the fire. *)
Theorem swarm_never_engages (nl nf seed : Z) (hx hy hz : R)
    (script : list (list command)) :
  (0 <= nl)%Z ->
  (~ (0 <= seed < 2 ^ 32)%Z ->
   SwarmLauncher.initialize_simulation nl nf seed hx hy hz = Raise ValueError /\
   forall g, simulate nl nf seed hx hy hz script g = Raise ValueError) /\
  ((0 <= seed < 2 ^ 32)%Z ->
   exists l0 recs,
     SwarmLauncher.initialize_simulation nl nf seed hx hy hz = Ok l0 /\
     length recs = length script /\
     (forall g, simulate nl nf seed hx hy hz script g = Ok (recs, g)) /\
     Forall (fun rec : SwarmLauncher * TickOutput =>
               length (telemetry (snd rec)) = length (drone_nodes l0) /\
               Forall (fun item : Z * DroneNode =>
                         drone_node.state (snd item) <> SEARCH /\
                         drone_node.state (snd item) <> SUPPRESS)
                 (drone_nodes (fst rec))) recs).
Proof.
  intros Hnl. split.
  - intros Hbad.
    assert (Hinit : SwarmLauncher.initialize_simulation nl nf seed hx hy hz
                    = Raise ValueError).
    { unfold SwarmLauncher.initialize_simulation, PhysicsEngine.init.
      rewrite (random_state_init_bad seed Hbad). reflexivity. }
    split; [exact Hinit |].
    intros g. unfold simulate. rewrite Hinit. reflexivity.
  - intros Hseed.
    destruct (initialize_simulation_ok nl nf seed hx hy hz Hseed Hnl)
      as (l & Hinit & Hq & Hc & Hok & Hfd).
    destruct (run_records_quiet _ script l Hq Hc Hok Hfd)
      as (recs & Hlen & Hall & Hrun).
    exists l, recs. split; [exact Hinit |]. split; [exact Hlen |]. split.
    + intros g. unfold simulate. rewrite Hinit, bind_Ok. apply Hrun.
    + eapply Forall_impl; [exact Hall |].
      intros rec (Hquiet & Hl). split; [exact Hl | exact Hquiet].
Qed.

End RunExtras.

Section RunExtrasWitnesses.
Import constants fire_simulation drone_node swarm_launcher.

Lemma swarm_never_engages_witness :
  exists l0 recs,
    @SwarmLauncher.initialize_simulation 1 2 42 0 0 0 = Ok l0 /\
    length recs = length [[IgniteFire 500 500 1]; [Dock 1]; []] /\
    (forall g, @simulate constant_generator 1 2 42 0 0 0
                 [[IgniteFire 500 500 1]; [Dock 1]; []] g = Ok (recs, g)) /\
    Forall (fun rec : SwarmLauncher * TickOutput =>
              length (telemetry (snd rec)) = length (drone_nodes l0) /\
              Forall (fun item : Z * DroneNode =>
                        drone_node.state (snd item) <> SEARCH /\
                        drone_node.state (snd item) <> SUPPRESS)
                (drone_nodes (fst rec))) recs.
Proof.
  destruct (@swarm_never_engages constant_generator 1 2 42 0 0 0
              [[IgniteFire 500 500 1]; [Dock 1]; []]) as (_ & Hok); [lia |].
  apply Hok. lia.
Defined.

End RunExtrasWitnesses.
